(** * Type 550/555 DECtape controller of the PDP-1 simulator

    A shallow embedding of [PDP1/pdp1_dt.c]: the controller registers, the
    eight tape transports, the I/O pulse entry point [dt], the command
    and function dispatch ([dt_newsa], [dt_newfnc]), the position model
    ([dt_setpos]), the unit service routine ([dt_svc]) and the header
    and checksum synthesis ([dt_gethdr], [dt_csum], [dt_comobv]).

    C integers are carried by [Z]; the wrap-around of the 32-bit types
    is written out with [u32] (uint32) and [s32] (int32).  Unsigned
    division is [Z.div] on wrapped operands, signed division is
    [Z.quot].  A division whose divisor can be zero stops the simulator
    there; the routines that reach one return an [option]. *)

From Stdlib Require Import ZArith Lia Bool.
From stdpp Require Import base list vector fin.

Local Open Scope Z_scope.

#[local] Arguments Z.testbit : simpl never.
#[local] Arguments Z.land : simpl never.
#[local] Arguments Z.lor : simpl never.
#[local] Arguments Z.lxor : simpl never.
#[local] Arguments Z.lnot : simpl never.
#[local] Arguments Z.shiftl : simpl never.
#[local] Arguments Z.shiftr : simpl never.

(** ** Machine integers *)

Definition u32 (x : Z) : Z := x mod 2 ^ 32.
Definition s32 (x : Z) : Z := (x + 2 ^ 31) mod 2 ^ 32 - 2 ^ 31.

(** [ABS(x)] *)
Definition ABS (x : Z) : Z := if x <? 0 then - x else x.

(** Modelled from the spec: [pdp1_defs.h] is not among the sources; the
    data mask [DMASK] selects the low 18 bits of a word. *)
Definition DMASK : Z := 262143.                     (* 0777777 *)

(** ** Constants of the source *)

Definition DT_NUMDR : nat := 8.

Definition DT_WSIZE : Z := 6.                       (* D18_WSIZE *)
Definition DT_EZLIN : Z := 36000.
Definition DT_HTLIN : Z := 30.
Definition DT_BLKLN : Z := 6.
Definition DT_CSMLN : Z := 24.
Definition DT_HTWRD : Z := Z.quot DT_HTLIN DT_WSIZE.
Definition DT_BLKWD : Z := Z.quot DT_BLKLN DT_WSIZE.
Definition DT_CSMWD : Z := Z.quot DT_CSMLN DT_WSIZE.

Definition D18_BSIZE : Z := 256.
Definition D18_TSIZE : Z := 578.
Definition D18_LPERB : Z := DT_HTLIN + D18_BSIZE * DT_WSIZE + DT_HTLIN.
Definition D18_FWDEZ : Z := DT_EZLIN + D18_LPERB * D18_TSIZE.
Definition D18_CAPAC : Z := D18_TSIZE * D18_BSIZE.

Definition D8_BSIZE : Z := 86.
Definition D8_TSIZE : Z := 1474.
Definition D8_LPERB : Z := DT_HTLIN + D8_BSIZE * DT_WSIZE + DT_HTLIN.
Definition D8_FWDEZ : Z := DT_EZLIN + D8_LPERB * D8_TSIZE.
Definition D8_CAPAC : Z := D8_TSIZE * D8_BSIZE.

(** Status register A *)
Definition DTA_V_UNIT : Z := 12.
Definition DTA_M_UNIT : Z := 15.                    (* 017 *)
Definition DTA_UNIT : Z := Z.shiftl DTA_M_UNIT DTA_V_UNIT.
Definition DTA_V_MOT : Z := 4.
Definition DTA_M_MOT : Z := 3.
Definition DTA_V_FNC : Z := 0.
Definition DTA_M_FNC : Z := 7.
Definition FNC_MOVE : Z := 0.
Definition FNC_SRCH : Z := 1.
Definition FNC_READ : Z := 2.
Definition FNC_WRIT : Z := 3.
Definition FNC_RALL : Z := 5.
Definition FNC_WALL : Z := 6.
Definition FNC_WMRK : Z := 7.
Definition DTA_STSTP : Z := Z.shiftl 1 (DTA_V_MOT + 1).
Definition DTA_FWDRV : Z := Z.shiftl 1 DTA_V_MOT.
Definition DTA_RW : Z := 63.                        (* 077 *)

Definition DTA_GETMOT (x : Z) : Z := Z.land (Z.shiftr x DTA_V_MOT) DTA_M_MOT.
Definition DTA_GETFNC (x : Z) : Z := Z.land (Z.shiftr x DTA_V_FNC) DTA_M_FNC.

(** Status register B *)
Definition DTB_V_DTF : Z := 17.
Definition DTB_V_BEF : Z := 16.
Definition DTB_V_ERF : Z := 15.
Definition DTB_V_END : Z := 14.
Definition DTB_V_TIM : Z := 13.
Definition DTB_V_REV : Z := 12.
Definition DTB_V_GO : Z := 11.
Definition DTB_V_MRK : Z := 10.
Definition DTB_V_SEL : Z := 9.
Definition DTB_DTF : Z := Z.shiftl 1 DTB_V_DTF.
Definition DTB_BEF : Z := Z.shiftl 1 DTB_V_BEF.
Definition DTB_ERF : Z := Z.shiftl 1 DTB_V_ERF.
Definition DTB_END : Z := Z.shiftl 1 DTB_V_END.
Definition DTB_TIM : Z := Z.shiftl 1 DTB_V_TIM.
Definition DTB_REV : Z := Z.shiftl 1 DTB_V_REV.
Definition DTB_GO : Z := Z.shiftl 1 DTB_V_GO.
Definition DTB_MRK : Z := Z.shiftl 1 DTB_V_MRK.
Definition DTB_SEL : Z := Z.shiftl 1 DTB_V_SEL.
Definition DTB_ALLERR : Z :=
  Z.lor (Z.lor (Z.lor DTB_END DTB_TIM) DTB_MRK) DTB_SEL.

(** DECtape state *)
Definition DTS_V_MOT : Z := 3.
Definition DTS_M_MOT : Z := 7.
Definition DTS_STOP : Z := 0.
Definition DTS_DECF : Z := 2.
Definition DTS_DECR : Z := 3.
Definition DTS_ACCF : Z := 4.
Definition DTS_ACCR : Z := 5.
Definition DTS_ATSF : Z := 6.
Definition DTS_ATSR : Z := 7.
Definition DTS_DIR : Z := 1.
Definition DTS_V_FNC : Z := 0.
Definition DTS_M_FNC : Z := 7.
Definition DTS_OFR : Z := 7.
Definition DTS_V_2ND : Z := 6.
Definition DTS_V_3RD : Z := DTS_V_2ND + DTS_V_2ND.

Definition DTS_GETMOT (x : Z) : Z := Z.land (Z.shiftr x DTS_V_MOT) DTS_M_MOT.
Definition DTS_GETFNC (x : Z) : Z := Z.land (Z.shiftr x DTS_V_FNC) DTS_M_FNC.
Definition DTS_STA (y z : Z) : Z :=
  Z.lor (Z.shiftl y DTS_V_MOT) (Z.shiftl z DTS_V_FNC).
Definition DTS_NXTSTA (x : Z) : Z := Z.shiftr x DTS_V_2ND.

(** Operation substates *)
Definition DTO_WCO : Z := 1.
Definition DTO_SOB : Z := 2.

(** Type 550 unit map: the selection field 8 stands for unit 0, the
    fields 0 and 9..15 select no unit (-1). *)
Definition map_unit : list Z :=
  [ -1; 1; 2; 3; 4; 5; 6; 7; 0; -1; -1; -1; -1; -1; -1; -1 ].

Definition DTA_GETUNIT (x : Z) : Z :=
  map_unit !!! Z.to_nat (Z.land (Z.shiftr x DTA_V_UNIT) DTA_M_UNIT).

(** ** Data model *)

(** A tape transport ([UNIT]).  The flag word is kept as one boolean per
    flag tested by this device; [STATE] and [LASTT] are the fields u3 and
    u4; [timer] is the unit's entry in the event queue of the simulator
    (the delay left until [dt_svc] is called), [None] when idle. *)
Record UNIT : Type := mkUNIT {
  u_att : bool;                (* flags & UNIT_ATT *)
  u_dis : bool;                (* flags & UNIT_DIS *)
  u_wlk : bool;                (* flags & UNIT_WLK *)
  u_8fmt : bool;               (* flags & UNIT_8FMT *)
  pos : Z;                     (* uint32, in lines *)
  STATE : Z;                   (* int32, three 6-bit slots *)
  LASTT : Z;                   (* uint32, time of last update *)
  filebuf : list Z;            (* tape image, one int32 per word *)
  hwmark : Z;                  (* uint32 *)
  timer : option Z
}.

#[export] Instance UNIT_inhabited : Inhabited UNIT :=
  populate (mkUNIT false false false false 0 0 0 [] 0 None).

(** The controller: its registers, the timing registers, the host's
    [sbs] and [stop_inst], the device-disabled flag, the simulator's
    relative time ([sim_grtime]) and the eight units. *)
Record DT : Type := mkDT {
  dtsa : Z;
  dtsb : Z;
  dtdb : Z;
  dt_ltime : Z;
  dt_actime : Z;
  dt_dctime : Z;
  dt_substate : Z;
  sbs : Z;
  stop_inst : Z;
  dev_dis : bool;              (* dt_dev.flags & DEV_DIS *)
  sim_rtime : Z;               (* uint32 *)
  dt_unit : vec UNIT 8
}.

Definition set_att (v : bool) (u : UNIT) : UNIT :=
  mkUNIT v (u_dis u) (u_wlk u) (u_8fmt u) (pos u) (STATE u) (LASTT u)
         (filebuf u) (hwmark u) (timer u).
Definition set_pos (v : Z) (u : UNIT) : UNIT :=
  mkUNIT (u_att u) (u_dis u) (u_wlk u) (u_8fmt u) v (STATE u) (LASTT u)
         (filebuf u) (hwmark u) (timer u).
Definition set_STATE (v : Z) (u : UNIT) : UNIT :=
  mkUNIT (u_att u) (u_dis u) (u_wlk u) (u_8fmt u) (pos u) v (LASTT u)
         (filebuf u) (hwmark u) (timer u).
Definition set_LASTT (v : Z) (u : UNIT) : UNIT :=
  mkUNIT (u_att u) (u_dis u) (u_wlk u) (u_8fmt u) (pos u) (STATE u) v
         (filebuf u) (hwmark u) (timer u).
Definition set_filebuf (v : list Z) (u : UNIT) : UNIT :=
  mkUNIT (u_att u) (u_dis u) (u_wlk u) (u_8fmt u) (pos u) (STATE u) (LASTT u)
         v (hwmark u) (timer u).
Definition set_hwmark (v : Z) (u : UNIT) : UNIT :=
  mkUNIT (u_att u) (u_dis u) (u_wlk u) (u_8fmt u) (pos u) (STATE u) (LASTT u)
         (filebuf u) v (timer u).
Definition set_timer (v : option Z) (u : UNIT) : UNIT :=
  mkUNIT (u_att u) (u_dis u) (u_wlk u) (u_8fmt u) (pos u) (STATE u) (LASTT u)
         (filebuf u) (hwmark u) v.

Definition set_dtsa (v : Z) (s : DT) : DT :=
  mkDT v (dtsb s) (dtdb s) (dt_ltime s) (dt_actime s) (dt_dctime s)
       (dt_substate s) (sbs s) (stop_inst s) (dev_dis s) (sim_rtime s)
       (dt_unit s).
Definition set_dtsb (v : Z) (s : DT) : DT :=
  mkDT (dtsa s) v (dtdb s) (dt_ltime s) (dt_actime s) (dt_dctime s)
       (dt_substate s) (sbs s) (stop_inst s) (dev_dis s) (sim_rtime s)
       (dt_unit s).
Definition set_dtdb (v : Z) (s : DT) : DT :=
  mkDT (dtsa s) (dtsb s) v (dt_ltime s) (dt_actime s) (dt_dctime s)
       (dt_substate s) (sbs s) (stop_inst s) (dev_dis s) (sim_rtime s)
       (dt_unit s).
Definition set_substate (v : Z) (s : DT) : DT :=
  mkDT (dtsa s) (dtsb s) (dtdb s) (dt_ltime s) (dt_actime s) (dt_dctime s)
       v (sbs s) (stop_inst s) (dev_dis s) (sim_rtime s) (dt_unit s).
Definition set_sbs (v : Z) (s : DT) : DT :=
  mkDT (dtsa s) (dtsb s) (dtdb s) (dt_ltime s) (dt_actime s) (dt_dctime s)
       (dt_substate s) v (stop_inst s) (dev_dis s) (sim_rtime s) (dt_unit s).
Definition set_rtime (v : Z) (s : DT) : DT :=
  mkDT (dtsa s) (dtsb s) (dtdb s) (dt_ltime s) (dt_actime s) (dt_dctime s)
       (dt_substate s) (sbs s) (stop_inst s) (dev_dis s) v (dt_unit s).
Definition set_units (v : vec UNIT 8) (s : DT) : DT :=
  mkDT (dtsa s) (dtsb s) (dtdb s) (dt_ltime s) (dt_actime s) (dt_dctime s)
       (dt_substate s) (sbs s) (stop_inst s) (dev_dis s) (sim_rtime s) v.

(** [dt_dev.units + k] and the update of that unit in place. *)
Definition unit (k : fin 8) (s : DT) : UNIT := dt_unit s !!! k.
Definition upd_unit (k : fin 8) (f : UNIT -> UNIT) (s : DT) : DT :=
  set_units (vinsert k (f (unit k s)) (dt_unit s)) s.

Arguments unit : simpl never.
Arguments upd_unit : simpl never.
Arguments u32 : simpl never.
Arguments s32 : simpl never.

(** [uptr - dt_dev.units] and its converse; a unit number outside 0..7
    names no unit. *)
Definition unit_no (k : fin 8) : Z := Z.of_nat (fin_to_nat k).
Definition unit_ptr (unum : Z) : option (fin 8) :=
  match unum with
  | 0 => Some 0%fin | 1 => Some 1%fin | 2 => Some 2%fin | 3 => Some 3%fin
  | 4 => Some 4%fin | 5 => Some 5%fin | 6 => Some 6%fin | 7 => Some 7%fin
  | _ => None
  end.

(** Per-unit geometry *)
Definition DTU_BSIZE (u : UNIT) : Z := if u_8fmt u then D8_BSIZE else D18_BSIZE.
Definition DTU_TSIZE (u : UNIT) : Z := if u_8fmt u then D8_TSIZE else D18_TSIZE.
Definition DTU_LPERB (u : UNIT) : Z := if u_8fmt u then D8_LPERB else D18_LPERB.
Definition DTU_FWDEZ (u : UNIT) : Z := if u_8fmt u then D8_FWDEZ else D18_FWDEZ.
Definition DTU_CAPAC (u : UNIT) : Z := if u_8fmt u then D8_CAPAC else D18_CAPAC.

(** The position [p] is a uint32, so the subtraction of [DT_EZLIN] and
    the divisions are unsigned. *)
Definition DT_LIN2BL (p : Z) (u : UNIT) : Z := u32 (p - DT_EZLIN) / DTU_LPERB u.
Definition DT_LIN2OF (p : Z) (u : UNIT) : Z := u32 (p - DT_EZLIN) mod DTU_LPERB u.
Definition DT_LIN2WD (p : Z) (u : UNIT) : Z :=
  u32 (DT_LIN2OF p u - DT_HTLIN) / DT_WSIZE.
Definition DT_BLK2LN (p : Z) (u : UNIT) : Z := p * DTU_LPERB u + DT_EZLIN.
Definition DT_QREZ (u : UNIT) : bool := pos u <? DT_EZLIN.
Definition DT_QFEZ (u : UNIT) : bool := pos u >=? u32 (DTU_FWDEZ u).
Definition DT_QEZ (u : UNIT) : bool := DT_QREZ u || DT_QFEZ u.

(** ** Utility routines *)

(** [dt_comobv]: complement obverse. *)
Definition dt_comobv (dat : Z) : Z :=
  let dat := Z.lxor dat 262143 in
  Z.lor (Z.lor (Z.lor (Z.lor (Z.lor
    (Z.land (Z.shiftr dat 15) 7)
    (Z.land (Z.shiftr dat 9) 56))
    (Z.land (Z.shiftr dat 3) 448))
    (Z.shiftl (Z.land dat 448) 3))
    (Z.shiftl (Z.land dat 56) 9))
    (Z.shiftl (Z.land dat 7) 15).

(** One turn of the loop of [dt_csum]: the 1's complement add. *)
Definition csum_step (csum wrd : Z) : Z :=
  let csum := csum + wrd in
  if csum >? 262143 then Z.land (csum + 1) 262143 else csum.

(** The loop of [dt_csum], [i] running over the [n] words from [ba]. *)
Fixpoint csum_loop (bptr : list Z) (ba : Z) (n : nat) (i : Z) (csum : Z) : Z :=
  match n with
  | O => csum
  | S n' =>
      let wrd := bptr !!! Z.to_nat (ba + i) in
      csum_loop bptr ba n' (i + 1) (csum_step csum wrd)
  end.

Definition dt_csum (u : UNIT) (blk : Z) : Z :=
  let bptr := filebuf u in
  let ba := blk * DTU_BSIZE u in
  Z.lxor (csum_loop bptr ba (Z.to_nat (DTU_BSIZE u)) 0 262143) 262143.

(** [dt_gethdr]: the header or trailer word at line [relpos] of a block. *)
Definition dt_gethdr (u : UNIT) (blk relpos : Z) : Z :=
  let wrd := Z.quot relpos DT_WSIZE in
  if wrd =? DT_BLKWD then blk
  else if wrd =? DT_CSMWD then 262143
  else if wrd =? 2 * DT_HTWRD + DTU_BSIZE u - DT_CSMWD - 1 then dt_csum u blk
  else if wrd =? 2 * DT_HTWRD + DTU_BSIZE u - DT_BLKWD - 1 then dt_comobv blk
  else 0.

(** ** The controller *)

Section Controller.

(** The request bit of the host's sequence break system and the
    position of the stop reason in the result of an I/O pulse come from
    [pdp1_defs.h], which is not among the sources; they are parameters
    of the development. *)
Variable SB_RQ : Z.
Variable IOT_V_REASON : Z.

(** [DT_UPDINT] *)
Definition DT_UPDINT (s : DT) : DT :=
  if Z.land (dtsb s) (Z.lor (Z.lor DTB_DTF DTB_BEF) DTB_ERF) =? 0
  then s else set_sbs (Z.lor (sbs s) SB_RQ) s.

(** Modelled from the spec: the simulator's event scheduler (scp.c) is
    not among the sources.  It offers now() ([sim_grtime]), arm(unit,
    delay) ([sim_activate], a one-shot callback [delay] ticks ahead;
    arming replaces the pending callback) and cancel(unit)
    ([sim_cancel]). *)
Definition sim_grtime (s : DT) : Z := sim_rtime s.
Definition sim_cancel (k : fin 8) (s : DT) : DT := upd_unit k (set_timer None) s.
Definition sim_activate (k : fin 8) (delay : Z) (s : DT) : DT :=
  upd_unit k (set_timer (Some delay)) s.

(** Modelled from the spec: [detach_unit] (scp.c) is not among the
    sources; it takes the backing image away, leaving the unit not
    attached. *)
Definition detach_unit (k : fin 8) (s : DT) : DT := upd_unit k (set_att false) s.

Definition DTS_SETSTA (k : fin 8) (y z : Z) (s : DT) : DT :=
  upd_unit k (set_STATE (DTS_STA y z)) s.
Definition DTS_SET2ND (k : fin 8) (y z : Z) (s : DT) : DT :=
  upd_unit k (fun u => set_STATE
    (Z.lor (Z.land (STATE u) 63) (Z.shiftl (DTS_STA y z) DTS_V_2ND)) u) s.
Definition DTS_SET3RD (k : fin 8) (y z : Z) (s : DT) : DT :=
  upd_unit k (fun u => set_STATE
    (Z.lor (Z.land (STATE u) 4095) (Z.shiftl (DTS_STA y z) DTS_V_3RD)) u) s.

(** ** The controller's routines

    Two of the divisions of [dt_setpos] have a divisor that can be zero
    (the length of a ramp in lines, when the ramp's time is below the
    line time); the simulator then stops with a division by zero.  The
    routines that reach the position update can therefore fail: their
    result is an [option], [None] standing for that stop. *)

Notation "'Ok' p <- m ; f" :=
  (match m with Some p => f | None => None end)
  (at level 10, p pattern, m at level 100, f at level 200, only parsing).

(** [dt_seterr] and [dt_setpos] call each other in the source.  The
    error setter is written over the position update it calls;
    [dt_setpos] calls it only after it has zeroed the unit's state, where
    the error setter does not reach its own call of the update. *)
Definition dt_seterr_with (setpos : fin 8 -> DT -> option (bool * DT))
    (k : fin 8) (e : Z) (s : DT) : option DT :=
  let mot := DTS_GETMOT (STATE (unit k s)) in
  let s := set_dtsa (Z.land (dtsa s) (Z.lnot DTA_STSTP)) s in
  let s := set_dtsb (Z.lor (Z.lor (dtsb s) DTB_ERF) e) s in
  if mot >=? DTS_ACCF then
    let s := sim_cancel k s in
    Ok (off, s) <- setpos k s;
    if off then Some s
    else
      let s := sim_activate k (dt_dctime s) s in
      let s := DTS_SETSTA k (Z.lor DTS_DECF (Z.land mot DTS_DIR)) 0 s in
      Some (DT_UPDINT s)
  else Some (DT_UPDINT s).

(** The advance in lines computed by [dt_setpos] for the motion [mot]
    after [ut] ticks; the operands are uint32, the result is the int32
    [delta].  On a ramp the divisor is twice the ramp's length in lines,
    [udelt]; where it is zero there is no result.  (The line time, the
    other divisor, is a register that the console keeps from being
    zero.) *)
Definition pos_delta (s : DT) (mot ut : Z) : option Z :=
  let m := Z.land mot (Z.lnot DTS_DIR) in
  if m =? DTS_STOP then Some 0
  else if m =? DTS_DECF then
    let ulin := ut / u32 (dt_ltime s) in
    let udelt := u32 (Z.quot (dt_dctime s) (dt_ltime s)) in
    if u32 (2 * udelt) =? 0 then None
    else Some (s32 (u32 (u32 (ulin * udelt * 2) - u32 (ulin * ulin))
                    / u32 (2 * udelt)))
  else if m =? DTS_ACCF then
    let ulin := ut / u32 (dt_ltime s) in
    let udelt := u32 (Z.quot (dt_actime s) (dt_ltime s)) in
    if u32 (2 * udelt) =? 0 then None
    else Some (s32 (u32 (ulin * ulin) / u32 (2 * udelt)))
  else if m =? DTS_ATSF then Some (s32 (ut / u32 (dt_ltime s)))
  else Some 0.

(** [dt_setpos]: update the position of unit [k]; the result is TRUE
    when the tape has run off the reel. *)
Definition dt_setpos (k : fin 8) (s : DT) : option (bool * DT) :=
  let u := unit k s in
  let mot := DTS_GETMOT (STATE u) in
  let new_time := sim_grtime s in
  let ut := u32 (new_time - LASTT u) in
  if ut =? 0 then Some (false, s)
  else
    let s := upd_unit k (set_LASTT new_time) s in
    Ok delta <- pos_delta s mot ut;
    let s :=
      if Z.land mot DTS_DIR =? 0
      then upd_unit k (fun u => set_pos (u32 (pos u + delta)) u) s
      else upd_unit k (fun u => set_pos (u32 (pos u - delta)) u) s in
    let u := unit k s in
    if (s32 (pos u) <? 0) || (s32 (pos u) >? DTU_FWDEZ u + DT_EZLIN) then
      let s := detach_unit k s in
      let s := upd_unit k (fun u => set_STATE 0 (set_pos 0 u)) s in
      Ok s <- (if unit_no k =? DTA_GETUNIT (dtsa s)
               then dt_seterr_with (fun _ s => Some (false, s)) k DTB_SEL s
               else Some s);
      Some (true, s)
    else Some (false, s).

(** [dt_seterr]: set the error flag [e]; a unit that is accelerating or
    at speed is put into deceleration. *)
Definition dt_seterr (k : fin 8) (e : Z) (s : DT) : option DT :=
  dt_seterr_with dt_setpos k e s.

(** [dt_schedez]: schedule the arrival in the end zone. *)
Definition dt_schedez (k : fin 8) (dir : Z) (s : DT) : DT :=
  let u := unit k s in
  let newpos :=
    if dir =? 0 then DTU_FWDEZ u + DT_WSIZE else DT_EZLIN - DT_WSIZE in
  sim_activate k (s32 (ABS (s32 (newpos - s32 (pos u))) * dt_ltime s)) s.

(** The second half of [dt_newfnc], from the end zone test on: the
    position is settled and the new state is in place. *)
Definition newfnc_dispatch (k : fin 8) (fnc dir : Z) (s : DT) : option DT :=
  let u := unit k s in
  let blk := s32 (DT_LIN2BL (pos u) u) in
  if (if dir =? 0 then DT_QFEZ u else DT_QREZ u) then dt_seterr k DTB_END s
  else
    let s := sim_cancel k s in
    let s := set_substate DTO_SOB s in
    let sched (newpos : Z) (s : DT) : DT :=
      let s :=
        if (fnc =? FNC_WRIT) || (fnc =? FNC_WALL)
        then DT_UPDINT (set_dtsb (Z.lor (dtsb s) DTB_DTF) s) else s in
      sim_activate k (s32 (ABS (s32 (newpos - s32 (pos u))) * dt_ltime s)) s in
    if fnc =? DTS_OFR then
      Some (sched (if dir =? 0 then DTU_FWDEZ u + DT_EZLIN + 1000 else -1000) s)
    else if fnc =? FNC_MOVE then Some (dt_schedez k dir s)
    else if fnc =? FNC_SRCH then
      Some (sched
        (if dir =? 0
         then DT_BLK2LN (if DT_QREZ u then 0 else blk + 1) u
              + DT_BLKLN + (DT_WSIZE - 1)
         else DT_BLK2LN (if DT_QFEZ u then DTU_TSIZE u else blk) u
              - DT_BLKLN - DT_WSIZE) s)
    else if (fnc =? FNC_WRIT) || (fnc =? FNC_READ)
            || (fnc =? FNC_RALL) || (fnc =? FNC_WALL) then
      Some (sched
        (if DT_QEZ u then
           if dir =? 0 then DT_EZLIN + (DT_WSIZE - 1)
           else DTU_FWDEZ u - DT_WSIZE
         else
           let newpos := s32 (u32 (pos u / DT_WSIZE * DT_WSIZE)) in
           if dir =? 0 then newpos + (DT_WSIZE - 1) else newpos) s)
    else dt_seterr k DTB_SEL s.

(** [dt_newfnc]: schedule a new function for a unit at speed. *)
Definition dt_newfnc (k : fin 8) (newsta : Z) (s : DT) : option DT :=
  let oldpos := pos (unit k s) in
  Ok (off, s) <- dt_setpos k s;
  if off then Some s
  else
    let s := upd_unit k (set_STATE newsta) s in
    let fnc := DTS_GETFNC newsta in
    let dir := Z.land (DTS_GETMOT newsta) DTS_DIR in
    let s :=
      if oldpos =? pos (unit k s)
      then upd_unit k
             (fun u => set_pos (u32 (pos u + (if dir =? 0 then 1 else -1))) u) s
      else s in
    newfnc_dispatch k fnc dir s.

(** [dt_deselect]: the unit selected by [oldf] loses the selection. *)
Definition dt_deselect (oldf : Z) (s : DT) : option DT :=
  match unit_ptr (DTA_GETUNIT oldf) with
  | None => Some s
  | Some k =>
      let old_mot := DTS_GETMOT (STATE (unit k s)) in
      if old_mot >=? DTS_ATSF then dt_newfnc k (DTS_STA old_mot DTS_OFR) s
      else if old_mot >=? DTS_ACCF
      then Some (DTS_SET2ND k (Z.lor DTS_ATSF (Z.land old_mot DTS_DIR)) DTS_OFR s)
      else Some s
  end.

(** [dt_newsa]: the command register has changed. *)
Definition dt_newsa (newf : Z) (s : DT) : option DT :=
  match unit_ptr (DTA_GETUNIT newf) with
  | None => Some s
  | Some k =>
    let u := unit k s in
    if negb (u_att u) then dt_seterr k DTB_SEL s
    else
      let prev_mot := DTS_GETMOT (STATE u) in
      let prev_mving := negb (prev_mot =? DTS_STOP) in
      let prev_dir := Z.land prev_mot DTS_DIR in
      let new_mving := negb (Z.land newf DTA_STSTP =? 0) in
      let new_dir := if Z.land newf DTA_FWDRV =? 0 then 0 else 1 in
      let new_fnc := DTA_GETFNC newf in
      if negb (prev_mving || new_mving) then Some s
      else if new_mving && negb prev_mving then
        Ok (off, s) <- dt_setpos k s;
        if off then Some s
        else
          let s := sim_cancel k s in
          let s := sim_activate k (dt_actime s) s in
          let s := DTS_SETSTA k (Z.lor DTS_ACCF new_dir) 0 s in
          Some (DTS_SET2ND k (Z.lor DTS_ATSF new_dir) new_fnc s)
      else if prev_mving && negb new_mving then
        if negb (Z.land prev_mot (Z.lnot DTS_DIR) =? DTS_DECF) then
          Ok (off, s) <- dt_setpos k s;
          if off then Some s
          else
            let s := sim_cancel k s in
            let s := sim_activate k (dt_dctime s) s in
            Some (DTS_SETSTA k (Z.lor DTS_DECF prev_dir) 0 s)
        else Some (DTS_SETSTA k (Z.lor DTS_DECF prev_dir) 0 s)
      else if negb (Z.lxor prev_dir new_dir =? 0) then
        let fin_ (s : DT) : DT :=
          let s := DTS_SETSTA k (Z.lor DTS_DECF prev_dir) 0 s in
          let s := DTS_SET2ND k (Z.lor DTS_ACCF new_dir) 0 s in
          DTS_SET3RD k (Z.lor DTS_ATSF new_dir) new_fnc s in
        if negb (Z.land prev_mot (Z.lnot DTS_DIR) =? DTS_DECF) then
          Ok (off, s) <- dt_setpos k s;
          if off then Some s
          else
            let s := sim_cancel k s in
            let s := sim_activate k (dt_dctime s) s in
            Some (fin_ s)
        else Some (fin_ s)
      else if prev_mot <? DTS_ACCF then
        Ok (off, s) <- dt_setpos k s;
        if off then Some s
        else
          let s := sim_cancel k s in
          let s := sim_activate k (dt_actime s) s in
          let s := DTS_SETSTA k (Z.lor DTS_ACCF new_dir) 0 s in
          Some (DTS_SET2ND k (Z.lor DTS_ATSF new_dir) new_fnc s)
      else if prev_mot <? DTS_ATSF then
        Some (DTS_SET2ND k (Z.lor DTS_ATSF new_dir) new_fnc s)
      else dt_newfnc k (DTS_STA (Z.lor DTS_ATSF new_dir) new_fnc) s
  end.

(** [dt]: the I/O pulse entry point; the result is the returned word and
    the new state.  With no unit selected, pulse 4 hands the null unit
    pointer to [dt_seterr], which reads its state: the result is then
    [None], as it is when a position update divides by zero. *)
Definition dt (IR dev dat : Z) (s : DT) : option (Z * DT) :=
  let pulse := Z.land (Z.shiftr IR 6) 31 in
  if dev_dis s
  then Some (Z.lor (Z.shiftl (stop_inst s) IOT_V_REASON) dat, s)
  else
    let unum := DTA_GETUNIT (dtsa s) in
    let uptr := if unum >=? 0 then unit_ptr unum else None in
    if pulse =? 3 then                                      (* MSE *)
      Ok s <- (if Z.land (Z.lxor (dtsa s) dat) DTA_UNIT =? 0 then Some s
               else dt_deselect (dtsa s) s);
      let s := set_dtsa (Z.lor (Z.land (dtsa s) (Z.lnot DTA_UNIT))
                               (Z.land dat DTA_UNIT)) s in
      let s := set_dtsb (Z.land (dtsb s) (Z.lnot
                 (Z.lor (Z.lor (Z.lor DTB_DTF DTB_BEF) DTB_ERF) DTB_ALLERR))) s in
      Some (dat, DT_UPDINT s)
    else if pulse =? 4 then                                 (* MLC *)
      let s := set_dtsa (Z.lor (Z.land (dtsa s) (Z.lnot DTA_RW))
                               (Z.land dat DTA_RW)) s in
      let s := set_dtsb (Z.land (dtsb s) (Z.lnot
                 (Z.lor (Z.lor (Z.lor DTB_DTF DTB_BEF) DTB_ERF) DTB_ALLERR))) s in
      let fnc := DTA_GETFNC (dtsa s) in
      match uptr with
      | None => None
      | Some k =>
          let u := unit k s in
          if u_dis u || (fnc >=? FNC_WMRK)
             || ((fnc =? FNC_WRIT) && u_wlk u)
             || ((fnc =? FNC_WALL) && u_wlk u)
          then Ok s <- dt_seterr k DTB_SEL s; Some (dat, DT_UPDINT s)
          else Ok s <- dt_newsa (dtsa s) s; Some (dat, DT_UPDINT s)
      end
    else if pulse =? 5 then                                 (* MRD *)
      let dat := Z.lor (Z.land dat (Z.lnot DMASK)) (dtdb s) in
      let s := set_dtsb (Z.land (dtsb s) (Z.lnot (Z.lor DTB_DTF DTB_BEF))) s in
      Some (dat, DT_UPDINT s)
    else if pulse =? 6 then                                 (* MWR *)
      let s := set_dtdb (Z.land dat DMASK) s in
      let s := set_dtsb (Z.land (dtsb s) (Z.lnot (Z.lor DTB_DTF DTB_BEF))) s in
      Some (dat, DT_UPDINT s)
    else if pulse =? 7 then                                 (* MRS *)
      let s := set_dtsb (Z.land (dtsb s) (Z.lnot (Z.lor DTB_REV DTB_GO))) s in
      let s :=
        match uptr with
        | None => s
        | Some k =>
            let mot := DTS_GETMOT (STATE (unit k s)) in
            let s :=
              if Z.land mot DTS_DIR =? 0 then s
              else set_dtsb (Z.lor (dtsb s) DTB_REV) s in
            if (mot >=? DTS_ACCF)
               || negb (Z.land (STATE (unit k s)) 262080 =? 0)  (* 0777700 *)
            then set_dtsb (Z.lor (dtsb s) DTB_GO) s else s
        end in
      let dat := Z.lor (Z.land dat (Z.lnot DMASK)) (dtsb s) in
      Some (dat, DT_UPDINT s)
    else Some (dat, DT_UPDINT s).

(** The word transfer of READ and READ ALL in [dt_svc], after the data
    flag has been found clear. *)
Definition svc_read (k : fin 8) (fnc dir blk : Z) (s : DT) : DT :=
  let s := sim_activate k (s32 (DT_WSIZE * dt_ltime s)) s in
  let u := unit k s in
  let bptr := filebuf u in
  let relpos := s32 (DT_LIN2OF (pos u) u) in
  let fin_ (s : DT) : DT :=
    DT_UPDINT (if dir =? 0 then s else set_dtdb (dt_comobv (dtdb s)) s) in
  if (relpos >=? DT_HTLIN) && (relpos <? DTU_LPERB u - DT_HTLIN) then
    let wrd := s32 (DT_LIN2WD (pos u) u) in
    let ba := u32 (blk * DTU_BSIZE u + wrd) in
    let s := set_dtdb (bptr !!! Z.to_nat ba) s in
    fin_ (set_dtsb (Z.lor (dtsb s) DTB_DTF) s)
  else
    let ma := 2 * DT_HTWRD + DTU_BSIZE u - DT_CSMWD - 1 in
    let wrd := Z.quot relpos DT_WSIZE in
    if (wrd =? 0) || (wrd =? 2 * DT_HTWRD + DTU_BSIZE u - 1) then DT_UPDINT s
    else if (fnc =? FNC_READ) && negb (wrd =? DT_CSMWD) && negb (wrd =? ma)
    then DT_UPDINT s
    else
      let s := set_dtdb (dt_gethdr u blk relpos) s in
      fin_ (if wrd =? (if dir =? 0 then ma else DT_CSMWD)
            then set_dtsb (Z.lor (dtsb s) DTB_BEF) s
            else set_dtsb (Z.lor (dtsb s) DTB_DTF) s).

(** The word transfer of WRITE and WRITE ALL in [dt_svc], after the data
    flag has been found clear. *)
Definition svc_write (k : fin 8) (fnc dir blk : Z) (s : DT) : DT :=
  let s := sim_activate k (s32 (DT_WSIZE * dt_ltime s)) s in
  let u := unit k s in
  let relpos := s32 (DT_LIN2OF (pos u) u) in
  if (relpos >=? DT_HTLIN) && (relpos <? DTU_LPERB u - DT_HTLIN) then
    let wrd := s32 (DT_LIN2WD (pos u) u) in
    let ba := u32 (blk * DTU_BSIZE u + wrd) in
    let v := if dir =? 0 then dtdb s else dt_comobv (dtdb s) in
    let s := upd_unit k (fun u =>
               set_filebuf (<[Z.to_nat ba := v]> (filebuf u)) u) s in
    let s := if ba >=? hwmark (unit k s)
             then upd_unit k (set_hwmark (u32 (ba + 1))) s else s in
    DT_UPDINT (if wrd =? (if dir =? 0 then DTU_BSIZE u - 1 else 0)
               then set_dtsb (Z.lor (dtsb s) DTB_BEF) s
               else set_dtsb (Z.lor (dtsb s) DTB_DTF) s)
  else
    let wrd := Z.quot relpos DT_WSIZE in
    if (wrd =? 0) || (wrd =? 2 * DT_HTWRD + DTU_BSIZE u - 1) then DT_UPDINT s
    else if (fnc =? FNC_WRIT)
            && negb (wrd =? 2 * DT_HTWRD + DTU_BSIZE u - DT_CSMWD - 1)
    then DT_UPDINT s
    else DT_UPDINT (set_dtsb (Z.lor (dtsb s) DTB_DTF) s).

(** The functional cases of [dt_svc], for a unit at speed. *)
Definition svc_atspeed (k : fin 8) (s : DT) : option DT :=
  let fnc := DTS_GETFNC (STATE (unit k s)) in
  let dir := Z.land (DTS_GETMOT (STATE (unit k s))) DTS_DIR in
  Ok (off, s) <- dt_setpos k s;
  if off then Some s
  else
    let u := unit k s in
    if DT_QEZ u then dt_seterr k DTB_END s
    else
      let blk := s32 (DT_LIN2BL (pos u) u) in
      if fnc =? FNC_MOVE then dt_seterr k DTB_END s
      else if fnc =? DTS_OFR then
        let s := detach_unit k s in
        Some (DT_UPDINT (upd_unit k (fun u => set_STATE 0 (set_pos 0 u)) s))
      else if fnc =? FNC_SRCH then
        if negb (Z.land (dtsb s) DTB_DTF =? 0) then dt_seterr k DTB_TIM s
        else
          let s := sim_activate k (s32 (DTU_LPERB u * dt_ltime s)) s in
          let s := set_dtdb blk s in
          Some (DT_UPDINT (set_dtsb (Z.lor (dtsb s) DTB_DTF) s))
      else if (fnc =? FNC_READ) || (fnc =? FNC_RALL) then
        if negb (Z.land (dtsb s) DTB_DTF =? 0) then dt_seterr k DTB_TIM s
        else Some (svc_read k fnc dir blk s)
      else if (fnc =? FNC_WRIT) || (fnc =? FNC_WALL) then
        if negb (Z.land (dtsb s) DTB_DTF =? 0) then dt_seterr k DTB_TIM s
        else Some (svc_write k fnc dir blk s)
      else Ok s <- dt_seterr k DTB_SEL s; Some (DT_UPDINT s).

(** [dt_svc]: unit service, called when the unit's timer has run out. *)
Definition dt_svc (k : fin 8) (s : DT) : option DT :=
  let mot := DTS_GETMOT (STATE (unit k s)) in
  if (mot =? DTS_DECF) || (mot =? DTS_DECR) then
    Ok (off, s) <- dt_setpos k s;
    if off then Some s
    else
      let s := upd_unit k (fun u => set_STATE (DTS_NXTSTA (STATE u)) u) s in
      if STATE (unit k s) =? 0 then Some s
      else Some (sim_activate k (dt_actime s) s)
  else if (mot =? DTS_ACCF) || (mot =? DTS_ACCR) then
    dt_newfnc k (DTS_NXTSTA (STATE (unit k s))) s
  else if (mot =? DTS_ATSF) || (mot =? DTS_ATSR) then svc_atspeed k s
  else dt_seterr k DTB_SEL s.

(** [dt_reset]: the device reset.  [running] stands for the simulator's
    [sim_is_running] (scp.c): the reset is then the program's and the
    drives that are accelerating or at speed are brought to a stop;
    otherwise it is the console's and every drive is stopped at once. *)
Definition reset_unit (running : bool) (k : fin 8) (s : DT) : option DT :=
  if running then
    let prev_mot := DTS_GETMOT (STATE (unit k s)) in
    if Z.land prev_mot (Z.lnot DTS_DIR) >? DTS_DECF then
      Ok (off, s) <- dt_setpos k s;
      if off then Some s
      else
        let s := sim_cancel k s in
        let s := sim_activate k (dt_dctime s) s in
        Some (DTS_SETSTA k (Z.lor DTS_DECF (Z.land prev_mot DTS_DIR)) 0 s)
    else Some s
  else
    let s := sim_cancel k s in
    Some (upd_unit k (fun u => set_LASTT (sim_grtime s) (set_STATE 0 u)) s).

Definition all_units : list (fin 8) :=
  [0%fin; 1%fin; 2%fin; 3%fin; 4%fin; 5%fin; 6%fin; 7%fin].

Definition dt_reset (running : bool) (s : DT) : option DT :=
  Ok s <- foldl (fun r k => Ok s <- r; reset_unit running k s) (Some s) all_units;
  Some (DT_UPDINT (set_dtsb 0 (set_dtsa 0 s))).

(** Modelled from the spec: the scheduler lets [d] ticks pass ([advance])
    and, when the timer of unit [k] runs out, takes it off the queue and
    calls the unit's service routine ([fire]).  [fire k] stands for the
    next event when no other unit's timer is shorter. *)
Definition advance (d : Z) (s : DT) : DT :=
  set_rtime (u32 (sim_rtime s + d))
    (set_units
       (vmap (fun u => set_timer ((fun t => t - d) <$> timer u) u) (dt_unit s)) s).

Definition fire (k : fin 8) (s : DT) : option DT :=
  match timer (unit k s) with
  | None => Some s
  | Some d => dt_svc k (sim_cancel k (advance d s))
  end.

(** ** Runs of the controller *)

(** What happens to the controller from outside: an I/O pulse of the
    host (instruction [IR], data [dat]), the next event of a unit, or
    the passing of time. *)
Inductive op : Type :=
  | Pulse (IR dat : Z)
  | Fire (k : fin 8)
  | Wait (d : Z).

Definition step (o : op) (s : DT) : option DT :=
  match o with
  | Pulse IR dat => snd <$> dt IR 0 dat s
  | Fire k => fire k s
  | Wait d => Some (advance d s)
  end.

Fixpoint run (os : list op) (s : DT) : option DT :=
  match os with
  | [] => Some s
  | o :: os => Ok s' <- step o s; run os s'
  end.

(** The instruction words of the five pulses. *)
Definition MSE : Z := Z.shiftl 3 6.
Definition MLC : Z := Z.shiftl 4 6.
Definition MRD : Z := Z.shiftl 5 6.
Definition MWR : Z := Z.shiftl 6 6.
Definition MRS : Z := Z.shiftl 7 6.

(** What is looked at in a unit: the time, status B, whether the unit is
    attached, its motion and function, its position and its timer. *)
Definition observe (k : fin 8) (s : DT) : Z * Z * bool * Z * Z * Z * option Z :=
  (sim_rtime s, dtsb s, u_att (unit k s), DTS_GETMOT (STATE (unit k s)),
   DTS_GETFNC (STATE (unit k s)), pos (unit k s), timer (unit k s)).

(** One word time of a read pass over unit [k]: the unit's next event,
    after which the host takes the data buffer with a READ DATA pulse.
    The word is delivered when the event has raised DTF or BEF. *)
Definition word_time (k : fin 8) (s : DT) : option (option Z * DT) :=
  Ok s1 <- fire k s;
  let flagged := negb (Z.land (dtsb s1) (Z.lor DTB_DTF DTB_BEF) =? 0) in
  Ok (dat, s2) <- dt MRD 0 0 s1;
  Some (if flagged then Some dat else None, s2).

(** The words delivered in [n] word times. *)
Fixpoint read_pass (k : fin 8) (n : nat) (s : DT) : option (list Z) :=
  match n with
  | O => Some []
  | S n' =>
      Ok (w, s') <- word_time k s;
      Ok ws <- read_pass k n' s';
      Some (match w with Some x => x :: ws | None => ws end)
  end.

(** ** The routines with the division made total

    The same routines once more, with the quotients of [pos_delta] taken
    by [Z]'s division, which is total (a quotient by zero is 0): the
    position update is then [dt_setpos_tot], which always returns, and
    the routines over it are named likewise.  They are what the
    controller's routines compute whenever these return (the lemmas
    [*_agree] below); the notions in which the position update is
    described, and the proofs, are built on them. *)

Definition dt_seterr_with_tot (setpos : fin 8 -> DT -> bool * DT)
    (k : fin 8) (e : Z) (s : DT) : DT :=
  let mot := DTS_GETMOT (STATE (unit k s)) in
  let s := set_dtsa (Z.land (dtsa s) (Z.lnot DTA_STSTP)) s in
  let s := set_dtsb (Z.lor (Z.lor (dtsb s) DTB_ERF) e) s in
  if mot >=? DTS_ACCF then
    let s := sim_cancel k s in
    let '(off, s) := setpos k s in
    if off then s
    else
      let s := sim_activate k (dt_dctime s) s in
      let s := DTS_SETSTA k (Z.lor DTS_DECF (Z.land mot DTS_DIR)) 0 s in
      DT_UPDINT s
  else DT_UPDINT s.

(** The advance in lines of [pos_delta], with [Z]'s quotient on the
    ramps. *)
Definition delta_lines (s : DT) (mot ut : Z) : Z :=
  let m := Z.land mot (Z.lnot DTS_DIR) in
  if m =? DTS_STOP then 0
  else if m =? DTS_DECF then
    let ulin := ut / u32 (dt_ltime s) in
    let udelt := u32 (Z.quot (dt_dctime s) (dt_ltime s)) in
    s32 (u32 (u32 (ulin * udelt * 2) - u32 (ulin * ulin)) / u32 (2 * udelt))
  else if m =? DTS_ACCF then
    let ulin := ut / u32 (dt_ltime s) in
    let udelt := u32 (Z.quot (dt_actime s) (dt_ltime s)) in
    s32 (u32 (ulin * ulin) / u32 (2 * udelt))
  else if m =? DTS_ATSF then s32 (ut / u32 (dt_ltime s))
  else 0.

Definition dt_setpos_tot (k : fin 8) (s : DT) : bool * DT :=
  let u := unit k s in
  let mot := DTS_GETMOT (STATE u) in
  let new_time := sim_grtime s in
  let ut := u32 (new_time - LASTT u) in
  if ut =? 0 then (false, s)
  else
    let s := upd_unit k (set_LASTT new_time) s in
    let delta := delta_lines s mot ut in
    let s :=
      if Z.land mot DTS_DIR =? 0
      then upd_unit k (fun u => set_pos (u32 (pos u + delta)) u) s
      else upd_unit k (fun u => set_pos (u32 (pos u - delta)) u) s in
    let u := unit k s in
    if (s32 (pos u) <? 0) || (s32 (pos u) >? DTU_FWDEZ u + DT_EZLIN) then
      let s := detach_unit k s in
      let s := upd_unit k (fun u => set_STATE 0 (set_pos 0 u)) s in
      let s :=
        if unit_no k =? DTA_GETUNIT (dtsa s)
        then dt_seterr_with_tot (fun _ s => (false, s)) k DTB_SEL s
        else s in
      (true, s)
    else (false, s).

(** The pieces of [dt_setpos] by name: the time gone by since the last
    update, the position it computes, and its test that the tape is
    still on the reel.  (They describe the update wherever it returns;
    [trapping] below says where it does not.) *)
Definition elapsed (k : fin 8) (s : DT) : Z :=
  u32 (sim_grtime s - LASTT (unit k s)).
Definition next_pos (k : fin 8) (s : DT) : Z :=
  let u := unit k s in
  let mot := DTS_GETMOT (STATE u) in
  let delta := delta_lines s mot (elapsed k s) in
  if Z.land mot DTS_DIR =? 0 then u32 (pos u + delta) else u32 (pos u - delta).
Definition on_reel (p : Z) (u : UNIT) : bool :=
  negb ((s32 p <? 0) || (s32 p >? DTU_FWDEZ u + DT_EZLIN)).

(** The state in which [dt_setpos] leaves a unit that has run off the
    reel: detached, state and position zero, and the select error
    raised if the unit is the selected one. *)
Definition off_reel_state (k : fin 8) (s : DT) : DT :=
  let s := upd_unit k (fun u => set_STATE 0 (set_pos 0
             (set_att false (set_LASTT (sim_grtime s) u)))) s in
  if unit_no k =? DTA_GETUNIT (dtsa s)
  then dt_seterr_with_tot (fun _ s => (false, s)) k DTB_SEL s else s.

(** The state in which [dt_setpos] leaves a unit that is still on the
    reel, and the condition for it. *)
Definition moved (k : fin 8) (s : DT) : DT :=
  if elapsed k s =? 0 then s
  else upd_unit k (fun u => set_pos (next_pos k s)
                              (set_LASTT (sim_grtime s) u)) s.
Definition stays_on_reel (k : fin 8) (s : DT) : bool :=
  (elapsed k s =? 0) || on_reel (next_pos k s) (unit k s).

Arguments moved : simpl never.
Arguments elapsed : simpl never.
Arguments next_pos : simpl never.
Arguments stays_on_reel : simpl never.

(** The position update of unit [k] would divide by zero: time has
    passed since the last update, the unit is on a ramp, and twice the
    ramp's length in lines is zero as a uint32. *)
Definition trapping (k : fin 8) (s : DT) : bool :=
  let m := Z.land (DTS_GETMOT (STATE (unit k s))) (Z.lnot DTS_DIR) in
  negb (elapsed k s =? 0)
  && (((m =? DTS_DECF)
       && (u32 (2 * u32 (Z.quot (dt_dctime s) (dt_ltime s))) =? 0))
      || ((m =? DTS_ACCF)
          && (u32 (2 * u32 (Z.quot (dt_actime s) (dt_ltime s))) =? 0))).

(** The ramps are at least one line long: the acceleration and the
    deceleration time are not below the line time (all three within the
    31 bits of their registers).  No position update divides by zero
    then. *)
Definition ramps_defined (s : DT) : Prop :=
  0 < dt_ltime s
  /\ dt_ltime s <= dt_actime s < 2 ^ 31
  /\ dt_ltime s <= dt_dctime s < 2 ^ 31.

(** The end zone ahead of a unit travelling in direction [dir]. *)
Definition end_zone_ahead (dir : Z) (u : UNIT) : bool :=
  if dir =? 0 then DT_QFEZ u else DT_QREZ u.

Definition dt_seterr_tot (k : fin 8) (e : Z) (s : DT) : DT :=
  dt_seterr_with_tot dt_setpos_tot k e s.

Definition newfnc_dispatch_tot (k : fin 8) (fnc dir : Z) (s : DT) : DT :=
  let u := unit k s in
  let blk := s32 (DT_LIN2BL (pos u) u) in
  if (if dir =? 0 then DT_QFEZ u else DT_QREZ u) then dt_seterr_tot k DTB_END s
  else
    let s := sim_cancel k s in
    let s := set_substate DTO_SOB s in
    let sched (newpos : Z) (s : DT) : DT :=
      let s :=
        if (fnc =? FNC_WRIT) || (fnc =? FNC_WALL)
        then DT_UPDINT (set_dtsb (Z.lor (dtsb s) DTB_DTF) s) else s in
      sim_activate k (s32 (ABS (s32 (newpos - s32 (pos u))) * dt_ltime s)) s in
    if fnc =? DTS_OFR then
      sched (if dir =? 0 then DTU_FWDEZ u + DT_EZLIN + 1000 else -1000) s
    else if fnc =? FNC_MOVE then dt_schedez k dir s
    else if fnc =? FNC_SRCH then
      sched
        (if dir =? 0
         then DT_BLK2LN (if DT_QREZ u then 0 else blk + 1) u
              + DT_BLKLN + (DT_WSIZE - 1)
         else DT_BLK2LN (if DT_QFEZ u then DTU_TSIZE u else blk) u
              - DT_BLKLN - DT_WSIZE) s
    else if (fnc =? FNC_WRIT) || (fnc =? FNC_READ)
            || (fnc =? FNC_RALL) || (fnc =? FNC_WALL) then
      sched
        (if DT_QEZ u then
           if dir =? 0 then DT_EZLIN + (DT_WSIZE - 1)
           else DTU_FWDEZ u - DT_WSIZE
         else
           let newpos := s32 (u32 (pos u / DT_WSIZE * DT_WSIZE)) in
           if dir =? 0 then newpos + (DT_WSIZE - 1) else newpos) s
    else dt_seterr_tot k DTB_SEL s.

Definition dt_newfnc_tot (k : fin 8) (newsta : Z) (s : DT) : DT :=
  let oldpos := pos (unit k s) in
  let '(off, s) := dt_setpos_tot k s in
  if off then s
  else
    let s := upd_unit k (set_STATE newsta) s in
    let fnc := DTS_GETFNC newsta in
    let dir := Z.land (DTS_GETMOT newsta) DTS_DIR in
    let s :=
      if oldpos =? pos (unit k s)
      then upd_unit k
             (fun u => set_pos (u32 (pos u + (if dir =? 0 then 1 else -1))) u) s
      else s in
    newfnc_dispatch_tot k fnc dir s.

Definition dt_deselect_tot (oldf : Z) (s : DT) : DT :=
  match unit_ptr (DTA_GETUNIT oldf) with
  | None => s
  | Some k =>
      let old_mot := DTS_GETMOT (STATE (unit k s)) in
      if old_mot >=? DTS_ATSF then dt_newfnc_tot k (DTS_STA old_mot DTS_OFR) s
      else if old_mot >=? DTS_ACCF
      then DTS_SET2ND k (Z.lor DTS_ATSF (Z.land old_mot DTS_DIR)) DTS_OFR s
      else s
  end.

Definition dt_newsa_tot (newf : Z) (s : DT) : DT :=
  match unit_ptr (DTA_GETUNIT newf) with
  | None => s
  | Some k =>
    let u := unit k s in
    if negb (u_att u) then dt_seterr_tot k DTB_SEL s
    else
      let prev_mot := DTS_GETMOT (STATE u) in
      let prev_mving := negb (prev_mot =? DTS_STOP) in
      let prev_dir := Z.land prev_mot DTS_DIR in
      let new_mving := negb (Z.land newf DTA_STSTP =? 0) in
      let new_dir := if Z.land newf DTA_FWDRV =? 0 then 0 else 1 in
      let new_fnc := DTA_GETFNC newf in
      if negb (prev_mving || new_mving) then s
      else if new_mving && negb prev_mving then
        let '(off, s) := dt_setpos_tot k s in
        if off then s
        else
          let s := sim_cancel k s in
          let s := sim_activate k (dt_actime s) s in
          let s := DTS_SETSTA k (Z.lor DTS_ACCF new_dir) 0 s in
          DTS_SET2ND k (Z.lor DTS_ATSF new_dir) new_fnc s
      else if prev_mving && negb new_mving then
        if negb (Z.land prev_mot (Z.lnot DTS_DIR) =? DTS_DECF) then
          let '(off, s) := dt_setpos_tot k s in
          if off then s
          else
            let s := sim_cancel k s in
            let s := sim_activate k (dt_dctime s) s in
            DTS_SETSTA k (Z.lor DTS_DECF prev_dir) 0 s
        else DTS_SETSTA k (Z.lor DTS_DECF prev_dir) 0 s
      else if negb (Z.lxor prev_dir new_dir =? 0) then
        let fin_ (s : DT) : DT :=
          let s := DTS_SETSTA k (Z.lor DTS_DECF prev_dir) 0 s in
          let s := DTS_SET2ND k (Z.lor DTS_ACCF new_dir) 0 s in
          DTS_SET3RD k (Z.lor DTS_ATSF new_dir) new_fnc s in
        if negb (Z.land prev_mot (Z.lnot DTS_DIR) =? DTS_DECF) then
          let '(off, s) := dt_setpos_tot k s in
          if off then s
          else
            let s := sim_cancel k s in
            let s := sim_activate k (dt_dctime s) s in
            fin_ s
        else fin_ s
      else if prev_mot <? DTS_ACCF then
        let '(off, s) := dt_setpos_tot k s in
        if off then s
        else
          let s := sim_cancel k s in
          let s := sim_activate k (dt_actime s) s in
          let s := DTS_SETSTA k (Z.lor DTS_ACCF new_dir) 0 s in
          DTS_SET2ND k (Z.lor DTS_ATSF new_dir) new_fnc s
      else if prev_mot <? DTS_ATSF then
        DTS_SET2ND k (Z.lor DTS_ATSF new_dir) new_fnc s
      else dt_newfnc_tot k (DTS_STA (Z.lor DTS_ATSF new_dir) new_fnc) s
  end.

Definition dt_tot (IR dev dat : Z) (s : DT) : option (Z * DT) :=
  let pulse := Z.land (Z.shiftr IR 6) 31 in
  if dev_dis s
  then Some (Z.lor (Z.shiftl (stop_inst s) IOT_V_REASON) dat, s)
  else
    let unum := DTA_GETUNIT (dtsa s) in
    let uptr := if unum >=? 0 then unit_ptr unum else None in
    if pulse =? 3 then                                      (* MSE *)
      let s :=
        if Z.land (Z.lxor (dtsa s) dat) DTA_UNIT =? 0 then s
        else dt_deselect_tot (dtsa s) s in
      let s := set_dtsa (Z.lor (Z.land (dtsa s) (Z.lnot DTA_UNIT))
                               (Z.land dat DTA_UNIT)) s in
      let s := set_dtsb (Z.land (dtsb s) (Z.lnot
                 (Z.lor (Z.lor (Z.lor DTB_DTF DTB_BEF) DTB_ERF) DTB_ALLERR))) s in
      Some (dat, DT_UPDINT s)
    else if pulse =? 4 then                                 (* MLC *)
      let s := set_dtsa (Z.lor (Z.land (dtsa s) (Z.lnot DTA_RW))
                               (Z.land dat DTA_RW)) s in
      let s := set_dtsb (Z.land (dtsb s) (Z.lnot
                 (Z.lor (Z.lor (Z.lor DTB_DTF DTB_BEF) DTB_ERF) DTB_ALLERR))) s in
      let fnc := DTA_GETFNC (dtsa s) in
      match uptr with
      | None => None
      | Some k =>
          let u := unit k s in
          if u_dis u || (fnc >=? FNC_WMRK)
             || ((fnc =? FNC_WRIT) && u_wlk u)
             || ((fnc =? FNC_WALL) && u_wlk u)
          then Some (dat, DT_UPDINT (dt_seterr_tot k DTB_SEL s))
          else Some (dat, DT_UPDINT (dt_newsa_tot (dtsa s) s))
      end
    else if pulse =? 5 then                                 (* MRD *)
      let dat := Z.lor (Z.land dat (Z.lnot DMASK)) (dtdb s) in
      let s := set_dtsb (Z.land (dtsb s) (Z.lnot (Z.lor DTB_DTF DTB_BEF))) s in
      Some (dat, DT_UPDINT s)
    else if pulse =? 6 then                                 (* MWR *)
      let s := set_dtdb (Z.land dat DMASK) s in
      let s := set_dtsb (Z.land (dtsb s) (Z.lnot (Z.lor DTB_DTF DTB_BEF))) s in
      Some (dat, DT_UPDINT s)
    else if pulse =? 7 then                                 (* MRS *)
      let s := set_dtsb (Z.land (dtsb s) (Z.lnot (Z.lor DTB_REV DTB_GO))) s in
      let s :=
        match uptr with
        | None => s
        | Some k =>
            let mot := DTS_GETMOT (STATE (unit k s)) in
            let s :=
              if Z.land mot DTS_DIR =? 0 then s
              else set_dtsb (Z.lor (dtsb s) DTB_REV) s in
            if (mot >=? DTS_ACCF)
               || negb (Z.land (STATE (unit k s)) 262080 =? 0)  (* 0777700 *)
            then set_dtsb (Z.lor (dtsb s) DTB_GO) s else s
        end in
      let dat := Z.lor (Z.land dat (Z.lnot DMASK)) (dtsb s) in
      Some (dat, DT_UPDINT s)
    else Some (dat, DT_UPDINT s).

Definition svc_atspeed_tot (k : fin 8) (s : DT) : DT :=
  let fnc := DTS_GETFNC (STATE (unit k s)) in
  let dir := Z.land (DTS_GETMOT (STATE (unit k s))) DTS_DIR in
  let '(off, s) := dt_setpos_tot k s in
  if off then s
  else
    let u := unit k s in
    if DT_QEZ u then dt_seterr_tot k DTB_END s
    else
      let blk := s32 (DT_LIN2BL (pos u) u) in
      if fnc =? FNC_MOVE then dt_seterr_tot k DTB_END s
      else if fnc =? DTS_OFR then
        let s := detach_unit k s in
        DT_UPDINT (upd_unit k (fun u => set_STATE 0 (set_pos 0 u)) s)
      else if fnc =? FNC_SRCH then
        if negb (Z.land (dtsb s) DTB_DTF =? 0) then dt_seterr_tot k DTB_TIM s
        else
          let s := sim_activate k (s32 (DTU_LPERB u * dt_ltime s)) s in
          let s := set_dtdb blk s in
          DT_UPDINT (set_dtsb (Z.lor (dtsb s) DTB_DTF) s)
      else if (fnc =? FNC_READ) || (fnc =? FNC_RALL) then
        if negb (Z.land (dtsb s) DTB_DTF =? 0) then dt_seterr_tot k DTB_TIM s
        else svc_read k fnc dir blk s
      else if (fnc =? FNC_WRIT) || (fnc =? FNC_WALL) then
        if negb (Z.land (dtsb s) DTB_DTF =? 0) then dt_seterr_tot k DTB_TIM s
        else svc_write k fnc dir blk s
      else DT_UPDINT (dt_seterr_tot k DTB_SEL s).

Definition dt_svc_tot (k : fin 8) (s : DT) : DT :=
  let mot := DTS_GETMOT (STATE (unit k s)) in
  if (mot =? DTS_DECF) || (mot =? DTS_DECR) then
    let '(off, s) := dt_setpos_tot k s in
    if off then s
    else
      let s := upd_unit k (fun u => set_STATE (DTS_NXTSTA (STATE u)) u) s in
      if STATE (unit k s) =? 0 then s else sim_activate k (dt_actime s) s
  else if (mot =? DTS_ACCF) || (mot =? DTS_ACCR) then
    dt_newfnc_tot k (DTS_NXTSTA (STATE (unit k s))) s
  else if (mot =? DTS_ATSF) || (mot =? DTS_ATSR) then svc_atspeed_tot k s
  else dt_seterr_tot k DTB_SEL s.

Definition reset_unit_tot (running : bool) (k : fin 8) (s : DT) : DT :=
  if running then
    let prev_mot := DTS_GETMOT (STATE (unit k s)) in
    if Z.land prev_mot (Z.lnot DTS_DIR) >? DTS_DECF then
      let '(off, s) := dt_setpos_tot k s in
      if off then s
      else
        let s := sim_cancel k s in
        let s := sim_activate k (dt_dctime s) s in
        DTS_SETSTA k (Z.lor DTS_DECF (Z.land prev_mot DTS_DIR)) 0 s
    else s
  else
    let s := sim_cancel k s in
    upd_unit k (fun u => set_LASTT (sim_grtime s) (set_STATE 0 u)) s.

Definition dt_reset_tot (running : bool) (s : DT) : DT :=
  let s := foldl (fun s k => reset_unit_tot running k s) s all_units in
  DT_UPDINT (set_dtsb 0 (set_dtsa 0 s)).

Definition fire_tot (k : fin 8) (s : DT) : DT :=
  match timer (unit k s) with
  | None => s
  | Some d => dt_svc_tot k (sim_cancel k (advance d s))
  end.

Definition step_tot (o : op) (s : DT) : option DT :=
  match o with
  | Pulse IR dat => snd <$> dt_tot IR 0 dat s
  | Fire k => Some (fire_tot k s)
  | Wait d => Some (advance d s)
  end.

Fixpoint run_tot (os : list op) (s : DT) : option DT :=
  match os with
  | [] => Some s
  | o :: os => match step_tot o s with Some s' => run_tot os s' | None => None end
  end.

Definition word_time_tot (k : fin 8) (s : DT) : option Z * DT :=
  let s1 := fire_tot k s in
  let flagged := negb (Z.land (dtsb s1) (Z.lor DTB_DTF DTB_BEF) =? 0) in
  match dt_tot MRD 0 0 s1 with
  | Some (dat, s2) => (if flagged then Some dat else None, s2)
  | None => (None, s1)
  end.

Fixpoint read_pass_tot (k : fin 8) (n : nat) (s : DT) : list Z :=
  match n with
  | O => []
  | S n' =>
      let '(w, s') := word_time_tot k s in
      match w with
      | Some x => x :: read_pass_tot k n' s'
      | None => read_pass_tot k n' s'
      end
  end.


(** ** Notions of the specification *)

(** The obverse of bit [n] of an 18-bit word: the same place in the
    mirrored 3-bit group (group [g] goes to group [5 - g]). *)
Definition obverse_bit (n : Z) : Z := 3 * (5 - n / 3) + n mod 3.

(** The data words of block [blk] in the tape image of [u]. *)
Definition block_words (u : UNIT) (blk : Z) : list Z :=
  take (Z.to_nat (DTU_BSIZE u))
       (drop (Z.to_nat (blk * DTU_BSIZE u)) (filebuf u)).

Definition word18 (w : Z) : bool := (0 <=? w) && (w <=? 262143).

Definition Zsum (ws : list Z) : Z := foldr Z.add 0 ws.

(** The 18-bit one's-complement sum of a list of words.  One's-complement
    arithmetic on 18 bits is arithmetic modulo 2^18 - 1, in which zero
    has the two forms 000000 and 777777; an end-around-carry adder that
    has met the all-ones word never gives 000000 again, and the sum is
    held here in that form (777777 for a zero sum). *)
Definition ones_sum18 (ws : list Z) : Z :=
  let r := Zsum ws mod 262143 in
  if r =? 0 then 262143 else r.

(** The complement of an 18-bit word: all 18 bits inverted. *)
Definition compl18 (w : Z) : Z := Z.lxor w 262143.

(** Words per block on the tape of [u]: header, data and trailer. *)
Definition DTU_WPERB (u : UNIT) : Z := 2 * DT_HTWRD + DTU_BSIZE u.

(** A unit as [dt_attach] leaves it: attached, with an image buffer of
    the unit's capacity. *)
Definition attached (u : UNIT) : Prop :=
  u_att u = true /\ Z.of_nat (length (filebuf u)) = DTU_CAPAC u.

(** The register loading of a LOAD COMMAND pulse: the low six bits of
    status A are replaced, the flags and errors of status B cleared. *)
Definition loaded (dat : Z) (s : DT) : DT :=
  let s := set_dtsa (Z.lor (Z.land (dtsa s) (Z.lnot DTA_RW))
                           (Z.land dat DTA_RW)) s in
  set_dtsb (Z.land (dtsb s) (Z.lnot
    (Z.lor (Z.lor (Z.lor DTB_DTF DTB_BEF) DTB_ERF) DTB_ALLERR))) s.

(** The commands that LOAD COMMAND refuses for unit [u]: the unit is
    disabled or not attached, the function is WRITE-MARK, or it is
    WRITE or WRITE ALL and the unit is write-locked. *)
Definition refused (u : UNIT) (fnc : Z) : bool :=
  u_dis u || negb (u_att u) || (fnc =? FNC_WMRK)
  || (((fnc =? FNC_WRIT) || (fnc =? FNC_WALL)) && u_wlk u).

(** The direction a command asks for (1 is reverse) and the direction
    of a unit's motion. *)
Definition cmd_dir (dat : Z) : Z := if Z.land dat DTA_FWDRV =? 0 then 0 else 1.
Definition unit_dir (u : UNIT) : Z := Z.land (DTS_GETMOT (STATE u)) DTS_DIR.

(** The layered state word: current, next and next-next slot. *)
Definition layered (cur nxt nxt2 : Z) : Z :=
  Z.lor (Z.lor cur (Z.shiftl nxt DTS_V_2ND)) (Z.shiftl nxt2 DTS_V_3RD).

(** The word in slot [w] of block [blk] on the tape of [u], header and
    trailer included, and what a READ ALL pass in direction [dir]
    delivers there: nothing in the first and the last slot. *)
Definition slot_word (u : UNIT) (blk w : Z) : Z :=
  if (DT_HTWRD <=? w) && (w <? DT_HTWRD + DTU_BSIZE u)
  then filebuf u !!! Z.to_nat (blk * DTU_BSIZE u + (w - DT_HTWRD))
  else dt_gethdr u blk (DT_WSIZE * w).
Definition slot_out (dir : Z) (u : UNIT) (blk w : Z) : option Z :=
  if (w =? 0) || (w =? DTU_WPERB u - 1) then None
  else Some (if dir =? 0 then slot_word u blk w
             else dt_comobv (slot_word u blk w)).

(** The slots met in [n] word times from slot [w] on, counting up when
    going forward and down in reverse. *)
Definition slots (dir w : Z) (n : nat) : list Z :=
  (fun i => if dir =? 0 then w + Z.of_nat i else w - Z.of_nat i) <$> seq 0 n.

(** Unit [k] is in a READ ALL pass in direction [dir] over the tape of
    [u0], at speed, its next event one word time ahead and due in slot
    [w] of block [blk]; the host has taken the last word. *)
Definition reading (k : fin 8) (u0 : UNIT) (dir blk w : Z) (s : DT) : Prop :=
  dev_dis s = false
  /\ 0 < dt_ltime s /\ DT_WSIZE * dt_ltime s < 2 ^ 31
  /\ u_att (unit k s) = true
  /\ u_8fmt (unit k s) = u_8fmt u0 /\ filebuf (unit k s) = filebuf u0
  /\ STATE (unit k s) = DTS_STA (Z.lor DTS_ATSF dir) FNC_RALL
  /\ timer (unit k s) = Some (DT_WSIZE * dt_ltime s)
  /\ LASTT (unit k s) = sim_rtime s
  /\ pos (unit k s) =
     DT_BLK2LN blk u0 + DT_WSIZE * w + (if dir =? 0 then -1 else DT_WSIZE)
  /\ Z.land (dtsb s) (Z.lor DTB_DTF DTB_BEF) = 0.

(** ** Notions for the controller as a whole *)

(** [s'] differs from [s] in unit [k] and the controller's registers at
    most: the other units, the timing registers, the clock and the
    device flag are those of [s]. *)
Definition only_unit (k : fin 8) (s s' : DT) : Prop :=
  (forall j, k <> j -> unit j s' = unit j s)
  /\ dt_ltime s' = dt_ltime s /\ dt_actime s' = dt_actime s
  /\ dt_dctime s' = dt_dctime s /\ sim_rtime s' = sim_rtime s
  /\ dev_dis s' = dev_dis s /\ stop_inst s' = stop_inst s.

(** A unit without a tape is at rest at line 0. *)
Definition unit_clean (u : UNIT) : Prop :=
  u_att u = false -> STATE u = 0 /\ pos u = 0.
Definition detached_clean (s : DT) : Prop :=
  forall j, unit_clean (unit j s).

(** Unit [k] is at speed in direction [dir] with the function [fnc] and
    nothing pending, its position is up to date and its next event is
    due [n] lines ahead. *)
Definition cruising (k : fin 8) (dir fnc n : Z) (s : DT) : Prop :=
  (dir = 0 \/ dir = 1)
  /\ 0 < dt_ltime s /\ 0 < n /\ n * dt_ltime s < 2 ^ 31
  /\ u_att (unit k s) = true
  /\ STATE (unit k s) = DTS_STA (Z.lor DTS_ATSF dir) fnc
  /\ timer (unit k s) = Some (n * dt_ltime s)
  /\ LASTT (unit k s) = sim_rtime s
  /\ 0 <= pos (unit k s) < 2 ^ 32.

(** ** Example states *)

Definition blank_unit : UNIT :=
  mkUNIT false false false false 0 0 0 [] 0 None.

(** A freshly attached 18b unit with a blank tape, as [dt_attach] leaves
    it at time 0: beyond the leader, stopped. *)
Definition fresh_unit : UNIT :=
  mkUNIT true false false false DT_EZLIN 0 0
         (replicate (Z.to_nat D18_CAPAC) 0) 0 None.

(** The controller with the timing registers [lt], [ac], [dc], unit 1
    freshly attached and nothing selected. *)
Definition fresh_state (lt ac dc : Z) : DT :=
  mkDT 0 0 0 lt ac dc 0 0 0 false 0
       (vinsert 1%fin fresh_unit (vreplicate 8 blank_unit)).

(** A tape, blank but for three words of block 3, on unit 1, and the
    controller in a READ ALL pass over it in direction [dir], one word
    time away from its next event, at position [p] and time [t]. *)
Definition marked_tape : list Z :=
  <[768%nat := 1]> (<[769%nat := 262143]> (<[1023%nat := 4660]>
    (replicate (Z.to_nat D18_CAPAC) 0))).
Definition marked_unit (dir p t : Z) : UNIT :=
  mkUNIT true false false false p (DTS_STA (Z.lor DTS_ATSF dir) FNC_RALL) t
         marked_tape 1024 (Some 72).
Definition pass_state (dir p t : Z) : DT :=
  mkDT (Z.lor (Z.shiftl 1 DTA_V_UNIT) (Z.lor DTA_STSTP FNC_RALL))
       0 0 12 54000 72000 DTO_SOB 0 0 false t
       (vinsert 1%fin (marked_unit dir p t) (vreplicate 8 blank_unit)).

(** Unit 1 selected and attached with the tape image [tape], in the
    state [st] at line [p], its position up to date at time [t] and its
    timer at [tm]; the data buffer holds [db]. *)
Definition drive_state (tape : list Z) (st p t : Z) (tm : option Z) (db : Z) : DT :=
  mkDT (Z.shiftl 1 DTA_V_UNIT) 0 db 12 54000 72000 0 0 0 false t
       (vinsert 1%fin (mkUNIT true false false false p st t tape 0 tm)
          (vreplicate 8 blank_unit)).

(** * Properties *)

(** ** Bit-level facts *)

Lemma testbit_const_high c k n :
  0 <= c < 2 ^ k -> 0 <= k -> k <= n -> Z.testbit c n = false.
Proof.
  intros Hc Hk Hn.
  destruct (Z.eq_dec c 0) as [->|Hne]; [apply Z.testbit_0_l|].
  apply Z.bits_above_log2; [lia|].
  assert (Z.log2 c < k) by (apply Z.log2_lt_pow2; lia). lia.
Qed.

Ltac bits_step :=
  first [ rewrite Z.lor_spec | rewrite Z.land_spec | rewrite Z.lxor_spec
        | rewrite Z.shiftr_spec by lia | rewrite Z.shiftl_spec by lia ].

Ltac const_bits :=
  repeat match goal with
  | |- context [Z.testbit (Zpos ?p) ?i] =>
      let i' := eval vm_compute in i in
      let b := eval vm_compute in (Z.testbit (Zpos p) i') in
      change (Z.testbit (Zpos p) i) with b
  end.

Ltac norm_idx :=
  repeat match goal with
  | |- context [Z.testbit ?x ?i] =>
      lazymatch i with
      | Zpos _ => fail | Z0 => fail | Zneg _ => fail
      | _ => let i' := eval vm_compute in i in change i with i'
      end
  end.

Ltac bool_simp :=
  rewrite ?andb_false_r, ?andb_true_r, ?orb_false_r, ?orb_false_l,
    ?xorb_true_r, ?xorb_false_r.

(** Case analysis on every condition left in the goal. *)
Ltac split_ifs :=
  repeat match goal with |- context [if ?c then _ else _] => destruct c end.

Ltac bit_case := repeat bits_step; norm_idx; const_bits; bool_simp; reflexivity.

Lemma small_cases18 n :
  0 <= n < 18 ->
  n = 17 \/ n = 16 \/ n = 15 \/ n = 14 \/ n = 13 \/ n = 12 \/ n = 11
  \/ n = 10 \/ n = 9 \/ n = 8 \/ n = 7 \/ n = 6 \/ n = 5 \/ n = 4 \/ n = 3
  \/ n = 2 \/ n = 1 \/ n = 0.
Proof. lia. Qed.

(** [dt_comobv] in the words of the specification: every one of the 18
    bits is inverted and the six 3-bit groups change places end for end;
    nothing is left above bit 17. *)
Lemma dt_comobv_testbit x n :
  0 <= n ->
  Z.testbit (dt_comobv x) n =
  if n <? 18 then negb (Z.testbit x (obverse_bit n)) else false.
Proof.
  intros Hn. destruct (Z.ltb_spec n 18) as [Hlt|Hge].
  - pose proof (small_cases18 n (conj Hn Hlt)) as Hc. unfold dt_comobv.
    repeat (destruct Hc as [->|Hc]; [bit_case|]). subst n. bit_case.
  - unfold dt_comobv. repeat bits_step.
    rewrite (testbit_const_high 7 3 n), (testbit_const_high 56 6 n),
      (testbit_const_high 448 9 n), (testbit_const_high 448 9 (n - 3)),
      (testbit_const_high 56 6 (n - 9)), (testbit_const_high 7 3 (n - 15)) by lia.
    rewrite !andb_false_r. reflexivity.
Qed.

Lemma obverse_bit_range n : 0 <= n < 18 -> 0 <= obverse_bit n < 18.
Proof.
  intros H. pose proof (small_cases18 n H) as Hc.
  repeat (destruct Hc as [->|Hc]; [vm_compute; split; congruence|]).
  subst n; vm_compute; split; congruence.
Qed.

Lemma obverse_bit_involutive n : 0 <= n < 18 -> obverse_bit (obverse_bit n) = n.
Proof.
  intros H. pose proof (small_cases18 n H) as Hc.
  repeat (destruct Hc as [->|Hc]; [reflexivity|]). subst n; reflexivity.
Qed.

Lemma dt_comobv_twice x : dt_comobv (dt_comobv x) = Z.land x 262143.
Proof.
  apply Z.bits_inj'. intros n Hn.
  rewrite dt_comobv_testbit, Z.land_spec by lia.
  destruct (Z.ltb_spec n 18) as [Hlt|Hge].
  - pose proof (obverse_bit_range n (conj Hn Hlt)) as Hr.
    rewrite dt_comobv_testbit by lia.
    destruct (Z.ltb_spec (obverse_bit n) 18); [|lia].
    rewrite negb_involutive, obverse_bit_involutive by lia.
    change 262143 with (Z.ones 18). rewrite Z.ones_spec_low by lia.
    now rewrite andb_true_r.
  - rewrite (testbit_const_high 262143 18 n) by lia. now rewrite andb_false_r.
Qed.

Lemma dt_comobv_range x : 0 <= dt_comobv x <= 262143.
Proof.
  assert (H : dt_comobv x = Z.land (dt_comobv x) 262143).
  { apply Z.bits_inj'. intros n Hn. rewrite Z.land_spec.
    destruct (Z.ltb_spec n 18) as [Hlt|Hge].
    - change 262143 with (Z.ones 18). rewrite Z.ones_spec_low by lia.
      now rewrite andb_true_r.
    - rewrite dt_comobv_testbit by lia.
      destruct (Z.ltb_spec n 18); [lia|]. reflexivity. }
  rewrite H. change 262143 with (Z.ones 18). rewrite Z.land_ones by lia.
  pose proof (Z.mod_pos_bound (dt_comobv x) (2 ^ 18) ltac:(lia)).
  change (Z.ones 18) with (2 ^ 18 - 1). lia.
Qed.

(** C3.  The obverse-complement transform is self-inverse on 18-bit
    words: applying [dt_comobv] twice to a value of 0..0777777 gives the
    value back. *)
Theorem dt_comobv_involutive (x : Z) :
  0 <= x <= 262143 -> dt_comobv (dt_comobv x) = x.
Proof.
  intros Hx. rewrite dt_comobv_twice.
  change 262143 with (Z.ones 18). rewrite Z.land_ones by lia.
  apply Z.mod_small. change (2 ^ 18) with 262144. lia.
Qed.

Lemma dt_comobv_involutive_witness :
  0 <= 123456 <= 262143 /\ dt_comobv (dt_comobv 123456) = 123456.
Proof. split; [lia | apply (dt_comobv_involutive 123456); lia]. Defined.

(** ** The checksum *)

Lemma csum_step_range c w :
  1 <= c <= 262143 -> 0 <= w <= 262143 ->
  1 <= csum_step c w <= 262143 /\ (csum_step c w - (c + w)) mod 262143 = 0.
Proof.
  intros Hc Hw. unfold csum_step.
  destruct (Z.gtb_spec (c + w) 262143) as [Hgt|Hle].
  - change (Z.land (c + w + 1) 262143) with (Z.land (c + w + 1) (Z.ones 18)).
    rewrite Z.land_ones by lia. change (2 ^ 18) with 262144.
    assert (E : (c + w + 1) mod 262144 = c + w + 1 - 262144).
    { symmetry. apply (Z.mod_unique _ _ 1); lia. }
    rewrite E. split; [lia|].
    replace (c + w + 1 - 262144 - (c + w)) with (-1 * 262143) by lia.
    apply Z.mod_mul. lia.
  - split; [lia|]. now rewrite Z.sub_diag.
Qed.

Lemma csum_fold_range ws : forall c,
  1 <= c <= 262143 -> forallb word18 ws = true ->
  1 <= fold_left csum_step ws c <= 262143
  /\ (fold_left csum_step ws c - (c + Zsum ws)) mod 262143 = 0.
Proof.
  induction ws as [|w ws IH]; intros c Hc Hws; simpl.
  - split; [lia|]. replace (c - (c + 0)) with 0 by lia. reflexivity.
  - simpl in Hws. apply andb_prop in Hws as [Hw Hws].
    unfold word18 in Hw. apply andb_prop in Hw as [Hw1 Hw2].
    apply Z.leb_le in Hw1, Hw2.
    destruct (csum_step_range c w Hc (conj Hw1 Hw2)) as [Hr Hm].
    destruct (IH _ Hr Hws) as [Hr' Hm'].
    split; [exact Hr'|].
    replace (fold_left csum_step ws (csum_step c w) - (c + (w + Zsum ws)))
      with ((fold_left csum_step ws (csum_step c w) - (csum_step c w + Zsum ws))
            + (csum_step c w - (c + w))) by lia.
    rewrite Z.add_mod, Hm, Hm' by lia. reflexivity.
Qed.

Lemma csum_loop_fold bptr ba n : forall i c,
  0 <= ba + i -> (Z.to_nat (ba + i) + n <= length bptr)%nat ->
  csum_loop bptr ba n i c =
  fold_left csum_step (take n (drop (Z.to_nat (ba + i)) bptr)) c.
Proof.
  induction n as [|n IH]; intros i c Hi Hlen; simpl.
  - reflexivity.
  - assert (Hlt : (Z.to_nat (ba + i) < length bptr)%nat) by lia.
    destruct (lookup_lt_is_Some_2 _ _ Hlt) as [x Hx].
    rewrite (drop_S _ _ _ Hx). simpl.
    rewrite (list_lookup_total_correct _ _ _ Hx).
    rewrite IH by lia.
    replace (Z.to_nat (ba + (i + 1))) with (S (Z.to_nat (ba + i))) by lia.
    reflexivity.
Qed.

(** The checksum law: on a block of 18-bit words [dt_csum] is the
    complement of the one's-complement sum of the block's words. *)
Lemma dt_csum_law u blk :
  Z.of_nat (length (filebuf u)) = DTU_CAPAC u ->
  0 <= blk < DTU_TSIZE u ->
  forallb word18 (block_words u blk) = true ->
  dt_csum u blk = compl18 (ones_sum18 (block_words u blk)).
Proof.
  intros Hlen Hblk Hws. unfold dt_csum, compl18. f_equal.
  assert (Hb : 0 < DTU_BSIZE u) by (unfold DTU_BSIZE; destruct (u_8fmt u); reflexivity).
  assert (Hcap : DTU_CAPAC u = DTU_TSIZE u * DTU_BSIZE u)
    by (unfold DTU_CAPAC, DTU_TSIZE, DTU_BSIZE; destruct (u_8fmt u); reflexivity).
  rewrite csum_loop_fold; rewrite ?Z.add_0_r;
    [| nia | nia].
  fold (block_words u blk).
  destruct (csum_fold_range (block_words u blk) 262143 ltac:(lia) Hws) as [Hr Hm].
  set (S := fold_left csum_step (block_words u blk) 262143) in *.
  unfold ones_sum18.
  assert (HS : S mod 262143 = Zsum (block_words u blk) mod 262143).
  { replace S with ((S - (262143 + Zsum (block_words u blk)))
                    + (1 * 262143 + Zsum (block_words u blk))) at 1 by lia.
    rewrite Z.add_mod, Hm by lia. rewrite Z.add_0_l, Z.mod_mod by lia.
    rewrite Z.add_comm, Z.mod_add by lia. reflexivity. }
  rewrite <- HS.
  destruct (Z.eq_dec S 262143) as [->|Hne]; [reflexivity|].
  rewrite Z.mod_small by lia.
  destruct (Z.eqb_spec S 0); [lia|reflexivity].
Qed.

(** The two tape geometries. *)
Lemma geometry u :
  (DTU_BSIZE u = 256 /\ DTU_TSIZE u = 578 /\ DTU_LPERB u = 1596
   /\ DTU_FWDEZ u = 958488 /\ DTU_CAPAC u = 147968 /\ DTU_WPERB u = 266)
  \/ (DTU_BSIZE u = 86 /\ DTU_TSIZE u = 1474 /\ DTU_LPERB u = 576
      /\ DTU_FWDEZ u = 885024 /\ DTU_CAPAC u = 126764 /\ DTU_WPERB u = 96).
Proof.
  unfold DTU_BSIZE, DTU_TSIZE, DTU_LPERB, DTU_FWDEZ, DTU_CAPAC, DTU_WPERB, DTU_BSIZE.
  destruct (u_8fmt u); [right|left]; repeat split; reflexivity.
Qed.

(** C1.  Header and trailer synthesis.  For an attached unit, a block
    number on the tape and a line position in the header or trailer of
    the block, the word made up by [dt_gethdr] is: the block number at
    word 1; the all-ones word 0777777 at word 4; at word (words per
    block - 4 - 1) the forward checksum, which is the complement of the
    18-bit one's-complement sum of the block's data words (these being
    18-bit words); at word (words per block - 1 - 1) the obverse
    complement of the block number; and 0 at every other word. *)
Theorem dt_gethdr_words (u : UNIT) (blk relpos : Z) :
  attached u ->
  0 <= blk < DTU_TSIZE u ->
  forallb word18 (block_words u blk) = true ->
  (0 <= relpos < DT_HTLIN
   \/ DTU_LPERB u - DT_HTLIN <= relpos < DTU_LPERB u) ->
  let wrd := relpos / DT_WSIZE in
  (wrd = DT_BLKWD -> dt_gethdr u blk relpos = blk) /\
  (wrd = DT_CSMWD -> dt_gethdr u blk relpos = 262143) /\
  (wrd = DTU_WPERB u - DT_CSMWD - 1 ->
   dt_gethdr u blk relpos = compl18 (ones_sum18 (block_words u blk))) /\
  (wrd = DTU_WPERB u - DT_BLKWD - 1 ->
   dt_gethdr u blk relpos = dt_comobv blk) /\
  (wrd <> DT_BLKWD -> wrd <> DT_CSMWD ->
   wrd <> DTU_WPERB u - DT_CSMWD - 1 -> wrd <> DTU_WPERB u - DT_BLKWD - 1 ->
   dt_gethdr u blk relpos = 0).
Proof.
  intros [_ Hlen] Hblk Hws Hrel wrd.
  assert (Hpos : 0 <= relpos).
  { change DT_HTLIN with 30 in Hrel.
    destruct (geometry u) as [(_&_&E&_)|(_&_&E&_)]; rewrite E in Hrel; lia. }
  assert (Hq : Z.quot relpos DT_WSIZE = wrd)
    by (apply Z.quot_div_nonneg; [exact Hpos | reflexivity]).
  pose proof (dt_csum_law u blk Hlen Hblk Hws) as Hcs.
  unfold dt_gethdr. rewrite Hq. fold (DTU_WPERB u).
  assert (Hw : DTU_WPERB u = 266 \/ DTU_WPERB u = 96)
    by (destruct (geometry u) as [(_&_&_&_&_&E)|(_&_&_&_&_&E)]; rewrite E; lia).
  change DT_BLKWD with 1. change DT_CSMWD with 4.
  replace (2 * DT_HTWRD + DTU_BSIZE u) with (DTU_WPERB u) by reflexivity.
  destruct (Z.eqb_spec wrd 1), (Z.eqb_spec wrd 4),
    (Z.eqb_spec wrd (DTU_WPERB u - 4 - 1)), (Z.eqb_spec wrd (DTU_WPERB u - 1 - 1));
    repeat split; intros; try congruence; try lia.
Qed.

Lemma dt_gethdr_words_witness :
  dt_gethdr fresh_unit 3 1568 = compl18 (ones_sum18 (block_words fresh_unit 3)).
Proof.
  refine (proj1 (proj2 (proj2 (dt_gethdr_words fresh_unit 3 1568 _ _ _ _))) _).
  - split; vm_compute; reflexivity.
  - vm_compute; split; congruence.
  - vm_compute; reflexivity.
  - right. vm_compute. split; congruence.
  - vm_compute; reflexivity.
Defined.

(** A blank block (all words 0) has the zero sum in its all-ones form
    and hence the checksum 0. *)
Example dt_csum_blank : dt_csum fresh_unit 0 = 0.
Proof. vm_compute. reflexivity. Qed.

(** ** The unit table and the frame of the primitive steps *)

Lemma unit_upd_eq k f s : unit k (upd_unit k f s) = f (unit k s).
Proof. unfold unit, upd_unit; simpl. apply vlookup_insert. Qed.

Lemma unit_upd_ne k j f s : k <> j -> unit j (upd_unit k f s) = unit j s.
Proof. intros. unfold unit, upd_unit; simpl. now apply vlookup_insert_ne. Qed.

Lemma upd_unit_twice k f g s :
  upd_unit k f (upd_unit k g s) = upd_unit k (fun u => f (g u)) s.
Proof.
  unfold upd_unit at 1 3. rewrite unit_upd_eq.
  unfold upd_unit, set_units; simpl. f_equal.
  apply vec_eq. intros j. destruct (decide (k = j)) as [->|Hne].
  - now rewrite !vlookup_insert.
  - now rewrite !vlookup_insert_ne by assumption.
Qed.

Lemma upd_unit_id k f s : f (unit k s) = unit k s -> upd_unit k f s = s.
Proof.
  intros E. unfold upd_unit. rewrite E. unfold unit, set_units.
  destruct s; simpl. f_equal.
  apply vec_eq. intros j. destruct (decide (k = j)) as [->|Hne].
  - now rewrite vlookup_insert.
  - now rewrite vlookup_insert_ne by assumption.
Qed.

Lemma unit_set_dtsa k v s : unit k (set_dtsa v s) = unit k s.
Proof. reflexivity. Qed.
Lemma unit_set_dtsb k v s : unit k (set_dtsb v s) = unit k s.
Proof. reflexivity. Qed.
Lemma unit_set_dtdb k v s : unit k (set_dtdb v s) = unit k s.
Proof. reflexivity. Qed.
Lemma unit_set_substate k v s : unit k (set_substate v s) = unit k s.
Proof. reflexivity. Qed.
Lemma unit_set_sbs k v s : unit k (set_sbs v s) = unit k s.
Proof. reflexivity. Qed.
Lemma unit_set_rtime k v s : unit k (set_rtime v s) = unit k s.
Proof. reflexivity. Qed.

Lemma dtsa_upd k f s : dtsa (upd_unit k f s) = dtsa s.
Proof. reflexivity. Qed.
Lemma dtsb_upd k f s : dtsb (upd_unit k f s) = dtsb s.
Proof. reflexivity. Qed.
Lemma dtdb_upd k f s : dtdb (upd_unit k f s) = dtdb s.
Proof. reflexivity. Qed.
Lemma ltime_upd k f s : dt_ltime (upd_unit k f s) = dt_ltime s.
Proof. reflexivity. Qed.
Lemma actime_upd k f s : dt_actime (upd_unit k f s) = dt_actime s.
Proof. reflexivity. Qed.
Lemma dctime_upd k f s : dt_dctime (upd_unit k f s) = dt_dctime s.
Proof. reflexivity. Qed.
Lemma substate_upd k f s : dt_substate (upd_unit k f s) = dt_substate s.
Proof. reflexivity. Qed.
Lemma sbs_upd k f s : sbs (upd_unit k f s) = sbs s.
Proof. reflexivity. Qed.
Lemma rtime_upd k f s : sim_rtime (upd_unit k f s) = sim_rtime s.
Proof. reflexivity. Qed.
Lemma dev_dis_upd k f s : dev_dis (upd_unit k f s) = dev_dis s.
Proof. reflexivity. Qed.

Lemma unit_UPDINT k s : unit k (DT_UPDINT s) = unit k s.
Proof. unfold DT_UPDINT. now destruct (_ =? 0). Qed.
Lemma units_UPDINT s : dt_unit (DT_UPDINT s) = dt_unit s.
Proof. unfold DT_UPDINT. now destruct (_ =? 0). Qed.
Lemma dtsa_UPDINT s : dtsa (DT_UPDINT s) = dtsa s.
Proof. unfold DT_UPDINT. now destruct (_ =? 0). Qed.
Lemma dtsb_UPDINT s : dtsb (DT_UPDINT s) = dtsb s.
Proof. unfold DT_UPDINT. now destruct (_ =? 0). Qed.
Lemma dtdb_UPDINT s : dtdb (DT_UPDINT s) = dtdb s.
Proof. unfold DT_UPDINT. now destruct (_ =? 0). Qed.
Lemma ltime_UPDINT s : dt_ltime (DT_UPDINT s) = dt_ltime s.
Proof. unfold DT_UPDINT. now destruct (_ =? 0). Qed.
Lemma actime_UPDINT s : dt_actime (DT_UPDINT s) = dt_actime s.
Proof. unfold DT_UPDINT. now destruct (_ =? 0). Qed.
Lemma dctime_UPDINT s : dt_dctime (DT_UPDINT s) = dt_dctime s.
Proof. unfold DT_UPDINT. now destruct (_ =? 0). Qed.
Lemma substate_UPDINT s : dt_substate (DT_UPDINT s) = dt_substate s.
Proof. unfold DT_UPDINT. now destruct (_ =? 0). Qed.
Lemma rtime_UPDINT s : sim_rtime (DT_UPDINT s) = sim_rtime s.
Proof. unfold DT_UPDINT. now destruct (_ =? 0). Qed.

Create Rewrite HintDb dtrw.
#[local] Hint Rewrite unit_upd_eq unit_set_dtsa unit_set_dtsb unit_set_dtdb
  unit_set_substate unit_set_sbs unit_set_rtime
  dtsa_upd dtsb_upd dtdb_upd ltime_upd actime_upd dctime_upd substate_upd
  sbs_upd rtime_upd dev_dis_upd
  unit_UPDINT units_UPDINT dtsa_UPDINT dtsb_UPDINT dtdb_UPDINT ltime_UPDINT
  actime_UPDINT dctime_UPDINT substate_UPDINT rtime_UPDINT : dtrw.

(** ** Pulse 5, READ DATA *)

(** [dt_MRD_frame] on the routines with the total division. *)
Lemma dt_MRD_frame_tot (IR dev dat : Z) (s : DT) :
  Z.land (Z.shiftr IR 6) 31 = 5 ->
  exists dat' s',
    dt_tot IR dev dat s = Some (dat', s')
    /\ dtdb s' = dtdb s /\ dtsa s' = dtsa s /\ dt_unit s' = dt_unit s
    /\ (dev_dis s = false ->
        dat' = Z.lor (Z.land dat (Z.lnot DMASK)) (dtdb s)
        /\ dtsb s' = Z.land (dtsb s) (Z.lnot (Z.lor DTB_DTF DTB_BEF))).
Proof.
  intros Hp. unfold dt_tot. rewrite Hp.
  destruct (dev_dis s) eqn:Hd.
  - eexists _, s. split; [reflexivity|]. repeat split; discriminate.
  - change (5 =? 3) with false. change (5 =? 4) with false.
    change (5 =? 5) with true. cbv iota.
    eexists _, _. split; [reflexivity|].
    autorewrite with dtrw. simpl. repeat split; reflexivity.
Qed.

(** ** The position update *)

Lemma pos_delta_upd k f s mot ut : delta_lines (upd_unit k f s) mot ut = delta_lines s mot ut.
Proof. reflexivity. Qed.

Lemma upd_unit_ext k f g s :
  f (unit k s) = g (unit k s) -> upd_unit k f s = upd_unit k g s.
Proof. unfold upd_unit. now intros ->. Qed.

(** No time gone by: nothing changes. *)
Lemma dt_setpos_zero k s : elapsed k s = 0 -> dt_setpos_tot k s = (false, s).
Proof.
  unfold elapsed, dt_setpos_tot. intros E. rewrite E. reflexivity.
Qed.

(** Time has gone by and the new position is on the reel. *)
Lemma dt_setpos_on k s :
  elapsed k s <> 0 -> on_reel (next_pos k s) (unit k s) = true ->
  dt_setpos_tot k s =
  (false, upd_unit k (fun u => set_pos (next_pos k s)
                                 (set_LASTT (sim_grtime s) u)) s).
Proof.
  intros E R. unfold dt_setpos_tot. fold (elapsed k s).
  destruct (Z.eqb_spec (elapsed k s) 0) as [|_]; [contradiction|].
  cbv zeta. rewrite pos_delta_upd.
  unfold on_reel in R. apply negb_true_iff in R.
  unfold next_pos in *.
  unfold DTU_FWDEZ in *.
  destruct (Z.land (DTS_GETMOT (STATE (unit k s))) DTS_DIR =? 0);
    rewrite upd_unit_twice, unit_upd_eq; simpl; rewrite R;
    f_equal; apply upd_unit_ext; reflexivity.
Qed.

Lemma dt_setpos_off k s :
  elapsed k s <> 0 -> on_reel (next_pos k s) (unit k s) = false ->
  dt_setpos_tot k s = (true, off_reel_state k s).
Proof.
  intros E R. unfold dt_setpos_tot. fold (elapsed k s).
  destruct (Z.eqb_spec (elapsed k s) 0) as [|_]; [contradiction|].
  cbv zeta. rewrite pos_delta_upd.
  unfold on_reel in R. apply negb_false_iff in R.
  unfold next_pos in *. unfold off_reel_state, detach_unit.
  unfold DTU_FWDEZ in *.
  destruct (Z.land (DTS_GETMOT (STATE (unit k s))) DTS_DIR =? 0);
    rewrite upd_unit_twice, unit_upd_eq; simpl; rewrite R;
    rewrite !upd_unit_twice;
    match goal with
    | |- (true, (if _ then dt_seterr_with_tot _ _ _ ?a else _)) =
         (true, (if _ then dt_seterr_with_tot _ _ _ ?b else _)) =>
        replace a with b by (apply upd_unit_ext; reflexivity)
    end; reflexivity.
Qed.

Lemma dt_setpos_cases k s :
  (elapsed k s = 0 /\ dt_setpos_tot k s = (false, s))
  \/ (elapsed k s <> 0 /\ on_reel (next_pos k s) (unit k s) = true
      /\ dt_setpos_tot k s =
         (false, upd_unit k (fun u => set_pos (next_pos k s)
                                        (set_LASTT (sim_grtime s) u)) s))
  \/ (elapsed k s <> 0 /\ on_reel (next_pos k s) (unit k s) = false
      /\ dt_setpos_tot k s = (true, off_reel_state k s)).
Proof.
  destruct (Z.eq_dec (elapsed k s) 0) as [E|E].
  - left. split; [exact E | now apply dt_setpos_zero].
  - right. destruct (on_reel (next_pos k s) (unit k s)) eqn:R.
    + left. repeat split; try assumption. now apply dt_setpos_on.
    + right. repeat split; try assumption. now apply dt_setpos_off.
Qed.

Lemma dt_setpos_stays k s :
  stays_on_reel k s = true -> dt_setpos_tot k s = (false, moved k s).
Proof.
  unfold stays_on_reel, moved. intros H.
  destruct (Z.eqb_spec (elapsed k s) 0) as [E|E].
  - now apply dt_setpos_zero.
  - simpl in H. now apply dt_setpos_on.
Qed.

Lemma dt_setpos_leaves k s :
  stays_on_reel k s = false -> dt_setpos_tot k s = (true, off_reel_state k s).
Proof.
  unfold stays_on_reel. intros H.
  destruct (Z.eqb_spec (elapsed k s) 0) as [E|E]; [discriminate|].
  simpl in H. now apply dt_setpos_off.
Qed.

Lemma dt_setpos_false k s s' :
  dt_setpos_tot k s = (false, s') -> stays_on_reel k s = true /\ s' = moved k s.
Proof.
  intros H. destruct (stays_on_reel k s) eqn:R.
  - rewrite (dt_setpos_stays k s R) in H. split; congruence.
  - rewrite (dt_setpos_leaves k s R) in H. discriminate.
Qed.

(** What the update leaves alone. *)
Lemma unit_moved_ne k j s : k <> j -> unit j (moved k s) = unit j s.
Proof.
  intros. unfold moved. destruct (_ =? 0); [reflexivity|].
  now apply unit_upd_ne.
Qed.

Lemma unit_moved k s :
  unit k (moved k s) =
  if elapsed k s =? 0 then unit k s
  else set_pos (next_pos k s) (set_LASTT (sim_grtime s) (unit k s)).
Proof.
  unfold moved. destruct (_ =? 0); [reflexivity|]. now rewrite unit_upd_eq.
Qed.

Lemma dtsa_moved k s : dtsa (moved k s) = dtsa s.
Proof. unfold moved. now destruct (_ =? 0). Qed.
Lemma dtsb_moved k s : dtsb (moved k s) = dtsb s.
Proof. unfold moved. now destruct (_ =? 0). Qed.
Lemma dtdb_moved k s : dtdb (moved k s) = dtdb s.
Proof. unfold moved. now destruct (_ =? 0). Qed.
Lemma ltime_moved k s : dt_ltime (moved k s) = dt_ltime s.
Proof. unfold moved. now destruct (_ =? 0). Qed.
Lemma actime_moved k s : dt_actime (moved k s) = dt_actime s.
Proof. unfold moved. now destruct (_ =? 0). Qed.
Lemma dctime_moved k s : dt_dctime (moved k s) = dt_dctime s.
Proof. unfold moved. now destruct (_ =? 0). Qed.
Lemma rtime_moved k s : sim_rtime (moved k s) = sim_rtime s.
Proof. unfold moved. now destruct (_ =? 0). Qed.
Lemma sbs_moved k s : sbs (moved k s) = sbs s.
Proof. unfold moved. now destruct (_ =? 0). Qed.
Lemma substate_moved k s : dt_substate (moved k s) = dt_substate s.
Proof. unfold moved. now destruct (_ =? 0). Qed.

Lemma STATE_moved k s : STATE (unit k (moved k s)) = STATE (unit k s).
Proof. rewrite unit_moved. now destruct (_ =? 0). Qed.
Lemma timer_moved k s : timer (unit k (moved k s)) = timer (unit k s).
Proof. rewrite unit_moved. now destruct (_ =? 0). Qed.
Lemma att_moved k s : u_att (unit k (moved k s)) = u_att (unit k s).
Proof. rewrite unit_moved. now destruct (_ =? 0). Qed.
Lemma fmt_moved k s : u_8fmt (unit k (moved k s)) = u_8fmt (unit k s).
Proof. rewrite unit_moved. now destruct (_ =? 0). Qed.
Lemma filebuf_moved k s : filebuf (unit k (moved k s)) = filebuf (unit k s).
Proof. rewrite unit_moved. now destruct (_ =? 0). Qed.
Lemma hwmark_moved k s : hwmark (unit k (moved k s)) = hwmark (unit k s).
Proof. rewrite unit_moved. now destruct (_ =? 0). Qed.
Lemma pos_moved k s :
  pos (unit k (moved k s)) =
  if elapsed k s =? 0 then pos (unit k s) else next_pos k s.
Proof. rewrite unit_moved. now destruct (_ =? 0). Qed.

Lemma u32_diag x : u32 (x - x) = 0.
Proof. now rewrite Z.sub_diag. Qed.

(** Once updated, a second update at the same time does nothing. *)
Lemma elapsed_moved k s : elapsed k (moved k s) = 0.
Proof.
  unfold elapsed at 1. unfold sim_grtime. rewrite rtime_moved, unit_moved.
  destruct (Z.eqb_spec (elapsed k s) 0) as [E|E]; [exact E|].
  simpl. apply u32_diag.
Qed.

#[local] Hint Rewrite dtsa_moved dtsb_moved dtdb_moved ltime_moved actime_moved
  dctime_moved rtime_moved sbs_moved substate_moved STATE_moved timer_moved
  att_moved fmt_moved filebuf_moved hwmark_moved elapsed_moved : dtrw.

Lemma elapsed_upd k j f s :
  (forall u, LASTT (f u) = LASTT u) -> elapsed k (upd_unit j f s) = elapsed k s.
Proof.
  intros H. unfold elapsed, sim_grtime. rewrite rtime_upd.
  destruct (decide (j = k)) as [->|Hne].
  - now rewrite unit_upd_eq, H.
  - now rewrite unit_upd_ne.
Qed.

Lemma next_pos_upd k j f s :
  (forall u, LASTT (f u) = LASTT u) -> (forall u, pos (f u) = pos u) ->
  (forall u, STATE (f u) = STATE u) ->
  next_pos k (upd_unit j f s) = next_pos k s.
Proof.
  intros H1 H2 H3. unfold next_pos. rewrite elapsed_upd, pos_delta_upd by assumption.
  destruct (decide (j = k)) as [->|Hne].
  - now rewrite unit_upd_eq, H2, H3.
  - now rewrite unit_upd_ne.
Qed.

Lemma stays_upd k j f s :
  (forall u, LASTT (f u) = LASTT u) -> (forall u, pos (f u) = pos u) ->
  (forall u, STATE (f u) = STATE u) -> (forall u, u_8fmt (f u) = u_8fmt u) ->
  stays_on_reel k (upd_unit j f s) = stays_on_reel k s.
Proof.
  intros H1 H2 H3 H4. unfold stays_on_reel.
  rewrite elapsed_upd, next_pos_upd by assumption.
  unfold on_reel, DTU_FWDEZ.
  destruct (decide (j = k)) as [->|Hne].
  - now rewrite unit_upd_eq, H4.
  - now rewrite unit_upd_ne.
Qed.

Lemma moved_unit_upd k f s :
  (forall u, LASTT (f u) = LASTT u) -> (forall u, pos (f u) = pos u) ->
  (forall u, STATE (f u) = STATE u) ->
  (forall p t u, set_pos p (set_LASTT t (f u)) = f (set_pos p (set_LASTT t u))) ->
  unit k (moved k (upd_unit k f s)) = f (unit k (moved k s)).
Proof.
  intros H1 H2 H3 H4. rewrite !unit_moved.
  rewrite elapsed_upd, next_pos_upd, unit_upd_eq by assumption.
  destruct (_ =? 0); [reflexivity|]. apply H4.
Qed.

(** ** The error setter *)

Lemma lor_has_bit x e n : Z.testbit e n = true -> Z.testbit (Z.lor x e) n = true.
Proof. intros H. now rewrite Z.lor_spec, H, orb_true_r. Qed.

Lemma lor_keeps_bit x e n : Z.testbit x n = true -> Z.testbit (Z.lor x e) n = true.
Proof. intros H. now rewrite Z.lor_spec, H. Qed.

(** A unit that is stopped or decelerating: only the registers change. *)
Lemma dt_seterr_idle k e s :
  DTS_GETMOT (STATE (unit k s)) < DTS_ACCF ->
  dt_seterr_tot k e s =
  DT_UPDINT (set_dtsb (Z.lor (Z.lor (dtsb s) DTB_ERF) e)
               (set_dtsa (Z.land (dtsa s) (Z.lnot DTA_STSTP)) s)).
Proof.
  intros H. unfold dt_seterr_tot, dt_seterr_with_tot.
  destruct (Z.geb_spec (DTS_GETMOT (STATE (unit k s))) DTS_ACCF); [lia|].
  reflexivity.
Qed.

(** A unit that is accelerating or at speed and stays on the reel: it is
    put into deceleration in its direction, with the decel timer. *)
Lemma dt_seterr_moving k e s :
  DTS_ACCF <= DTS_GETMOT (STATE (unit k s)) ->
  stays_on_reel k s = true ->
  let s' := dt_seterr_tot k e s in
  dtsa s' = Z.land (dtsa s) (Z.lnot DTA_STSTP)
  /\ dtsb s' = Z.lor (Z.lor (dtsb s) DTB_ERF) e
  /\ dtdb s' = dtdb s
  /\ dt_ltime s' = dt_ltime s /\ dt_actime s' = dt_actime s
  /\ dt_dctime s' = dt_dctime s /\ sim_rtime s' = sim_rtime s
  /\ (forall j, k <> j -> unit j s' = unit j s)
  /\ unit k s' =
     set_STATE (DTS_STA (Z.lor DTS_DECF
                  (Z.land (DTS_GETMOT (STATE (unit k s))) DTS_DIR)) 0)
       (set_timer (Some (dt_dctime s)) (unit k (moved k s))).
Proof.
  intros H R. unfold dt_seterr_tot, dt_seterr_with_tot.
  destruct (Z.geb_spec (DTS_GETMOT (STATE (unit k s))) DTS_ACCF); [|lia].
  cbv zeta. unfold sim_cancel.
  set (s0 := set_dtsb _ (set_dtsa _ s)).
  assert (R0 : stays_on_reel k (upd_unit k (set_timer None) s0) = true)
    by (rewrite stays_upd by reflexivity; exact R).
  rewrite (dt_setpos_stays _ _ R0).
  unfold sim_activate, DTS_SETSTA.
  autorewrite with dtrw. simpl.
  repeat split.
  - intros j Hj. rewrite unit_UPDINT, !unit_upd_ne, unit_moved_ne, unit_upd_ne by assumption.
    reflexivity.
  - rewrite moved_unit_upd by reflexivity.
    rewrite (unit_moved k s0), (unit_moved k s). reflexivity.
Qed.

Lemma stays_moved k s : stays_on_reel k (moved k s) = true.
Proof. unfold stays_on_reel. now rewrite elapsed_moved. Qed.

Lemma moved_moved k s : moved k (moved k s) = moved k s.
Proof. unfold moved at 1. now rewrite elapsed_moved. Qed.

Lemma testbit_pow2 n : 0 <= n -> Z.testbit (Z.shiftl 1 n) n = true.
Proof.
  intros. rewrite Z.shiftl_spec by lia. now rewrite Z.sub_diag.
Qed.

(** ** Timing errors in the service routine *)

(** [dt_svc_timing_error] on the routines with the total division. *)
Lemma dt_svc_timing_error_tot (k : fin 8) (s : DT) :
  (DTS_GETMOT (STATE (unit k s)) = DTS_ATSF
   \/ DTS_GETMOT (STATE (unit k s)) = DTS_ATSR) ->
  (DTS_GETFNC (STATE (unit k s)) = FNC_SRCH
   \/ DTS_GETFNC (STATE (unit k s)) = FNC_READ
   \/ DTS_GETFNC (STATE (unit k s)) = FNC_RALL
   \/ DTS_GETFNC (STATE (unit k s)) = FNC_WRIT
   \/ DTS_GETFNC (STATE (unit k s)) = FNC_WALL) ->
  Z.land (dtsb s) DTB_DTF <> 0 ->
  stays_on_reel k s = true ->
  DT_QEZ (unit k (moved k s)) = false ->
  Z.testbit (dtsb (dt_svc_tot k s)) DTB_V_TIM = true
  /\ Z.testbit (dtsb (dt_svc_tot k s)) DTB_V_ERF = true
  /\ STATE (unit k (dt_svc_tot k s)) =
     DTS_STA (Z.lor DTS_DECF
                (Z.land (DTS_GETMOT (STATE (unit k s))) DTS_DIR)) 0
  /\ timer (unit k (dt_svc_tot k s)) = Some (dt_dctime s)
  /\ dtdb (dt_svc_tot k s) = dtdb s
  /\ filebuf (unit k (dt_svc_tot k s)) = filebuf (unit k s)
  /\ hwmark (unit k (dt_svc_tot k s)) = hwmark (unit k s)
  /\ (forall j, k <> j -> unit j (dt_svc_tot k s) = unit j s).
Proof.
  intros Hmot Hfnc Hdtf Hreel Hez.
  assert (E : dt_svc_tot k s = dt_seterr_tot k DTB_TIM (moved k s)).
  { unfold dt_svc_tot, svc_atspeed_tot.
    rewrite (dt_setpos_stays _ _ Hreel). cbv zeta. rewrite Hez.
    rewrite dtsb_moved.
    destruct (Z.eqb_spec (Z.land (dtsb s) DTB_DTF) 0) as [|_]; [contradiction|].
    destruct Hmot as [-> | ->];
      destruct Hfnc as [-> | [-> | [-> | [-> | ->]]]]; reflexivity. }
  rewrite E.
  assert (Hm : DTS_ACCF <= DTS_GETMOT (STATE (unit k (moved k s))))
    by (rewrite STATE_moved; destruct Hmot as [-> | ->]; vm_compute; congruence).
  destruct (dt_seterr_moving k DTB_TIM (moved k s) Hm (stays_moved k s))
    as (_ & Hb & Hd & _ & _ & Hdc & _ & Hj & Hk).
  rewrite moved_moved, STATE_moved in Hk. rewrite dctime_moved in Hk.
  rewrite Hb, Hd, Hk, dtdb_moved. simpl.
  autorewrite with dtrw.
  repeat split.
  - apply lor_has_bit. reflexivity.
  - apply lor_keeps_bit, lor_has_bit. reflexivity.
  - intros j Hne. rewrite Hj, unit_moved_ne by assumption. reflexivity.
Qed.

(** ** Function dispatch at speed *)

Lemma unit_sim_cancel k s : unit k (sim_cancel k s) = set_timer None (unit k s).
Proof. unfold sim_cancel. now rewrite unit_upd_eq. Qed.
Lemma unit_sim_activate k d s :
  unit k (sim_activate k d s) = set_timer (Some d) (unit k s).
Proof. unfold sim_activate. now rewrite unit_upd_eq. Qed.
Lemma unit_sim_cancel_ne k j s : k <> j -> unit j (sim_cancel k s) = unit j s.
Proof. unfold sim_cancel. now apply unit_upd_ne. Qed.
Lemma unit_sim_activate_ne k j d s :
  k <> j -> unit j (sim_activate k d s) = unit j s.
Proof. unfold sim_activate. now apply unit_upd_ne. Qed.
Lemma unit_dt_schedez k dir s :
  unit k (dt_schedez k dir s) =
  set_timer (Some (s32 (ABS (s32
    ((if dir =? 0 then DTU_FWDEZ (unit k s) + DT_WSIZE else DT_EZLIN - DT_WSIZE)
     - s32 (pos (unit k s)))) * dt_ltime s))) (unit k s).
Proof. unfold dt_schedez. now rewrite unit_sim_activate. Qed.

#[local] Hint Rewrite unit_sim_cancel unit_sim_activate unit_dt_schedez : dtrw.

Lemma moved_zero k s : elapsed k s = 0 -> moved k s = s.
Proof. unfold moved. now intros ->. Qed.

Lemma elapsed_stays k s : elapsed k s = 0 -> stays_on_reel k s = true.
Proof. unfold stays_on_reel. now intros ->. Qed.

(** With no time gone by the error setter leaves the position alone. *)
Lemma pos_dt_seterr k e s :
  elapsed k s = 0 -> pos (unit k (dt_seterr_tot k e s)) = pos (unit k s).
Proof.
  intros E.
  destruct (Z.lt_ge_cases (DTS_GETMOT (STATE (unit k s))) DTS_ACCF) as [H|H].
  - rewrite dt_seterr_idle by assumption. now autorewrite with dtrw.
  - destruct (dt_seterr_moving k e s H (elapsed_stays k s E))
      as (_ & _ & _ & _ & _ & _ & _ & _ & Hk).
    rewrite Hk, (moved_zero k s E). reflexivity.
Qed.

Lemma pos_newfnc_dispatch k fnc dir s :
  elapsed k s = 0 ->
  pos (unit k (newfnc_dispatch_tot k fnc dir s)) = pos (unit k s).
Proof.
  intros E. unfold newfnc_dispatch_tot. cbv zeta.
  assert (E1 : elapsed k (set_substate DTO_SOB (sim_cancel k s)) = 0).
  { unfold sim_cancel.
    change (elapsed k (set_substate DTO_SOB (upd_unit k (set_timer None) s)))
      with (elapsed k (upd_unit k (set_timer None) s)).
    now rewrite elapsed_upd. }
  split_ifs;
  rewrite ?pos_dt_seterr by assumption;
  autorewrite with dtrw; reflexivity.
Qed.

(** [dt_newfnc_bump] on the routines with the total division. *)
Lemma dt_newfnc_bump_tot (k : fin 8) (newsta : Z) (s : DT) :
  stays_on_reel k s = true ->
  pos (unit k (moved k s)) = pos (unit k s) ->
  dt_newfnc_tot k newsta s =
    newfnc_dispatch_tot k (DTS_GETFNC newsta)
      (Z.land (DTS_GETMOT newsta) DTS_DIR)
      (upd_unit k
         (fun u => set_pos
            (u32 (pos u + (if Z.land (DTS_GETMOT newsta) DTS_DIR =? 0
                           then 1 else -1))) u)
         (upd_unit k (set_STATE newsta) (moved k s)))
  /\ pos (unit k (dt_newfnc_tot k newsta s)) =
     u32 (pos (unit k s)
          + (if Z.land (DTS_GETMOT newsta) DTS_DIR =? 0 then 1 else -1))
  /\ (0 <= pos (unit k s) < 2 ^ 32 ->
      pos (unit k (dt_newfnc_tot k newsta s)) <> pos (unit k s)).
Proof.
  intros Hreel Hpos.
  assert (E : dt_newfnc_tot k newsta s =
    newfnc_dispatch_tot k (DTS_GETFNC newsta)
      (Z.land (DTS_GETMOT newsta) DTS_DIR)
      (upd_unit k
         (fun u => set_pos
            (u32 (pos u + (if Z.land (DTS_GETMOT newsta) DTS_DIR =? 0
                           then 1 else -1))) u)
         (upd_unit k (set_STATE newsta) (moved k s)))).
  { unfold dt_newfnc_tot. rewrite (dt_setpos_stays _ _ Hreel). cbv zeta.
    rewrite unit_upd_eq. simpl. rewrite Hpos, Z.eqb_refl. reflexivity. }
  assert (P : pos (unit k (dt_newfnc_tot k newsta s)) =
     u32 (pos (unit k s)
          + (if Z.land (DTS_GETMOT newsta) DTS_DIR =? 0 then 1 else -1))).
  { rewrite E, pos_newfnc_dispatch.
    - rewrite !unit_upd_eq. simpl. now rewrite Hpos.
    - rewrite !elapsed_upd by reflexivity. apply elapsed_moved. }
  repeat split; [exact E | exact P |].
  intros Hr. rewrite P. unfold u32. change (2 ^ 32) with 4294967296 in *.
  destruct (Z.land (DTS_GETMOT newsta) DTS_DIR =? 0).
  - destruct (Z.eq_dec (pos (unit k s)) 4294967295) as [->|Hne]; [discriminate|].
    rewrite Z.mod_small by lia. lia.
  - destruct (Z.eq_dec (pos (unit k s)) 0) as [->|Hne]; [discriminate|].
    rewrite Z.mod_small by lia. lia.
Qed.

(** ** Motion at speed *)

Lemma u32_small x : 0 <= x < 2 ^ 32 -> u32 x = x.
Proof. intros. unfold u32. now apply Z.mod_small. Qed.

Lemma s32_small x : - 2 ^ 31 <= x < 2 ^ 31 -> s32 x = x.
Proof.
  intros. unfold s32. change (2 ^ 32) with 4294967296.
  change (2 ^ 31) with 2147483648 in *. rewrite Z.mod_small by lia. lia.
Qed.

Lemma s32_high x : 2 ^ 31 <= x < 2 ^ 32 -> s32 x = x - 2 ^ 32.
Proof.
  intros. unfold s32. change (2 ^ 32) with 4294967296.
  change (2 ^ 31) with 2147483648 in *.
  rewrite <- (Z.mod_unique (x + 2147483648) 4294967296 1 (x - 2147483648)); lia.
Qed.

Lemma u32_neg x : - 2 ^ 32 <= x < 0 -> u32 x = x + 2 ^ 32.
Proof.
  intros. unfold u32. change (2 ^ 32) with 4294967296 in *.
  symmetry. apply (Z.mod_unique x 4294967296 (-1)); lia.
Qed.

Lemma pos_delta_atspeed s mot ut :
  mot = DTS_ATSF \/ mot = DTS_ATSR ->
  delta_lines s mot ut = s32 (ut / u32 (dt_ltime s)).
Proof. intros [-> | ->]; reflexivity. Qed.

Lemma max_pos_bound u : DTU_FWDEZ u + DT_EZLIN < 1000000.
Proof.
  change DT_EZLIN with 36000.
  destruct (geometry u) as [(_&_&_&E&_)|(_&_&_&E&_)]; rewrite E; lia.
Qed.

(** [dt_setpos_atspeed] on the routines with the total division. *)
Lemma dt_setpos_atspeed_tot (k : fin 8) (s : DT) :
  (DTS_GETMOT (STATE (unit k s)) = DTS_ATSF
   \/ DTS_GETMOT (STATE (unit k s)) = DTS_ATSR) ->
  0 < dt_ltime s < 2 ^ 32 ->
  0 <= LASTT (unit k s) <= sim_rtime s ->
  sim_rtime s < 2 ^ 32 ->
  0 <= pos (unit k s) <= DTU_FWDEZ (unit k s) + DT_EZLIN ->
  (sim_rtime s - LASTT (unit k s)) / dt_ltime s < 2 ^ 31 ->
  stays_on_reel k s = true ->
  dt_setpos_tot k s = (false, moved k s)
  /\ pos (unit k (moved k s)) =
     pos (unit k s)
     + (if Z.land (DTS_GETMOT (STATE (unit k s))) DTS_DIR =? 0 then 1 else -1)
       * ((sim_rtime s - LASTT (unit k s)) / dt_ltime s)
  /\ LASTT (unit k (moved k s)) = sim_rtime s.
Proof.
  intros Hmot Hl Ht Hn Hp Hq Hreel.
  split; [now apply dt_setpos_stays|].
  assert (He : elapsed k s = sim_rtime s - LASTT (unit k s))
    by (unfold elapsed, sim_grtime; apply u32_small; lia).
  rewrite unit_moved. unfold stays_on_reel in Hreel.
  destruct (Z.eqb_spec (elapsed k s) 0) as [E|E].
  - rewrite <- He, E. rewrite Z.div_0_l by lia. split; lia.
  - simpl in Hreel. simpl. split; [|reflexivity].
    pose proof (max_pos_bound (unit k s)) as Hmax.
    set (q := (sim_rtime s - LASTT (unit k s)) / dt_ltime s) in *.
    assert (Hq0 : 0 <= q) by (apply Z.div_pos; lia).
    assert (Hd : delta_lines s (DTS_GETMOT (STATE (unit k s))) (elapsed k s) = q).
    { rewrite pos_delta_atspeed by assumption.
      rewrite u32_small by lia. rewrite He. apply s32_small.
      change (2 ^ 31) with 2147483648 in *. lia. }
    unfold on_reel in Hreel. apply negb_true_iff, orb_false_iff in Hreel.
    destruct Hreel as [Hlo _]. apply Z.ltb_ge in Hlo.
    unfold next_pos in *. rewrite Hd in *.
    change (2 ^ 31) with 2147483648 in *. change (2 ^ 32) with 4294967296 in *.
    destruct (Z.land (DTS_GETMOT (STATE (unit k s))) DTS_DIR =? 0).
    + rewrite u32_small by (change (2 ^ 32) with 4294967296; lia). lia.
    + destruct (Z.lt_ge_cases (pos (unit k s) - q) 0) as [Hneg|Hge].
      * exfalso. rewrite u32_neg in Hlo
          by (change (2 ^ 32) with 4294967296; lia).
        rewrite s32_high in Hlo
          by (change (2 ^ 32) with 4294967296; change (2 ^ 31) with 2147483648; lia).
        lia.
      * rewrite u32_small by (change (2 ^ 32) with 4294967296; lia). lia.
Qed.

(** ** Status A fields *)

Lemma testbit_63 n : 0 <= n -> Z.testbit 63 n = (n <? 6).
Proof. intros. change 63 with (Z.ones 6). apply Z.testbit_ones_nonneg; lia. Qed.

Lemma testbit_7 n : 0 <= n -> Z.testbit 7 n = (n <? 3).
Proof. intros. change 7 with (Z.ones 3). apply Z.testbit_ones_nonneg; lia. Qed.

Lemma testbit_15 n : 0 <= n -> Z.testbit 15 n = (n <? 4).
Proof. intros. change 15 with (Z.ones 4). apply Z.testbit_ones_nonneg; lia. Qed.

Lemma loaded_unit_field a d :
  Z.shiftr (Z.lor (Z.land a (Z.lnot DTA_RW)) (Z.land d DTA_RW)) DTA_V_UNIT
  = Z.shiftr a DTA_V_UNIT.
Proof.
  apply Z.bits_inj'. intros n Hn. change DTA_V_UNIT with 12. change DTA_RW with 63.
  rewrite !Z.shiftr_spec, Z.lor_spec, !Z.land_spec, Z.lnot_spec, testbit_63 by lia.
  destruct (Z.ltb_spec (n + 12) 6); [lia|].
  simpl. now rewrite andb_true_r, andb_false_r, orb_false_r.
Qed.

Lemma loaded_low a d m :
  Z.land m DTA_RW = m ->
  Z.land (Z.lor (Z.land a (Z.lnot DTA_RW)) (Z.land d DTA_RW)) m = Z.land d m.
Proof.
  intros Hm. rewrite <- Hm. apply Z.bits_inj'. intros n Hn. change DTA_RW with 63.
  rewrite !Z.land_spec, Z.lor_spec, !Z.land_spec, Z.lnot_spec, testbit_63 by lia.
  destruct (n <? 6); simpl; rewrite ?andb_false_r, ?andb_true_r; reflexivity.
Qed.

Lemma GETUNIT_loaded dat s : DTA_GETUNIT (dtsa (loaded dat s)) = DTA_GETUNIT (dtsa s).
Proof. unfold DTA_GETUNIT, loaded. simpl. now rewrite loaded_unit_field. Qed.

Lemma GETFNC_loaded dat s : DTA_GETFNC (dtsa (loaded dat s)) = DTA_GETFNC dat.
Proof.
  unfold DTA_GETFNC, loaded. simpl. change DTA_V_FNC with 0.
  rewrite !Z.shiftr_0_r. now apply loaded_low.
Qed.

Lemma unit_ptr_nonneg unum k : unit_ptr unum = Some k -> (unum >=? 0) = true.
Proof.
  unfold unit_ptr. intros H. destruct unum as [|p|p]; [reflexivity|reflexivity|].
  discriminate.
Qed.

(** ** The error setter, in general *)

Lemma unit_seterr_with_idle f k e s :
  DTS_GETMOT (STATE (unit k s)) < DTS_ACCF ->
  dt_seterr_with_tot f k e s =
  DT_UPDINT (set_dtsb (Z.lor (Z.lor (dtsb s) DTB_ERF) e)
               (set_dtsa (Z.land (dtsa s) (Z.lnot DTA_STSTP)) s)).
Proof.
  intros H. unfold dt_seterr_with_tot.
  destruct (Z.geb_spec (DTS_GETMOT (STATE (unit k s))) DTS_ACCF); [lia|].
  reflexivity.
Qed.

(** [dt_setpos] hands the unit to the error setter in a state from
    which the error setter does not call back: the call is the one of
    [dt_seterr]. *)
Lemma off_reel_seterr k s :
  off_reel_state k s =
  let s' := upd_unit k (fun u => set_STATE 0 (set_pos 0
              (set_att false (set_LASTT (sim_grtime s) u)))) s in
  if unit_no k =? DTA_GETUNIT (dtsa s') then dt_seterr_tot k DTB_SEL s' else s'.
Proof.
  unfold off_reel_state. cbv zeta.
  destruct (_ =? _); [|reflexivity].
  rewrite dt_seterr_idle, unit_seterr_with_idle;
    try (rewrite unit_upd_eq; simpl; vm_compute; reflexivity).
  reflexivity.
Qed.

Lemma unit_off_reel_ne k j s : k <> j -> unit j (off_reel_state k s) = unit j s.
Proof.
  intros Hne. unfold off_reel_state. cbv zeta.
  destruct (_ =? _).
  - rewrite unit_seterr_with_idle
      by (rewrite unit_upd_eq; simpl; vm_compute; reflexivity).
    autorewrite with dtrw. now rewrite unit_upd_ne.
  - now rewrite unit_upd_ne.
Qed.

Lemma unit_off_reel k s :
  u_att (unit k (off_reel_state k s)) = false
  /\ STATE (unit k (off_reel_state k s)) = 0
  /\ pos (unit k (off_reel_state k s)) = 0.
Proof.
  unfold off_reel_state. cbv zeta.
  destruct (_ =? _).
  - rewrite unit_seterr_with_idle
      by (rewrite unit_upd_eq; simpl; vm_compute; reflexivity).
    autorewrite with dtrw. simpl. auto.
  - rewrite unit_upd_eq. simpl. auto.
Qed.

Lemma dtsb_off_reel_bits k s n :
  Z.testbit (dtsb s) n = true -> Z.testbit (dtsb (off_reel_state k s)) n = true.
Proof.
  intros H. unfold off_reel_state. cbv zeta.
  destruct (_ =? _).
  - rewrite unit_seterr_with_idle
      by (rewrite unit_upd_eq; simpl; vm_compute; reflexivity).
    autorewrite with dtrw. simpl. now apply lor_keeps_bit, lor_keeps_bit.
  - exact H.
Qed.

(** Whatever the unit does, the error setter raises ERF and the error
    bit and touches no other unit. *)
Lemma dt_seterr_any k e s :
  (forall n, Z.testbit (Z.lor DTB_ERF e) n = true ->
             Z.testbit (dtsb (dt_seterr_tot k e s)) n = true)
  /\ (forall j, k <> j -> unit j (dt_seterr_tot k e s) = unit j s).
Proof.
  assert (Hbits : forall x n, Z.testbit (Z.lor DTB_ERF e) n = true ->
            Z.testbit (Z.lor (Z.lor x DTB_ERF) e) n = true).
  { intros x n. rewrite !Z.lor_spec, <- orb_assoc. intros ->.
    now rewrite orb_true_r. }
  destruct (Z.lt_ge_cases (DTS_GETMOT (STATE (unit k s))) DTS_ACCF) as [H|H].
  - rewrite dt_seterr_idle by assumption. split.
    + intros n Hn. autorewrite with dtrw. simpl. now apply Hbits.
    + intros j _. now autorewrite with dtrw.
  - destruct (stays_on_reel k s) eqn:R.
    + destruct (dt_seterr_moving k e s H R) as (_ & Hb & _ & _ & _ & _ & _ & Hj & _).
      split; [|exact Hj]. intros n Hn. rewrite Hb. now apply Hbits.
    + unfold dt_seterr_tot, dt_seterr_with_tot.
      destruct (Z.geb_spec (DTS_GETMOT (STATE (unit k s))) DTS_ACCF); [|lia].
      cbv zeta. unfold sim_cancel.
      set (s0 := set_dtsb _ (set_dtsa _ s)).
      assert (R0 : stays_on_reel k (upd_unit k (set_timer None) s0) = false)
        by (rewrite stays_upd by reflexivity; exact R).
      rewrite (dt_setpos_leaves _ _ R0). split.
      * intros n Hn. apply dtsb_off_reel_bits. rewrite dtsb_upd.
        subst s0. simpl. now apply Hbits.
      * intros j Hj. rewrite unit_off_reel_ne, unit_upd_ne by assumption.
        reflexivity.
Qed.

(** ** Pulse 4, LOAD COMMAND *)

Lemma GETFNC_range x : 0 <= DTA_GETFNC x <= 7.
Proof.
  unfold DTA_GETFNC. change DTA_M_FNC with (Z.ones 3).
  rewrite Z.land_ones by lia.
  pose proof (Z.mod_pos_bound (Z.shiftr x DTA_V_FNC) (2 ^ 3) ltac:(lia)).
  change (2 ^ 3) with 8 in *. lia.
Qed.

Lemma dt_seterr_leaves k e s :
  DTS_ACCF <= DTS_GETMOT (STATE (unit k s)) ->
  stays_on_reel k s = false ->
  u_att (unit k (dt_seterr_tot k e s)) = false
  /\ STATE (unit k (dt_seterr_tot k e s)) = 0
  /\ pos (unit k (dt_seterr_tot k e s)) = 0.
Proof.
  intros Hm Hs. unfold dt_seterr_tot, dt_seterr_with_tot.
  destruct (Z.geb_spec (DTS_GETMOT (STATE (unit k s))) DTS_ACCF); [|lia].
  cbv zeta. unfold sim_cancel.
  match goal with
  | |- context [dt_setpos_tot k ?x] =>
      assert (R0 : stays_on_reel k x = false)
        by (rewrite stays_upd by reflexivity; assumption);
      rewrite (dt_setpos_leaves _ _ R0)
  end.
  apply unit_off_reel.
Qed.

(** With a unit selected, the LOAD COMMAND pulse either refuses the
    command through the error setter or hands it to [dt_newsa]. *)
Lemma dt_MLC_cases IR dev dat s k :
  Z.land (Z.shiftr IR 6) 31 = 4 ->
  dev_dis s = false ->
  unit_ptr (DTA_GETUNIT (dtsa s)) = Some k ->
  dt_tot IR dev dat s =
  Some (dat,
        DT_UPDINT (if refused (unit k s) (DTA_GETFNC dat)
                   then dt_seterr_tot k DTB_SEL (loaded dat s)
                   else dt_newsa_tot (dtsa (loaded dat s)) (loaded dat s))).
Proof.
  intros Hp Hd Hk. unfold dt_tot. rewrite Hp, Hd.
  change (4 =? 3) with false. change (4 =? 4) with true. cbv iota zeta.
  rewrite (unit_ptr_nonneg _ _ Hk), Hk.
  change (set_dtsb _ (set_dtsa _ s)) with (loaded dat s).
  rewrite (GETFNC_loaded dat s).
  change (unit k (loaded dat s)) with (unit k s).
  pose proof (GETFNC_range dat) as Hr.
  unfold refused. unfold dt_newsa_tot. rewrite GETUNIT_loaded, Hk.
  change (unit k (loaded dat s)) with (unit k s).
  change FNC_WMRK with 7. change FNC_WRIT with 3. change FNC_WALL with 6.
  destruct (u_dis (unit k s)), (u_att (unit k s)) eqn:Ha, (u_wlk (unit k s));
    destruct (Z.geb_spec (DTA_GETFNC dat) 7), (Z.eqb_spec (DTA_GETFNC dat) 7),
      (Z.eqb_spec (DTA_GETFNC dat) 3), (Z.eqb_spec (DTA_GETFNC dat) 6);
    try lia; simpl; try reflexivity.
Qed.

Lemma unit_moved_loaded k dat s : unit k (moved k (loaded dat s)) = unit k (moved k s).
Proof. rewrite (unit_moved k (loaded dat s)), (unit_moved k s). reflexivity. Qed.

(** [dt_MLC_refusal] on the routines with the total division. *)
Lemma dt_MLC_refusal_tot (IR dev dat : Z) (s : DT) (k : fin 8) :
  Z.land (Z.shiftr IR 6) 31 = 4 ->
  dev_dis s = false ->
  unit_ptr (DTA_GETUNIT (dtsa s)) = Some k ->
  (refused (unit k s) (DTA_GETFNC dat) = true ->
   exists s',
     dt_tot IR dev dat s = Some (dat, s')
     /\ Z.testbit (dtsb s') DTB_V_SEL = true
     /\ Z.testbit (dtsb s') DTB_V_ERF = true
     /\ (forall j, k <> j -> unit j s' = unit j s)
     /\ (DTS_GETMOT (STATE (unit k s)) < DTS_ACCF -> unit k s' = unit k s)
     /\ (DTS_ACCF <= DTS_GETMOT (STATE (unit k s)) ->
         stays_on_reel k s = true ->
         unit k s' =
         set_STATE (DTS_STA (Z.lor DTS_DECF
                      (Z.land (DTS_GETMOT (STATE (unit k s))) DTS_DIR)) 0)
           (set_timer (Some (dt_dctime s)) (unit k (moved k s))))
     /\ (DTS_ACCF <= DTS_GETMOT (STATE (unit k s)) ->
         stays_on_reel k s = false ->
         u_att (unit k s') = false /\ STATE (unit k s') = 0
         /\ pos (unit k s') = 0))
  /\ (refused (unit k s) (DTA_GETFNC dat) = false ->
      dt_tot IR dev dat s =
      Some (dat, DT_UPDINT (dt_newsa_tot (dtsa (loaded dat s)) (loaded dat s)))).
Proof.
  intros Hp Hd Hk. rewrite (dt_MLC_cases IR dev dat s k Hp Hd Hk).
  split; intros Hr; rewrite Hr; [|reflexivity].
  eexists. split; [reflexivity|].
  destruct (dt_seterr_any k DTB_SEL (loaded dat s)) as [Hbits Hj].
  rewrite dtsb_UPDINT, !unit_UPDINT.
  repeat split.
  - apply Hbits. reflexivity.
  - apply Hbits. reflexivity.
  - intros j Hne. rewrite unit_UPDINT. now apply Hj.
  - intros Hm. rewrite dt_seterr_idle by exact Hm.
    now autorewrite with dtrw.
  - intros Hm Hs.
    destruct (dt_seterr_moving k DTB_SEL (loaded dat s) Hm Hs)
      as (_ & _ & _ & _ & _ & _ & _ & _ & Hu).
    rewrite Hu, unit_moved_loaded. reflexivity.
  - now apply dt_seterr_leaves.
  - now apply dt_seterr_leaves.
  - now apply dt_seterr_leaves.
Qed.

(** ** The scheduler *)

Lemma unit_advance k d s :
  unit k (advance d s) =
  set_timer ((fun t => t - d) <$> timer (unit k s)) (unit k s).
Proof. unfold unit, advance. simpl. now rewrite vlookup_map. Qed.

Lemma rtime_advance d s : sim_rtime (advance d s) = u32 (sim_rtime s + d).
Proof. reflexivity. Qed.

Lemma u32_add_l a b : u32 (u32 a + b) = u32 (a + b).
Proof. unfold u32. now rewrite Zplus_mod_idemp_l. Qed.

(** ** Reversal of a unit at speed *)

Lemma dir_cases u :
  DTS_GETMOT (STATE u) = DTS_ATSF \/ DTS_GETMOT (STATE u) = DTS_ATSR ->
  (DTS_GETMOT (STATE u) = 6 /\ unit_dir u = 0)
  \/ (DTS_GETMOT (STATE u) = 7 /\ unit_dir u = 1).
Proof. unfold unit_dir. intros [H|H]; rewrite H; [left|right]; split; reflexivity. Qed.

Lemma fnc_cases x :
  DTA_GETFNC x = 0 \/ DTA_GETFNC x = 1 \/ DTA_GETFNC x = 2 \/ DTA_GETFNC x = 3
  \/ DTA_GETFNC x = 4 \/ DTA_GETFNC x = 5 \/ DTA_GETFNC x = 6 \/ DTA_GETFNC x = 7.
Proof. pose proof (GETFNC_range x). lia. Qed.

Lemma cmd_dir_cases dat : cmd_dir dat = 0 \/ cmd_dir dat = 1.
Proof. unfold cmd_dir. destruct (_ =? 0); auto. Qed.

(** The direction change of [dt_newsa] for a unit at speed. *)
Lemma dt_newsa_reverse dat s k :
  unit_ptr (DTA_GETUNIT (dtsa s)) = Some k ->
  u_att (unit k s) = true ->
  (DTS_GETMOT (STATE (unit k s)) = DTS_ATSF
   \/ DTS_GETMOT (STATE (unit k s)) = DTS_ATSR) ->
  Z.land dat DTA_STSTP <> 0 ->
  cmd_dir dat <> unit_dir (unit k s) ->
  stays_on_reel k s = true ->
  dt_newsa_tot (dtsa (loaded dat s)) (loaded dat s) =
  DTS_SET3RD k (Z.lor DTS_ATSF (cmd_dir dat)) (DTA_GETFNC dat)
    (DTS_SET2ND k (Z.lor DTS_ACCF (cmd_dir dat)) 0
       (DTS_SETSTA k (Z.lor DTS_DECF (unit_dir (unit k s))) 0
          (sim_activate k (dt_dctime s)
             (sim_cancel k (moved k (loaded dat s)))))).
Proof.
  intros Hk Ha Hmot Hgo Hdir Hreel.
  unfold dt_newsa_tot. rewrite GETUNIT_loaded, Hk.
  change (unit k (loaded dat s)) with (unit k s). rewrite Ha. cbv zeta.
  rewrite GETFNC_loaded.
  replace (Z.land (dtsa (loaded dat s)) DTA_STSTP) with (Z.land dat DTA_STSTP)
    by (symmetry; apply loaded_low; reflexivity).
  replace (Z.land (dtsa (loaded dat s)) DTA_FWDRV) with (Z.land dat DTA_FWDRV)
    by (symmetry; apply loaded_low; reflexivity).
  fold (cmd_dir dat). fold (unit_dir (unit k s)).
  destruct (Z.eqb_spec (Z.land dat DTA_STSTP) 0) as [|_]; [contradiction|].
  assert (Hr : stays_on_reel k (loaded dat s) = true) by exact Hreel.
  rewrite (dt_setpos_stays _ _ Hr).
  unfold unit_dir in *.
  destruct (cmd_dir_cases dat) as [Hc|Hc]; rewrite Hc in *;
    destruct Hmot as [Hm|Hm]; rewrite Hm in *;
    try (exfalso; apply Hdir; reflexivity);
    unfold sim_cancel; rewrite ?dctime_upd, ?dctime_moved; reflexivity.
Qed.

Lemma layered_build pd nd f :
  (pd = 0 \/ pd = 1) -> (nd = 0 \/ nd = 1) -> 0 <= f <= 7 ->
  Z.lor (Z.land (Z.lor (Z.land (DTS_STA (Z.lor DTS_DECF pd) 0) 63)
                   (Z.shiftl (DTS_STA (Z.lor DTS_ACCF nd) 0) DTS_V_2ND)) 4095)
        (Z.shiftl (DTS_STA (Z.lor DTS_ATSF nd) f) DTS_V_3RD)
  = layered (DTS_STA (Z.lor DTS_DECF pd) 0) (DTS_STA (Z.lor DTS_ACCF nd) 0)
            (DTS_STA (Z.lor DTS_ATSF nd) f)
  /\ DTS_GETMOT (layered (DTS_STA (Z.lor DTS_DECF pd) 0)
        (DTS_STA (Z.lor DTS_ACCF nd) 0) (DTS_STA (Z.lor DTS_ATSF nd) f))
     = Z.lor DTS_DECF pd
  /\ DTS_NXTSTA (layered (DTS_STA (Z.lor DTS_DECF pd) 0)
        (DTS_STA (Z.lor DTS_ACCF nd) 0) (DTS_STA (Z.lor DTS_ATSF nd) f))
     = layered (DTS_STA (Z.lor DTS_ACCF nd) 0) (DTS_STA (Z.lor DTS_ATSF nd) f) 0
  /\ DTS_GETMOT (layered (DTS_STA (Z.lor DTS_ACCF nd) 0)
        (DTS_STA (Z.lor DTS_ATSF nd) f) 0) = Z.lor DTS_ACCF nd
  /\ DTS_NXTSTA (layered (DTS_STA (Z.lor DTS_ACCF nd) 0)
        (DTS_STA (Z.lor DTS_ATSF nd) f) 0) = DTS_STA (Z.lor DTS_ATSF nd) f
  /\ layered (DTS_STA (Z.lor DTS_ACCF nd) 0) (DTS_STA (Z.lor DTS_ATSF nd) f) 0 <> 0.
Proof.
  intros Hp Hn Hf.
  assert (Hc : f = 0 \/ f = 1 \/ f = 2 \/ f = 3 \/ f = 4 \/ f = 5 \/ f = 6 \/ f = 7)
    by lia.
  destruct Hp as [-> | ->], Hn as [-> | ->];
    repeat (destruct Hc as [-> | Hc]; [vm_compute; repeat split; congruence|]);
    subst f; vm_compute; repeat split; congruence.
Qed.

(** [dt_MLC_reversal] on the routines with the total division. *)
Lemma dt_MLC_reversal_tot (IR dev dat : Z) (s : DT) (k : fin 8) :
  Z.land (Z.shiftr IR 6) 31 = 4 ->
  dev_dis s = false ->
  unit_ptr (DTA_GETUNIT (dtsa s)) = Some k ->
  refused (unit k s) (DTA_GETFNC dat) = false ->
  (DTS_GETMOT (STATE (unit k s)) = DTS_ATSF
   \/ DTS_GETMOT (STATE (unit k s)) = DTS_ATSR) ->
  Z.land dat DTA_STSTP <> 0 ->
  cmd_dir dat <> unit_dir (unit k s) ->
  stays_on_reel k s = true ->
  exists s1,
    dt_tot IR dev dat s = Some (dat, s1)
    /\ unit k s1 =
       set_STATE
         (layered (DTS_STA (Z.lor DTS_DECF (unit_dir (unit k s))) 0)
                  (DTS_STA (Z.lor DTS_ACCF (cmd_dir dat)) 0)
                  (DTS_STA (Z.lor DTS_ATSF (cmd_dir dat)) (DTA_GETFNC dat)))
         (set_timer (Some (dt_dctime s)) (unit k (moved k s)))
    /\ DTS_GETMOT (STATE (unit k s1)) = Z.lor DTS_DECF (unit_dir (unit k s))
    /\ (stays_on_reel k (sim_cancel k (advance (dt_dctime s) s1)) = true ->
        STATE (unit k (fire_tot k s1)) =
          layered (DTS_STA (Z.lor DTS_ACCF (cmd_dir dat)) 0)
                  (DTS_STA (Z.lor DTS_ATSF (cmd_dir dat)) (DTA_GETFNC dat)) 0
        /\ DTS_GETMOT (STATE (unit k (fire_tot k s1))) = Z.lor DTS_ACCF (cmd_dir dat)
        /\ timer (unit k (fire_tot k s1)) = Some (dt_actime s)
        /\ sim_rtime (fire_tot k s1) = u32 (sim_rtime s + dt_dctime s)
        /\ fire_tot k (fire_tot k s1) =
           dt_newfnc_tot k (DTS_STA (Z.lor DTS_ATSF (cmd_dir dat)) (DTA_GETFNC dat))
             (sim_cancel k (advance (dt_actime s) (fire_tot k s1)))
        /\ sim_rtime (sim_cancel k (advance (dt_actime s) (fire_tot k s1))) =
           u32 (sim_rtime s + dt_dctime s + dt_actime s)).
Proof.
  intros Hp Hd Hk Hacc Hmot Hgo Hdir Hreel.
  rewrite (dt_MLC_cases IR dev dat s k Hp Hd Hk), Hacc.
  assert (Ha : u_att (unit k s) = true).
  { unfold refused in Hacc. destruct (u_att (unit k s)); [reflexivity|].
    destruct (u_dis (unit k s)); discriminate. }
  rewrite (dt_newsa_reverse dat s k Hk Ha Hmot Hgo Hdir Hreel).
  assert (Hpd : unit_dir (unit k s) = 0 \/ unit_dir (unit k s) = 1)
    by (destruct (dir_cases _ Hmot) as [[_ H]|[_ H]]; auto).
  destruct (layered_build _ _ _ Hpd (cmd_dir_cases dat) (GETFNC_range dat))
    as (L0 & L1 & L2 & L3 & L4 & L5).
  set (L := layered _ _ _) in *. set (L' := layered _ _ 0) in *.
  set (s1 := DT_UPDINT _).
  assert (Hu : unit k s1 =
    set_STATE L (set_timer (Some (dt_dctime s)) (unit k (moved k s)))).
  { subst s1. unfold DTS_SET3RD, DTS_SET2ND, DTS_SETSTA, sim_activate, sim_cancel.
    rewrite unit_UPDINT, !upd_unit_twice, unit_upd_eq, unit_moved_loaded.
    cbn [STATE set_STATE set_timer u_att u_dis u_wlk u_8fmt pos LASTT filebuf
         hwmark timer].
    rewrite L0. reflexivity. }
  assert (Ht : sim_rtime s1 = sim_rtime s).
  { subst s1. unfold DTS_SET3RD, DTS_SET2ND, DTS_SETSTA, sim_activate, sim_cancel.
    now autorewrite with dtrw. }
  assert (Hac : dt_actime s1 = dt_actime s).
  { subst s1. unfold DTS_SET3RD, DTS_SET2ND, DTS_SETSTA, sim_activate, sim_cancel.
    now autorewrite with dtrw. }
  exists s1. split; [reflexivity|]. split; [exact Hu|].
  split; [rewrite Hu; exact L1|].
  intros Hreel1.
  set (sA := sim_cancel k (advance (dt_dctime s) s1)) in *.
  assert (HuA : unit k sA = set_timer None (unit k s1)).
  { subst sA. rewrite unit_sim_cancel, unit_advance, Hu. reflexivity. }
  assert (Hf1 : fire_tot k s1 =
    sim_activate k (dt_actime s)
      (upd_unit k (fun u => set_STATE (DTS_NXTSTA (STATE u)) u) (moved k sA))).
  { unfold fire_tot. rewrite Hu. cbn [timer set_STATE set_timer].
    fold sA. unfold dt_svc_tot. rewrite HuA, Hu.
    cbn [STATE set_STATE set_timer]. rewrite L1.
    rewrite (dt_setpos_stays _ _ Hreel1). cbv zeta.
    rewrite unit_upd_eq, STATE_moved, HuA, Hu.
    cbn [STATE set_STATE set_timer]. rewrite L2.
    destruct (Z.eqb_spec L' 0) as [|_]; [contradiction|].
    rewrite actime_upd, actime_moved. subst sA. unfold sim_cancel.
    rewrite actime_upd. change (dt_actime (advance _ s1)) with (dt_actime s1).
    rewrite Hac.
    destruct Hpd as [-> | ->]; reflexivity. }
  assert (Hu2 : unit k (fire_tot k s1) =
    set_timer (Some (dt_actime s)) (set_STATE L' (unit k (moved k sA)))).
  { rewrite Hf1, unit_sim_activate, unit_upd_eq, STATE_moved, HuA, Hu.
    cbn [STATE set_STATE set_timer]. rewrite L2. reflexivity. }
  assert (Ht2 : sim_rtime (fire_tot k s1) = u32 (sim_rtime s + dt_dctime s)).
  { rewrite Hf1. unfold sim_activate. rewrite rtime_upd, rtime_upd, rtime_moved.
    subst sA. unfold sim_cancel. rewrite rtime_upd, rtime_advance, Ht.
    reflexivity. }
  repeat split.
  - rewrite Hu2. reflexivity.
  - rewrite Hu2. exact L3.
  - rewrite Hu2. reflexivity.
  - exact Ht2.
  - unfold fire_tot at 1. rewrite Hu2. cbn [timer set_STATE set_timer].
    unfold dt_svc_tot. rewrite unit_sim_cancel, unit_advance, Hu2.
    cbn [STATE set_STATE set_timer]. rewrite L3, L4.
    destruct (cmd_dir_cases dat) as [-> | ->]; reflexivity.
  - unfold sim_cancel. rewrite rtime_upd, rtime_advance, Ht2, u32_add_l.
    reflexivity.
Qed.

(** ** A READ ALL pass *)

Ltac arith32 :=
  unfold u32, s32 in *;
  change (2 ^ 32) with 4294967296 in *; change (2 ^ 31) with 2147483648 in *;
  Z.div_mod_to_equations; lia.

Lemma dt_MRD_eq dev dat s :
  dev_dis s = false ->
  dt_tot MRD dev dat s =
  Some (Z.lor (Z.land dat (Z.lnot DMASK)) (dtdb s),
        DT_UPDINT (set_dtsb (Z.land (dtsb s)
                     (Z.lnot (Z.lor DTB_DTF DTB_BEF))) s)).
Proof. intros Hd. unfold dt_tot. rewrite Hd. reflexivity. Qed.

Lemma land_lor_zero x a b :
  Z.land x (Z.lor a b) = 0 -> Z.land x a = 0 /\ Z.land x b = 0.
Proof.
  rewrite Z.land_lor_distr_r. intros H. now apply Z.lor_eq_0_iff in H.
Qed.

(** The frame of the word transfer of READ: only the data buffer, status
    B and the unit's timer change. *)
Lemma svc_read_frame k fnc dir blk s :
  unit k (svc_read k fnc dir blk s) =
    set_timer (Some (s32 (DT_WSIZE * dt_ltime s))) (unit k s)
  /\ sim_rtime (svc_read k fnc dir blk s) = sim_rtime s
  /\ dt_ltime (svc_read k fnc dir blk s) = dt_ltime s
  /\ dev_dis (svc_read k fnc dir blk s) = dev_dis s.
Proof.
  unfold svc_read. cbv zeta.
  split_ifs;
  autorewrite with dtrw; repeat split; try reflexivity;
  unfold DT_UPDINT;
  split_ifs; reflexivity.
Qed.

Lemma geometry_fmt u u0 :
  u_8fmt u = u_8fmt u0 ->
  DTU_BSIZE u = DTU_BSIZE u0 /\ DTU_TSIZE u = DTU_TSIZE u0
  /\ DTU_LPERB u = DTU_LPERB u0 /\ DTU_FWDEZ u = DTU_FWDEZ u0.
Proof.
  unfold DTU_BSIZE, DTU_TSIZE, DTU_LPERB, DTU_FWDEZ. now intros ->.
Qed.

Ltac geom u0 :=
  unfold DT_BLK2LN in *;
  destruct (geometry u0) as [(?E&?E&?E&?E&?E&?E)|(?E&?E&?E&?E&?E&?E)];
  repeat match goal with
  | E : DTU_BSIZE u0 = _ |- _ => rewrite ?E in *; clear E
  | E : DTU_TSIZE u0 = _ |- _ => rewrite ?E in *; clear E
  | E : DTU_LPERB u0 = _ |- _ => rewrite ?E in *; clear E
  | E : DTU_FWDEZ u0 = _ |- _ => rewrite ?E in *; clear E
  | E : DTU_CAPAC u0 = _ |- _ => rewrite ?E in *; clear E
  | E : DTU_WPERB u0 = _ |- _ => rewrite ?E in *; clear E
  end;
  change DT_EZLIN with 36000 in *; change DT_HTLIN with 30 in *;
  change DT_HTWRD with 5 in *; change DT_WSIZE with 6 in *.

(** The event of a unit in a READ ALL pass: the position moves on by one
    word to slot [w] of the block, and the word transfer takes place
    there. *)
Lemma fire_reading k u0 dir b w s :
  reading k u0 dir b w s ->
  dir = 0 \/ dir = 1 ->
  0 <= b < DTU_TSIZE u0 ->
  0 <= w < DTU_WPERB u0 ->
  exists sM,
    fire_tot k s = svc_read k FNC_RALL dir b sM
    /\ unit k sM =
       set_pos (DT_BLK2LN b u0 + DT_WSIZE * w + (if dir =? 0 then 5 else 0))
         (set_LASTT (u32 (sim_rtime s + DT_WSIZE * dt_ltime s))
            (set_timer None (unit k s)))
    /\ dtsb sM = dtsb s /\ dt_ltime sM = dt_ltime s
    /\ sim_rtime sM = u32 (sim_rtime s + DT_WSIZE * dt_ltime s)
    /\ dev_dis sM = false.
Proof.
  intros (Hdd & HL & HL6 & Hatt & Hfmt & Hbuf & Hst & Htm & Hlt & Hpos & Hfl)
    Hdir Hb Hw.
  destruct (geometry_fmt _ _ Hfmt) as (GB & GT & GL & GF).
  set (L := dt_ltime s) in *. set (T := sim_rtime s) in *.
  set (sA := sim_cancel k (advance (DT_WSIZE * L) s)).
  assert (HuA : unit k sA = set_timer None (unit k s)).
  { subst sA. rewrite unit_sim_cancel, unit_advance. reflexivity. }
  assert (HtA : sim_rtime sA = u32 (T + DT_WSIZE * L)) by reflexivity.
  assert (HlA : dt_ltime sA = L) by reflexivity.
  assert (Hel : elapsed k sA = DT_WSIZE * L).
  { unfold elapsed, sim_grtime. rewrite HtA, HuA. cbn [LASTT set_timer].
    rewrite Hlt. change DT_WSIZE with 6 in *. arith32. }
  assert (Hmot : DTS_GETMOT (STATE (unit k sA)) = Z.lor DTS_ATSF dir
                 /\ DTS_GETFNC (STATE (unit k sA)) = FNC_RALL
                 /\ Z.land (DTS_GETMOT (STATE (unit k sA))) DTS_DIR = dir).
  { rewrite HuA. cbn [STATE set_timer]. rewrite Hst.
    destruct Hdir as [-> | ->]; repeat split; reflexivity. }
  destruct Hmot as (Hmot & Hfnc & Hd).
  assert (Hdelta : delta_lines sA (DTS_GETMOT (STATE (unit k sA))) (elapsed k sA) = 6).
  { rewrite pos_delta_atspeed
      by (rewrite Hmot; destruct Hdir as [-> | ->]; [left|right]; reflexivity).
    rewrite Hel, HlA. change DT_WSIZE with 6 in *.
    rewrite u32_small by (change (2 ^ 32) with 4294967296;
                          change (2 ^ 31) with 2147483648 in *; lia).
    rewrite Z.div_mul by lia. reflexivity. }
  change DT_WSIZE with 6 in *.
  set (p' := DT_BLK2LN b u0 + 6 * w + (if dir =? 0 then 5 else 0)).
  assert (Hp' : 36000 <= p' < DTU_FWDEZ u0 /\ DTU_FWDEZ u0 < 1000000).
  { subst p'. geom u0; destruct Hdir as [-> | ->]; simpl; lia. }
  assert (Hnp : next_pos k sA = p').
  { unfold next_pos. rewrite Hdelta, Hd, HuA. cbn [pos set_timer].
    rewrite Hpos. subst p'.
    destruct Hdir as [-> | ->]; simpl in Hp' |- *;
      (rewrite u32_small by (change (2 ^ 32) with 4294967296; lia)); lia. }
  assert (Hreel : stays_on_reel k sA = true).
  { unfold stays_on_reel, on_reel. rewrite Hnp, HuA.
    replace (DTU_FWDEZ (set_timer None (unit k s))) with (DTU_FWDEZ (unit k s))
      by reflexivity.
    rewrite GF. change DT_EZLIN with 36000.
    rewrite s32_small by (change (2 ^ 31) with 2147483648; lia).
    destruct (Z.ltb_spec p' 0), (Z.gtb_spec p' (DTU_FWDEZ u0 + 36000));
      lia. }
  assert (HuM : unit k (moved k sA) =
    set_pos p' (set_LASTT (u32 (T + 6 * L)) (set_timer None (unit k s)))).
  { rewrite unit_moved, Hel, Hnp, HuA.
    destruct (Z.eqb_spec (6 * L) 0); [lia|]. reflexivity. }
  assert (Hez : DT_QEZ (unit k (moved k sA)) = false).
  { rewrite HuM. unfold DT_QEZ, DT_QREZ, DT_QFEZ. cbn [pos set_pos].
    replace (DTU_FWDEZ (set_pos _ _)) with (DTU_FWDEZ (unit k s)) by reflexivity.
    rewrite GF. change DT_EZLIN with 36000.
    rewrite u32_small by (change (2 ^ 32) with 4294967296; lia). lia. }
  assert (Hblk : s32 (DT_LIN2BL (pos (unit k (moved k sA))) (unit k (moved k sA))) = b).
  { rewrite HuM. unfold DT_LIN2BL. cbn [pos set_pos].
    replace (DTU_LPERB (set_pos _ _)) with (DTU_LPERB (unit k s)) by reflexivity.
    rewrite GL. subst p'. clear - Hb Hw Hdir.
    geom u0; destruct Hdir as [-> | ->]; simpl; arith32. }
  assert (Hdtf : Z.land (dtsb (moved k sA)) DTB_DTF = 0).
  { rewrite dtsb_moved. change (dtsb sA) with (dtsb s).
    now apply (land_lor_zero _ _ _ Hfl). }
  exists (moved k sA). split.
  - unfold fire_tot. rewrite Htm. fold sA. unfold dt_svc_tot. rewrite Hmot.
    unfold svc_atspeed_tot. rewrite Hfnc, Hd, (dt_setpos_stays _ _ Hreel).
    cbv zeta. rewrite Hez, Hblk, Hdtf.
    destruct Hdir as [-> | ->]; reflexivity.
  - rewrite HuM, dtsb_moved, ltime_moved, rtime_moved.
    repeat split; try reflexivity.
    unfold moved. destruct (elapsed k sA =? 0); exact Hdd.
Qed.

Lemma dt_gethdr_ext u u' blk r r' :
  u_8fmt u = u_8fmt u' -> filebuf u = filebuf u' ->
  Z.quot r DT_WSIZE = Z.quot r' DT_WSIZE ->
  dt_gethdr u blk r = dt_gethdr u' blk r'.
Proof.
  intros Hf Hb Hq. unfold dt_gethdr, dt_csum, DTU_BSIZE.
  now rewrite Hf, Hb, Hq.
Qed.

(** What the word transfer of READ ALL delivers in slot [w] of block
    [b], the unit standing on the slot's last line (forward) or first
    line (reverse). *)
Lemma svc_read_slot k u0 dir b w sM :
  dir = 0 \/ dir = 1 ->
  0 <= b < DTU_TSIZE u0 ->
  0 <= w < DTU_WPERB u0 ->
  u_8fmt (unit k sM) = u_8fmt u0 ->
  filebuf (unit k sM) = filebuf u0 ->
  pos (unit k sM) =
    DT_BLK2LN b u0 + DT_WSIZE * w + (if dir =? 0 then 5 else 0) ->
  match slot_out dir u0 b w with
  | None => dtsb (svc_read k FNC_RALL dir b sM) = dtsb sM
  | Some x =>
      dtdb (svc_read k FNC_RALL dir b sM) = x
      /\ (dtsb (svc_read k FNC_RALL dir b sM) = Z.lor (dtsb sM) DTB_DTF
          \/ dtsb (svc_read k FNC_RALL dir b sM) = Z.lor (dtsb sM) DTB_BEF)
  end.
Proof.
  intros Hdir Hb Hw Hfmt Hbuf Hpos.
  destruct (geometry_fmt _ _ Hfmt) as (GB & GT & GL & GF).
  unfold svc_read. cbv zeta. rewrite unit_sim_activate.
  set (u := set_timer _ (unit k sM)).
  assert (Hu : pos u = pos (unit k sM) /\ filebuf u = filebuf u0
               /\ DTU_LPERB u = DTU_LPERB u0 /\ DTU_BSIZE u = DTU_BSIZE u0
               /\ u_8fmt u = u_8fmt u0)
    by (repeat split; assumption).
  destruct Hu as (Hpu & Hbu & HLu & HBu & Hfu).
  set (c := if dir =? 0 then 5 else 0) in *.
  assert (Hc : 0 <= c < 6) by (subst c; destruct (dir =? 0); lia).
  assert (Hrel : s32 (DT_LIN2OF (pos u) u) = DT_WSIZE * w + c).
  { unfold DT_LIN2OF. rewrite Hpu, Hpos, HLu. clear - Hb Hw Hc.
    geom u0; arith32. }
  rewrite Hrel, HLu, HBu, Hbu.
  assert (Hq : Z.quot (DT_WSIZE * w + c) DT_WSIZE = w).
  { change DT_WSIZE with 6. rewrite Z.quot_div_nonneg by lia.
    symmetry. apply (Z.div_unique _ _ _ c); lia. }
  rewrite Hq.
  unfold slot_out, slot_word.
  assert (HW : DTU_WPERB u0 = 2 * DT_HTWRD + DTU_BSIZE u0) by reflexivity.
  rewrite <- HW.
  assert (Hgeo : DTU_LPERB u0 = DT_WSIZE * DTU_WPERB u0
                 /\ DTU_WPERB u0 = DTU_BSIZE u0 + 10 /\ 0 < DTU_BSIZE u0)
    by (clear; geom u0; lia).
  destruct Hgeo as (HLP & HWB & HB0).
  change DT_HTLIN with 30. change DT_HTWRD with 5 in *.
  change DT_WSIZE with 6 in *. change DT_CSMWD with 4.
  change FNC_RALL with 5. change FNC_READ with 2. change (5 =? 2) with false.
  cbn [andb].
  destruct (Z.eqb_spec w 0) as [H0|H0], (Z.eqb_spec w (DTU_WPERB u0 - 1)) as [H1|H1];
    cbn [orb];
    destruct (Z.geb_spec (6 * w + c) 30), (Z.ltb_spec (6 * w + c) (DTU_LPERB u0 - 30));
    destruct (Z.leb_spec 5 w), (Z.ltb_spec w (5 + DTU_BSIZE u0));
    try lia; cbn [andb].
  all: autorewrite with dtrw.
  all: try reflexivity.
  1: { (* data zone *)
    assert (Hwd : s32 (DT_LIN2WD (pos u) u) = w - 5).
    { unfold DT_LIN2WD, DT_LIN2OF. rewrite Hpu, Hpos, HLu.
      geom u0; arith32. }
    assert (Hba : u32 (b * DTU_BSIZE u0 + (w - 5)) = b * DTU_BSIZE u0 + (w - 5)).
    { geom u0; arith32. }
    rewrite Hwd, Hba.
    destruct (dir =? 0); cbn [dtdb dtsb set_dtdb set_dtsb]; split; auto. }
  all: rewrite (dt_gethdr_ext u u0 b (6 * w + c) (6 * w) Hfu Hbu)
    by (change DT_WSIZE with 6; rewrite Hq;
        rewrite Z.mul_comm, Z.quot_mul by lia; reflexivity).
  all: repeat match goal with
    | |- context [if ?d then _ else _] => destruct d
    end;
    cbn [dtdb dtsb set_dtdb set_dtsb]; split; auto.
Qed.

Lemma dev_dis_UPDINT s : dev_dis (DT_UPDINT s) = dev_dis s.
Proof. unfold DT_UPDINT. now destruct (_ =? 0). Qed.

Lemma land_lnot_diag x m : Z.land (Z.land x (Z.lnot m)) m = 0.
Proof.
  apply Z.bits_inj'. intros n Hn.
  rewrite !Z.land_spec, Z.lnot_spec, Z.bits_0 by lia.
  now destruct (Z.testbit x n), (Z.testbit m n).
Qed.

Lemma flag_raised d f n :
  0 <= n -> f = Z.shiftl 1 n ->
  Z.testbit (Z.lor DTB_DTF DTB_BEF) n = true ->
  Z.land (Z.lor d f) (Z.lor DTB_DTF DTB_BEF) <> 0.
Proof.
  intros Hn -> Hm E.
  assert (Hbit : Z.testbit (Z.land (Z.lor d (Z.shiftl 1 n))
                   (Z.lor DTB_DTF DTB_BEF)) n = true).
  { rewrite Z.land_spec, Z.lor_spec, testbit_pow2, Hm by lia.
    now rewrite orb_true_r. }
  rewrite E, Z.bits_0 in Hbit. discriminate.
Qed.

(** One word time of a READ ALL pass: the word of the slot is delivered
    and the unit is one word time from the next slot in its direction. *)
Lemma word_time_reading k u0 dir b w s :
  reading k u0 dir b w s ->
  dir = 0 \/ dir = 1 ->
  0 <= b < DTU_TSIZE u0 ->
  0 <= w < DTU_WPERB u0 ->
  exists s',
    word_time_tot k s = (slot_out dir u0 b w, s')
    /\ reading k u0 dir b (if dir =? 0 then w + 1 else w - 1) s'.
Proof.
  intros R Hdir Hb Hw.
  destruct (fire_reading k u0 dir b w s R Hdir Hb Hw)
    as (sM & Hfire & HuM & HbM & HlM & HtM & HdM).
  destruct R as (Hdd & HL & HL6 & Hatt & Hfmt & Hbuf & Hst & Htm & Hlt & Hpos & Hfl).
  destruct (svc_read_frame k FNC_RALL dir b sM) as (Fu & Ft & Fl & Fd).
  assert (Hslot := svc_read_slot k u0 dir b w sM Hdir Hb Hw).
  rewrite HuM in Hslot. specialize (Hslot Hfmt Hbuf eq_refl).
  unfold word_time_tot. rewrite Hfire.
  set (s1 := svc_read k FNC_RALL dir b sM) in *.
  rewrite (dt_MRD_eq 0 0 s1) by (rewrite Fd; exact HdM).
  rewrite Z.land_0_l, Z.lor_0_l.
  eexists. split.
  - f_equal. destruct (slot_out dir u0 b w) as [x|].
    + destruct Hslot as (Hx & [Hf|Hf]); rewrite Hf, HbM, Hx.
      * destruct (Z.eqb_spec (Z.land (Z.lor (dtsb s) DTB_DTF)
                   (Z.lor DTB_DTF DTB_BEF)) 0) as [E|_]; [|reflexivity].
        exfalso. revert E. now apply (flag_raised _ _ DTB_V_DTF).
      * destruct (Z.eqb_spec (Z.land (Z.lor (dtsb s) DTB_BEF)
                   (Z.lor DTB_DTF DTB_BEF)) 0) as [E|_]; [|reflexivity].
        exfalso. revert E. now apply (flag_raised _ _ DTB_V_BEF).
    + rewrite Hslot, HbM, Hfl. reflexivity.
  - unfold reading. autorewrite with dtrw.
    rewrite dev_dis_UPDINT. cbn [dev_dis dt_ltime sim_rtime dtsb set_dtsb].
    rewrite Fu, Ft, Fl, Fd, HuM, HlM, HtM.
    cbn [u_att u_8fmt filebuf STATE timer LASTT pos set_timer set_pos set_LASTT].
    repeat split; try assumption.
    + f_equal. apply s32_small. change DT_WSIZE with 6 in *.
      change (2 ^ 31) with 2147483648 in *. lia.
    + change DT_WSIZE with 6. destruct Hdir as [-> | ->]; simpl; lia.
    + apply land_lnot_diag.
Qed.

Lemma slots_S dir w n :
  slots dir w (S n) = w :: slots dir (if dir =? 0 then w + 1 else w - 1) n.
Proof.
  unfold slots. cbn [seq fmap list_fmap]. f_equal.
  - destruct (dir =? 0); lia.
  - rewrite <- (fmap_S_seq 0 n), <- list_fmap_compose.
    apply list_fmap_ext. intros i x _. unfold compose.
    destruct (dir =? 0); simpl; lia.
Qed.

(** The words delivered by [n] word times of a READ ALL pass that
    stays within the block. *)
Lemma read_pass_slots k u0 dir b n : forall w s,
  reading k u0 dir b w s ->
  dir = 0 \/ dir = 1 ->
  0 <= b < DTU_TSIZE u0 ->
  Forall (fun x => 0 <= x < DTU_WPERB u0) (slots dir w n) ->
  read_pass_tot k n s = omap (slot_out dir u0 b) (slots dir w n).
Proof.
  induction n as [|n IH]; intros w s R Hdir Hb Hall.
  - reflexivity.
  - rewrite slots_S in *.
    inversion Hall as [|x l Hw Hall']; subst; clear Hall; rename Hall' into Hall.
    destruct (word_time_reading k u0 dir b w s R Hdir Hb Hw) as (s' & Hwt & R').
    cbn [read_pass_tot omap list_omap]. rewrite Hwt.
    rewrite (IH _ _ R' Hdir Hb Hall).
    destruct (slot_out dir u0 b w); reflexivity.
Qed.

Lemma slots_up_range n w W :
  0 <= w -> w + Z.of_nat n <= W ->
  Forall (fun x => 0 <= x < W) (slots 0 w n).
Proof.
  intros Hw HW. unfold slots. apply Forall_fmap, Forall_forall.
  intros i Hi. apply in_seq in Hi. simpl. lia.
Qed.

Lemma slots_down_range n w W :
  Z.of_nat n <= w + 1 -> w < W ->
  Forall (fun x => 0 <= x < W) (slots 1 w n).
Proof.
  intros Hw HW. unfold slots. apply Forall_fmap, Forall_forall.
  intros i Hi. apply in_seq in Hi. simpl. lia.
Qed.

Lemma slots_down_rev n :
  slots 1 (Z.of_nat n - 1) n = rev (slots 0 0 n).
Proof.
  induction n as [|n IH].
  - reflexivity.
  - rewrite slots_S. change (1 =? 0) with false. cbv iota.
    unfold slots at 2. rewrite seq_S, fmap_app, rev_app_distr. simpl.
    f_equal; [lia|].
    replace (Z.of_nat (S n) - 1 - 1) with (Z.of_nat n - 1) by lia.
    exact IH.
Qed.

Lemma omap_reverse {X Y} (g : X -> option Y) (xs : list X) :
  rev (omap g xs) = omap g (rev xs).
Proof.
  induction xs as [|x xs IH]; [reflexivity|].
  csimpl. rewrite omap_app, <- IH. csimpl.
  destruct (g x); csimpl; [reflexivity|]. now rewrite app_nil_r.
Qed.

Lemma slot_out_reverse u0 b (l : list Z) :
  omap (slot_out 1 u0 b) l = dt_comobv <$> omap (slot_out 0 u0 b) l.
Proof.
  induction l as [|w l IH]; [reflexivity|].
  csimpl. rewrite IH. unfold slot_out.
  destruct ((w =? 0) || (w =? DTU_WPERB u0 - 1)); reflexivity.
Qed.

(** [read_all_backward] on the routines with the total division. *)
Lemma read_all_backward_tot (k : fin 8) (u0 : UNIT) (blk : Z) (sF sR : DT) :
  0 <= blk < DTU_TSIZE u0 ->
  reading k u0 0 blk 0 sF ->
  reading k u0 1 blk (DTU_WPERB u0 - 1) sR ->
  read_pass_tot k (Z.to_nat (DTU_WPERB u0)) sR =
  rev (dt_comobv <$> read_pass_tot k (Z.to_nat (DTU_WPERB u0)) sF).
Proof.
  intros Hb RF RR.
  assert (HW : 0 < DTU_WPERB u0) by (clear; geom u0; lia).
  set (n := Z.to_nat (DTU_WPERB u0)).
  assert (Hn : Z.of_nat n = DTU_WPERB u0) by (subst n; lia).
  rewrite (read_pass_slots k u0 0 blk n 0 sF RF (or_introl eq_refl) Hb).
  2: { apply slots_up_range; lia. }
  rewrite (read_pass_slots k u0 1 blk n (DTU_WPERB u0 - 1) sR RR
             (or_intror eq_refl) Hb).
  2: { apply slots_down_range; lia. }
  rewrite <- Hn, slots_down_rev, <- omap_reverse, slot_out_reverse.
  reflexivity.
Qed.


(** * Further properties of the controller's code *)

(** ** The utility routines and the tape geometry *)

(** X1.  [dt_comobv] bit by bit, for every argument: the result is an
    18-bit word whose bit [n] is the inverse of the argument's bit
    [3 * (5 - n / 3) + n mod 3], the bit in the same place of the
    mirrored 3-bit group; what the argument has above bit 17 is
    dropped. *)
Theorem dt_comobv_bits (x n : Z) :
  0 <= n ->
  0 <= dt_comobv x <= 262143
  /\ Z.testbit (dt_comobv x) n =
     if n <? 18 then negb (Z.testbit x (3 * (5 - n / 3) + n mod 3)) else false.
Proof.
  intros Hn. split; [apply dt_comobv_range|].
  rewrite dt_comobv_testbit by exact Hn. reflexivity.
Qed.

Lemma lxor_ones18 w : 0 <= w <= 262143 -> Z.lxor w 262143 = 262143 - w.
Proof.
  intros Hw.
  assert (Hd : Z.land w (Z.lxor w 262143) = 0).
  { apply Z.bits_inj'. intros n Hn.
    rewrite Z.land_spec, Z.lxor_spec, Z.bits_0.
    destruct (Z.ltb_spec n 18) as [Hlt|Hge].
    - change 262143 with (Z.ones 18). rewrite Z.ones_spec_low by lia.
      now destruct (Z.testbit w n).
    - destruct (Z.eq_dec w 0) as [->|Hw0]; [now rewrite Z.bits_0|].
      rewrite (Z.bits_above_log2 w n); [reflexivity | lia |].
      apply Z.log2_lt_pow2; [lia|].
      apply Z.lt_le_trans with (2 ^ 18); [change (2 ^ 18) with 262144; lia|].
      apply Z.pow_le_mono_r; lia. }
  pose proof (Z.add_nocarry_lxor _ _ Hd) as Ha.
  rewrite <- Z.lxor_assoc, Z.lxor_nilpotent, Z.lxor_0_l in Ha. lia.
Qed.

Lemma Zsum_snoc (l : list Z) (c : Z) : Zsum (l ++ [c]) = Zsum l + c.
Proof.
  induction l as [|a l IH]; [simpl; lia|].
  change (Zsum ((a :: l) ++ [c])) with (a + Zsum (l ++ [c])).
  change (Zsum (a :: l)) with (a + Zsum l). lia.
Qed.

(** X2.  The checksum checks: on a block of 18-bit words the word made
    by [dt_csum] lies in 0..0777776, and the one's-complement sum of the
    block's data words and that checksum is the all-ones word. *)
Theorem dt_csum_checks (u : UNIT) (blk : Z) :
  Z.of_nat (length (filebuf u)) = DTU_CAPAC u ->
  0 <= blk < DTU_TSIZE u ->
  forallb word18 (block_words u blk) = true ->
  0 <= dt_csum u blk <= 262142
  /\ ones_sum18 (block_words u blk ++ [dt_csum u blk]) = 262143.
Proof.
  intros Hlen Hblk Hws.
  rewrite (dt_csum_law u blk Hlen Hblk Hws). unfold compl18.
  set (ws := block_words u blk).
  assert (HS : 1 <= ones_sum18 ws <= 262143).
  { unfold ones_sum18.
    pose proof (Z.mod_pos_bound (Zsum ws) 262143 ltac:(lia)).
    destruct (Z.eqb_spec (Zsum ws mod 262143) 0); lia. }
  rewrite lxor_ones18 by lia. split; [lia|].
  assert (Hm : ones_sum18 ws mod 262143 = Zsum ws mod 262143).
  { unfold ones_sum18.
    destruct (Z.eqb_spec (Zsum ws mod 262143) 0) as [E|E].
    - now rewrite E.
    - now rewrite Z.mod_mod by lia. }
  assert (Hsum : Zsum (ws ++ [262143 - ones_sum18 ws])
                 = Zsum ws + (262143 - ones_sum18 ws)).
  { apply Zsum_snoc. }
  unfold ones_sum18 at 1. rewrite Hsum.
  replace (Zsum ws + (262143 - ones_sum18 ws))
    with ((Zsum ws - ones_sum18 ws) + 1 * 262143) by lia.
  rewrite Z.mod_add by lia.
  rewrite Zminus_mod, <- Hm, Z.sub_diag. reflexivity.
Qed.

(** X3.  Lines and blocks: the line [off] lines into block [blk] lies
    between the end zones, and the macros that take a line apart give
    back the block and the offset. *)
Theorem DT_BLK2LN_inverse (u : UNIT) (blk off : Z) :
  0 <= blk < DTU_TSIZE u ->
  0 <= off < DTU_LPERB u ->
  DT_EZLIN <= DT_BLK2LN blk u + off < DTU_FWDEZ u
  /\ DT_LIN2BL (DT_BLK2LN blk u + off) u = blk
  /\ DT_LIN2OF (DT_BLK2LN blk u + off) u = off.
Proof.
  intros Hb Ho. unfold DT_LIN2BL, DT_LIN2OF.
  geom u; repeat split; arith32.
Qed.

(** X4.  No word transfer leaves the image buffer: for a line between
    the end zones that lies in the data zone of its block, the word
    number within the block is below the block size and the buffer
    index [blk * DTU_BSIZE + wrd] that [dt_svc] computes is below the
    unit's capacity. *)
Theorem data_word_in_buffer (u : UNIT) (p : Z) :
  DT_EZLIN <= p < DTU_FWDEZ u ->
  DT_HTLIN <= DT_LIN2OF p u < DTU_LPERB u - DT_HTLIN ->
  0 <= DT_LIN2BL p u < DTU_TSIZE u
  /\ 0 <= DT_LIN2WD p u < DTU_BSIZE u
  /\ 0 <= DT_LIN2BL p u * DTU_BSIZE u + DT_LIN2WD p u < DTU_CAPAC u.
Proof.
  unfold DT_LIN2WD, DT_LIN2BL, DT_LIN2OF. intros Hp Ho.
  geom u; arith32.
Qed.

(** ** The I/O pulses *)

(** [dt_MWR_MRD] on the routines with the total division. *)
Lemma dt_MWR_MRD_tot (IR IR' dev dat dat' : Z) (s : DT) :
  Z.land (Z.shiftr IR 6) 31 = 6 ->
  Z.land (Z.shiftr IR' 6) 31 = 5 ->
  dev_dis s = false ->
  exists s1 s2,
    dt_tot IR dev dat s = Some (dat, s1)
    /\ dt_tot IR' dev dat' s1 =
       Some (Z.lor (Z.land dat' (Z.lnot DMASK)) (Z.land dat DMASK), s2)
    /\ dtdb s1 = Z.land dat DMASK /\ dtdb s2 = Z.land dat DMASK
    /\ dtsa s2 = dtsa s /\ dt_unit s2 = dt_unit s
    /\ Z.land (dtsb s2) (Z.lor DTB_DTF DTB_BEF) = 0.
Proof.
  intros H6 H5 Hd.
  eexists _, _. split; [|split].
  - unfold dt_tot. rewrite H6, Hd.
    change (6 =? 3) with false. change (6 =? 4) with false.
    change (6 =? 5) with false. change (6 =? 6) with true. cbv iota zeta.
    reflexivity.
  - unfold dt_tot at 1. rewrite H5, dev_dis_UPDINT. cbn [dev_dis set_dtsb set_dtdb].
    rewrite Hd.
    change (5 =? 3) with false. change (5 =? 4) with false.
    change (5 =? 5) with true. cbv iota zeta.
    rewrite dtdb_UPDINT. reflexivity.
  - repeat (autorewrite with dtrw; cbn [dtdb dtsa dt_unit dtsb set_dtsb set_dtdb]).
    repeat split; try reflexivity. apply land_lnot_diag.
Qed.

Lemma testbit_flag v n :
  0 <= v -> 0 <= n -> Z.testbit (Z.shiftl 1 v) n = (n =? v).
Proof.
  intros Hv Hn. destruct (Z.eqb_spec n v) as [->|Hne].
  - now apply testbit_pow2.
  - rewrite Z.shiftl_spec by lia.
    destruct (Z.ltb_spec (n - v) 0) as [Hlt|Hge].
    + now apply Z.testbit_neg_r.
    + change 1 with (Z.ones 1). rewrite Z.testbit_ones_nonneg by lia.
      destruct (Z.ltb_spec (n - v) 1); [lia|reflexivity].
Qed.

(** [dt_MRS_status] on the routines with the total division. *)
Lemma dt_MRS_status_tot (IR dev dat : Z) (s : DT) :
  Z.land (Z.shiftr IR 6) 31 = 7 ->
  dev_dis s = false ->
  exists s',
    dt_tot IR dev dat s = Some (Z.lor (Z.land dat (Z.lnot DMASK)) (dtsb s'), s')
    /\ dtsa s' = dtsa s /\ dtdb s' = dtdb s /\ dt_unit s' = dt_unit s
    /\ (forall n, 0 <= n -> n <> DTB_V_REV -> n <> DTB_V_GO ->
        Z.testbit (dtsb s') n = Z.testbit (dtsb s) n)
    /\ match unit_ptr (DTA_GETUNIT (dtsa s)) with
       | Some k =>
           Z.testbit (dtsb s') DTB_V_REV =
             negb (Z.land (DTS_GETMOT (STATE (unit k s))) DTS_DIR =? 0)
           /\ Z.testbit (dtsb s') DTB_V_GO =
              (DTS_GETMOT (STATE (unit k s)) >=? DTS_ACCF)
              || negb (Z.land (STATE (unit k s)) 262080 =? 0)
       | None =>
           Z.testbit (dtsb s') DTB_V_REV = false
           /\ Z.testbit (dtsb s') DTB_V_GO = false
       end.
Proof.
  intros Hp Hd. unfold dt_tot. rewrite Hp, Hd.
  change (7 =? 3) with false. change (7 =? 4) with false.
  change (7 =? 5) with false. change (7 =? 6) with false.
  change (7 =? 7) with true. cbv iota zeta.
  assert (Hptr : (if DTA_GETUNIT (dtsa s) >=? 0
                  then unit_ptr (DTA_GETUNIT (dtsa s)) else None)
                 = unit_ptr (DTA_GETUNIT (dtsa s))).
  { destruct (DTA_GETUNIT (dtsa s)) as [|p|p]; reflexivity. }
  cbn [dtsa set_dtsb]. rewrite Hptr.
  set (b0 := Z.land (dtsb s) (Z.lnot (Z.lor DTB_REV DTB_GO))).
  assert (Hb0 : forall n, 0 <= n ->
            Z.testbit b0 n =
            Z.testbit (dtsb s) n && negb ((n =? DTB_V_REV) || (n =? DTB_V_GO))).
  { intros n Hn. subst b0.
    rewrite Z.land_spec, Z.lnot_spec, Z.lor_spec by lia.
    unfold DTB_REV, DTB_GO.
    rewrite !testbit_flag by (try exact Hn; vm_compute; discriminate).
    reflexivity. }
  eexists. split; [rewrite dtsb_UPDINT; reflexivity|].
  rewrite dtsa_UPDINT, dtdb_UPDINT, units_UPDINT, dtsb_UPDINT.
  destruct (unit_ptr (DTA_GETUNIT (dtsa s))) as [k|].
  - change (unit k (set_dtsb b0 s)) with (unit k s).
    set (mot := DTS_GETMOT (STATE (unit k s))).
    destruct (Z.land mot DTS_DIR =? 0) eqn:E1;
      [ change (unit k (set_dtsb b0 s)) with (unit k s)
      | change (unit k (set_dtsb (Z.lor (dtsb (set_dtsb b0 s)) DTB_REV)
                          (set_dtsb b0 s))) with (unit k s) ];
      destruct ((mot >=? DTS_ACCF) || negb (Z.land (STATE (unit k s)) 262080 =? 0));
      cbn [dtsa dtdb dt_unit dtsb set_dtsb negb];
      (split; [reflexivity|]); (split; [reflexivity|]); (split; [reflexivity|]);
      (split; [intros n Hn Hr Hg | split]);
      unfold DTB_REV, DTB_GO;
      rewrite ?Z.lor_spec, ?Hb0, ?testbit_flag
        by (try exact Hn; vm_compute; discriminate);
      try (destruct (Z.eqb_spec n DTB_V_REV); [contradiction|]);
      try (destruct (Z.eqb_spec n DTB_V_GO); [contradiction|]);
      change (DTB_V_REV =? DTB_V_REV) with true;
      change (DTB_V_REV =? DTB_V_GO) with false;
      change (DTB_V_GO =? DTB_V_GO) with true;
      change (DTB_V_GO =? DTB_V_REV) with false;
      match goal with
      | |- context [Z.testbit (dtsb s) ?m] => destruct (Z.testbit (dtsb s) m)
      end; reflexivity.
  - cbn [dtsa dtdb dt_unit dtsb set_dtsb]. repeat split.
    + intros n Hn Hr Hg. rewrite Hb0 by exact Hn.
      destruct (Z.eqb_spec n DTB_V_REV); [contradiction|].
      destruct (Z.eqb_spec n DTB_V_GO); [contradiction|].
      now destruct (Z.testbit (dtsb s) n).
    + rewrite Hb0 by (vm_compute; discriminate).
      change (DTB_V_REV =? DTB_V_REV) with true.
      now destruct (Z.testbit (dtsb s) DTB_V_REV).
    + rewrite Hb0 by (vm_compute; discriminate).
      change (DTB_V_GO =? DTB_V_GO) with true.
      change (DTB_V_GO =? DTB_V_REV) with false.
      now destruct (Z.testbit (dtsb s) DTB_V_GO).
Qed.

(** ** What a command and an event leave alone *)

Lemma only_unit_refl k s : only_unit k s s.
Proof. repeat split; reflexivity. Qed.

Lemma only_unit_trans k s1 s2 s3 :
  only_unit k s1 s2 -> only_unit k s2 s3 -> only_unit k s1 s3.
Proof.
  intros (A1 & A2 & A3 & A4 & A5 & A6 & A7) (B1 & B2 & B3 & B4 & B5 & B6 & B7).
  repeat split; try congruence.
  intros j Hj. rewrite B1, A1 by exact Hj. reflexivity.
Qed.

Lemma ou_upd k f s0 s : only_unit k s0 s -> only_unit k s0 (upd_unit k f s).
Proof.
  intros H. apply (only_unit_trans _ _ _ _ H).
  repeat split; try reflexivity. intros j Hj. now apply unit_upd_ne.
Qed.

Lemma ou_set_dtsa k v s0 s : only_unit k s0 s -> only_unit k s0 (set_dtsa v s).
Proof. intros H. apply (only_unit_trans _ _ _ _ H). repeat split; reflexivity. Qed.
Lemma ou_set_dtsb k v s0 s : only_unit k s0 s -> only_unit k s0 (set_dtsb v s).
Proof. intros H. apply (only_unit_trans _ _ _ _ H). repeat split; reflexivity. Qed.
Lemma ou_set_dtdb k v s0 s : only_unit k s0 s -> only_unit k s0 (set_dtdb v s).
Proof. intros H. apply (only_unit_trans _ _ _ _ H). repeat split; reflexivity. Qed.
Lemma ou_set_substate k v s0 s :
  only_unit k s0 s -> only_unit k s0 (set_substate v s).
Proof. intros H. apply (only_unit_trans _ _ _ _ H). repeat split; reflexivity. Qed.
Lemma ou_UPDINT k s0 s : only_unit k s0 s -> only_unit k s0 (DT_UPDINT s).
Proof.
  intros H. apply (only_unit_trans _ _ _ _ H). unfold DT_UPDINT.
  destruct (_ =? 0); repeat split; reflexivity.
Qed.

Lemma ou_sim_cancel k s0 s : only_unit k s0 s -> only_unit k s0 (sim_cancel k s).
Proof. apply ou_upd. Qed.
Lemma ou_sim_activate k d s0 s :
  only_unit k s0 s -> only_unit k s0 (sim_activate k d s).
Proof. apply ou_upd. Qed.
Lemma ou_detach k s0 s : only_unit k s0 s -> only_unit k s0 (detach_unit k s).
Proof. apply ou_upd. Qed.
Lemma ou_SETSTA k y z s0 s : only_unit k s0 s -> only_unit k s0 (DTS_SETSTA k y z s).
Proof. apply ou_upd. Qed.
Lemma ou_SET2ND k y z s0 s : only_unit k s0 s -> only_unit k s0 (DTS_SET2ND k y z s).
Proof. apply ou_upd. Qed.
Lemma ou_SET3RD k y z s0 s : only_unit k s0 s -> only_unit k s0 (DTS_SET3RD k y z s).
Proof. apply ou_upd. Qed.
Lemma ou_schedez k d s0 s : only_unit k s0 s -> only_unit k s0 (dt_schedez k d s).
Proof. apply ou_upd. Qed.

Lemma ou_seterr_idle k e s0 s :
  only_unit k s0 s ->
  only_unit k s0 (dt_seterr_with_tot (fun _ s => (false, s)) k e s).
Proof.
  intros H. unfold dt_seterr_with_tot. cbv zeta.
  destruct (_ >=? _).
  - unfold DTS_SETSTA, sim_activate, sim_cancel.
    apply ou_UPDINT; repeat apply ou_upd. now apply ou_set_dtsb, ou_set_dtsa.
  - now apply ou_UPDINT, ou_set_dtsb, ou_set_dtsa.
Qed.

Lemma ou_setpos k s0 s off s1 :
  only_unit k s0 s -> dt_setpos_tot k s = (off, s1) -> only_unit k s0 s1.
Proof.
  intros H E. unfold dt_setpos_tot in E. cbv zeta in E.
  destruct (_ =? 0) in E; [injection E as _ <-; exact H|].
  match type of E with
  | (if ?c then _ else _) = _ => destruct c
  end; injection E as _ <-.
  - destruct (_ =? _).
    + apply ou_seterr_idle. unfold detach_unit.
      destruct (_ =? 0); repeat apply ou_upd; exact H.
    + unfold detach_unit. destruct (_ =? 0); repeat apply ou_upd; exact H.
  - destruct (_ =? 0); repeat apply ou_upd; exact H.
Qed.

Lemma ou_seterr k e s0 s : only_unit k s0 s -> only_unit k s0 (dt_seterr_tot k e s).
Proof.
  intros H. unfold dt_seterr_tot, dt_seterr_with_tot. cbv zeta.
  destruct (_ >=? _).
  - destruct (dt_setpos_tot k _) as [off s1] eqn:E.
    apply ou_setpos with (s0 := s0) in E;
      [| now apply ou_sim_cancel, ou_set_dtsb, ou_set_dtsa].
    destruct off; [exact E|].
    now apply ou_UPDINT, ou_SETSTA, ou_sim_activate.
  - now apply ou_UPDINT, ou_set_dtsb, ou_set_dtsa.
Qed.

Ltac frame_step :=
  match goal with
  | H : only_unit ?k ?a ?s |- only_unit ?k ?a ?s => exact H
  | |- only_unit ?k ?s ?s => apply only_unit_refl
  | |- only_unit _ _ (DT_UPDINT _) => apply ou_UPDINT
  | |- only_unit _ _ (dt_seterr_tot _ _ _) => apply ou_seterr
  | |- only_unit _ _ (dt_schedez _ _ _) => apply ou_schedez
  | |- only_unit _ _ (DTS_SET3RD _ _ _ _) => apply ou_SET3RD
  | |- only_unit _ _ (DTS_SET2ND _ _ _ _) => apply ou_SET2ND
  | |- only_unit _ _ (DTS_SETSTA _ _ _ _) => apply ou_SETSTA
  | |- only_unit _ _ (sim_activate _ _ _) => apply ou_sim_activate
  | |- only_unit _ _ (sim_cancel _ _) => apply ou_sim_cancel
  | |- only_unit _ _ (detach_unit _ _) => apply ou_detach
  | |- only_unit _ _ (set_dtsa _ _) => apply ou_set_dtsa
  | |- only_unit _ _ (set_dtsb _ _) => apply ou_set_dtsb
  | |- only_unit _ _ (set_dtdb _ _) => apply ou_set_dtdb
  | |- only_unit _ _ (set_substate _ _) => apply ou_set_substate
  | |- only_unit _ _ (upd_unit _ _ _) => apply ou_upd
  end.

Ltac frame :=
  repeat first
    [ frame_step
    | match goal with
      | |- only_unit _ _ (if ?c then _ else _) => destruct c
      end ].

Ltac frame_setpos k a :=
  match goal with
  | |- context [dt_setpos_tot k ?s] =>
      let off := fresh "off" in
      let s1 := fresh "s" in
      let E := fresh "E" in
      destruct (dt_setpos_tot k s) as [off s1] eqn:E;
      apply ou_setpos with (s0 := a) in E; [| repeat frame_step ]
  end.

Lemma ou_newfnc_dispatch k fnc dir s0 s :
  only_unit k s0 s -> only_unit k s0 (newfnc_dispatch_tot k fnc dir s).
Proof.
  intros H. unfold newfnc_dispatch_tot. cbv zeta.
  frame.
Qed.

Lemma ou_newfnc k newsta s0 s :
  only_unit k s0 s -> only_unit k s0 (dt_newfnc_tot k newsta s).
Proof.
  intros H. unfold dt_newfnc_tot. cbv zeta.
  frame_setpos k s0. destruct off; [assumption|].
  apply ou_newfnc_dispatch. frame.
Qed.

Lemma ou_deselect k oldf s0 s :
  unit_ptr (DTA_GETUNIT oldf) = Some k ->
  only_unit k s0 s -> only_unit k s0 (dt_deselect_tot oldf s).
Proof.
  intros Hk H. unfold dt_deselect_tot. rewrite Hk. cbv zeta.
  split_ifs; first [apply ou_newfnc | apply ou_SET2ND | idtac]; assumption.
Qed.

Lemma ou_newsa k newf s0 s :
  unit_ptr (DTA_GETUNIT newf) = Some k ->
  only_unit k s0 s -> only_unit k s0 (dt_newsa_tot newf s).
Proof.
  intros Hk H. unfold dt_newsa_tot. rewrite Hk. cbv zeta.
  destruct (negb (u_att (unit k s))); [now apply ou_seterr|].
  repeat match goal with
  | |- only_unit _ _ (if ?c then _ else _) => destruct c
  end;
  try assumption;
  try (frame_setpos k s0; destruct off; [assumption | repeat frame_step]);
  first [ apply ou_newfnc; assumption | repeat frame_step ].
Qed.

Lemma ou_svc_read k fnc dir blk s0 s :
  only_unit k s0 s -> only_unit k s0 (svc_read k fnc dir blk s).
Proof.
  intros H. unfold svc_read. cbv zeta. frame.
Qed.

Lemma ou_svc_write k fnc dir blk s0 s :
  only_unit k s0 s -> only_unit k s0 (svc_write k fnc dir blk s).
Proof.
  intros H. unfold svc_write. cbv zeta. frame.
Qed.

Lemma dt_svc_frame_units k s : only_unit k s (dt_svc_tot k s).
Proof.
  unfold dt_svc_tot. cbv zeta.
  pose proof (only_unit_refl k s) as H.
  destruct (_ || _).
  { frame_setpos k s. destruct off; [assumption|].
    frame. }
  destruct (_ || _); [now apply ou_newfnc|].
  destruct (_ || _); [|now apply ou_seterr].
  unfold svc_atspeed_tot. cbv zeta.
  frame_setpos k s. destruct off; [assumption|].
  repeat match goal with
  | |- only_unit _ _ (if ?c then _ else _) => destruct c
  end;
  first [ apply ou_svc_read; assumption | apply ou_svc_write; assumption
        | repeat frame_step ].
Qed.

(** [dt_svc_only_unit] on the routines with the total division. *)
Lemma dt_svc_only_unit_tot (k : fin 8) (s : DT) : only_unit k s (dt_svc_tot k s).
Proof. apply dt_svc_frame_units. Qed.

Lemma uptr_eq unum :
  (if unum >=? 0 then unit_ptr unum else None) = unit_ptr unum.
Proof. destruct unum as [|p|p]; reflexivity. Qed.

Lemma dt_frame IR dev dat s d s' :
  dt_tot IR dev dat s = Some (d, s') ->
  (forall j, unit_ptr (DTA_GETUNIT (dtsa s)) <> Some j -> unit j s' = unit j s)
  /\ dt_ltime s' = dt_ltime s /\ dt_actime s' = dt_actime s
  /\ dt_dctime s' = dt_dctime s /\ sim_rtime s' = sim_rtime s
  /\ dev_dis s' = dev_dis s /\ stop_inst s' = stop_inst s.
Proof.
  intros E. unfold dt_tot in E.
  destruct (dev_dis s) eqn:Hd.
  { injection E as _ <-. repeat split; auto. }
  cbv zeta in E. rewrite uptr_eq in E.
  cbn [dtsa set_dtsa set_dtsb] in E.
  destruct (unit_ptr (DTA_GETUNIT (dtsa s))) as [k|] eqn:Hk.
  - assert (H : only_unit k s s').
    { pose proof (only_unit_refl k s) as H0.
      destruct (_ =? 3).
      { injection E as _ <-.
        destruct (_ =? 0); repeat frame_step.
        apply ou_deselect; assumption. }
      destruct (_ =? 4).
      { change (unit k (set_dtsb _ (set_dtsa _ s))) with (unit k s) in E.
        destruct (_ || _) in E; injection E as _ <-.
        - repeat frame_step.
        - apply ou_UPDINT, ou_newsa; [|repeat frame_step].
          rewrite <- Hk. f_equal. exact (GETUNIT_loaded dat s). }
      destruct (_ =? 5); [injection E as _ <-; repeat frame_step|].
      destruct (_ =? 6); [injection E as _ <-; repeat frame_step|].
      destruct (_ =? 7); injection E as _ <-; [|repeat frame_step].
      frame. }
    destruct H as (H1 & H2 & H3 & H4 & H5 & H6 & H7).
    rewrite Hd in H6. repeat split; try assumption.
    intros j Hj. apply H1. congruence.
  - assert (H : forall k, only_unit k s s').
    { intros k. pose proof (only_unit_refl k s) as H0.
      destruct (_ =? 3).
      { injection E as _ <-. unfold dt_deselect_tot. rewrite Hk.
        destruct (_ =? 0); repeat frame_step. }
      destruct (_ =? 4); [discriminate|].
      destruct (_ =? 5); [injection E as _ <-; repeat frame_step|].
      destruct (_ =? 6); [injection E as _ <-; repeat frame_step|].
      destruct (_ =? 7); injection E as _ <-; repeat frame_step. }
    destruct (H 0%fin) as (H1 & H2 & H3 & H4 & H5 & H6 & H7).
    rewrite Hd in H6. repeat split; try assumption.
    intros j _. destruct (decide (0%fin = j)) as [<-|Hne].
    + destruct (H 1%fin) as (G1 & _). apply G1. discriminate.
    + now apply H1.
Qed.

(** [dt_only_selected] on the routines with the total division. *)
Lemma dt_only_selected_tot (IR dev dat : Z) (s : DT) (d : Z) (s' : DT) :
  dt_tot IR dev dat s = Some (d, s') ->
  (forall j, unit_ptr (DTA_GETUNIT (dtsa s)) <> Some j -> unit j s' = unit j s)
  /\ dt_ltime s' = dt_ltime s /\ dt_actime s' = dt_actime s
  /\ dt_dctime s' = dt_dctime s /\ sim_rtime s' = sim_rtime s
  /\ dev_dis s' = dev_dis s /\ stop_inst s' = stop_inst s.
Proof. apply dt_frame. Qed.

(** ** Units without a tape *)

Lemma clean_of_att u : u_att u = true -> unit_clean u.
Proof. intros H Hf. congruence. Qed.

Lemma clean_of_zero u : STATE u = 0 -> pos u = 0 -> unit_clean u.
Proof. intros H1 H2 _. now split. Qed.

Lemma setpos_false_unit k s s1 :
  dt_setpos_tot k s = (false, s1) ->
  u_att (unit k s1) = u_att (unit k s) /\ STATE (unit k s1) = STATE (unit k s).
Proof.
  intros E. apply dt_setpos_false in E as [_ ->].
  now rewrite att_moved, STATE_moved.
Qed.

Lemma setpos_true_unit k s s1 :
  dt_setpos_tot k s = (true, s1) -> unit_clean (unit k s1).
Proof.
  intros E. destruct (stays_on_reel k s) eqn:R.
  - rewrite (dt_setpos_stays k s R) in E. discriminate.
  - rewrite (dt_setpos_leaves k s R) in E. injection E as <-.
    destruct (unit_off_reel k s) as (_ & H1 & H2). now apply clean_of_zero.
Qed.

Lemma s32_0 : s32 0 = 0.
Proof. reflexivity. Qed.

(** A unit at rest does not move, however much time has gone by. *)
Lemma next_pos_rest k s :
  STATE (unit k s) = 0 -> next_pos k s = u32 (pos (unit k s)).
Proof.
  intros H. unfold next_pos, delta_lines. cbv zeta. rewrite H.
  change (DTS_GETMOT 0) with 0. change (Z.land 0 DTS_DIR =? 0) with true.
  change (Z.land 0 (Z.lnot DTS_DIR) =? DTS_STOP) with true. cbv iota.
  now rewrite Z.add_0_r.
Qed.

Lemma setpos_clean k s off s1 :
  unit_clean (unit k s) -> dt_setpos_tot k s = (off, s1) -> unit_clean (unit k s1).
Proof.
  intros Hc E. destruct off; [now apply (setpos_true_unit k s)|].
  destruct (setpos_false_unit k s s1 E) as [Ha Hs].
  destruct (u_att (unit k s)) eqn:A; [now apply clean_of_att|].
  destruct (Hc A) as [H0 P0].
  apply dt_setpos_false in E as [_ ->].
  apply clean_of_zero; [now rewrite STATE_moved|].
  rewrite unit_moved. destruct (_ =? 0); [exact P0|].
  cbn [pos set_pos]. rewrite next_pos_rest, P0 by exact H0. reflexivity.
Qed.

Lemma GETMOT_zero x : x = 0 -> DTS_GETMOT x < DTS_ACCF.
Proof. intros ->. reflexivity. Qed.

Lemma seterr_clean k e s :
  unit_clean (unit k s) -> unit_clean (unit k (dt_seterr_tot k e s)).
Proof.
  intros Hc.
  destruct (Z.lt_ge_cases (DTS_GETMOT (STATE (unit k s))) DTS_ACCF) as [H|H].
  - rewrite dt_seterr_idle by exact H. now autorewrite with dtrw.
  - assert (A : u_att (unit k s) = true).
    { destruct (u_att (unit k s)) eqn:A; [reflexivity|].
      destruct (Hc A) as [H0 _]. rewrite H0 in H.
      change (DTS_GETMOT 0) with 0 in H. change DTS_ACCF with 4 in H. lia. }
    destruct (stays_on_reel k s) eqn:R.
    + destruct (dt_seterr_moving k e s H R) as (_ & _ & _ & _ & _ & _ & _ & _ & Hk).
      rewrite Hk. apply clean_of_att. cbn [u_att set_STATE set_timer].
      now rewrite att_moved.
    + destruct (dt_seterr_leaves k e s H R) as (_ & H1 & H2).
      now apply clean_of_zero.
Qed.

Lemma att_upd_timer k t s :
  u_att (unit k (upd_unit k (set_timer t) s)) = u_att (unit k s).
Proof. now rewrite unit_upd_eq. Qed.

Lemma newfnc_dispatch_att k fnc dir s :
  u_att (unit k s) = true -> unit_clean (unit k (newfnc_dispatch_tot k fnc dir s)).
Proof.
  intros A. unfold newfnc_dispatch_tot. cbv zeta.
  assert (Hc : unit_clean (unit k s)) by now apply clean_of_att.
  assert (Hc1 : unit_clean (unit k (set_substate DTO_SOB (sim_cancel k s)))).
  { apply clean_of_att. change (unit k (set_substate _ ?x)) with (unit k x).
    now rewrite unit_sim_cancel. }
  split_ifs; try (now apply seterr_clean);
    apply clean_of_att; autorewrite with dtrw; exact A.
Qed.

Lemma newfnc_att k newsta s :
  u_att (unit k s) = true -> unit_clean (unit k (dt_newfnc_tot k newsta s)).
Proof.
  intros A. unfold dt_newfnc_tot. cbv zeta.
  destruct (dt_setpos_tot k s) as [off s1] eqn:E.
  destruct off; [now apply (setpos_true_unit k s)|].
  destruct (setpos_false_unit k s s1 E) as [Ha _]. rewrite A in Ha.
  apply newfnc_dispatch_att.
  split_ifs; autorewrite with dtrw; exact Ha.
Qed.

Lemma att_of_moving k s :
  unit_clean (unit k s) -> DTS_ACCF <= DTS_GETMOT (STATE (unit k s)) ->
  u_att (unit k s) = true.
Proof.
  intros Hc H. destruct (u_att (unit k s)) eqn:A; [reflexivity|].
  destruct (Hc A) as [H0 _]. rewrite H0 in H.
  change (DTS_GETMOT 0) with 0 in H. change DTS_ACCF with 4 in H. lia.
Qed.

Lemma GETMOT_cases x :
  DTS_GETMOT x = 0 \/ DTS_GETMOT x = 1 \/ DTS_GETMOT x = 2 \/ DTS_GETMOT x = 3
  \/ DTS_GETMOT x = 4 \/ DTS_GETMOT x = 5 \/ DTS_GETMOT x = 6 \/ DTS_GETMOT x = 7.
Proof.
  unfold DTS_GETMOT. change DTS_M_MOT with (Z.ones 3).
  rewrite Z.land_ones by lia.
  pose proof (Z.mod_pos_bound (Z.shiftr x DTS_V_MOT) (2 ^ 3) ltac:(lia)).
  change (2 ^ 3) with 8 in *. lia.
Qed.

Lemma att_of_motion k s :
  unit_clean (unit k s) -> DTS_GETMOT (STATE (unit k s)) <> 0 ->
  u_att (unit k s) = true.
Proof.
  intros Hc H. destruct (u_att (unit k s)) eqn:A; [reflexivity|].
  destruct (Hc A) as [H0 _]. now rewrite H0 in H.
Qed.

Lemma deselect_clean k oldf s :
  unit_ptr (DTA_GETUNIT oldf) = Some k ->
  unit_clean (unit k s) -> unit_clean (unit k (dt_deselect_tot oldf s)).
Proof.
  intros Hk Hc. unfold dt_deselect_tot. rewrite Hk. cbv zeta.
  destruct (Z.geb_spec (DTS_GETMOT (STATE (unit k s))) DTS_ATSF) as [H|H].
  - apply newfnc_att, att_of_moving; [exact Hc|].
    change DTS_ATSF with 6 in H. change DTS_ACCF with 4. lia.
  - destruct (Z.geb_spec (DTS_GETMOT (STATE (unit k s))) DTS_ACCF) as [H'|H'];
      [|exact Hc].
    apply clean_of_att. unfold DTS_SET2ND. rewrite unit_upd_eq.
    now apply att_of_moving.
Qed.

Lemma newsa_clean k newf s :
  unit_ptr (DTA_GETUNIT newf) = Some k ->
  unit_clean (unit k s) -> unit_clean (unit k (dt_newsa_tot newf s)).
Proof.
  intros Hk Hc. unfold dt_newsa_tot. rewrite Hk. cbv zeta.
  destruct (u_att (unit k s)) eqn:A; cbn [negb]; [|now apply seterr_clean].
  repeat match goal with
  | |- unit_clean (unit k (if ?c then _ else _)) => destruct c
  end;
  try exact Hc;
  try (apply newfnc_att; exact A);
  try (destruct (dt_setpos_tot k s) as [off s1] eqn:E;
       destruct off; [now apply (setpos_true_unit k s)|];
       destruct (setpos_false_unit k s s1 E) as [Ha _]; rewrite A in Ha);
  apply clean_of_att;
  unfold DTS_SET3RD, DTS_SET2ND, DTS_SETSTA, sim_activate, sim_cancel;
  rewrite ?unit_upd_eq; cbn [u_att set_STATE set_timer]; assumption.
Qed.

Lemma unit_att_svc_read k fnc dir blk s :
  u_att (unit k (svc_read k fnc dir blk s)) = u_att (unit k s).
Proof.
  destruct (svc_read_frame k fnc dir blk s) as (H & _). now rewrite H.
Qed.

Lemma unit_att_svc_write k fnc dir blk s :
  u_att (unit k (svc_write k fnc dir blk s)) = u_att (unit k s).
Proof.
  unfold svc_write. cbv zeta.
  split_ifs; autorewrite with dtrw; reflexivity.
Qed.

Lemma svc_clean k s :
  unit_clean (unit k s) -> unit_clean (unit k (dt_svc_tot k s)).
Proof.
  intros Hc. unfold dt_svc_tot. cbv zeta.
  destruct (GETMOT_cases (STATE (unit k s))) as [M|[M|[M|[M|[M|[M|[M|M]]]]]]];
    rewrite M;
    unfold DTS_DECF, DTS_DECR, DTS_ACCF, DTS_ACCR, DTS_ATSF, DTS_ATSR;
    cbn [orb Z.eqb Pos.eqb];
    try (now apply seterr_clean).
  all: assert (A : u_att (unit k s) = true)
    by (apply att_of_motion; [exact Hc | rewrite M; discriminate]).
  1-2: destruct (dt_setpos_tot k s) as [off s1] eqn:E;
       destruct off; [now apply (setpos_true_unit k s)|];
       destruct (setpos_false_unit k s s1 E) as [Ha _]; rewrite A in Ha;
       apply clean_of_att; split_ifs; autorewrite with dtrw; exact Ha.
  1-2: now apply newfnc_att.
  all: unfold svc_atspeed_tot; cbv zeta;
       destruct (dt_setpos_tot k s) as [off s1] eqn:E;
       destruct off; [now apply (setpos_true_unit k s)|];
       destruct (setpos_false_unit k s s1 E) as [Ha _]; rewrite A in Ha;
       assert (Hc1 : unit_clean (unit k s1)) by now apply clean_of_att.
  all: repeat match goal with
       | |- unit_clean (unit _ (if ?c then _ else _)) => destruct c
       end;
       try (now apply seterr_clean);
       try (rewrite unit_UPDINT; now apply seterr_clean);
       try (apply clean_of_att; rewrite unit_att_svc_read; exact Ha);
       try (apply clean_of_att; rewrite unit_att_svc_write; exact Ha);
       try (apply clean_of_att; autorewrite with dtrw; exact Ha);
       unfold detach_unit; autorewrite with dtrw;
       now apply clean_of_zero.
Qed.

Lemma unit_ne_dec (k j : fin 8) : k = j \/ k <> j.
Proof. destruct (decide (k = j)); auto. Qed.

Lemma svc_keeps_clean k s : detached_clean s -> detached_clean (dt_svc_tot k s).
Proof.
  intros Hc j. destruct (unit_ne_dec k j) as [<-|Hne].
  - apply svc_clean, Hc.
  - destruct (dt_svc_frame_units k s) as [H _]. rewrite H by exact Hne. apply Hc.
Qed.

Lemma dt_keeps_clean IR dev dat s d s' :
  detached_clean s -> dt_tot IR dev dat s = Some (d, s') -> detached_clean s'.
Proof.
  intros Hc E j.
  destruct (dt_frame IR dev dat s d s' E) as (Hfr & _).
  destruct (unit_ptr (DTA_GETUNIT (dtsa s))) as [k|] eqn:Hk;
    [destruct (unit_ne_dec k j) as [<-|Hne]|];
    try (rewrite Hfr by congruence; apply Hc).
  unfold dt_tot in E. destruct (dev_dis s); [injection E as _ <-; apply Hc|].
  cbv zeta in E. rewrite uptr_eq, Hk in E.
  cbn [dtsa set_dtsa set_dtsb] in E.
  pose proof (Hc k) as Hk0.
  destruct (_ =? 3).
  { injection E as _ <-. rewrite unit_UPDINT.
    change (unit k (set_dtsb _ (set_dtsa _ ?x))) with (unit k x).
    destruct (_ =? 0); [exact Hk0|]. now apply deselect_clean. }
  destruct (_ =? 4).
  { change (unit k (set_dtsb _ (set_dtsa _ s))) with (unit k s) in E.
    destruct (_ || _) in E; injection E as _ <-; rewrite unit_UPDINT.
    - now apply seterr_clean.
    - apply newsa_clean; [|exact Hk0].
      rewrite <- Hk. f_equal. exact (GETUNIT_loaded dat s). }
  destruct (_ =? 5); [injection E as _ <-; rewrite unit_UPDINT; exact Hk0|].
  destruct (_ =? 6); [injection E as _ <-; rewrite unit_UPDINT; exact Hk0|].
  destruct (_ =? 7); injection E as _ <-; rewrite unit_UPDINT; [|exact Hk0].
  split_ifs; exact Hk0.
Qed.

Lemma advance_keeps_clean d s : detached_clean s -> detached_clean (advance d s).
Proof. intros Hc j. rewrite unit_advance. exact (Hc j). Qed.

Lemma fire_keeps_clean k s : detached_clean s -> detached_clean (fire_tot k s).
Proof.
  intros Hc. unfold fire_tot. destruct (timer (unit k s)); [|exact Hc].
  apply svc_keeps_clean. intros j.
  destruct (unit_ne_dec k j) as [<-|Hne].
  - rewrite unit_sim_cancel. exact (advance_keeps_clean _ _ Hc k).
  - rewrite unit_sim_cancel_ne by exact Hne. exact (advance_keeps_clean _ _ Hc j).
Qed.

(** [run_detached_clean] on the routines with the total division. *)
Lemma run_detached_clean_tot (os : list op) (s s' : DT) :
  detached_clean s -> run_tot os s = Some s' -> detached_clean s'.
Proof.
  revert s. induction os as [|o os IH]; intros s Hc E.
  - injection E as <-. exact Hc.
  - cbn [run_tot] in E. destruct (step_tot o s) as [s1|] eqn:E1; [|discriminate].
    apply (IH s1); [|exact E]. destruct o as [IR dat|k|d]; cbn [step_tot] in E1.
    + destruct (dt_tot IR 0 dat s) as [[d' s2]|] eqn:E2; [|discriminate].
      injection E1 as <-. now apply (dt_keeps_clean IR 0 dat s d' s2).
    + injection E1 as <-. now apply fire_keeps_clean.
    + injection E1 as <-. now apply advance_keeps_clean.
Qed.

(** ** The position update and the error setter *)

Lemma dtsa_off_reel k s :
  dtsa (off_reel_state k s) =
  if unit_no k =? DTA_GETUNIT (dtsa s)
  then Z.land (dtsa s) (Z.lnot DTA_STSTP) else dtsa s.
Proof.
  unfold off_reel_state. cbv zeta. rewrite dtsa_upd.
  destruct (_ =? _); [|now rewrite dtsa_upd].
  rewrite unit_seterr_with_idle
    by (rewrite unit_upd_eq; simpl; vm_compute; reflexivity).
  now autorewrite with dtrw.
Qed.

Lemma dtsb_off_reel k s :
  dtsb (off_reel_state k s) =
  if unit_no k =? DTA_GETUNIT (dtsa s)
  then Z.lor (Z.lor (dtsb s) DTB_ERF) DTB_SEL else dtsb s.
Proof.
  unfold off_reel_state. cbv zeta. rewrite dtsa_upd.
  destruct (_ =? _); [|now rewrite dtsb_upd].
  rewrite unit_seterr_with_idle
    by (rewrite unit_upd_eq; simpl; vm_compute; reflexivity).
  now autorewrite with dtrw.
Qed.

(** [dt_setpos_off_reel] on the routines with the total division. *)
Lemma dt_setpos_off_reel_tot (k : fin 8) (s : DT) :
  elapsed k s <> 0 ->
  (s32 (next_pos k s) < 0
   \/ s32 (next_pos k s) > DTU_FWDEZ (unit k s) + DT_EZLIN) ->
  exists s',
    dt_setpos_tot k s = (true, s')
    /\ u_att (unit k s') = false /\ STATE (unit k s') = 0
    /\ pos (unit k s') = 0
    /\ (forall j, k <> j -> unit j s' = unit j s)
    /\ (if unit_no k =? DTA_GETUNIT (dtsa s)
        then dtsb s' = Z.lor (Z.lor (dtsb s) DTB_ERF) DTB_SEL
             /\ dtsa s' = Z.land (dtsa s) (Z.lnot DTA_STSTP)
        else dtsb s' = dtsb s /\ dtsa s' = dtsa s).
Proof.
  intros He Hout.
  assert (R : on_reel (next_pos k s) (unit k s) = false).
  { unfold on_reel. apply negb_false_iff, orb_true_iff.
    destruct Hout; [left; now apply Z.ltb_lt | right; now apply Z.gtb_gt]. }
  exists (off_reel_state k s). split; [now apply dt_setpos_off|].
  destruct (unit_off_reel k s) as (H1 & H2 & H3).
  repeat split; try assumption.
  - intros j Hj. now apply unit_off_reel_ne.
  - rewrite dtsa_off_reel, dtsb_off_reel. destruct (_ =? _); split; reflexivity.
Qed.

(** [dt_setpos_in_range] on the routines with the total division. *)
Lemma dt_setpos_in_range_tot (k : fin 8) (s s' : DT) :
  dt_setpos_tot k s = (false, s') ->
  (elapsed k s = 0 -> s' = s)
  /\ (elapsed k s <> 0 ->
      0 <= s32 (pos (unit k s')) <= DTU_FWDEZ (unit k s) + DT_EZLIN
      /\ LASTT (unit k s') = sim_rtime s
      /\ unit k s' = set_pos (pos (unit k s'))
                       (set_LASTT (sim_rtime s) (unit k s)))
  /\ dtsa s' = dtsa s /\ dtsb s' = dtsb s /\ dtdb s' = dtdb s
  /\ (forall j, k <> j -> unit j s' = unit j s).
Proof.
  intros E. destruct (dt_setpos_false k s s' E) as [R ->].
  split; [intros H0; now apply moved_zero|].
  split.
  - intros Hne. unfold stays_on_reel in R.
    destruct (Z.eqb_spec (elapsed k s) 0) as [|_]; [contradiction|].
    cbn [orb] in R. unfold on_reel in R. apply negb_true_iff in R.
    apply orb_false_iff in R as [R1 R2].
    apply Z.ltb_ge in R1. rewrite Z.gtb_ltb in R2. apply Z.ltb_ge in R2.
    rewrite unit_moved.
    destruct (Z.eqb_spec (elapsed k s) 0) as [|_]; [contradiction|].
    cbn [pos LASTT set_pos set_LASTT]. repeat split; assumption.
  - rewrite dtsa_moved, dtsb_moved, dtdb_moved. repeat split.
    intros j Hj. now apply unit_moved_ne.
Qed.

Lemma GETMOT_decel d :
  d = 0 \/ d = 1 -> DTS_GETMOT (DTS_STA (Z.lor DTS_DECF d) 0) = Z.lor DTS_DECF d.
Proof. intros [-> | ->]; reflexivity. Qed.

(** [dt_seterr_stops] on the routines with the total division. *)
Lemma dt_seterr_stops_tot (k : fin 8) (e : Z) (s : DT) :
  (forall n, Z.testbit (Z.lor DTB_ERF e) n = true ->
             Z.testbit (dtsb (dt_seterr_tot k e s)) n = true)
  /\ Z.land (dtsa (dt_seterr_tot k e s)) DTA_STSTP = 0
  /\ (forall j, k <> j -> unit j (dt_seterr_tot k e s) = unit j s)
  /\ DTS_GETMOT (STATE (unit k (dt_seterr_tot k e s))) < DTS_ACCF.
Proof.
  destruct (dt_seterr_any k e s) as [Hb Hj].
  split; [exact Hb|]. split; [|split; [exact Hj|]].
  - destruct (Z.lt_ge_cases (DTS_GETMOT (STATE (unit k s))) DTS_ACCF) as [H|H].
    + rewrite dt_seterr_idle by exact H. autorewrite with dtrw.
      apply land_lnot_diag.
    + destruct (stays_on_reel k s) eqn:R.
      * destruct (dt_seterr_moving k e s H R) as (Ha & _). rewrite Ha.
        apply land_lnot_diag.
      * unfold dt_seterr_tot, dt_seterr_with_tot.
        destruct (Z.geb_spec (DTS_GETMOT (STATE (unit k s))) DTS_ACCF); [|lia].
        cbv zeta. unfold sim_cancel.
        match goal with
        | |- context [dt_setpos_tot k ?x] =>
            assert (R0 : stays_on_reel k x = false)
              by (rewrite stays_upd by reflexivity; assumption);
            rewrite (dt_setpos_leaves _ _ R0)
        end.
        rewrite dtsa_off_reel, dtsa_upd. cbn [dtsa set_dtsa set_dtsb].
        destruct (_ =? _); apply land_lnot_diag.
  - destruct (Z.lt_ge_cases (DTS_GETMOT (STATE (unit k s))) DTS_ACCF) as [H|H].
    + rewrite dt_seterr_idle by exact H. now autorewrite with dtrw.
    + destruct (stays_on_reel k s) eqn:R.
      * destruct (dt_seterr_moving k e s H R) as (_ & _ & _ & _ & _ & _ & _ & _ & Hk).
        rewrite Hk. cbn [STATE set_STATE].
        destruct (GETMOT_cases (STATE (unit k s)))
          as [M|[M|[M|[M|[M|[M|[M|M]]]]]]]; rewrite M; reflexivity.
      * destruct (dt_seterr_leaves k e s H R) as (_ & H1 & _).
        rewrite H1. reflexivity.
Qed.

(** ** Starting and stopping *)

Lemma rest_stays k s :
  STATE (unit k s) = 0 \/ DTS_GETMOT (STATE (unit k s)) = DTS_STOP ->
  0 <= pos (unit k s) <= DTU_FWDEZ (unit k s) + DT_EZLIN ->
  stays_on_reel k s = true /\ pos (unit k (moved k s)) = pos (unit k s).
Proof.
  intros Hm Hp.
  assert (Hmot : DTS_GETMOT (STATE (unit k s)) = 0)
    by (destruct Hm as [-> | ->]; reflexivity).
  pose proof (max_pos_bound (unit k s)) as Hmax.
  assert (Hn : next_pos k s = pos (unit k s)).
  { unfold next_pos, delta_lines. cbv zeta. rewrite Hmot.
    change (Z.land 0 DTS_DIR =? 0) with true.
    change (Z.land 0 (Z.lnot DTS_DIR) =? DTS_STOP) with true. cbv iota.
    rewrite Z.add_0_r. apply u32_small. change (2 ^ 32) with 4294967296. lia. }
  split.
  - unfold stays_on_reel, on_reel. rewrite Hn.
    rewrite s32_small by (change (2 ^ 31) with 2147483648; lia).
    destruct (Z.ltb_spec (pos (unit k s)) 0); [lia|].
    destruct (Z.gtb_spec (pos (unit k s)) (DTU_FWDEZ (unit k s) + DT_EZLIN)); [lia|].
    now rewrite orb_true_r.
  - rewrite pos_moved. destruct (_ =? 0); [reflexivity | exact Hn].
Qed.

Lemma start_state nd f :
  (nd = 0 \/ nd = 1) -> 0 <= f <= 7 ->
  Z.lor (Z.land (DTS_STA (Z.lor DTS_ACCF nd) 0) 63)
        (Z.shiftl (DTS_STA (Z.lor DTS_ATSF nd) f) DTS_V_2ND)
  = layered (DTS_STA (Z.lor DTS_ACCF nd) 0) (DTS_STA (Z.lor DTS_ATSF nd) f) 0.
Proof.
  intros Hn Hf.
  assert (Hc : f = 0 \/ f = 1 \/ f = 2 \/ f = 3 \/ f = 4 \/ f = 5 \/ f = 6 \/ f = 7)
    by lia.
  destruct Hn as [-> | ->];
    repeat (destruct Hc as [-> | Hc]; [reflexivity|]); subst f; reflexivity.
Qed.

(** [dt_newsa_start] on the routines with the total division. *)
Lemma dt_newsa_start_tot (newf : Z) (s : DT) (k : fin 8) :
  unit_ptr (DTA_GETUNIT newf) = Some k ->
  u_att (unit k s) = true ->
  DTS_GETMOT (STATE (unit k s)) = DTS_STOP ->
  Z.land newf DTA_STSTP <> 0 ->
  0 <= pos (unit k s) <= DTU_FWDEZ (unit k s) + DT_EZLIN ->
  let s' := dt_newsa_tot newf s in
  STATE (unit k s') =
    layered (DTS_STA (Z.lor DTS_ACCF (cmd_dir newf)) 0)
            (DTS_STA (Z.lor DTS_ATSF (cmd_dir newf)) (DTA_GETFNC newf)) 0
  /\ timer (unit k s') = Some (dt_actime s)
  /\ pos (unit k s') = pos (unit k s)
  /\ u_att (unit k s') = true
  /\ filebuf (unit k s') = filebuf (unit k s)
  /\ dtsa s' = dtsa s /\ dtsb s' = dtsb s /\ dtdb s' = dtdb s.
Proof.
  intros Hk Ha Hm Hgo Hp.
  destruct (rest_stays k s (or_intror Hm) Hp) as [R Hpos].
  cbv zeta. unfold dt_newsa_tot. rewrite Hk. cbv zeta. rewrite Ha, Hm.
  change (DTS_STOP =? DTS_STOP) with true.
  destruct (Z.eqb_spec (Z.land newf DTA_STSTP) 0) as [|_]; [contradiction|].
  cbn [negb orb andb].
  rewrite (dt_setpos_stays k s R).
  unfold DTS_SET2ND, DTS_SETSTA, sim_activate, sim_cancel.
  autorewrite with dtrw.
  cbn [STATE timer pos u_att filebuf set_STATE set_timer].
  rewrite ?actime_moved, ?att_moved, ?filebuf_moved, ?dtsa_moved, ?dtsb_moved,
    ?dtdb_moved.
  fold (cmd_dir newf).
  rewrite start_state by (apply cmd_dir_cases || apply GETFNC_range).
  repeat split; assumption.
Qed.

(** [dt_newsa_stop] on the routines with the total division. *)
Lemma dt_newsa_stop_tot (newf : Z) (s : DT) (k : fin 8) :
  unit_ptr (DTA_GETUNIT newf) = Some k ->
  u_att (unit k s) = true ->
  DTS_GETMOT (STATE (unit k s)) <> DTS_STOP ->
  Z.land newf DTA_STSTP = 0 ->
  stays_on_reel k s = true ->
  unit k (dt_newsa_tot newf s) =
    (if Z.land (DTS_GETMOT (STATE (unit k s))) (Z.lnot DTS_DIR) =? DTS_DECF
     then set_STATE (DTS_STA (DTS_GETMOT (STATE (unit k s))) 0) (unit k s)
     else set_STATE
            (DTS_STA (Z.lor DTS_DECF
                        (Z.land (DTS_GETMOT (STATE (unit k s))) DTS_DIR)) 0)
            (set_timer (Some (dt_dctime s)) (unit k (moved k s))))
  /\ dtsa (dt_newsa_tot newf s) = dtsa s /\ dtsb (dt_newsa_tot newf s) = dtsb s
  /\ dtdb (dt_newsa_tot newf s) = dtdb s.
Proof.
  intros Hk Ha Hm Hgo R.
  unfold dt_newsa_tot. rewrite Hk. cbv zeta. rewrite Ha, Hgo.
  destruct (Z.eqb_spec (DTS_GETMOT (STATE (unit k s))) DTS_STOP) as [|_];
    [contradiction|].
  change (0 =? 0) with true. cbn [negb orb andb].
  destruct (Z.eqb_spec
              (Z.land (DTS_GETMOT (STATE (unit k s))) (Z.lnot DTS_DIR)) DTS_DECF)
    as [Hd|Hd]; cbn [negb].
  - unfold DTS_SETSTA. autorewrite with dtrw.
    repeat split.
    destruct (GETMOT_cases (STATE (unit k s)))
      as [M|[M|[M|[M|[M|[M|[M|M]]]]]]]; rewrite M in Hd |- *;
      try discriminate Hd; reflexivity.
  - rewrite (dt_setpos_stays k s R).
    unfold DTS_SETSTA, sim_activate, sim_cancel. autorewrite with dtrw.
    rewrite ?dctime_moved, ?dtsa_moved, ?dtsb_moved, ?dtdb_moved.
    repeat split.
Qed.

(** ** Acceleration and deceleration *)

Lemma ramp_delta u : 1 <= u -> 2 * u * u < 2 ^ 32 ->
  s32 (u32 (u32 (u * u * 2) - u32 (u * u)) / u32 (2 * u)) = u / 2.
Proof.
  intros H1 H2. change (2 ^ 32) with 4294967296 in H2.
  assert (Hu : u < 65536) by nia.
  rewrite (u32_small (u * u * 2)) by (change (2 ^ 32) with 4294967296; nia).
  rewrite (u32_small (u * u)) by (change (2 ^ 32) with 4294967296; nia).
  rewrite (u32_small (2 * u)) by (change (2 ^ 32) with 4294967296; nia).
  replace (u * u * 2 - u * u) with (u * u) by lia.
  rewrite u32_small by (change (2 ^ 32) with 4294967296; nia).
  rewrite (Z.mul_comm 2 u), Z.div_mul_cancel_l by lia.
  apply s32_small. change (2 ^ 31) with 2147483648.
  pose proof (Z.div_pos u 2 ltac:(lia) ltac:(lia)).
  pose proof (Z.div_le_upper_bound u 2 u ltac:(lia) ltac:(lia)). lia.
Qed.

Lemma ramp_delta_acc u : 1 <= u -> 2 * u * u < 2 ^ 32 ->
  s32 (u32 (u * u) / u32 (2 * u)) = u / 2.
Proof.
  intros H1 H2. change (2 ^ 32) with 4294967296 in H2.
  assert (Hu : u < 65536) by nia.
  rewrite (u32_small (u * u)) by (change (2 ^ 32) with 4294967296; nia).
  rewrite (u32_small (2 * u)) by (change (2 ^ 32) with 4294967296; nia).
  rewrite (Z.mul_comm 2 u), Z.div_mul_cancel_l by lia.
  apply s32_small. change (2 ^ 31) with 2147483648.
  pose proof (Z.div_pos u 2 ltac:(lia) ltac:(lia)).
  pose proof (Z.div_le_upper_bound u 2 u ltac:(lia) ltac:(lia)). lia.
Qed.

Lemma ramp_pos_delta s mot T :
  0 < dt_ltime s < 2 ^ 31 ->
  (mot = DTS_DECF \/ mot = DTS_DECR) /\ T = dt_dctime s
  \/ (mot = DTS_ACCF \/ mot = DTS_ACCR) /\ T = dt_actime s ->
  1 <= T / dt_ltime s -> 2 * (T / dt_ltime s) * (T / dt_ltime s) < 2 ^ 32 ->
  delta_lines s mot T = T / dt_ltime s / 2.
Proof.
  intros HL Hm H1 H2.
  assert (HT : 0 < T).
  { destruct (Z.lt_ge_cases 0 T) as [|Hle]; [assumption|].
    pose proof (Z.div_le_upper_bound T (dt_ltime s) 0 ltac:(lia) ltac:(nia)). lia. }
  assert (EL : u32 (dt_ltime s) = dt_ltime s)
    by (apply u32_small; change (2 ^ 32) with 4294967296;
        change (2 ^ 31) with 2147483648 in HL; lia).
  assert (Hq : Z.quot T (dt_ltime s) = T / dt_ltime s)
    by (apply Z.quot_div_nonneg; lia).
  assert (Hu : u32 (T / dt_ltime s) = T / dt_ltime s)
    by (apply u32_small; change (2 ^ 32) with 4294967296 in *; nia).
  unfold delta_lines. cbv zeta.
  assert (M1 : Z.land DTS_DECF (Z.lnot DTS_DIR) = 2) by reflexivity.
  assert (M2 : Z.land DTS_DECR (Z.lnot DTS_DIR) = 2) by reflexivity.
  assert (M3 : Z.land DTS_ACCF (Z.lnot DTS_DIR) = 4) by reflexivity.
  assert (M4 : Z.land DTS_ACCR (Z.lnot DTS_DIR) = 4) by reflexivity.
  destruct Hm as [[Hm ->] | [Hm ->]]; destruct Hm as [-> | ->];
    rewrite ?M1, ?M2, ?M3, ?M4;
    unfold DTS_STOP, DTS_DECF, DTS_ACCF, DTS_ATSF; cbn [Z.eqb Pos.eqb];
    rewrite ?EL, ?Hq, ?Hu;
    first [ now apply ramp_delta | now apply ramp_delta_acc ].
Qed.

Lemma setpos_ramp (k : fin 8) (s : DT) (T : Z) :
  0 < dt_ltime s < 2 ^ 31 ->
  (DTS_GETMOT (STATE (unit k s)) = DTS_DECF
   \/ DTS_GETMOT (STATE (unit k s)) = DTS_DECR) /\ T = dt_dctime s
  \/ (DTS_GETMOT (STATE (unit k s)) = DTS_ACCF
      \/ DTS_GETMOT (STATE (unit k s)) = DTS_ACCR) /\ T = dt_actime s ->
  1 <= T / dt_ltime s ->
  2 * (T / dt_ltime s) * (T / dt_ltime s) < 2 ^ 32 ->
  elapsed k s = T ->
  let d := T / dt_ltime s / 2 in
  let p' := if Z.land (DTS_GETMOT (STATE (unit k s))) DTS_DIR =? 0
            then pos (unit k s) + d else pos (unit k s) - d in
  0 <= p' <= DTU_FWDEZ (unit k s) + DT_EZLIN ->
  exists s',
    dt_setpos_tot k s = (false, s')
    /\ pos (unit k s') = p'
    /\ LASTT (unit k s') = sim_rtime s
    /\ STATE (unit k s') = STATE (unit k s).
Proof.
  intros HL Hm H1 H2 He d p' Hp'.
  pose proof (ramp_pos_delta s _ T HL Hm H1 H2) as Hd. fold d in Hd.
  pose proof (max_pos_bound (unit k s)) as Hmax.
  assert (HT : T <> 0).
  { intros ->. rewrite Z.div_0_l in H1 by lia. lia. }
  assert (Hn : next_pos k s = p').
  { unfold next_pos. cbv zeta. rewrite He, Hd. subst p'.
    destruct (_ =? 0); apply u32_small; change (2 ^ 32) with 4294967296; lia. }
  assert (R : stays_on_reel k s = true).
  { unfold stays_on_reel, on_reel. rewrite Hn.
    rewrite s32_small by (change (2 ^ 31) with 2147483648; lia).
    destruct (Z.ltb_spec p' 0); [lia|].
    destruct (Z.gtb_spec p' (DTU_FWDEZ (unit k s) + DT_EZLIN)); [lia|].
    now rewrite orb_true_r. }
  exists (moved k s). split; [now apply dt_setpos_stays|].
  rewrite unit_moved, He.
  destruct (Z.eqb_spec T 0); [contradiction|].
  cbn [pos LASTT STATE set_pos set_LASTT]. now rewrite Hn.
Qed.

(** [dt_setpos_ramp] on the routines with the total division. *)
Lemma dt_setpos_ramp_tot (k : fin 8) (s : DT) (T : Z) :
  0 < dt_ltime s < 2 ^ 31 ->
  (DTS_GETMOT (STATE (unit k s)) = DTS_DECF
   \/ DTS_GETMOT (STATE (unit k s)) = DTS_DECR) /\ T = dt_dctime s
  \/ (DTS_GETMOT (STATE (unit k s)) = DTS_ACCF
      \/ DTS_GETMOT (STATE (unit k s)) = DTS_ACCR) /\ T = dt_actime s ->
  1 <= T / dt_ltime s ->
  2 * (T / dt_ltime s) * (T / dt_ltime s) < 2 ^ 32 ->
  elapsed k s = T ->
  let d := T / dt_ltime s / 2 in
  let p' := if Z.land (DTS_GETMOT (STATE (unit k s))) DTS_DIR =? 0
            then pos (unit k s) + d else pos (unit k s) - d in
  0 <= p' <= DTU_FWDEZ (unit k s) + DT_EZLIN ->
  exists s',
    dt_setpos_tot k s = (false, s')
    /\ pos (unit k s') = p'
    /\ LASTT (unit k s') = sim_rtime s
    /\ STATE (unit k s') = STATE (unit k s).
Proof. apply setpos_ramp. Qed.


(** ** Events of a unit at speed *)

Lemma GETMOT_atspeed dir fnc :
  dir = 0 \/ dir = 1 -> 0 <= fnc <= 7 ->
  DTS_GETMOT (DTS_STA (Z.lor DTS_ATSF dir) fnc) = Z.lor DTS_ATSF dir
  /\ DTS_GETFNC (DTS_STA (Z.lor DTS_ATSF dir) fnc) = fnc
  /\ Z.land (Z.lor DTS_ATSF dir) DTS_DIR = dir.
Proof.
  intros Hd Hf.
  assert (Hc : fnc = 0 \/ fnc = 1 \/ fnc = 2 \/ fnc = 3 \/ fnc = 4 \/ fnc = 5
               \/ fnc = 6 \/ fnc = 7) by lia.
  destruct Hd as [-> | ->];
    repeat (destruct Hc as [-> | Hc]; [repeat split; reflexivity|]);
    subst fnc; repeat split; reflexivity.
Qed.

(** The timer of a unit at speed runs out: the clock has moved on by
    the [n] line times of the timer and the position update finds the
    unit [n] lines further in its direction. *)
Lemma cruise_clock k dir fnc n s :
  cruising k dir fnc n s -> 0 <= fnc <= 7 ->
  let sA := sim_cancel k (advance (n * dt_ltime s) s) in
  fire_tot k s = dt_svc_tot k sA
  /\ unit k sA = set_timer None (unit k s)
  /\ elapsed k sA = n * dt_ltime s
  /\ n * dt_ltime s <> 0
  /\ next_pos k sA = u32 (pos (unit k s) + (if dir =? 0 then n else - n))
  /\ DTS_GETMOT (STATE (unit k sA)) = Z.lor DTS_ATSF dir
  /\ DTS_GETFNC (STATE (unit k sA)) = fnc
  /\ Z.land (DTS_GETMOT (STATE (unit k sA))) DTS_DIR = dir.
Proof.
  intros (Hdir & HL & Hn & HnL & Hatt & Hst & Htm & Hlt & Hp) Hf sA.
  destruct (GETMOT_atspeed dir fnc Hdir Hf) as (G1 & G2 & G3).
  assert (HuA : unit k sA = set_timer None (unit k s)).
  { subst sA. rewrite unit_sim_cancel, unit_advance. reflexivity. }
  assert (Hel : elapsed k sA = n * dt_ltime s).
  { unfold elapsed, sim_grtime. rewrite HuA. cbn [LASTT set_timer].
    rewrite Hlt. change (sim_rtime sA) with (u32 (sim_rtime s + n * dt_ltime s)).
    assert (0 < n * dt_ltime s) by nia.
    revert H HnL. generalize (n * dt_ltime s). generalize (sim_rtime s).
    clear. intros t x Hx Hx'. arith32. }
  assert (HS : STATE (unit k sA) = DTS_STA (Z.lor DTS_ATSF dir) fnc)
    by (rewrite HuA; exact Hst).
  split; [unfold fire_tot; rewrite Htm; reflexivity|].
  split; [exact HuA|]. split; [exact Hel|]. split; [nia|].
  rewrite HS, G1, G2, G3. repeat split.
  unfold next_pos. cbv zeta. rewrite HS, G1, G3, Hel.
  rewrite pos_delta_atspeed
    by (destruct Hdir as [-> | ->]; [left|right]; reflexivity).
  change (dt_ltime sA) with (dt_ltime s).
  rewrite (u32_small (dt_ltime s))
    by (change (2 ^ 32) with 4294967296; change (2 ^ 31) with 2147483648 in HnL;
        nia).
  rewrite Z.div_mul by lia.
  rewrite s32_small by (change (2 ^ 31) with 2147483648 in *; nia).
  rewrite HuA. cbn [pos set_timer].
  destruct (dir =? 0); f_equal; lia.
Qed.

(** The same, with the new position on the reel. *)
Lemma cruise_on k dir fnc n s :
  cruising k dir fnc n s -> 0 <= fnc <= 7 ->
  let p' := pos (unit k s) + (if dir =? 0 then n else - n) in
  0 <= p' <= DTU_FWDEZ (unit k s) + DT_EZLIN ->
  let sA := sim_cancel k (advance (n * dt_ltime s) s) in
  dt_setpos_tot k sA = (false, moved k sA)
  /\ unit k (moved k sA) =
     set_pos p' (set_LASTT (u32 (sim_rtime s + n * dt_ltime s))
                   (set_timer None (unit k s)))
  /\ elapsed k (moved k sA) = 0.
Proof.
  intros C Hf p' Hp' sA.
  destruct (cruise_clock k dir fnc n s C Hf)
    as (_ & HuA & Hel & Hne & Hnp & _). fold sA in HuA, Hel, Hnp.
  pose proof (max_pos_bound (unit k s)) as Hmax.
  fold p' in Hnp.
  rewrite u32_small in Hnp by (change (2 ^ 32) with 4294967296; lia).
  assert (R : stays_on_reel k sA = true).
  { unfold stays_on_reel, on_reel. rewrite Hnp, HuA.
    change (DTU_FWDEZ (set_timer None (unit k s))) with (DTU_FWDEZ (unit k s)).
    rewrite s32_small by (change (2 ^ 31) with 2147483648; lia).
    destruct (Z.ltb_spec p' 0); [lia|].
    destruct (Z.gtb_spec p' (DTU_FWDEZ (unit k s) + DT_EZLIN)); [lia|].
    now rewrite orb_true_r. }
  split; [now apply dt_setpos_stays|]. split; [|apply elapsed_moved].
  rewrite unit_moved, Hel, Hnp, HuA.
  destruct (Z.eqb_spec (n * dt_ltime s) 0); [contradiction|]. reflexivity.
Qed.

Lemma QEZ_between u p :
  DT_EZLIN <= p < DTU_FWDEZ u -> DT_QEZ (set_pos p u) = false.
Proof.
  intros Hp. pose proof (max_pos_bound u) as Hmax.
  unfold DT_QEZ, DT_QREZ, DT_QFEZ. cbn [pos set_pos].
  change (DTU_FWDEZ (set_pos p u)) with (DTU_FWDEZ u).
  change DT_EZLIN with 36000 in *.
  rewrite u32_small by (change (2 ^ 32) with 4294967296; lia).
  destruct (Z.ltb_spec p 36000); [lia|].
  destruct (Z.geb_spec p (DTU_FWDEZ u)); [lia|]. reflexivity.
Qed.

Lemma LIN2BL_small u p :
  DT_EZLIN <= p < DTU_FWDEZ u ->
  s32 (DT_LIN2BL p u) = DT_LIN2BL p u /\ 0 <= DT_LIN2BL p u < DTU_TSIZE u.
Proof.
  intros Hp. unfold DT_LIN2BL. geom u; arith32.
Qed.

(** [search_event] on the routines with the total division. *)
Lemma search_event_tot (k : fin 8) (dir n : Z) (s : DT) :
  cruising k dir FNC_SRCH n s ->
  Z.land (dtsb s) DTB_DTF = 0 ->
  DTU_LPERB (unit k s) * dt_ltime s < 2 ^ 31 ->
  let p' := pos (unit k s) + (if dir =? 0 then n else - n) in
  DT_EZLIN <= p' < DTU_FWDEZ (unit k s) ->
  dtdb (fire_tot k s) = DT_LIN2BL p' (unit k s)
  /\ dtsb (fire_tot k s) = Z.lor (dtsb s) DTB_DTF
  /\ unit k (fire_tot k s) =
     set_timer (Some (DTU_LPERB (unit k s) * dt_ltime s))
       (set_pos p' (set_LASTT (u32 (sim_rtime s + n * dt_ltime s)) (unit k s)))
  /\ cruising k dir FNC_SRCH (DTU_LPERB (unit k s)) (fire_tot k s).
Proof.
  intros C Hdtf HLP p' Hp'.
  pose proof (max_pos_bound (unit k s)) as Hmax.
  assert (Hf : 0 <= FNC_SRCH <= 7) by (vm_compute; split; discriminate).
  destruct (cruise_clock k dir FNC_SRCH n s C Hf)
    as (Hfire & HuA & Hel & Hne & _ & Hmot & Hfnc & Hd).
  destruct (cruise_on k dir FNC_SRCH n s C Hf) as (Hsp & HuM & HeM);
    [change DT_EZLIN with 36000 in *; fold p'; lia|].
  fold p' in HuM.
  destruct C as (Hdir & HL & Hn & HnL & Hatt & Hst & Htm & Hlt & Hp).
  set (sA := sim_cancel k (advance (n * dt_ltime s) s)) in *.
  set (sM := moved k sA) in *.
  assert (Hgeo : 0 < DTU_LPERB (unit k s)) by (clear; geom (unit k s); lia).
  assert (Hez : DT_QEZ (unit k sM) = false).
  { rewrite HuM. apply QEZ_between. exact Hp'. }
  assert (Hblk : s32 (DT_LIN2BL (pos (unit k sM)) (unit k sM))
                 = DT_LIN2BL p' (unit k s)).
  { rewrite HuM. cbn [pos set_pos].
    change (DT_LIN2BL p' (set_pos p' _)) with (DT_LIN2BL p' (unit k s)).
    now apply LIN2BL_small. }
  assert (HbM : dtsb sM = dtsb s) by (subst sM; now rewrite dtsb_moved).
  assert (HlM : dt_ltime sM = dt_ltime s) by (subst sM; now rewrite ltime_moved).
  assert (HtM : sim_rtime sM = u32 (sim_rtime s + n * dt_ltime s))
    by (subst sM; now rewrite rtime_moved).
  assert (E : fire_tot k s =
    DT_UPDINT (set_dtsb (Z.lor (dtsb s) DTB_DTF)
      (set_dtdb (DT_LIN2BL p' (unit k s))
         (sim_activate k (DTU_LPERB (unit k s) * dt_ltime s) sM)))).
  { rewrite Hfire. unfold dt_svc_tot. cbv zeta. rewrite Hmot.
    assert (Hc : (Z.lor DTS_ATSF dir =? DTS_DECF) || (Z.lor DTS_ATSF dir =? DTS_DECR)
                 = false) by (destruct Hdir as [-> | ->]; reflexivity).
    assert (Hc2 : (Z.lor DTS_ATSF dir =? DTS_ACCF) || (Z.lor DTS_ATSF dir =? DTS_ACCR)
                 = false) by (destruct Hdir as [-> | ->]; reflexivity).
    assert (Hc3 : (Z.lor DTS_ATSF dir =? DTS_ATSF) || (Z.lor DTS_ATSF dir =? DTS_ATSR)
                 = true) by (destruct Hdir as [-> | ->]; reflexivity).
    rewrite Hc, Hc2, Hc3. unfold svc_atspeed_tot. cbv zeta.
    rewrite Hfnc, Hsp. fold sM. rewrite Hez, Hblk.
    change (FNC_SRCH =? FNC_MOVE) with false.
    change (FNC_SRCH =? DTS_OFR) with false.
    change (FNC_SRCH =? FNC_SRCH) with true. cbv iota.
    rewrite HbM, Hdtf. change (negb (0 =? 0)) with false. cbv iota.
    rewrite HlM.
    replace (DTU_LPERB (unit k sM)) with (DTU_LPERB (unit k s))
      by (rewrite HuM; reflexivity).
    rewrite s32_small by (change (2 ^ 31) with 2147483648 in *; nia).
    unfold sim_activate. cbn [dtsb set_dtdb]. rewrite ?dtsb_upd, ?HbM.
    reflexivity. }
  rewrite E. autorewrite with dtrw. cbn [dtdb dtsb set_dtsb set_dtdb].
  rewrite HuM.
  split; [reflexivity|]. split; [reflexivity|]. split; [reflexivity|].
  unfold cruising. autorewrite with dtrw.
  cbn [dt_ltime sim_rtime set_dtsb set_dtdb].
  unfold sim_activate. rewrite ltime_upd, rtime_upd, HlM, HtM, ?unit_upd_eq, ?HuM.
  cbn [u_att STATE timer LASTT pos set_timer set_pos set_LASTT].
  repeat split; try assumption; try lia;
    change DT_EZLIN with 36000 in *; change (2 ^ 32) with 4294967296; lia.
Qed.

(** [move_reaches_end_zone] on the routines with the total division. *)
Lemma move_reaches_end_zone_tot (k : fin 8) (dir : Z) (s : DT) :
  dir = 0 \/ dir = 1 ->
  0 < dt_ltime s ->
  (DTU_FWDEZ (unit k s) + DT_EZLIN) * dt_ltime s < 2 ^ 31 ->
  u_att (unit k s) = true ->
  STATE (unit k s) = DTS_STA (Z.lor DTS_ATSF dir) FNC_MOVE ->
  LASTT (unit k s) = sim_rtime s ->
  (if dir =? 0 then 0 <= pos (unit k s) < DTU_FWDEZ (unit k s) + DT_WSIZE
   else DT_EZLIN - DT_WSIZE < pos (unit k s)
        <= DTU_FWDEZ (unit k s) + DT_EZLIN) ->
  let s' := fire_tot k (dt_schedez k dir s) in
  pos (unit k s') =
    (if dir =? 0 then DTU_FWDEZ (unit k s) + DT_WSIZE else DT_EZLIN - DT_WSIZE)
  /\ Z.testbit (dtsb s') DTB_V_END = true
  /\ Z.testbit (dtsb s') DTB_V_ERF = true
  /\ Z.land (dtsa s') DTA_STSTP = 0
  /\ STATE (unit k s') = DTS_STA (Z.lor DTS_DECF dir) 0
  /\ timer (unit k s') = Some (dt_dctime s).
Proof.
  intros Hdir HL Hfit Hatt Hst Hlt Hp.
  pose proof (max_pos_bound (unit k s)) as Hmax.
  change DT_EZLIN with 36000 in Hmax.
  set (u := unit k s) in *.
  set (tgt := if dir =? 0 then DTU_FWDEZ u + DT_WSIZE else DT_EZLIN - DT_WSIZE).
  set (n := if dir =? 0 then tgt - pos u else pos u - tgt).
  assert (Hgeo : 36006 < DTU_FWDEZ u) by (clear; geom u; lia).
  assert (Hn : 0 < n /\ n <= DTU_FWDEZ u + DT_EZLIN
               /\ pos u + (if dir =? 0 then n else - n) = tgt
               /\ 0 <= pos u < 2 ^ 31).
  { subst n tgt. change DT_WSIZE with 6 in *. change DT_EZLIN with 36000 in *.
    change (2 ^ 31) with 2147483648.
    destruct Hdir as [-> | ->]; cbn [Z.eqb] in *; lia. }
  destruct Hn as (Hn0 & Hn1 & Hn2 & Hpu).
  assert (HnL : n * dt_ltime s < 2 ^ 31) by nia.
  set (s1 := dt_schedez k dir s).
  assert (Hu1 : unit k s1 = set_timer (Some (n * dt_ltime s)) u).
  { subst s1. rewrite unit_dt_schedez. fold u. f_equal. f_equal.
    rewrite (s32_small (pos u)) by (change (2 ^ 31) with 2147483648 in *; lia).
    fold tgt.
    assert (Ha : ABS (s32 (tgt - pos u)) = n).
    { rewrite s32_small
        by (subst tgt; change DT_WSIZE with 6 in *; change DT_EZLIN with 36000 in *;
            change (2 ^ 31) with 2147483648 in *;
            destruct Hdir as [-> | ->]; cbn [Z.eqb] in *; lia).
      unfold ABS. subst n.
      destruct Hdir as [-> | ->]; cbn [Z.eqb] in *;
        destruct (Z.ltb_spec (tgt - pos u) 0); lia. }
    rewrite Ha. apply s32_small. change (2 ^ 31) with 2147483648 in *. nia. }
  assert (C : cruising k dir FNC_MOVE n s1).
  { unfold cruising. rewrite Hu1.
    change (dt_ltime s1) with (dt_ltime s).
    change (sim_rtime s1) with (sim_rtime s).
    cbn [u_att STATE timer LASTT pos set_timer].
    change (2 ^ 32) with 4294967296. change (2 ^ 31) with 2147483648 in *.
    repeat split; try assumption; lia. }
  assert (Hf : 0 <= FNC_MOVE <= 7) by (vm_compute; split; discriminate).
  destruct (cruise_clock k dir FNC_MOVE n s1 C Hf)
    as (Hfire & HuA & Hel & Hne & _ & Hmot & Hfnc & Hd).
  destruct (cruise_on k dir FNC_MOVE n s1 C Hf) as (Hsp & HuM & HeM).
  { rewrite Hu1. cbn [pos set_timer].
    change (DTU_FWDEZ (set_timer _ u)) with (DTU_FWDEZ u).
    rewrite Hn2. subst tgt. change DT_WSIZE with 6. change DT_EZLIN with 36000.
    destruct Hdir as [-> | ->]; cbn [Z.eqb]; lia. }
  rewrite Hu1 in HuM. cbn [pos set_timer] in HuM. rewrite Hn2 in HuM.
  change (dt_ltime s1) with (dt_ltime s) in *.
  set (sA := sim_cancel k (advance (n * dt_ltime s) s1)) in *.
  set (sM := moved k sA) in *.
  assert (Hez : DT_QEZ (unit k sM) = true).
  { rewrite HuM. unfold DT_QEZ, DT_QREZ, DT_QFEZ. cbn [pos set_pos].
    match goal with
    | |- context [DTU_FWDEZ (set_pos ?a ?b)] =>
        change (DTU_FWDEZ (set_pos a b)) with (DTU_FWDEZ u)
    end.
    rewrite u32_small by (change (2 ^ 32) with 4294967296; lia).
    subst tgt. change DT_WSIZE with 6. change DT_EZLIN with 36000.
    destruct Hdir as [-> | ->]; cbn [Z.eqb].
    - destruct (Z.geb_spec (DTU_FWDEZ u + 6) (DTU_FWDEZ u)); [|lia].
      apply orb_true_r.
    - reflexivity. }
  assert (E : fire_tot k s1 = dt_seterr_tot k DTB_END sM).
  { rewrite Hfire. unfold dt_svc_tot. cbv zeta. fold sA. rewrite Hmot.
    assert (Hc : (Z.lor DTS_ATSF dir =? DTS_DECF) || (Z.lor DTS_ATSF dir =? DTS_DECR)
                 = false) by (destruct Hdir as [-> | ->]; reflexivity).
    assert (Hc2 : (Z.lor DTS_ATSF dir =? DTS_ACCF) || (Z.lor DTS_ATSF dir =? DTS_ACCR)
                 = false) by (destruct Hdir as [-> | ->]; reflexivity).
    assert (Hc3 : (Z.lor DTS_ATSF dir =? DTS_ATSF) || (Z.lor DTS_ATSF dir =? DTS_ATSR)
                 = true) by (destruct Hdir as [-> | ->]; reflexivity).
    rewrite Hc, Hc2, Hc3. unfold svc_atspeed_tot. cbv zeta.
    rewrite Hsp. fold sM. rewrite Hez. reflexivity. }
  assert (HmM : DTS_GETMOT (STATE (unit k sM)) = Z.lor DTS_ATSF dir).
  { subst sM. rewrite STATE_moved. exact Hmot. }
  assert (Hacc : DTS_ACCF <= DTS_GETMOT (STATE (unit k sM)))
    by (rewrite HmM; destruct Hdir as [-> | ->]; vm_compute; discriminate).
  destruct (dt_seterr_moving k DTB_END sM Hacc (elapsed_stays k sM HeM))
    as (Ha & Hb & _ & _ & _ & Hdc & _ & _ & Hk).
  cbv zeta. fold s1. rewrite E, Ha, Hb, Hk, HmM, (moved_zero k sM HeM), HuM.
  cbn [pos STATE timer set_STATE set_timer set_pos].
  replace (Z.land (Z.lor DTS_ATSF dir) DTS_DIR) with dir
    by (destruct Hdir as [-> | ->]; reflexivity).
  split; [reflexivity|].
  split; [apply lor_has_bit; reflexivity|].
  split; [apply lor_keeps_bit, lor_has_bit; reflexivity|].
  split; [apply land_lnot_diag|].
  split; [reflexivity|].
  f_equal. subst sM. now rewrite dctime_moved.
Qed.

(** ** Taking the selection away *)

Lemma testbit_UNIT n : 0 <= n -> Z.testbit DTA_UNIT n = (12 <=? n) && (n <? 16).
Proof.
  intros Hn. unfold DTA_UNIT. change DTA_M_UNIT with 15. change DTA_V_UNIT with 12.
  rewrite Z.shiftl_spec by lia.
  destruct (Z.leb_spec 12 n) as [H|H].
  - rewrite testbit_15 by lia. cbn [andb].
    destruct (Z.ltb_spec (n - 12) 4), (Z.ltb_spec n 16); try lia; reflexivity.
  - now rewrite Z.testbit_neg_r by lia.
Qed.

Lemma GETUNIT_selected a d :
  DTA_GETUNIT (Z.lor (Z.land a (Z.lnot DTA_UNIT)) (Z.land d DTA_UNIT))
  = DTA_GETUNIT d.
Proof.
  unfold DTA_GETUNIT. do 2 f_equal.
  apply Z.bits_inj'. intros n Hn. change DTA_V_UNIT with 12. change DTA_M_UNIT with 15.
  rewrite !Z.land_spec, !Z.shiftr_spec, Z.lor_spec, !Z.land_spec, Z.lnot_spec,
    testbit_UNIT, testbit_15 by lia.
  destruct (Z.leb_spec 12 (n + 12)); [|lia]. cbn [andb].
  destruct (Z.ltb_spec (n + 12) 16), (Z.ltb_spec n 4); try lia;
    cbn [negb andb]; rewrite ?andb_false_r, ?andb_true_r, ?orb_false_l;
    reflexivity.
Qed.

Lemma GETUNIT_same_field a d :
  Z.land (Z.lxor a d) DTA_UNIT = 0 -> DTA_GETUNIT a = DTA_GETUNIT d.
Proof.
  intros H. unfold DTA_GETUNIT. do 2 f_equal.
  apply Z.bits_inj'. intros n Hn. change DTA_V_UNIT with 12. change DTA_M_UNIT with 15.
  rewrite !Z.land_spec, !Z.shiftr_spec, testbit_15 by lia.
  destruct (Z.ltb_spec n 4); [|now rewrite !andb_false_r].
  rewrite !andb_true_r.
  assert (Hb : Z.testbit (Z.land (Z.lxor a d) DTA_UNIT) (n + 12) = false)
    by (rewrite H; apply Z.bits_0).
  rewrite Z.land_spec, Z.lxor_spec, testbit_UNIT in Hb by lia.
  destruct (Z.leb_spec 12 (n + 12)); [|lia].
  destruct (Z.ltb_spec (n + 12) 16); [|lia].
  rewrite andb_true_r in Hb.
  destruct (Z.testbit a (n + 12)), (Z.testbit d (n + 12)); try reflexivity;
    discriminate.
Qed.

Lemma unit_ptr_no unum k : unit_ptr unum = Some k -> unum = unit_no k.
Proof.
  unfold unit_ptr. intros H.
  destruct unum as [|p|p]; try discriminate;
    [injection H as <-; reflexivity|].
  repeat match goal with
         | q : positive |- _ => destruct q; try discriminate
         end;
    injection H as <-; reflexivity.
Qed.

Lemma GETMOT_OFR dir :
  dir = 0 \/ dir = 1 ->
  DTS_GETMOT (DTS_STA (Z.lor DTS_ATSF dir) DTS_OFR) = Z.lor DTS_ATSF dir
  /\ DTS_GETFNC (DTS_STA (Z.lor DTS_ATSF dir) DTS_OFR) = DTS_OFR.
Proof. intros [-> | ->]; split; reflexivity. Qed.

(** The function OFR given to a unit at speed whose position is up to
    date: the position is bumped by one line and the event is scheduled
    for the line 1000 lines beyond the end of the reel. *)
Lemma offreel_schedule k dir s :
  dir = 0 \/ dir = 1 ->
  0 < dt_ltime s ->
  (DTU_FWDEZ (unit k s) + DT_EZLIN + 1000) * dt_ltime s < 2 ^ 31 ->
  LASTT (unit k s) = sim_rtime s ->
  DT_EZLIN < pos (unit k s) < DTU_FWDEZ (unit k s) - 1 ->
  let p1 := pos (unit k s) + (if dir =? 0 then 1 else -1) in
  let n := if dir =? 0 then DTU_FWDEZ (unit k s) + DT_EZLIN + 1000 - p1
           else p1 + 1000 in
  let sN := dt_newfnc_tot k (DTS_STA (Z.lor DTS_ATSF dir) DTS_OFR) s in
  unit k sN =
    set_timer (Some (n * dt_ltime s))
      (set_pos p1 (set_STATE (DTS_STA (Z.lor DTS_ATSF dir) DTS_OFR) (unit k s)))
  /\ dtsa sN = dtsa s /\ dtsb sN = dtsb s /\ dt_ltime sN = dt_ltime s
  /\ sim_rtime sN = sim_rtime s /\ dev_dis sN = dev_dis s.
Proof.
  intros Hdir HL Hfit Hlt Hp p1 n sN.
  pose proof (max_pos_bound (unit k s)) as Hmax.
  change DT_EZLIN with 36000 in *.
  set (u := unit k s) in *.
  assert (Hel : elapsed k s = 0).
  { unfold elapsed, sim_grtime. fold u. rewrite Hlt. apply u32_diag. }
  destruct (GETMOT_OFR dir Hdir) as [G1 G2].
  assert (G3 : Z.land (Z.lor DTS_ATSF dir) DTS_DIR = dir)
    by (destruct Hdir as [-> | ->]; reflexivity).
  assert (Hp1 : 36000 <= p1 < DTU_FWDEZ u /\ u32 p1 = p1).
  { subst p1. split; [destruct (dir =? 0); lia|].
    apply u32_small. change (2 ^ 32) with 4294967296. destruct (dir =? 0); lia. }
  destruct Hp1 as [Hp1 Hu1].
  subst sN. unfold dt_newfnc_tot. rewrite (dt_setpos_zero k s Hel). cbv zeta.
  rewrite G1, G2, G3, !unit_upd_eq. cbn [pos set_STATE].
  fold u. rewrite Z.eqb_refl.
  rewrite upd_unit_twice.
  set (s2 := upd_unit k _ s).
  assert (Hu2 : unit k s2 =
            set_pos p1 (set_STATE (DTS_STA (Z.lor DTS_ATSF dir) DTS_OFR) u)).
  { subst s2. rewrite unit_upd_eq. cbn [pos set_STATE]. fold u p1.
    rewrite Hu1. reflexivity. }
  unfold newfnc_dispatch_tot. cbv zeta. rewrite Hu2.
  assert (Hwz : (if dir =? 0
                 then DT_QFEZ (set_pos p1 (set_STATE (DTS_STA (Z.lor DTS_ATSF dir)
                                                       DTS_OFR) u))
                 else DT_QREZ (set_pos p1 (set_STATE (DTS_STA (Z.lor DTS_ATSF dir)
                                                       DTS_OFR) u))) = false).
  { unfold DT_QFEZ, DT_QREZ. cbn [pos set_pos].
    match goal with
    | |- context [DTU_FWDEZ (set_pos ?a ?b)] =>
        change (DTU_FWDEZ (set_pos a b)) with (DTU_FWDEZ u)
    end.
    rewrite u32_small by (change (2 ^ 32) with 4294967296; lia).
    change DT_EZLIN with 36000.
    destruct (dir =? 0);
      [destruct (Z.geb_spec p1 (DTU_FWDEZ u)) | destruct (Z.ltb_spec p1 36000)];
      try lia; reflexivity. }
  rewrite Hwz. change (DTS_OFR =? DTS_OFR) with true.
  change ((DTS_OFR =? FNC_WRIT) || (DTS_OFR =? FNC_WALL)) with false.
  cbv iota. cbn [pos set_pos].
  match goal with
  | |- context [DTU_FWDEZ (set_pos ?a ?b)] =>
      change (DTU_FWDEZ (set_pos a b)) with (DTU_FWDEZ u)
  end.
  unfold sim_activate, sim_cancel.
  change (dt_ltime (set_substate _ (upd_unit _ _ s2))) with (dt_ltime s).
  rewrite (s32_small p1) by (change (2 ^ 31) with 2147483648; lia).
  assert (Ht : s32 (ABS (s32 ((if dir =? 0
                                then DTU_FWDEZ u + DT_EZLIN + 1000 else -1000) - p1))
                    * dt_ltime s) = n * dt_ltime s).
  { change DT_EZLIN with 36000. change (2 ^ 31) with 2147483648 in *.
    assert (Hn : 0 < n <= DTU_FWDEZ u + 36000 + 1000)
      by (subst n; destruct (dir =? 0); lia).
    assert (Ha : ABS (s32 ((if dir =? 0 then DTU_FWDEZ u + 36000 + 1000 else -1000)
                           - p1)) = n).
    { rewrite s32_small
        by (change (2 ^ 31) with 2147483648; destruct (dir =? 0); lia).
      unfold ABS. subst n.
      destruct (dir =? 0);
        match goal with |- context [?x <? 0] => destruct (Z.ltb_spec x 0) end;
        lia. }
    rewrite Ha. apply s32_small. change (2 ^ 31) with 2147483648. nia. }
  rewrite Ht.
  autorewrite with dtrw. cbn [dtsa dtsb dt_ltime sim_rtime dev_dis set_substate].
  rewrite ?dtsa_upd, ?dtsb_upd, ?ltime_upd, ?rtime_upd, ?dev_dis_upd.
  subst s2. rewrite ?unit_upd_eq, ?dtsa_upd, ?dtsb_upd, ?ltime_upd, ?rtime_upd,
    ?dev_dis_upd.
  repeat split. cbn [pos set_STATE]. fold u p1. rewrite Hu1. reflexivity.
Qed.

Lemma offreel_event k dir n s :
  cruising k dir DTS_OFR n s ->
  pos (unit k s) + (if dir =? 0 then n else - n) =
    (if dir =? 0 then DTU_FWDEZ (unit k s) + DT_EZLIN + 1000 else -1000) ->
  fire_tot k s = off_reel_state k (sim_cancel k (advance (n * dt_ltime s) s)).
Proof.
  intros C Ht.
  assert (Hf : 0 <= DTS_OFR <= 7) by (vm_compute; split; discriminate).
  destruct (cruise_clock k dir DTS_OFR n s C Hf)
    as (Hfire & HuA & Hel & Hne & Hnp & Hmot & Hfnc & Hd).
  destruct C as (Hdir & HL & Hn & HnL & Hatt & Hst & Htm & Hlt & Hp).
  pose proof (max_pos_bound (unit k s)) as Hmax.
  set (sA := sim_cancel k (advance (n * dt_ltime s) s)) in *.
  rewrite Ht in Hnp.
  assert (R : stays_on_reel k sA = false).
  { unfold stays_on_reel, on_reel. rewrite Hel, Hnp, HuA.
    destruct (Z.eqb_spec (n * dt_ltime s) 0); [contradiction|]. cbn [orb].
    change (DTU_FWDEZ (set_timer None (unit k s))) with (DTU_FWDEZ (unit k s)).
    change DT_EZLIN with 36000 in *.
    assert (Hg : 0 < DTU_FWDEZ (unit k s)) by (clear; geom (unit k s); lia).
    destruct Hdir as [-> | ->]; cbn [Z.eqb].
    - rewrite u32_small by (change (2 ^ 32) with 4294967296; lia).
      rewrite s32_small by (change (2 ^ 31) with 2147483648; lia).
      destruct (Z.gtb_spec (DTU_FWDEZ (unit k s) + 36000 + 1000)
                  (DTU_FWDEZ (unit k s) + 36000)); [|lia].
      now rewrite orb_true_r.
    - reflexivity. }
  rewrite Hfire. fold sA. unfold dt_svc_tot. cbv zeta. rewrite Hmot.
  assert (Hc : (Z.lor DTS_ATSF dir =? DTS_DECF) || (Z.lor DTS_ATSF dir =? DTS_DECR)
               = false) by (destruct Hdir as [-> | ->]; reflexivity).
  assert (Hc2 : (Z.lor DTS_ATSF dir =? DTS_ACCF) || (Z.lor DTS_ATSF dir =? DTS_ACCR)
               = false) by (destruct Hdir as [-> | ->]; reflexivity).
  assert (Hc3 : (Z.lor DTS_ATSF dir =? DTS_ATSF) || (Z.lor DTS_ATSF dir =? DTS_ATSR)
               = true) by (destruct Hdir as [-> | ->]; reflexivity).
  rewrite Hc, Hc2, Hc3. unfold svc_atspeed_tot. cbv zeta.
  rewrite (dt_setpos_leaves k sA R). reflexivity.
Qed.

(** [deselected_runs_off] on the routines with the total division. *)
Lemma deselected_runs_off_tot (IR dev dat : Z) (s : DT) (k : fin 8) (dir fnc : Z) :
  Z.land (Z.shiftr IR 6) 31 = 3 ->
  dev_dis s = false ->
  unit_ptr (DTA_GETUNIT (dtsa s)) = Some k ->
  DTA_GETUNIT dat <> unit_no k ->
  dir = 0 \/ dir = 1 ->
  0 < dt_ltime s ->
  (DTU_FWDEZ (unit k s) + DT_EZLIN + 1000) * dt_ltime s < 2 ^ 31 ->
  u_att (unit k s) = true ->
  STATE (unit k s) = DTS_STA (Z.lor DTS_ATSF dir) fnc ->
  0 <= fnc <= 7 ->
  LASTT (unit k s) = sim_rtime s ->
  DT_EZLIN < pos (unit k s) < DTU_FWDEZ (unit k s) - 1 ->
  exists s1,
    dt_tot IR dev dat s = Some (dat, s1)
    /\ STATE (unit k s1) = DTS_STA (Z.lor DTS_ATSF dir) DTS_OFR
    /\ u_att (unit k s1) = true
    /\ Z.land (dtsb s1)
         (Z.lor (Z.lor (Z.lor DTB_DTF DTB_BEF) DTB_ERF) DTB_ALLERR) = 0
    /\ u_att (unit k (fire_tot k s1)) = false
    /\ STATE (unit k (fire_tot k s1)) = 0
    /\ pos (unit k (fire_tot k s1)) = 0
    /\ dtsb (fire_tot k s1) = dtsb s1 /\ dtsa (fire_tot k s1) = dtsa s1.
Proof.
  intros Hp Hd Hk Hother Hdir HL Hfit Hatt Hst Hf Hlt Hpos.
  destruct (GETMOT_atspeed dir fnc Hdir Hf) as (G1 & _ & G3).
  pose proof (offreel_schedule k dir s Hdir HL Hfit Hlt Hpos) as HS.
  cbv zeta in HS. destruct HS as (HuN & HaN & HbN & HlN & HtN & HdN).
  set (p1 := pos (unit k s) + (if dir =? 0 then 1 else -1)) in *.
  set (n := if dir =? 0 then DTU_FWDEZ (unit k s) + DT_EZLIN + 1000 - p1
            else p1 + 1000) in *.
  set (sN := dt_newfnc_tot k (DTS_STA (Z.lor DTS_ATSF dir) DTS_OFR) s) in *.
  assert (Hx : (Z.land (Z.lxor (dtsa s) dat) DTA_UNIT =? 0) = false).
  { destruct (Z.eqb_spec (Z.land (Z.lxor (dtsa s) dat) DTA_UNIT) 0) as [E|]; [|reflexivity].
    apply GETUNIT_same_field in E. apply unit_ptr_no in Hk. congruence. }
  assert (Hdes : dt_deselect_tot (dtsa s) s = sN).
  { unfold dt_deselect_tot. rewrite Hk. cbv zeta. rewrite Hst, G1.
    assert (Hge : (Z.lor DTS_ATSF dir >=? DTS_ATSF) = true)
      by (destruct Hdir as [-> | ->]; reflexivity).
    rewrite Hge. reflexivity. }
  set (s1 := DT_UPDINT
               (set_dtsb (Z.land (dtsb sN)
                  (Z.lnot (Z.lor (Z.lor (Z.lor DTB_DTF DTB_BEF) DTB_ERF) DTB_ALLERR)))
                  (set_dtsa (Z.lor (Z.land (dtsa sN) (Z.lnot DTA_UNIT))
                                   (Z.land dat DTA_UNIT)) sN))).
  assert (E1 : dt_tot IR dev dat s = Some (dat, s1)).
  { unfold dt_tot. rewrite Hp, Hd. change (3 =? 3) with true. cbv iota zeta.
    rewrite Hx, Hdes. reflexivity. }
  assert (Hu1 : unit k s1 = unit k sN) by (subst s1; now rewrite unit_UPDINT).
  assert (Ha1 : DTA_GETUNIT (dtsa s1) = DTA_GETUNIT dat).
  { subst s1. rewrite dtsa_UPDINT. cbn [dtsa set_dtsa set_dtsb].
    apply GETUNIT_selected. }
  assert (Hl1 : dt_ltime s1 = dt_ltime s)
    by (subst s1; rewrite ltime_UPDINT; exact HlN).
  assert (Ht1 : sim_rtime s1 = sim_rtime s)
    by (subst s1; rewrite rtime_UPDINT; exact HtN).
  pose proof (max_pos_bound (unit k s)) as Hmax.
  assert (Hn : 0 < n /\ n <= DTU_FWDEZ (unit k s) + DT_EZLIN + 1000
               /\ 0 <= p1 < 2 ^ 32
               /\ p1 + (if dir =? 0 then n else - n) =
                  (if dir =? 0 then DTU_FWDEZ (unit k s) + DT_EZLIN + 1000
                   else -1000)).
  { subst n p1. change DT_EZLIN with 36000 in *. change (2 ^ 32) with 4294967296.
    destruct (dir =? 0); lia. }
  destruct Hn as (Hn0 & Hn1 & Hp1 & Htgt).
  assert (C : cruising k dir DTS_OFR n s1).
  { unfold cruising. rewrite Hu1, HuN, Hl1, Ht1.
    cbn [u_att STATE timer LASTT pos set_timer set_pos set_STATE].
    repeat split; try assumption; try lia.
    change (2 ^ 31) with 2147483648 in *. nia. }
  pose proof (offreel_event k dir n s1 C) as Hev.
  rewrite Hu1, HuN in Hev. cbn [pos set_timer set_pos] in Hev.
  specialize (Hev Htgt).
  set (sA := sim_cancel k (advance (n * dt_ltime s1) s1)) in *.
  destruct (unit_off_reel k sA) as (O1 & O2 & O3).
  assert (Hsel : (unit_no k =? DTA_GETUNIT (dtsa sA)) = false).
  { change (dtsa sA) with (dtsa s1). rewrite Ha1.
    destruct (Z.eqb_spec (unit_no k) (DTA_GETUNIT dat)); [congruence|reflexivity]. }
  exists s1. split; [exact E1|].
  rewrite Hev, dtsb_off_reel, dtsa_off_reel, Hsel, Hu1, HuN.
  cbn [STATE u_att set_timer set_pos set_STATE].
  repeat split; try assumption.
  subst s1. rewrite dtsb_UPDINT. cbn [dtsb set_dtsb]. apply land_lnot_diag.
Qed.

(** ** Word transfers *)

(** The event of a unit at speed with a read or write function, the
    data flag down, between the end zones: the position update is
    followed by the word transfer. *)
Lemma data_event k dir fnc n s :
  cruising k dir fnc n s ->
  fnc = FNC_READ \/ fnc = FNC_RALL \/ fnc = FNC_WRIT \/ fnc = FNC_WALL ->
  Z.land (dtsb s) DTB_DTF = 0 ->
  let p' := pos (unit k s) + (if dir =? 0 then n else - n) in
  DT_EZLIN <= p' < DTU_FWDEZ (unit k s) ->
  exists sM,
    unit k sM =
      set_pos p' (set_LASTT (u32 (sim_rtime s + n * dt_ltime s))
                    (set_timer None (unit k s)))
    /\ dtsb sM = dtsb s /\ dtdb sM = dtdb s /\ dtsa sM = dtsa s
    /\ dt_ltime sM = dt_ltime s
    /\ sim_rtime sM = u32 (sim_rtime s + n * dt_ltime s)
    /\ fire_tot k s =
       if (fnc =? FNC_READ) || (fnc =? FNC_RALL)
       then svc_read k fnc dir (DT_LIN2BL p' (unit k s)) sM
       else svc_write k fnc dir (DT_LIN2BL p' (unit k s)) sM.
Proof.
  intros C Hfn Hdtf p' Hp'.
  pose proof (max_pos_bound (unit k s)) as Hmax.
  assert (Hf : 0 <= fnc <= 7)
    by (destruct Hfn as [-> | [-> | [-> | ->]]]; vm_compute; split; discriminate).
  destruct (cruise_clock k dir fnc n s C Hf)
    as (Hfire & HuA & Hel & Hne & _ & Hmot & Hfnc & Hd).
  destruct (cruise_on k dir fnc n s C Hf) as (Hsp & HuM & HeM);
    [change DT_EZLIN with 36000 in *; fold p'; lia|].
  fold p' in HuM.
  destruct C as (Hdir & HL & Hn & HnL & Hatt & Hst & Htm & Hlt & Hp).
  set (sA := sim_cancel k (advance (n * dt_ltime s) s)) in *.
  set (sM := moved k sA) in *.
  assert (Hez : DT_QEZ (unit k sM) = false).
  { rewrite HuM. apply QEZ_between. exact Hp'. }
  assert (Hblk : s32 (DT_LIN2BL (pos (unit k sM)) (unit k sM))
                 = DT_LIN2BL p' (unit k s)).
  { rewrite HuM. cbn [pos set_pos].
    change (DT_LIN2BL p' (set_pos p' _)) with (DT_LIN2BL p' (unit k s)).
    now apply LIN2BL_small. }
  assert (HbM : dtsb sM = dtsb s) by (subst sM; now rewrite dtsb_moved).
  exists sM. split; [exact HuM|]. split; [exact HbM|].
  split; [subst sM; now rewrite dtdb_moved|].
  split; [subst sM; now rewrite dtsa_moved|].
  split; [subst sM; now rewrite ltime_moved|].
  split; [subst sM; now rewrite rtime_moved|].
  rewrite Hfire. unfold dt_svc_tot. cbv zeta. rewrite Hmot.
  assert (Hc : (Z.lor DTS_ATSF dir =? DTS_DECF) || (Z.lor DTS_ATSF dir =? DTS_DECR)
               = false) by (destruct Hdir as [-> | ->]; reflexivity).
  assert (Hc2 : (Z.lor DTS_ATSF dir =? DTS_ACCF) || (Z.lor DTS_ATSF dir =? DTS_ACCR)
               = false) by (destruct Hdir as [-> | ->]; reflexivity).
  assert (Hc3 : (Z.lor DTS_ATSF dir =? DTS_ATSF) || (Z.lor DTS_ATSF dir =? DTS_ATSR)
               = true) by (destruct Hdir as [-> | ->]; reflexivity).
  rewrite Hc, Hc2, Hc3. unfold svc_atspeed_tot. cbv zeta.
  rewrite Hfnc, Hd, Hsp. fold sM. rewrite Hez, Hblk, HbM, Hdtf.
  change (negb (0 =? 0)) with false.
  destruct Hfn as [-> | [-> | [-> | ->]]]; reflexivity.
Qed.

Lemma data_zone_facts u p :
  DT_EZLIN <= p < DTU_FWDEZ u ->
  DT_HTLIN <= DT_LIN2OF p u < DTU_LPERB u - DT_HTLIN ->
  s32 (DT_LIN2OF p u) = DT_LIN2OF p u
  /\ s32 (DT_LIN2WD p u) = DT_LIN2WD p u
  /\ u32 (DT_LIN2BL p u * DTU_BSIZE u + DT_LIN2WD p u)
     = DT_LIN2BL p u * DTU_BSIZE u + DT_LIN2WD p u
  /\ 0 <= DT_LIN2BL p u * DTU_BSIZE u + DT_LIN2WD p u < DTU_CAPAC u
  /\ 0 <= DT_LIN2WD p u < DTU_BSIZE u.
Proof.
  unfold DT_LIN2WD, DT_LIN2BL, DT_LIN2OF. intros Hp Ho.
  geom u; arith32.
Qed.


Lemma write_event_facts (k : fin 8) (dir fnc n : Z) (s : DT) :
  cruising k dir fnc n s ->
  fnc = FNC_WRIT \/ fnc = FNC_WALL ->
  Z.land (dtsb s) DTB_DTF = 0 ->
  DT_WSIZE * dt_ltime s < 2 ^ 31 ->
  let u := unit k s in
  let p' := pos u + (if dir =? 0 then n else - n) in
  DT_EZLIN <= p' < DTU_FWDEZ u ->
  DT_HTLIN <= DT_LIN2OF p' u < DTU_LPERB u - DT_HTLIN ->
  let ba := DT_LIN2BL p' u * DTU_BSIZE u + DT_LIN2WD p' u in
  0 <= ba < DTU_CAPAC u
  /\ filebuf (unit k (fire_tot k s)) =
     <[Z.to_nat ba := if dir =? 0 then dtdb s else dt_comobv (dtdb s)]>
       (filebuf u)
  /\ hwmark (unit k (fire_tot k s)) =
     (if ba >=? hwmark u then ba + 1 else hwmark u)
  /\ dtsb (fire_tot k s) =
     Z.lor (dtsb s)
       (if DT_LIN2WD p' u =? (if dir =? 0 then DTU_BSIZE u - 1 else 0)
        then DTB_BEF else DTB_DTF)
  /\ dtdb (fire_tot k s) = dtdb s
  /\ pos (unit k (fire_tot k s)) = p'
  /\ timer (unit k (fire_tot k s)) = Some (DT_WSIZE * dt_ltime s).
Proof.
  intros C Hfn Hdtf H6 u p' Hp' Hrel ba.
  destruct (data_event k dir fnc n s C
              ltac:(destruct Hfn as [-> | ->]; auto) Hdtf Hp')
    as (sM & HuM & HbM & HdM & HaM & HlM & HtM & Hfire).
  fold u p' in HuM, Hfire.
  destruct (data_zone_facts u p' Hp' Hrel) as (F1 & F2 & F3 & F4 & F5).
  fold ba in F3, F4.
  assert (HL : 0 < dt_ltime s) by (destruct C as (_ & HL & _); exact HL).
  assert (Hfw : (fnc =? FNC_READ) || (fnc =? FNC_RALL) = false)
    by (destruct Hfn as [-> | ->]; reflexivity).
  rewrite Hfw in Hfire. rewrite Hfire.
  unfold svc_write. cbv zeta. rewrite unit_sim_activate, HuM.
  unfold sim_activate. rewrite ?ltime_upd, !HlM.
  rewrite (s32_small (DT_WSIZE * dt_ltime s))
    by (change DT_WSIZE with 6 in *; change (2 ^ 31) with 2147483648 in *; lia).
  set (uM := set_timer (Some (DT_WSIZE * dt_ltime s)) (set_pos p' _)).
  change (pos uM) with p'.
  change (DT_LIN2OF p' uM) with (DT_LIN2OF p' u).
  change (DT_LIN2WD p' uM) with (DT_LIN2WD p' u).
  change (DTU_LPERB uM) with (DTU_LPERB u).
  change (DTU_BSIZE uM) with (DTU_BSIZE u).
  rewrite F1, F2.
  destruct (Z.geb_spec (DT_LIN2OF p' u) DT_HTLIN); [|lia].
  destruct (Z.ltb_spec (DT_LIN2OF p' u) (DTU_LPERB u - DT_HTLIN)); [|lia].
  cbn [andb]. fold ba. rewrite F3.
  rewrite !dtdb_upd, HdM.
  set (v := if dir =? 0 then dtdb s else dt_comobv (dtdb s)).
  set (s2 := upd_unit k (fun u0 => set_filebuf (<[Z.to_nat ba:=v]> (filebuf u0)) u0)
               (upd_unit k (set_timer (Some (DT_WSIZE * dt_ltime s))) sM)).
  assert (Hu2 : unit k s2 = set_filebuf (<[Z.to_nat ba:=v]> (filebuf u)) uM).
  { subst s2. rewrite !unit_upd_eq, HuM. reflexivity. }
  rewrite Hu2. change (hwmark (set_filebuf _ uM)) with (hwmark u).
  assert (Hb2 : dtsb s2 = dtsb s) by (subst s2; now rewrite !dtsb_upd).
  assert (Hd2 : dtdb s2 = dtdb s) by (subst s2; now rewrite !dtdb_upd).
  split; [exact F4|].
  rewrite (u32_small (ba + 1))
    by (pose proof (geometry u) as G; change (2 ^ 32) with 4294967296;
        destruct G as [(_&_&_&_&E&_)|(_&_&_&_&E&_)]; rewrite E in F4; lia).
  destruct (ba >=? hwmark u);
    destruct (DT_LIN2WD p' u =? (if dir =? 0 then DTU_BSIZE u - 1 else 0));
    autorewrite with dtrw; cbn [dtsb dtdb set_dtsb];
    rewrite ?dtsb_upd, ?dtdb_upd, ?unit_upd_eq, ?Hu2, ?Hb2, ?Hd2;
    repeat split.
Qed.

(** [write_event] on the routines with the total division. *)
Lemma write_event_tot (k : fin 8) (dir fnc n : Z) (s : DT) :
  cruising k dir fnc n s ->
  fnc = FNC_WRIT \/ fnc = FNC_WALL ->
  Z.land (dtsb s) DTB_DTF = 0 ->
  DT_WSIZE * dt_ltime s < 2 ^ 31 ->
  let u := unit k s in
  let p' := pos u + (if dir =? 0 then n else - n) in
  DT_EZLIN <= p' < DTU_FWDEZ u ->
  DT_HTLIN <= DT_LIN2OF p' u < DTU_LPERB u - DT_HTLIN ->
  let ba := DT_LIN2BL p' u * DTU_BSIZE u + DT_LIN2WD p' u in
  0 <= ba < DTU_CAPAC u
  /\ filebuf (unit k (fire_tot k s)) =
     <[Z.to_nat ba := if dir =? 0 then dtdb s else dt_comobv (dtdb s)]>
       (filebuf u)
  /\ hwmark (unit k (fire_tot k s)) =
     (if ba >=? hwmark u then ba + 1 else hwmark u)
  /\ dtsb (fire_tot k s) =
     Z.lor (dtsb s)
       (if DT_LIN2WD p' u =? (if dir =? 0 then DTU_BSIZE u - 1 else 0)
        then DTB_BEF else DTB_DTF)
  /\ dtdb (fire_tot k s) = dtdb s
  /\ pos (unit k (fire_tot k s)) = p'
  /\ timer (unit k (fire_tot k s)) = Some (DT_WSIZE * dt_ltime s).
Proof. apply write_event_facts. Qed.

Lemma read_event_facts (k : fin 8) (dir fnc n : Z) (s : DT) :
  cruising k dir fnc n s ->
  fnc = FNC_READ \/ fnc = FNC_RALL ->
  Z.land (dtsb s) DTB_DTF = 0 ->
  DT_WSIZE * dt_ltime s < 2 ^ 31 ->
  let u := unit k s in
  let p' := pos u + (if dir =? 0 then n else - n) in
  DT_EZLIN <= p' < DTU_FWDEZ u ->
  DT_HTLIN <= DT_LIN2OF p' u < DTU_LPERB u - DT_HTLIN ->
  let ba := DT_LIN2BL p' u * DTU_BSIZE u + DT_LIN2WD p' u in
  dtdb (fire_tot k s) =
    (if dir =? 0 then filebuf u !!! Z.to_nat ba
     else dt_comobv (filebuf u !!! Z.to_nat ba))
  /\ dtsb (fire_tot k s) = Z.lor (dtsb s) DTB_DTF
  /\ filebuf (unit k (fire_tot k s)) = filebuf u
  /\ hwmark (unit k (fire_tot k s)) = hwmark u
  /\ pos (unit k (fire_tot k s)) = p'
  /\ timer (unit k (fire_tot k s)) = Some (DT_WSIZE * dt_ltime s).
Proof.
  intros C Hfn Hdtf H6 u p' Hp' Hrel ba.
  destruct (data_event k dir fnc n s C
              ltac:(destruct Hfn as [-> | ->]; auto) Hdtf Hp')
    as (sM & HuM & HbM & HdM & HaM & HlM & HtM & Hfire).
  fold u p' in HuM, Hfire.
  destruct (data_zone_facts u p' Hp' Hrel) as (F1 & F2 & F3 & F4 & F5).
  fold ba in F3, F4.
  assert (HL : 0 < dt_ltime s) by (destruct C as (_ & HL & _); exact HL).
  assert (Hfw : (fnc =? FNC_READ) || (fnc =? FNC_RALL) = true)
    by (destruct Hfn as [-> | ->]; reflexivity).
  rewrite Hfw in Hfire. rewrite Hfire.
  destruct (svc_read_frame k fnc dir (DT_LIN2BL p' u) sM) as (Fu & _).
  rewrite Fu, HuM, HlM.
  rewrite (s32_small (DT_WSIZE * dt_ltime s))
    by (change DT_WSIZE with 6 in *; change (2 ^ 31) with 2147483648 in *; lia).
  cbn [filebuf hwmark pos timer set_timer set_pos set_LASTT].
  split; [|split; [|repeat split]].
  - unfold svc_read. cbv zeta. rewrite unit_sim_activate, HuM.
    set (uM := set_timer _ (set_pos p' _)).
    change (pos uM) with p'.
    change (DT_LIN2OF p' uM) with (DT_LIN2OF p' u).
    change (DT_LIN2WD p' uM) with (DT_LIN2WD p' u).
    change (DTU_LPERB uM) with (DTU_LPERB u).
    change (DTU_BSIZE uM) with (DTU_BSIZE u).
    change (filebuf uM) with (filebuf u).
    rewrite F1, F2.
    destruct (Z.geb_spec (DT_LIN2OF p' u) DT_HTLIN); [|lia].
    destruct (Z.ltb_spec (DT_LIN2OF p' u) (DTU_LPERB u - DT_HTLIN)); [|lia].
    cbn [andb]. fold ba. rewrite F3.
    destruct (dir =? 0); autorewrite with dtrw; reflexivity.
  - unfold svc_read. cbv zeta. rewrite unit_sim_activate, HuM.
    set (uM := set_timer _ (set_pos p' _)).
    change (pos uM) with p'.
    change (DT_LIN2OF p' uM) with (DT_LIN2OF p' u).
    change (DTU_LPERB uM) with (DTU_LPERB u).
    rewrite F1.
    destruct (Z.geb_spec (DT_LIN2OF p' u) DT_HTLIN); [|lia].
    destruct (Z.ltb_spec (DT_LIN2OF p' u) (DTU_LPERB u - DT_HTLIN)); [|lia].
    cbn [andb].
    destruct (dir =? 0); autorewrite with dtrw; cbn [dtsb set_dtsb set_dtdb];
      unfold sim_activate; rewrite ?dtsb_upd, HbM; reflexivity.
Qed.

(** [read_event] on the routines with the total division. *)
Lemma read_event_tot (k : fin 8) (dir fnc n : Z) (s : DT) :
  cruising k dir fnc n s ->
  fnc = FNC_READ \/ fnc = FNC_RALL ->
  Z.land (dtsb s) DTB_DTF = 0 ->
  DT_WSIZE * dt_ltime s < 2 ^ 31 ->
  let u := unit k s in
  let p' := pos u + (if dir =? 0 then n else - n) in
  DT_EZLIN <= p' < DTU_FWDEZ u ->
  DT_HTLIN <= DT_LIN2OF p' u < DTU_LPERB u - DT_HTLIN ->
  let ba := DT_LIN2BL p' u * DTU_BSIZE u + DT_LIN2WD p' u in
  dtdb (fire_tot k s) =
    (if dir =? 0 then filebuf u !!! Z.to_nat ba
     else dt_comobv (filebuf u !!! Z.to_nat ba))
  /\ dtsb (fire_tot k s) = Z.lor (dtsb s) DTB_DTF
  /\ filebuf (unit k (fire_tot k s)) = filebuf u
  /\ hwmark (unit k (fire_tot k s)) = hwmark u
  /\ pos (unit k (fire_tot k s)) = p'
  /\ timer (unit k (fire_tot k s)) = Some (DT_WSIZE * dt_ltime s).
Proof. apply read_event_facts. Qed.

Lemma line_macros_fmt u u' p :
  u_8fmt u = u_8fmt u' ->
  DT_LIN2BL p u = DT_LIN2BL p u' /\ DT_LIN2OF p u = DT_LIN2OF p u'
  /\ DT_LIN2WD p u = DT_LIN2WD p u' /\ DTU_BSIZE u = DTU_BSIZE u'
  /\ DTU_LPERB u = DTU_LPERB u' /\ DTU_FWDEZ u = DTU_FWDEZ u'.
Proof.
  intros H.
  unfold DT_LIN2WD, DT_LIN2BL, DT_LIN2OF, DTU_LPERB, DTU_BSIZE, DTU_FWDEZ.
  now rewrite H.
Qed.

(** [write_then_read] on the routines with the total division. *)
Lemma write_then_read_tot (k : fin 8)
    (dirW fncW nW : Z) (sW : DT) (dirR fncR nR : Z) (sR : DT) :
  cruising k dirW fncW nW sW ->
  fncW = FNC_WRIT \/ fncW = FNC_WALL ->
  Z.land (dtsb sW) DTB_DTF = 0 ->
  DT_WSIZE * dt_ltime sW < 2 ^ 31 ->
  Z.of_nat (length (filebuf (unit k sW))) = DTU_CAPAC (unit k sW) ->
  0 <= dtdb sW <= 262143 ->
  let p := pos (unit k sW) + (if dirW =? 0 then nW else - nW) in
  DT_EZLIN <= p < DTU_FWDEZ (unit k sW) ->
  DT_HTLIN <= DT_LIN2OF p (unit k sW) < DTU_LPERB (unit k sW) - DT_HTLIN ->
  cruising k dirR fncR nR sR ->
  fncR = FNC_READ \/ fncR = FNC_RALL ->
  Z.land (dtsb sR) DTB_DTF = 0 ->
  DT_WSIZE * dt_ltime sR < 2 ^ 31 ->
  u_8fmt (unit k sR) = u_8fmt (unit k sW) ->
  filebuf (unit k sR) = filebuf (unit k (fire_tot k sW)) ->
  pos (unit k sR) + (if dirR =? 0 then nR else - nR) = p ->
  dtdb (fire_tot k sR) = if dirR =? dirW then dtdb sW else dt_comobv (dtdb sW).
Proof.
  intros CW HfW HdW H6W Hlen Hdb p Hp Hrel CR HfR HdR H6R Hfmt Hbuf HpR.
  destruct (line_macros_fmt (unit k sR) (unit k sW) p Hfmt)
    as (M1 & M2 & M3 & M4 & M5 & M6).
  destruct (write_event_facts k dirW fncW nW sW CW HfW HdW H6W Hp Hrel)
    as (Hba & Hfb & _).
  fold p in Hba, Hfb.
  destruct (read_event_facts k dirR fncR nR sR CR HfR HdR H6R) as (Hdt & _).
  { rewrite HpR, M6. exact Hp. }
  { rewrite HpR, M2, M5. exact Hrel. }
  rewrite Hdt, HpR, M1, M3, M4, Hbuf, Hfb.
  set (ba := DT_LIN2BL p (unit k sW) * DTU_BSIZE (unit k sW)
             + DT_LIN2WD p (unit k sW)) in *.
  rewrite list_lookup_total_insert_eq by lia.
  assert (Hinv : dt_comobv (dt_comobv (dtdb sW)) = dtdb sW).
  { rewrite dt_comobv_twice. change 262143 with (Z.ones 18).
    rewrite Z.land_ones by lia. apply Z.mod_small.
    change (2 ^ 18) with 262144. lia. }
  assert (HdirW : dirW = 0 \/ dirW = 1) by (destruct CW as (H & _); exact H).
  assert (HdirR : dirR = 0 \/ dirR = 1) by (destruct CR as (H & _); exact H).
  destruct HdirW as [-> | ->], HdirR as [-> | ->]; cbn [Z.eqb Pos.eqb];
    try reflexivity; exact Hinv.
Qed.

(** ** The device reset *)

Lemma all_units_complete (j : fin 8) : In j all_units.
Proof.
  unfold all_units.
  repeat (inv_fin j; [simpl; tauto | intros j]). inv_fin j.
Qed.

Lemma ou_reset_unit r i s0 s :
  only_unit i s0 s -> only_unit i s0 (reset_unit_tot r i s).
Proof.
  intros H. unfold reset_unit_tot. cbv zeta. destruct r.
  - destruct (_ >? _); [|exact H].
    frame_setpos i s0. destruct off; [assumption|]. frame.
  - frame.
Qed.

Lemma reset_unit_other r i j s : i <> j -> unit j (reset_unit_tot r i s) = unit j s.
Proof.
  intros Hne.
  destruct (ou_reset_unit r i s s (only_unit_refl i s)) as (H & _).
  now apply H.
Qed.

Lemma reset_unit_rtime r i s : sim_rtime (reset_unit_tot r i s) = sim_rtime s.
Proof.
  destruct (ou_reset_unit r i s s (only_unit_refl i s))
    as (_ & _ & _ & _ & H & _). exact H.
Qed.

Lemma reset_unit_console i s :
  unit i (reset_unit_tot false i s) =
  set_LASTT (sim_rtime s) (set_STATE 0 (set_timer None (unit i s))).
Proof.
  unfold reset_unit_tot. cbv zeta. unfold sim_cancel.
  rewrite unit_upd_eq, unit_upd_eq. reflexivity.
Qed.

Lemma setpos_true_state k s s1 :
  dt_setpos_tot k s = (true, s1) -> STATE (unit k s1) = 0.
Proof.
  intros E. destruct (stays_on_reel k s) eqn:R.
  - rewrite (dt_setpos_stays k s R) in E. discriminate.
  - rewrite (dt_setpos_leaves k s R) in E. injection E as <-.
    now destruct (unit_off_reel k s) as (_ & H1 & _).
Qed.

Lemma reset_unit_program i s :
  DTS_GETMOT (STATE (unit i (reset_unit_tot true i s))) < DTS_ACCF
  /\ (DTS_GETMOT (STATE (unit i s)) < DTS_ACCF ->
      unit i (reset_unit_tot true i s) = unit i s).
Proof.
  unfold reset_unit_tot. cbv zeta.
  destruct (GETMOT_cases (STATE (unit i s)))
    as [M|[M|[M|[M|[M|[M|[M|M]]]]]]]; rewrite M;
    match goal with
    | |- context [Z.land ?m (Z.lnot DTS_DIR) >? DTS_DECF] =>
        let b := eval vm_compute in (Z.land m (Z.lnot DTS_DIR) >? DTS_DECF) in
        change (Z.land m (Z.lnot DTS_DIR) >? DTS_DECF) with b
    end; cbv iota;
    try (rewrite M; split; [reflexivity | intros _; reflexivity]).
  all: split; [|intros H; exfalso; revert H; vm_compute; intros H; discriminate H].
  all: destruct (dt_setpos_tot i s) as [off s1] eqn:E; destruct off;
    [ rewrite (setpos_true_state i s s1 E); reflexivity
    | unfold DTS_SETSTA; rewrite unit_upd_eq; reflexivity ].
Qed.

Lemma reset_fold r (P : UNIT -> Prop) j :
  (forall s, P (unit j (reset_unit_tot r j s))) ->
  forall l s, In j l \/ P (unit j s) ->
  P (unit j (foldl (fun s k => reset_unit_tot r k s) s l)).
Proof.
  intros Hj. induction l as [|i l IH]; intros s H.
  - destruct H as [[]|H]. exact H.
  - cbn [foldl]. apply IH.
    destruct (unit_ne_dec i j) as [->|Hne]; [right; apply Hj|].
    destruct H as [[H|H]|H]; [contradiction | now left |].
    right. now rewrite reset_unit_other.
Qed.

Lemma reset_fold_rtime r l : forall s,
  sim_rtime (foldl (fun s k => reset_unit_tot r k s) s l) = sim_rtime s.
Proof.
  induction l as [|i l IH]; intros s; [reflexivity|].
  cbn [foldl]. now rewrite IH, reset_unit_rtime.
Qed.

Lemma reset_fold_keep j u0 l : forall s,
  unit j s = u0 -> DTS_GETMOT (STATE u0) < DTS_ACCF ->
  unit j (foldl (fun s k => reset_unit_tot true k s) s l) = u0.
Proof.
  induction l as [|i l IH]; intros s Hu Hm; [exact Hu|].
  cbn [foldl]. apply IH; [|exact Hm].
  destruct (unit_ne_dec i j) as [->|Hne].
  - destruct (reset_unit_program j s) as [_ H]. rewrite H; [exact Hu|].
    now rewrite Hu.
  - now rewrite reset_unit_other.
Qed.

Lemma reset_fold_console j t l : forall s,
  sim_rtime s = t ->
  In j l \/ unit j s = set_LASTT t (set_STATE 0 (set_timer None (unit j s))) ->
  unit j (foldl (fun s k => reset_unit_tot false k s) s l) =
  set_LASTT t (set_STATE 0 (set_timer None (unit j s))).
Proof.
  induction l as [|i l IH]; intros s Ht H.
  - destruct H as [[]|H]. exact H.
  - cbn [foldl].
    destruct (unit_ne_dec i j) as [->|Hne].
    + rewrite IH; rewrite ?reset_unit_rtime, ?reset_unit_console, ?Ht;
        try reflexivity.
      right. reflexivity.
    + rewrite IH; rewrite ?reset_unit_rtime, ?reset_unit_other by exact Hne;
        try exact Ht; try reflexivity.
      destruct H as [[H|H]|H]; [contradiction | now left | now right].
Qed.

(** [dt_reset_stops] on the routines with the total division. *)
Lemma dt_reset_stops_tot (running : bool) (s : DT) :
  dtsa (dt_reset_tot running s) = 0
  /\ dtsb (dt_reset_tot running s) = 0
  /\ sim_rtime (dt_reset_tot running s) = sim_rtime s
  /\ (forall j, DTS_GETMOT (STATE (unit j (dt_reset_tot running s))) < DTS_ACCF)
  /\ (forall j,
        if running
        then DTS_GETMOT (STATE (unit j s)) < DTS_ACCF ->
             unit j (dt_reset_tot running s) = unit j s
        else unit j (dt_reset_tot running s) =
             set_LASTT (sim_rtime s) (set_STATE 0 (set_timer None (unit j s)))).
Proof.
  unfold dt_reset_tot. cbv zeta.
  rewrite dtsa_UPDINT, dtsb_UPDINT, rtime_UPDINT.
  cbn [dtsa dtsb sim_rtime set_dtsa set_dtsb].
  split; [reflexivity|]. split; [reflexivity|].
  split; [apply reset_fold_rtime|].
  split; intros j; rewrite unit_UPDINT;
    change (unit j (set_dtsb 0 (set_dtsa 0 ?x))) with (unit j x).
  - apply (reset_fold running (fun u => DTS_GETMOT (STATE u) < DTS_ACCF)).
    + intros s0. destruct running.
      * apply reset_unit_program.
      * rewrite reset_unit_console. reflexivity.
    + left. apply all_units_complete.
  - destruct running.
    + intros Hm. now apply reset_fold_keep.
    + apply reset_fold_console; [reflexivity|]. left. apply all_units_complete.
Qed.

(** [block_end_event] on the routines with the total division. *)
Lemma block_end_event_tot (k : fin 8) (dir fnc n : Z) (s : DT) :
  cruising k dir fnc n s ->
  fnc = FNC_READ \/ fnc = FNC_RALL ->
  Z.land (dtsb s) DTB_DTF = 0 ->
  DT_WSIZE * dt_ltime s < 2 ^ 31 ->
  let u := unit k s in
  let p' := pos u + (if dir =? 0 then n else - n) in
  DT_EZLIN <= p' < DTU_FWDEZ u ->
  DT_LIN2OF p' u / DT_WSIZE =
    (if dir =? 0 then DTU_WPERB u - DT_CSMWD - 1 else DT_CSMWD) ->
  dtdb (fire_tot k s) =
    (if dir =? 0 then dt_csum u (DT_LIN2BL p' u) else 0)
  /\ dtsb (fire_tot k s) = Z.lor (dtsb s) DTB_BEF
  /\ filebuf (unit k (fire_tot k s)) = filebuf u
  /\ pos (unit k (fire_tot k s)) = p'
  /\ timer (unit k (fire_tot k s)) = Some (DT_WSIZE * dt_ltime s).
Proof.
  intros C Hfn Hdtf H6 u p' Hp' Hw.
  destruct (data_event k dir fnc n s C
              ltac:(destruct Hfn as [-> | ->]; auto) Hdtf Hp')
    as (sM & HuM & HbM & HdM & HaM & HlM & HtM & Hfire).
  fold u p' in HuM, Hfire.
  assert (Hdir : dir = 0 \/ dir = 1) by (destruct C as (H & _); exact H).
  assert (HL : 0 < dt_ltime s) by (destruct C as (_ & HL & _); exact HL).
  assert (Hfw : (fnc =? FNC_READ) || (fnc =? FNC_RALL) = true)
    by (destruct Hfn as [-> | ->]; reflexivity).
  rewrite Hfw in Hfire. rewrite Hfire.
  destruct (svc_read_frame k fnc dir (DT_LIN2BL p' u) sM) as (Fu & _).
  rewrite Fu, HuM, HlM.
  rewrite (s32_small (DT_WSIZE * dt_ltime s))
    by (change DT_WSIZE with 6 in *; change (2 ^ 31) with 2147483648 in *; lia).
  cbn [filebuf hwmark pos timer set_timer set_pos set_LASTT].
  assert (Hrel : 0 <= DT_LIN2OF p' u < DTU_LPERB u
                 /\ s32 (DT_LIN2OF p' u) = DT_LIN2OF p' u
                 /\ ~ (DT_HTLIN <= DT_LIN2OF p' u < DTU_LPERB u - DT_HTLIN)
                 /\ DTU_WPERB u - DT_CSMWD - 1 <> 0
                 /\ DTU_WPERB u - DT_CSMWD - 1 <> DTU_WPERB u - 1
                 /\ DTU_WPERB u - DT_CSMWD - 1 <> DT_CSMWD
                 /\ DT_CSMWD <> DTU_WPERB u - 1).
  { revert Hw. unfold DT_LIN2OF. change DT_CSMWD with 4.
    clear - Hp' Hdir. intros Hw.
    destruct Hdir as [-> | ->]; cbn [Z.eqb] in Hw; geom u; arith32. }
  destruct Hrel as (R0 & R1 & R2 & R3 & R4 & R5 & R6).
  assert (Hq : Z.quot (DT_LIN2OF p' u) DT_WSIZE = DT_LIN2OF p' u / DT_WSIZE)
    by (apply Z.quot_div_nonneg; [lia | reflexivity]).
  assert (Hsv : svc_read k fnc dir (DT_LIN2BL p' u) sM =
    DT_UPDINT
      ((fun s0 => if dir =? 0 then s0 else set_dtdb (dt_comobv (dtdb s0)) s0)
         (set_dtsb (Z.lor (dtsb s) DTB_BEF)
            (set_dtdb (dt_gethdr u (DT_LIN2BL p' u) (DT_LIN2OF p' u))
               (sim_activate k (DT_WSIZE * dt_ltime s) sM))))).
  { unfold svc_read. cbv zeta. rewrite unit_sim_activate, HuM, HlM.
    rewrite (s32_small (DT_WSIZE * dt_ltime s))
      by (change DT_WSIZE with 6 in *; change (2 ^ 31) with 2147483648 in *; lia).
    set (uM := set_timer _ (set_pos p' _)).
    change (pos uM) with p'.
    change (DT_LIN2OF p' uM) with (DT_LIN2OF p' u).
    change (DTU_LPERB uM) with (DTU_LPERB u).
    change (DTU_BSIZE uM) with (DTU_BSIZE u).
    rewrite R1, Hq, Hw.
    change (2 * DT_HTWRD + DTU_BSIZE u) with (DTU_WPERB u).
    assert (Hdz : (DT_LIN2OF p' u >=? DT_HTLIN)
                  && (DT_LIN2OF p' u <? DTU_LPERB u - DT_HTLIN) = false).
    { destruct (Z.geb_spec (DT_LIN2OF p' u) DT_HTLIN),
        (Z.ltb_spec (DT_LIN2OF p' u) (DTU_LPERB u - DT_HTLIN));
        try reflexivity. lia. }
    rewrite Hdz.
    rewrite (dt_gethdr_ext uM u (DT_LIN2BL p' u) (DT_LIN2OF p' u) (DT_LIN2OF p' u))
      by reflexivity.
    unfold sim_activate. cbn [dtsb set_dtdb]. rewrite dtsb_upd, HbM.
    destruct Hdir as [-> | ->]; cbn [Z.eqb Pos.eqb].
    - destruct (Z.eqb_spec (DTU_WPERB u - DT_CSMWD - 1) 0); [contradiction|].
      destruct (Z.eqb_spec (DTU_WPERB u - DT_CSMWD - 1) (DTU_WPERB u - 1));
        [contradiction|].
      destruct (Z.eqb_spec (DTU_WPERB u - DT_CSMWD - 1) DT_CSMWD); [contradiction|].
      rewrite Z.eqb_refl. cbn [orb negb andb].
      rewrite andb_false_r. reflexivity.
    - change (DT_CSMWD =? 0) with false.
      destruct (Z.eqb_spec DT_CSMWD (DTU_WPERB u - 1)); [contradiction|].
      rewrite Z.eqb_refl. cbn [orb negb andb].
      rewrite andb_false_r. reflexivity. }
  rewrite Hsv.
  assert (Hg : dt_gethdr u (DT_LIN2BL p' u) (DT_LIN2OF p' u) =
               if dir =? 0 then dt_csum u (DT_LIN2BL p' u) else 262143).
  { unfold dt_gethdr. rewrite Hq, Hw.
    change (2 * DT_HTWRD + DTU_BSIZE u) with (DTU_WPERB u).
    change DT_BLKWD with 1 in *. change DT_CSMWD with 4 in *.
    assert (HWP : 10 < DTU_WPERB u) by (clear; geom u; lia).
    destruct Hdir as [-> | ->]; cbn [Z.eqb Pos.eqb]; [|reflexivity].
    destruct (Z.eqb_spec (DTU_WPERB u - 4 - 1) 1); [lia|].
    destruct (Z.eqb_spec (DTU_WPERB u - 4 - 1) 4); [lia|].
    now rewrite Z.eqb_refl. }
  rewrite Hg.
  destruct Hdir as [-> | ->]; cbn [Z.eqb Pos.eqb];
    autorewrite with dtrw; cbn [dtdb dtsb set_dtsb set_dtdb]; repeat split.
Qed.


(** * The controller's routines and their total forms *)

(** ** When the position update divides by zero *)

Lemma seterr_with_pure (f : fin 8 -> DT -> bool * DT) k e s :
  dt_seterr_with (fun j x => Some (f j x)) k e s
  = Some (dt_seterr_with_tot f k e s).
Proof.
  unfold dt_seterr_with, dt_seterr_with_tot. cbv zeta.
  destruct (_ >=? DTS_ACCF); [|reflexivity].
  destruct (f k _) as [[] s1]; reflexivity.
Qed.

Lemma pos_delta_agree s mot ut :
  pos_delta s mot ut =
  (let m := Z.land mot (Z.lnot DTS_DIR) in
   if ((m =? DTS_DECF)
       && (u32 (2 * u32 (Z.quot (dt_dctime s) (dt_ltime s))) =? 0))
      || ((m =? DTS_ACCF)
          && (u32 (2 * u32 (Z.quot (dt_actime s) (dt_ltime s))) =? 0))
   then None else Some (delta_lines s mot ut)).
Proof.
  unfold pos_delta, delta_lines. cbv zeta.
  set (m := Z.land mot _).
  destruct (Z.eqb_spec m DTS_STOP) as [E|E].
  { rewrite E. reflexivity. }
  destruct (Z.eqb_spec m DTS_DECF) as [E1|E1]; cbn [andb orb].
  { rewrite E1. destruct (_ =? 0); reflexivity. }
  destruct (Z.eqb_spec m DTS_ACCF) as [E2|E2]; cbn [andb].
  { destruct (_ =? 0); reflexivity. }
  destruct (m =? DTS_ATSF); reflexivity.
Qed.

(** The position update returns what [dt_setpos_tot] computes, unless
    it divides by zero. *)
Lemma dt_setpos_agree k s :
  dt_setpos k s = if trapping k s then None else Some (dt_setpos_tot k s).
Proof.
  unfold dt_setpos, dt_setpos_tot, trapping, elapsed, sim_grtime. cbv zeta.
  destruct (u32 (sim_rtime s - LASTT (unit k s)) =? 0); [reflexivity|].
  cbn [negb andb]. rewrite pos_delta_agree. cbv zeta.
  change (dt_dctime (upd_unit k (set_LASTT (sim_rtime s)) s)) with (dt_dctime s).
  change (dt_actime (upd_unit k (set_LASTT (sim_rtime s)) s)) with (dt_actime s).
  change (dt_ltime (upd_unit k (set_LASTT (sim_rtime s)) s)) with (dt_ltime s).
  destruct (_ || _); [reflexivity|].
  destruct (Z.land _ DTS_DIR =? 0);
    (destruct (_ || _); [|reflexivity]);
    (destruct (unit_no k =? _); [|reflexivity]);
    rewrite (seterr_with_pure (fun _ x => (false, x))); reflexivity.
Qed.

Lemma trapping_ext k s s' :
  STATE (unit k s') = STATE (unit k s) ->
  LASTT (unit k s') = LASTT (unit k s) ->
  sim_rtime s' = sim_rtime s ->
  dt_ltime s' = dt_ltime s -> dt_actime s' = dt_actime s ->
  dt_dctime s' = dt_dctime s ->
  trapping k s' = trapping k s.
Proof.
  unfold trapping, elapsed, sim_grtime. intros -> -> -> -> -> ->. reflexivity.
Qed.

Lemma trapping_quiet k s : elapsed k s = 0 -> trapping k s = false.
Proof. unfold trapping. intros ->. reflexivity. Qed.

Lemma motion_class x :
  let m := Z.land (DTS_GETMOT x) (Z.lnot DTS_DIR) in
  (DTS_GETMOT x < 2 /\ m = DTS_STOP)
  \/ ((DTS_GETMOT x = DTS_DECF \/ DTS_GETMOT x = DTS_DECR) /\ m = DTS_DECF)
  \/ ((DTS_GETMOT x = DTS_ACCF \/ DTS_GETMOT x = DTS_ACCR) /\ m = DTS_ACCF)
  \/ ((DTS_GETMOT x = DTS_ATSF \/ DTS_GETMOT x = DTS_ATSR) /\ m = DTS_ATSF).
Proof.
  cbv zeta.
  destruct (GETMOT_cases x) as [H|[H|[H|[H|[H|[H|[H|H]]]]]]]; rewrite H.
  - left. split; [lia | reflexivity].
  - left. split; [lia | reflexivity].
  - right; left. split; [left|]; reflexivity.
  - right; left. split; [right|]; reflexivity.
  - right; right; left. split; [left|]; reflexivity.
  - right; right; left. split; [right|]; reflexivity.
  - right; right; right. split; [left|]; reflexivity.
  - right; right; right. split; [right|]; reflexivity.
Qed.

(** A unit at rest or at speed has no ramp to divide by. *)
Lemma trapping_no_ramp k s :
  DTS_GETMOT (STATE (unit k s)) < DTS_DECF
  \/ DTS_ATSF <= DTS_GETMOT (STATE (unit k s)) ->
  trapping k s = false.
Proof.
  intros H. unfold trapping. cbv zeta.
  destruct (motion_class (STATE (unit k s))) as [[A ->]|[[A ->]|[[A ->]|[A ->]]]];
    cbv zeta in *.
  - apply andb_false_r.
  - exfalso. unfold DTS_DECF, DTS_DECR, DTS_ATSF in *. lia.
  - exfalso. unfold DTS_ACCF, DTS_ACCR, DTS_DECF, DTS_ATSF in *. lia.
  - apply andb_false_r.
Qed.

(** With ramp times of at least one line time nothing divides by zero. *)
Lemma trapping_timing k s :
  0 < dt_ltime s ->
  dt_ltime s <= dt_actime s < 2 ^ 31 ->
  dt_ltime s <= dt_dctime s < 2 ^ 31 ->
  trapping k s = false.
Proof.
  intros HL HA HD. unfold trapping. cbv zeta.
  assert (Q : forall t, dt_ltime s <= t < 2 ^ 31 ->
            (u32 (2 * u32 (Z.quot t (dt_ltime s))) =? 0) = false).
  { intros t Ht. apply Z.eqb_neq.
    rewrite Z.quot_div_nonneg by lia.
    assert (1 <= t / dt_ltime s) by (apply Z.div_le_lower_bound; lia).
    assert (t / dt_ltime s <= t) by (apply Z.div_le_upper_bound; nia).
    unfold u32. change (2 ^ 31) with 2147483648 in *.
    change (2 ^ 32) with 4294967296.
    rewrite (Z.mod_small (t / dt_ltime s)) by lia.
    rewrite Z.mod_small by lia. lia. }
  rewrite (Q _ HA), (Q _ HD), !andb_false_r. reflexivity.
Qed.

Ltac trap_frame :=
  apply trapping_ext;
  unfold sim_cancel, sim_activate, DTS_SETSTA, DTS_SET2ND, DTS_SET3RD, loaded;
  repeat (autorewrite with dtrw; cbn [STATE LASTT set_timer set_STATE set_pos
    set_LASTT set_att sim_rtime dt_ltime dt_actime dt_dctime set_dtsa set_dtsb
    set_dtdb set_substate]);
  reflexivity.

(** ** The error setter and the function dispatch *)

Lemma dt_seterr_agree k e s :
  dt_seterr k e s =
  if (DTS_GETMOT (STATE (unit k s)) >=? DTS_ACCF) && trapping k s
  then None else Some (dt_seterr_tot k e s).
Proof.
  unfold dt_seterr, dt_seterr_with, dt_seterr_tot, dt_seterr_with_tot. cbv zeta.
  destruct (_ >=? DTS_ACCF); cbn [andb]; [|reflexivity].
  rewrite dt_setpos_agree.
  match goal with |- context [trapping k ?x] =>
    replace (trapping k x) with (trapping k s) by (symmetry; trap_frame) end.
  destruct (trapping k s); [reflexivity|].
  destruct (dt_setpos_tot k _) as [[] s1]; reflexivity.
Qed.

Lemma dt_seterr_quiet k e s :
  elapsed k s = 0 -> dt_seterr k e s = Some (dt_seterr_tot k e s).
Proof.
  intros H. rewrite dt_seterr_agree, (trapping_quiet k s H), andb_false_r.
  reflexivity.
Qed.

Lemma newfnc_dispatch_agree k fnc dir s :
  elapsed k s = 0 ->
  newfnc_dispatch k fnc dir s = Some (newfnc_dispatch_tot k fnc dir s).
Proof.
  intros H. unfold newfnc_dispatch, newfnc_dispatch_tot. cbv zeta.
  rewrite !(dt_seterr_quiet k _ s H).
  assert (H' : elapsed k (set_substate DTO_SOB (sim_cancel k s)) = 0).
  { rewrite <- H. unfold elapsed, sim_grtime, sim_cancel.
    autorewrite with dtrw. reflexivity. }
  rewrite !(dt_seterr_quiet k _ _ H').
  split_ifs; reflexivity.
Qed.

Lemma dt_newfnc_agree k newsta s :
  dt_newfnc k newsta s =
  if trapping k s then None else Some (dt_newfnc_tot k newsta s).
Proof.
  unfold dt_newfnc, dt_newfnc_tot. cbv zeta. rewrite dt_setpos_agree.
  destruct (trapping k s); [reflexivity|].
  destruct (dt_setpos_tot k s) as [[] s1] eqn:E; [reflexivity|].
  apply dt_setpos_false in E. destruct E as [_ ->].
  apply newfnc_dispatch_agree.
  destruct (_ =? pos _); rewrite !elapsed_upd by (intros; reflexivity);
    apply elapsed_moved.
Qed.

Lemma dt_deselect_agree oldf s :
  dt_deselect oldf s = Some (dt_deselect_tot oldf s).
Proof.
  unfold dt_deselect, dt_deselect_tot.
  destruct (unit_ptr _) as [k|]; [|reflexivity]. cbv zeta.
  destruct (Z.geb_spec (DTS_GETMOT (STATE (unit k s))) DTS_ATSF) as [H|H].
  - rewrite dt_newfnc_agree, trapping_no_ramp by (right; exact H). reflexivity.
  - destruct (_ >=? _); reflexivity.
Qed.

(** ** The service routine and the events *)

Lemma svc_atspeed_agree k s :
  svc_atspeed k s = if trapping k s then None else Some (svc_atspeed_tot k s).
Proof.
  unfold svc_atspeed, svc_atspeed_tot. cbv zeta. rewrite dt_setpos_agree.
  destruct (trapping k s); [reflexivity|].
  destruct (dt_setpos_tot k s) as [[] s1] eqn:E; [reflexivity|].
  apply dt_setpos_false in E. destruct E as [_ ->].
  rewrite !(dt_seterr_quiet k _ _ (elapsed_moved k s)).
  split_ifs; reflexivity.
Qed.

Lemma dt_svc_agree k s :
  dt_svc k s = if trapping k s then None else Some (dt_svc_tot k s).
Proof.
  unfold dt_svc, dt_svc_tot. cbv zeta.
  destruct (motion_class (STATE (unit k s))) as [[A M]|[[A M]|[[A M]|[A M]]]];
    cbv zeta in M.
  - rewrite trapping_no_ramp by (left; unfold DTS_DECF; lia).
    rewrite dt_seterr_agree.
    replace (_ >=? DTS_ACCF) with false
      by (symmetry; rewrite Z.geb_leb; apply Z.leb_gt; unfold DTS_ACCF; lia).
    assert (N : forall c, 2 <= c -> (DTS_GETMOT (STATE (unit k s)) =? c) = false)
      by (intros; apply Z.eqb_neq; lia).
    rewrite !N by (cbv; discriminate). reflexivity.
  - replace ((_ =? DTS_DECF) || (_ =? DTS_DECR)) with true
      by (destruct A as [-> | ->]; reflexivity).
    rewrite dt_setpos_agree. destruct (trapping k s); [reflexivity|].
    destruct (dt_setpos_tot k s) as [[] s1]; [reflexivity|].
    destruct (_ =? 0); reflexivity.
  - replace ((_ =? DTS_DECF) || (_ =? DTS_DECR)) with false
      by (destruct A as [-> | ->]; reflexivity).
    replace ((_ =? DTS_ACCF) || (_ =? DTS_ACCR)) with true
      by (destruct A as [-> | ->]; reflexivity).
    apply dt_newfnc_agree.
  - replace ((_ =? DTS_DECF) || (_ =? DTS_DECR)) with false
      by (destruct A as [-> | ->]; reflexivity).
    replace ((_ =? DTS_ACCF) || (_ =? DTS_ACCR)) with false
      by (destruct A as [-> | ->]; reflexivity).
    replace ((_ =? DTS_ATSF) || (_ =? DTS_ATSR)) with true
      by (destruct A as [-> | ->]; reflexivity).
    apply svc_atspeed_agree.
Qed.

Lemma fire_agree k s :
  fire k s =
  match timer (unit k s) with
  | None => Some s
  | Some d => if trapping k (advance d s) then None else Some (fire_tot k s)
  end.
Proof.
  unfold fire, fire_tot. destruct (timer (unit k s)) as [d|]; [|reflexivity].
  rewrite dt_svc_agree.
  replace (trapping k (sim_cancel k (advance d s))) with (trapping k (advance d s))
    by (symmetry; trap_frame).
  reflexivity.
Qed.


Lemma fire_sound k s s' : fire k s = Some s' -> fire_tot k s = s'.
Proof.
  rewrite fire_agree. unfold fire_tot.
  destruct (timer (unit k s)) as [d|]; [|congruence].
  destruct (trapping k _); [discriminate | congruence].
Qed.

Lemma dt_svc_sound k s s' : dt_svc k s = Some s' -> dt_svc_tot k s = s'.
Proof. rewrite dt_svc_agree. destruct (trapping k s); [discriminate | congruence]. Qed.

Lemma dt_setpos_sound k s r : dt_setpos k s = Some r -> dt_setpos_tot k s = r.
Proof. rewrite dt_setpos_agree. destruct (trapping k s); [discriminate | congruence]. Qed.

(** ** The command logic and the I/O pulses *)

Lemma dt_newsa_agree newf s :
  (forall k, unit_ptr (DTA_GETUNIT newf) = Some k -> trapping k s = false) ->
  dt_newsa newf s = Some (dt_newsa_tot newf s).
Proof.
  intros H. unfold dt_newsa, dt_newsa_tot.
  destruct (unit_ptr _) as [k|]; [|reflexivity].
  specialize (H k eq_refl). cbv zeta.
  rewrite dt_setpos_agree, dt_seterr_agree, dt_newfnc_agree, H, andb_false_r.
  destruct (dt_setpos_tot k s) as [[] s1]; split_ifs; reflexivity.
Qed.

Lemma dt_newsa_sound newf s s' :
  dt_newsa newf s = Some s' -> dt_newsa_tot newf s = s'.
Proof.
  unfold dt_newsa, dt_newsa_tot.
  destruct (unit_ptr _) as [k|]; [|congruence]. cbv zeta.
  rewrite dt_setpos_agree, dt_seterr_agree, dt_newfnc_agree.
  destruct (trapping k s); rewrite ?andb_true_r, ?andb_false_r;
    destruct (dt_setpos_tot k s) as [[] s1]; split_ifs;
    intros E; first [discriminate E | congruence].
Qed.

Lemma dt_agree IR dev dat s :
  (Z.land (Z.shiftr IR 6) 31 = 4 ->
   forall k, unit_ptr (DTA_GETUNIT (dtsa s)) = Some k -> trapping k s = false) ->
  dt IR dev dat s = dt_tot IR dev dat s.
Proof.
  intros H. unfold dt, dt_tot. cbv zeta.
  destruct (dev_dis s); [reflexivity|].
  destruct (_ =? 3).
  { rewrite dt_deselect_agree. destruct (_ =? 0); reflexivity. }
  destruct (Z.eqb_spec (Z.land (Z.shiftr IR 6) 31) 4) as [P|P]; [|reflexivity].
  specialize (H P).
  destruct (DTA_GETUNIT (dtsa s) >=? 0); [|reflexivity].
  destruct (unit_ptr (DTA_GETUNIT (dtsa s))) as [k|] eqn:K; [|reflexivity].
  specialize (H k eq_refl).
  change (set_dtsb _ (set_dtsa _ s)) with (loaded dat s).
  assert (T : trapping k (loaded dat s) = false) by (rewrite <- H; trap_frame).
  rewrite dt_seterr_agree, T, andb_false_r.
  rewrite dt_newsa_agree.
  2:{ intros k'. rewrite GETUNIT_loaded, K. intros [= <-]. exact T. }
  destruct (_ || _); reflexivity.
Qed.

Lemma dt_sound IR dev dat s r :
  dt IR dev dat s = Some r -> dt_tot IR dev dat s = Some r.
Proof.
  unfold dt, dt_tot. cbv zeta.
  destruct (dev_dis s); [congruence|].
  destruct (_ =? 3).
  { rewrite dt_deselect_agree. destruct (_ =? 0); congruence. }
  destruct (_ =? 4); [|congruence].
  destruct (if _ >=? 0 then _ else _) as [k|]; [|congruence].
  destruct (_ || _).
  - rewrite dt_seterr_agree. destruct (_ && _); [discriminate | congruence].
  - destruct (dt_newsa _ _) as [s1|] eqn:E; [|discriminate].
    apply dt_newsa_sound in E. rewrite E. congruence.
Qed.

(** A pulse other than LOAD COMMAND never stops on a division. *)
Lemma dt_agree_other IR dev dat s :
  Z.land (Z.shiftr IR 6) 31 <> 4 -> dt IR dev dat s = dt_tot IR dev dat s.
Proof. intros H. apply dt_agree. intros H'. contradiction. Qed.

Lemma step_sound o s s' : step o s = Some s' -> step_tot o s = Some s'.
Proof.
  destruct o as [IR dat|k|d]; cbn [step step_tot].
  - destruct (dt IR 0 dat s) as [r|] eqn:E; [|discriminate].
    rewrite (dt_sound _ _ _ _ _ E). congruence.
  - intros E. now rewrite (fire_sound _ _ _ E).
  - congruence.
Qed.

Lemma run_sound os : forall s s', run os s = Some s' -> run_tot os s = Some s'.
Proof.
  induction os as [|o os IH]; intros s s'; cbn [run run_tot]; [congruence|].
  destruct (step o s) as [s1|] eqn:E; [|discriminate].
  rewrite (step_sound _ _ _ E). apply IH.
Qed.


(** * The claims, on the controller's routines *)

(** C10.  A READ DATA pulse (pulse 5) leaves the data buffer, status A
    and every unit as they were, whatever the state before; with the
    device enabled the returned word is the data buffer put into the low
    18 bits of the caller's word, and status B loses DTF and BEF and
    nothing else. *)
Theorem dt_MRD_frame (IR dev dat : Z) (s : DT) :
  Z.land (Z.shiftr IR 6) 31 = 5 ->
  exists dat' s',
    dt IR dev dat s = Some (dat', s')
    /\ dtdb s' = dtdb s /\ dtsa s' = dtsa s /\ dt_unit s' = dt_unit s
    /\ (dev_dis s = false ->
        dat' = Z.lor (Z.land dat (Z.lnot DMASK)) (dtdb s)
        /\ dtsb s' = Z.land (dtsb s) (Z.lnot (Z.lor DTB_DTF DTB_BEF))).
Proof.
  intros Hp. rewrite dt_agree_other by (rewrite Hp; discriminate).
  now apply dt_MRD_frame_tot.
Qed.

(** C6.  A service call for a unit at speed with the function SEARCH,
    READ, READ ALL, WRITE or WRITE ALL, whose position update leaves the
    tape on the reel and outside the end zones (so that the function is
    executed): if DTF is still set, the call sets TIMING-ERROR and ERF,
    puts the unit into deceleration in its direction with the decel
    timer, and moves no word: the data buffer, the unit's image buffer
    and its high-water mark, and all other units are as before. *)
Theorem dt_svc_timing_error (k : fin 8) (s : DT) :
  (DTS_GETMOT (STATE (unit k s)) = DTS_ATSF
   \/ DTS_GETMOT (STATE (unit k s)) = DTS_ATSR) ->
  (DTS_GETFNC (STATE (unit k s)) = FNC_SRCH
   \/ DTS_GETFNC (STATE (unit k s)) = FNC_READ
   \/ DTS_GETFNC (STATE (unit k s)) = FNC_RALL
   \/ DTS_GETFNC (STATE (unit k s)) = FNC_WRIT
   \/ DTS_GETFNC (STATE (unit k s)) = FNC_WALL) ->
  Z.land (dtsb s) DTB_DTF <> 0 ->
  stays_on_reel k s = true ->
  DT_QEZ (unit k (moved k s)) = false ->
  exists s',
    dt_svc k s = Some s'
    /\ Z.testbit (dtsb s') DTB_V_TIM = true
    /\ Z.testbit (dtsb s') DTB_V_ERF = true
    /\ STATE (unit k s') =
       DTS_STA (Z.lor DTS_DECF
                  (Z.land (DTS_GETMOT (STATE (unit k s))) DTS_DIR)) 0
    /\ timer (unit k s') = Some (dt_dctime s)
    /\ dtdb s' = dtdb s
    /\ filebuf (unit k s') = filebuf (unit k s)
    /\ hwmark (unit k s') = hwmark (unit k s)
    /\ (forall j, k <> j -> unit j s' = unit j s).
Proof.
  intros Hmot Hfnc Hdtf Hreel Hez.
  exists (dt_svc_tot k s). split.
  - rewrite dt_svc_agree, trapping_no_ramp; [reflexivity|].
    right. destruct Hmot as [-> | ->]; unfold DTS_ATSF, DTS_ATSR; lia.
  - now apply dt_svc_timing_error_tot.
Qed.

(** C9.  Function dispatch at speed, when the position update leaves the
    tape on the reel and the position as it was: the position is moved
    by exactly one line in the direction of travel of the new state
    (plus one forward, minus one in reverse, in 32-bit arithmetic), and
    it is this position that the end zone test and the scheduling see;
    the dispatch returns, the bumped position is the position at its
    end, and it differs from the one before.  ([s1] is the state in
    which the position update returns; where the update divides by zero
    there is none.) *)
Theorem dt_newfnc_bump (k : fin 8) (newsta : Z) (s s1 : DT) :
  dt_setpos k s = Some (false, s1) ->
  pos (unit k s1) = pos (unit k s) ->
  dt_newfnc k newsta s =
    newfnc_dispatch k (DTS_GETFNC newsta)
      (Z.land (DTS_GETMOT newsta) DTS_DIR)
      (upd_unit k
         (fun u => set_pos
            (u32 (pos u + (if Z.land (DTS_GETMOT newsta) DTS_DIR =? 0
                           then 1 else -1))) u)
         (upd_unit k (set_STATE newsta) s1))
  /\ exists s',
       dt_newfnc k newsta s = Some s'
       /\ pos (unit k s') =
          u32 (pos (unit k s)
               + (if Z.land (DTS_GETMOT newsta) DTS_DIR =? 0 then 1 else -1))
       /\ (0 <= pos (unit k s) < 2 ^ 32 -> pos (unit k s') <> pos (unit k s)).
Proof.
  intros Hs Hpos.
  assert (T : trapping k s = false).
  { rewrite dt_setpos_agree in Hs. destruct (trapping k s); [discriminate|].
    reflexivity. }
  apply dt_setpos_sound, dt_setpos_false in Hs. destruct Hs as [Hreel ->].
  destruct (dt_newfnc_bump_tot k newsta s Hreel Hpos) as (E & P & N).
  rewrite dt_newfnc_agree, T. split.
  - rewrite newfnc_dispatch_agree, E; [reflexivity|].
    rewrite !elapsed_upd by (intros; reflexivity). apply elapsed_moved.
  - exists (dt_newfnc_tot k newsta s). split; [reflexivity|]. split; assumption.
Qed.

(** C8, amended.  One position update of a unit at speed that stays on
    the reel, from the time of the last update [t0 = LASTT] to the
    present [t1] (the elapsed lines fitting in an int32): the position
    changes by the whole number of line times in [t1 - t0], upwards for
    forward motion and downwards for reverse motion, and the time of the
    last update becomes [t1]. *)
Theorem dt_setpos_atspeed (k : fin 8) (s : DT) :
  (DTS_GETMOT (STATE (unit k s)) = DTS_ATSF
   \/ DTS_GETMOT (STATE (unit k s)) = DTS_ATSR) ->
  0 < dt_ltime s < 2 ^ 32 ->
  0 <= LASTT (unit k s) <= sim_rtime s ->
  sim_rtime s < 2 ^ 32 ->
  0 <= pos (unit k s) <= DTU_FWDEZ (unit k s) + DT_EZLIN ->
  (sim_rtime s - LASTT (unit k s)) / dt_ltime s < 2 ^ 31 ->
  stays_on_reel k s = true ->
  dt_setpos k s = Some (false, moved k s)
  /\ pos (unit k (moved k s)) =
     pos (unit k s)
     + (if Z.land (DTS_GETMOT (STATE (unit k s))) DTS_DIR =? 0 then 1 else -1)
       * ((sim_rtime s - LASTT (unit k s)) / dt_ltime s)
  /\ LASTT (unit k (moved k s)) = sim_rtime s.
Proof.
  intros Hmot Hl Ht Hn Hp Hq Hreel.
  destruct (dt_setpos_atspeed_tot k s Hmot Hl Ht Hn Hp Hq Hreel) as (E & P & L).
  split; [|split; assumption].
  rewrite dt_setpos_agree, trapping_no_ramp, E; [reflexivity|].
  right. destruct Hmot as [-> | ->]; unfold DTS_ATSF, DTS_ATSR; lia.
Qed.

(** ** A read pass *)

Lemma word_time_agree k s :
  (forall d, timer (unit k s) = Some d -> trapping k (advance d s) = false) ->
  word_time k s = Some (word_time_tot k s).
Proof.
  intros H. unfold word_time, word_time_tot. rewrite fire_agree.
  assert (E : match timer (unit k s) with
              | Some d => if trapping k (advance d s) then None
                          else Some (fire_tot k s)
              | None => Some s
              end = Some (fire_tot k s)).
  { unfold fire_tot. destruct (timer (unit k s)) as [d|]; [|reflexivity].
    now rewrite (H d eq_refl). }
  rewrite E. rewrite dt_agree_other by (vm_compute; discriminate).
  destruct (dt_MRD_frame_tot MRD 0 0 (fire_tot k s) eq_refl)
    as (d' & s' & -> & _).
  reflexivity.
Qed.

Lemma reading_no_trap k u0 dir b w s d :
  reading k u0 dir b w s -> dir = 0 \/ dir = 1 ->
  trapping k (advance d s) = false.
Proof.
  intros (_ & _ & _ & _ & _ & _ & Hst & _) Hdir.
  apply trapping_no_ramp. right. rewrite unit_advance. cbn [STATE set_timer].
  rewrite Hst. destruct Hdir as [-> | ->]; vm_compute; discriminate.
Qed.

Lemma read_pass_agree k u0 dir b n : forall w s,
  reading k u0 dir b w s ->
  dir = 0 \/ dir = 1 ->
  0 <= b < DTU_TSIZE u0 ->
  Forall (fun x => 0 <= x < DTU_WPERB u0) (slots dir w n) ->
  read_pass k n s = Some (read_pass_tot k n s).
Proof.
  induction n as [|n IH]; intros w s R Hdir Hb Hall; [reflexivity|].
  rewrite slots_S in Hall.
  inversion Hall as [|x l Hw Hall']; subst; clear Hall.
  destruct (word_time_reading k u0 dir b w s R Hdir Hb Hw) as (s' & Hwt & R').
  cbn [read_pass read_pass_tot].
  rewrite word_time_agree
    by (intros d _; exact (reading_no_trap k u0 dir b w s d R Hdir)).
  rewrite Hwt, (IH _ _ R' Hdir Hb Hall').
  destruct (slot_out dir u0 b w); reflexivity.
Qed.

(** C2.  Block [blk] of an attached tape read with READ ALL: a unit at
    speed forward, one word time before the block's first slot, and a
    unit at speed in reverse, one word time before the block's last
    slot, each run for the block's whole length, the host taking every
    word in time.  Both passes run to their end, and the words delivered
    by the backward pass are the words delivered by the forward pass in
    reverse order, each one obverse-complemented. *)
Theorem read_all_backward (k : fin 8) (u0 : UNIT) (blk : Z) (sF sR : DT) :
  0 <= blk < DTU_TSIZE u0 ->
  reading k u0 0 blk 0 sF ->
  reading k u0 1 blk (DTU_WPERB u0 - 1) sR ->
  exists wsF wsR,
    read_pass k (Z.to_nat (DTU_WPERB u0)) sF = Some wsF
    /\ read_pass k (Z.to_nat (DTU_WPERB u0)) sR = Some wsR
    /\ wsR = rev (dt_comobv <$> wsF).
Proof.
  intros Hb RF RR.
  assert (HW : 0 < DTU_WPERB u0) by (clear; geom u0; lia).
  exists (read_pass_tot k (Z.to_nat (DTU_WPERB u0)) sF),
         (read_pass_tot k (Z.to_nat (DTU_WPERB u0)) sR).
  split; [|split].
  - apply (read_pass_agree k u0 0 blk _ 0 sF RF (or_introl eq_refl) Hb).
    apply slots_up_range; lia.
  - apply (read_pass_agree k u0 1 blk _ (DTU_WPERB u0 - 1) sR RR
             (or_intror eq_refl) Hb).
    apply slots_down_range; lia.
  - exact (read_all_backward_tot k u0 blk sF sR Hb RF RR).
Qed.


(** ** The function dispatch *)

Lemma ramps_no_trap k s : ramps_defined s -> trapping k s = false.
Proof. intros (H1 & H2 & H3). now apply trapping_timing. Qed.

Lemma ramps_ext s s' :
  dt_ltime s' = dt_ltime s -> dt_actime s' = dt_actime s ->
  dt_dctime s' = dt_dctime s -> ramps_defined s -> ramps_defined s'.
Proof. unfold ramps_defined. now intros -> -> ->. Qed.

Lemma ATS_state dir fnc :
  dir = 0 \/ dir = 1 -> 0 <= fnc <= 7 ->
  DTS_GETMOT (DTS_STA (Z.lor DTS_ATSF dir) fnc) = Z.lor DTS_ATSF dir
  /\ DTS_GETFNC (DTS_STA (Z.lor DTS_ATSF dir) fnc) = fnc
  /\ Z.land (Z.lor DTS_ATSF dir) DTS_DIR = dir
  /\ DTS_ACCF <= Z.lor DTS_ATSF dir.
Proof.
  intros Hd Hf.
  assert (C : fnc = 0 \/ fnc = 1 \/ fnc = 2 \/ fnc = 3
              \/ fnc = 4 \/ fnc = 5 \/ fnc = 6 \/ fnc = 7) by lia.
  destruct Hd as [-> | ->];
    destruct C as [->|[->|[->|[->|[->|[->|[->| ->]]]]]]];
    repeat split; vm_compute; congruence.
Qed.

(** What the second half of the dispatch makes of a unit whose state
    has just been set to at speed: in the end zone ahead, END-OF-TAPE
    and deceleration; outside it, and with a function that exists, the
    unit is left at speed. *)
Lemma dispatch_outcome k fnc dir s :
  dir = 0 \/ dir = 1 -> 0 <= fnc <= 7 ->
  elapsed k s = 0 ->
  STATE (unit k s) = DTS_STA (Z.lor DTS_ATSF dir) fnc ->
  end_zone_ahead dir (unit k (newfnc_dispatch_tot k fnc dir s))
  = end_zone_ahead dir (unit k s)
  /\ (end_zone_ahead dir (unit k s) = false -> fnc <> 4 ->
      STATE (unit k (newfnc_dispatch_tot k fnc dir s)) = STATE (unit k s))
  /\ (end_zone_ahead dir (unit k s) = true ->
      Z.testbit (dtsb (newfnc_dispatch_tot k fnc dir s)) DTB_V_END = true
      /\ STATE (unit k (newfnc_dispatch_tot k fnc dir s))
         = DTS_STA (Z.lor DTS_DECF dir) 0).
Proof.
  intros Hd Hf E Hst.
  destruct (ATS_state dir fnc Hd Hf) as (A1 & A2 & A3 & A4).
  assert (Hm : DTS_ACCF <= DTS_GETMOT (STATE (unit k s)))
    by (rewrite Hst, A1; exact A4).
  assert (Hx : forall e x, elapsed k x = 0 -> unit k x = set_timer None (unit k s)
                 \/ unit k x = unit k s ->
            unit k (dt_seterr_tot k e x)
            = set_STATE (DTS_STA (Z.lor DTS_DECF dir) 0)
                (set_timer (Some (dt_dctime x)) (unit k s))
            /\ dtsb (dt_seterr_tot k e x) = Z.lor (Z.lor (dtsb x) DTB_ERF) e).
  { intros e x Ex Hu.
    assert (Hmx : DTS_ACCF <= DTS_GETMOT (STATE (unit k x)))
      by (destruct Hu as [-> | ->]; exact Hm).
    destruct (dt_seterr_moving k e x Hmx (elapsed_stays k x Ex))
      as (_ & Hb & _ & _ & _ & _ & _ & _ & Hk).
    rewrite (moved_zero k x Ex) in Hk. split; [|exact Hb].
    rewrite Hk. destruct Hu as [-> | ->]; cbn [STATE set_timer];
      rewrite Hst, A1, A3; reflexivity. }
  unfold newfnc_dispatch_tot. cbv zeta.
  fold (end_zone_ahead dir (unit k s)).
  destruct (end_zone_ahead dir (unit k s)) eqn:EZ.
  - destruct (Hx DTB_END s E (or_intror eq_refl)) as [Hk Hb].
    split; [|split].
    + rewrite Hk. exact EZ.
    + discriminate.
    + intros _. split; [rewrite Hb; apply lor_has_bit; reflexivity|].
      rewrite Hk. reflexivity.
  - assert (E1 : elapsed k (set_substate DTO_SOB (sim_cancel k s)) = 0).
    { rewrite <- E. unfold sim_cancel.
      change (elapsed k (set_substate DTO_SOB (upd_unit k (set_timer None) s)))
        with (elapsed k (upd_unit k (set_timer None) s)).
      now rewrite elapsed_upd. }
    destruct (Hx DTB_SEL _ E1 (or_introl (unit_sim_cancel k s))) as [Hk _].
    assert (C : fnc = 0 \/ fnc = 1 \/ fnc = 2 \/ fnc = 3
                \/ fnc = 4 \/ fnc = 5 \/ fnc = 6 \/ fnc = 7) by lia.
    split; [|split; [|discriminate]].
    + destruct C as [->|[->|[->|[->|[->|[->|[->| ->]]]]]]];
        cbn [Z.eqb Pos.eqb orb FNC_MOVE FNC_SRCH FNC_READ FNC_WRIT FNC_RALL
             FNC_WALL DTS_OFR];
        rewrite ?Hk; autorewrite with dtrw; exact EZ.
    + intros _ N4.
      destruct C as [->|[->|[->|[->|[->|[->|[->| ->]]]]]]];
        try contradiction;
        cbn [Z.eqb Pos.eqb orb FNC_MOVE FNC_SRCH FNC_READ FNC_WRIT FNC_RALL
             FNC_WALL DTS_OFR];
        autorewrite with dtrw; reflexivity.
Qed.


(** ** LOAD COMMAND *)

(** With a unit selected, the LOAD COMMAND pulse either refuses the
    command through the error setter or hands it to [dt_newsa]. *)
Lemma dt_MLC_split IR dev dat s k :
  Z.land (Z.shiftr IR 6) 31 = 4 ->
  dev_dis s = false ->
  unit_ptr (DTA_GETUNIT (dtsa s)) = Some k ->
  dt IR dev dat s =
  match (if refused (unit k s) (DTA_GETFNC dat)
         then dt_seterr k DTB_SEL (loaded dat s)
         else dt_newsa (dtsa (loaded dat s)) (loaded dat s)) with
  | Some s1 => Some (dat, DT_UPDINT s1)
  | None => None
  end.
Proof.
  intros Hp Hd Hk. unfold dt. rewrite Hp, Hd.
  change (4 =? 3) with false. change (4 =? 4) with true. cbv iota zeta.
  rewrite (unit_ptr_nonneg _ _ Hk), Hk.
  change (set_dtsb _ (set_dtsa _ s)) with (loaded dat s).
  rewrite (GETFNC_loaded dat s).
  change (unit k (loaded dat s)) with (unit k s).
  pose proof (GETFNC_range dat) as Hr.
  unfold refused. unfold dt_newsa. rewrite GETUNIT_loaded, Hk.
  change (unit k (loaded dat s)) with (unit k s).
  change FNC_WMRK with 7. change FNC_WRIT with 3. change FNC_WALL with 6.
  destruct (u_dis (unit k s)), (u_att (unit k s)) eqn:Ha, (u_wlk (unit k s));
    destruct (Z.geb_spec (DTA_GETFNC dat) 7), (Z.eqb_spec (DTA_GETFNC dat) 7),
      (Z.eqb_spec (DTA_GETFNC dat) 3), (Z.eqb_spec (DTA_GETFNC dat) 6);
    try lia; cbn [orb andb negb]; try reflexivity.
Qed.

Lemma trapping_loaded k dat s : trapping k (loaded dat s) = trapping k s.
Proof. trap_frame. Qed.

(** C5, amended.  A LOAD COMMAND pulse (pulse 4) with the device enabled
    and a unit selected.  If that unit is disabled or not attached, or
    the function asked for is WRITE-MARK (7), or it is WRITE or WRITE
    ALL and the unit is write-locked, then SELECT-ERROR and ERF are set
    in status B, no other unit is touched and no motion is started: a
    selected unit that is stopped or decelerating is left as it is, and
    one that is accelerating or at speed has its position updated and is
    put into deceleration in its direction (or, run off the reel, is
    detached with state and position zero); where that position update
    divides by zero (an accelerating unit whose acceleration time is
    below the line time), the pulse does not return.  Otherwise the
    command goes to the transition logic [dt_newsa]. *)
Theorem dt_MLC_refusal (IR dev dat : Z) (s : DT) (k : fin 8) :
  Z.land (Z.shiftr IR 6) 31 = 4 ->
  dev_dis s = false ->
  unit_ptr (DTA_GETUNIT (dtsa s)) = Some k ->
  (refused (unit k s) (DTA_GETFNC dat) = true ->
   (DTS_ACCF <= DTS_GETMOT (STATE (unit k s)) -> dt_setpos k s <> None) ->
   exists s',
     dt IR dev dat s = Some (dat, s')
     /\ Z.testbit (dtsb s') DTB_V_SEL = true
     /\ Z.testbit (dtsb s') DTB_V_ERF = true
     /\ (forall j, k <> j -> unit j s' = unit j s)
     /\ (DTS_GETMOT (STATE (unit k s)) < DTS_ACCF -> unit k s' = unit k s)
     /\ (DTS_ACCF <= DTS_GETMOT (STATE (unit k s)) ->
         stays_on_reel k s = true ->
         unit k s' =
         set_STATE (DTS_STA (Z.lor DTS_DECF
                      (Z.land (DTS_GETMOT (STATE (unit k s))) DTS_DIR)) 0)
           (set_timer (Some (dt_dctime s)) (unit k (moved k s))))
     /\ (DTS_ACCF <= DTS_GETMOT (STATE (unit k s)) ->
         stays_on_reel k s = false ->
         u_att (unit k s') = false /\ STATE (unit k s') = 0
         /\ pos (unit k s') = 0))
  /\ (refused (unit k s) (DTA_GETFNC dat) = true ->
      DTS_ACCF <= DTS_GETMOT (STATE (unit k s)) ->
      dt_setpos k s = None ->
      dt IR dev dat s = None)
  /\ (refused (unit k s) (DTA_GETFNC dat) = false ->
      dt IR dev dat s =
      match dt_newsa (dtsa (loaded dat s)) (loaded dat s) with
      | Some s1 => Some (dat, DT_UPDINT s1)
      | None => None
      end).
Proof.
  intros Hp Hd Hk.
  rewrite (dt_MLC_split IR dev dat s k Hp Hd Hk).
  split; [|split].
  - intros Hr Hdef. rewrite Hr, dt_seterr_agree.
    change (unit k (loaded dat s)) with (unit k s). rewrite trapping_loaded.
    assert (C : (DTS_GETMOT (STATE (unit k s)) >=? DTS_ACCF) && trapping k s
                = false).
    { destruct (Z.geb_spec (DTS_GETMOT (STATE (unit k s))) DTS_ACCF) as [G|G];
        [|reflexivity].
      specialize (Hdef G). rewrite dt_setpos_agree in Hdef.
      destruct (trapping k s); [contradiction | reflexivity]. }
    rewrite C.
    destruct (proj1 (dt_MLC_refusal_tot IR dev dat s k Hp Hd Hk) Hr)
      as (s' & E & R).
    rewrite (dt_MLC_cases IR dev dat s k Hp Hd Hk), Hr in E.
    exists s'. split; [exact E | exact R].
  - intros Hr G Hn. rewrite Hr, dt_seterr_agree.
    change (unit k (loaded dat s)) with (unit k s). rewrite trapping_loaded.
    rewrite dt_setpos_agree in Hn.
    destruct (trapping k s); [|discriminate].
    destruct (Z.geb_spec (DTS_GETMOT (STATE (unit k s))) DTS_ACCF);
      [reflexivity | lia].
  - intros Hr. rewrite Hr. reflexivity.
Qed.


(** C7, amended.  A LOAD COMMAND accepted, with the device enabled, for
    the selected unit that is at speed, asking for motion in the other
    direction, the position update leaving the tape on the reel, and the
    ramp times being at least one line time.  The unit's position is
    updated, its timer is replaced by the decel timer, and its layered
    state is: current = DECEL in the old direction, next = ACCEL in the
    new direction, next-next = ATSPEED in the new direction with the new
    function.  If the decelerating tape stays on the reel, the unit's
    next event comes decel-time later and leaves it in ACCEL in the new
    direction with the accel timer.  If the accelerating tape stays on
    the reel, the event after that comes decel-time + accel-time after
    the command and is the function dispatch [dt_newfnc] into ATSPEED in
    the new direction with the new function: it leaves the unit at speed
    in the new direction with the new function if that function exists
    (it is not 4) and the tape is then outside the end zone ahead of it;
    with the tape in that end zone it raises END-OF-TAPE and leaves the
    unit decelerating. *)
Theorem dt_MLC_reversal (IR dev dat : Z) (s : DT) (k : fin 8) :
  Z.land (Z.shiftr IR 6) 31 = 4 ->
  dev_dis s = false ->
  unit_ptr (DTA_GETUNIT (dtsa s)) = Some k ->
  refused (unit k s) (DTA_GETFNC dat) = false ->
  (DTS_GETMOT (STATE (unit k s)) = DTS_ATSF
   \/ DTS_GETMOT (STATE (unit k s)) = DTS_ATSR) ->
  Z.land dat DTA_STSTP <> 0 ->
  cmd_dir dat <> unit_dir (unit k s) ->
  stays_on_reel k s = true ->
  ramps_defined s ->
  exists s1,
    dt IR dev dat s = Some (dat, s1)
    /\ unit k s1 =
       set_STATE
         (layered (DTS_STA (Z.lor DTS_DECF (unit_dir (unit k s))) 0)
                  (DTS_STA (Z.lor DTS_ACCF (cmd_dir dat)) 0)
                  (DTS_STA (Z.lor DTS_ATSF (cmd_dir dat)) (DTA_GETFNC dat)))
         (set_timer (Some (dt_dctime s)) (unit k (moved k s)))
    /\ DTS_GETMOT (STATE (unit k s1)) = Z.lor DTS_DECF (unit_dir (unit k s))
    /\ (stays_on_reel k (sim_cancel k (advance (dt_dctime s) s1)) = true ->
        exists s2,
          fire k s1 = Some s2
          /\ STATE (unit k s2) =
             layered (DTS_STA (Z.lor DTS_ACCF (cmd_dir dat)) 0)
                     (DTS_STA (Z.lor DTS_ATSF (cmd_dir dat)) (DTA_GETFNC dat)) 0
          /\ DTS_GETMOT (STATE (unit k s2)) = Z.lor DTS_ACCF (cmd_dir dat)
          /\ timer (unit k s2) = Some (dt_actime s)
          /\ sim_rtime s2 = u32 (sim_rtime s + dt_dctime s)
          /\ fire k s2 =
             dt_newfnc k
               (DTS_STA (Z.lor DTS_ATSF (cmd_dir dat)) (DTA_GETFNC dat))
               (sim_cancel k (advance (dt_actime s) s2))
          /\ (stays_on_reel k (sim_cancel k (advance (dt_actime s) s2)) = true ->
              exists s3,
                fire k s2 = Some s3
                /\ sim_rtime s3 = u32 (sim_rtime s + dt_dctime s + dt_actime s)
                /\ (end_zone_ahead (cmd_dir dat) (unit k s3) = false ->
                    DTA_GETFNC dat <> 4 ->
                    STATE (unit k s3) =
                      DTS_STA (Z.lor DTS_ATSF (cmd_dir dat)) (DTA_GETFNC dat)
                    /\ DTS_GETMOT (STATE (unit k s3))
                       = Z.lor DTS_ATSF (cmd_dir dat))
                /\ (end_zone_ahead (cmd_dir dat) (unit k s3) = true ->
                    Z.testbit (dtsb s3) DTB_V_END = true
                    /\ DTS_GETMOT (STATE (unit k s3))
                       = Z.lor DTS_DECF (cmd_dir dat)))).
Proof.
  intros Hp Hd Hk Hacc Hmot Hgo Hdir Hreel HR.
  destruct (dt_MLC_reversal_tot IR dev dat s k Hp Hd Hk Hacc Hmot Hgo Hdir Hreel)
    as (s1 & E1 & Hu & Hm1 & Hev).
  destruct (dt_frame _ _ _ _ _ _ E1) as (_ & Fl & Fa & Fd & Ft & _).
  assert (T0 : trapping k s = false).
  { apply trapping_no_ramp. right.
    destruct Hmot as [-> | ->]; unfold DTS_ATSF, DTS_ATSR; lia. }
  exists s1. split.
  { rewrite dt_agree; [exact E1|]. intros _ k' Hk'. rewrite Hk in Hk'.
    injection Hk' as <-. exact T0. }
  split; [exact Hu|]. split; [exact Hm1|].
  intros Hreel1. destruct (Hev Hreel1) as (G1 & G2 & G3 & G4 & G5 & G6).
  clear Hev.
  assert (R1 : ramps_defined s1) by (apply (ramps_ext s); assumption).
  assert (Tm1 : timer (unit k s1) = Some (dt_dctime s))
    by (rewrite Hu; reflexivity).
  assert (F1 : fire k s1 = Some (fire_tot k s1)).
  { rewrite fire_agree, Tm1, ramps_no_trap; [reflexivity|].
    apply (ramps_ext s1); try reflexivity. exact R1. }
  assert (O2 : only_unit k (sim_cancel k (advance (dt_dctime s) s1))
                 (fire_tot k s1)).
  { unfold fire_tot. rewrite Tm1. apply dt_svc_frame_units. }
  destruct O2 as (_ & L2 & A2 & D2 & _).
  set (s2 := fire_tot k s1) in *.
  assert (R2 : ramps_defined s2) by (apply (ramps_ext s1); assumption).
  assert (F2 : fire k s2 = Some (fire_tot k s2)).
  { rewrite fire_agree, G3, ramps_no_trap; [reflexivity|].
    apply (ramps_ext s2); try reflexivity. exact R2. }
  exists s2. split; [exact F1|].
  split; [exact G1|]. split; [exact G2|]. split; [exact G3|].
  split; [exact G4|]. split.
  { rewrite F2, dt_newfnc_agree, ramps_no_trap, G5; [reflexivity|].
    apply (ramps_ext s2); try reflexivity. exact R2. }
  intros Hreel2.
  exists (fire_tot k s2). split; [exact F2|].
  rewrite G5. set (sB := sim_cancel k (advance (dt_actime s) s2)) in *.
  destruct (ATS_state (cmd_dir dat) (DTA_GETFNC dat) (cmd_dir_cases dat)
              (GETFNC_range dat)) as (A1 & A2' & A3 & A4).
  unfold dt_newfnc_tot. rewrite (dt_setpos_stays _ _ Hreel2). cbv zeta.
  rewrite A1, A2', A3.
  set (sC := if _ =? _ then upd_unit k _ _ else _).
  assert (EC : elapsed k sC = 0).
  { subst sC. destruct (_ =? _); rewrite !elapsed_upd by (intros; reflexivity);
      apply elapsed_moved. }
  assert (SC : STATE (unit k sC)
               = DTS_STA (Z.lor DTS_ATSF (cmd_dir dat)) (DTA_GETFNC dat)).
  { subst sC. destruct (_ =? _); rewrite !unit_upd_eq; reflexivity. }
  assert (TC : sim_rtime sC = u32 (sim_rtime s + dt_dctime s + dt_actime s)).
  { rewrite <- G6. subst sC. destruct (_ =? _);
      rewrite ?rtime_upd; apply rtime_moved. }
  destruct (dispatch_outcome k (DTA_GETFNC dat) (cmd_dir dat) sC
              (cmd_dir_cases dat) (GETFNC_range dat) EC SC) as (Z1 & Z2 & Z3).
  destruct (ou_newfnc_dispatch k (DTA_GETFNC dat) (cmd_dir dat) sC sC
              (only_unit_refl k sC)) as (_ & _ & _ & _ & OT & _).
  split; [now rewrite OT|]. split.
  - intros EZ N4. rewrite Z1 in EZ. rewrite (Z2 EZ N4), SC.
    split; [reflexivity | exact A1].
  - intros EZ. rewrite Z1 in EZ. destruct (Z3 EZ) as [B S].
    split; [exact B|]. rewrite S.
    destruct (cmd_dir_cases dat) as [-> | ->]; reflexivity.
Qed.


(** * Further properties, on the controller's routines *)

(** ** The pulses that move no tape *)

(** X5.  WRITE DATA then READ DATA: the word given with pulse 6 is kept
    in the data buffer, cut to 18 bits, and pulse 5 hands it back in the
    low 18 bits of the host's word; status A and the units are those of
    before, and DTF and BEF are down. *)
Theorem dt_MWR_MRD (IR IR' dev dat dat' : Z) (s : DT) :
  Z.land (Z.shiftr IR 6) 31 = 6 ->
  Z.land (Z.shiftr IR' 6) 31 = 5 ->
  dev_dis s = false ->
  exists s1 s2,
    dt IR dev dat s = Some (dat, s1)
    /\ dt IR' dev dat' s1 =
       Some (Z.lor (Z.land dat' (Z.lnot DMASK)) (Z.land dat DMASK), s2)
    /\ dtdb s1 = Z.land dat DMASK /\ dtdb s2 = Z.land dat DMASK
    /\ dtsa s2 = dtsa s /\ dt_unit s2 = dt_unit s
    /\ Z.land (dtsb s2) (Z.lor DTB_DTF DTB_BEF) = 0.
Proof.
  intros H6 H5 Hd.
  destruct (dt_MWR_MRD_tot IR IR' dev dat dat' s H6 H5 Hd)
    as (s1 & s2 & E1 & E2 & R).
  exists s1, s2.
  split; [rewrite dt_agree_other by (rewrite H6; discriminate); exact E1|].
  split; [rewrite dt_agree_other by (rewrite H5; discriminate); exact E2|].
  exact R.
Qed.

(** X6.  READ STATUS (pulse 7): status B is handed back in the low 18
    bits of the host's word after its REV and GO bits have been set
    afresh from the selected unit: REV when the unit's motion is in
    reverse, GO when the unit is accelerating or at speed or has a state
    pending; both are down when no unit is selected.  The other bits of
    status B, status A, the data buffer and the units are as before. *)
Theorem dt_MRS_status (IR dev dat : Z) (s : DT) :
  Z.land (Z.shiftr IR 6) 31 = 7 ->
  dev_dis s = false ->
  exists s',
    dt IR dev dat s = Some (Z.lor (Z.land dat (Z.lnot DMASK)) (dtsb s'), s')
    /\ dtsa s' = dtsa s /\ dtdb s' = dtdb s /\ dt_unit s' = dt_unit s
    /\ (forall n, 0 <= n -> n <> DTB_V_REV -> n <> DTB_V_GO ->
        Z.testbit (dtsb s') n = Z.testbit (dtsb s) n)
    /\ match unit_ptr (DTA_GETUNIT (dtsa s)) with
       | Some k =>
           Z.testbit (dtsb s') DTB_V_REV =
             negb (Z.land (DTS_GETMOT (STATE (unit k s))) DTS_DIR =? 0)
           /\ Z.testbit (dtsb s') DTB_V_GO =
              (DTS_GETMOT (STATE (unit k s)) >=? DTS_ACCF)
              || negb (Z.land (STATE (unit k s)) 262080 =? 0)
       | None =>
           Z.testbit (dtsb s') DTB_V_REV = false
           /\ Z.testbit (dtsb s') DTB_V_GO = false
       end.
Proof.
  intros H7 Hd.
  destruct (dt_MRS_status_tot IR dev dat s H7 Hd) as (s' & E & R).
  exists s'.
  split; [rewrite dt_agree_other by (rewrite H7; discriminate); exact E|].
  exact R.
Qed.

(** ** What a routine leaves alone *)

(** X7.  The service routine of unit [k] touches no other unit, and it
    leaves the timing registers, the clock and the device flag alone. *)
Theorem dt_svc_only_unit (k : fin 8) (s s' : DT) :
  dt_svc k s = Some s' -> only_unit k s s'.
Proof.
  intros E. apply dt_svc_sound in E. subst s'. apply dt_svc_frame_units.
Qed.

(** X8.  An I/O pulse touches no unit but the selected one (for SELECT,
    the one selected before the pulse), whatever the pulse and the data;
    with no unit selected the units are all left alone.  The timing
    registers, the clock and the device flag are never changed. *)
Theorem dt_only_selected (IR dev dat : Z) (s : DT) (d : Z) (s' : DT) :
  dt IR dev dat s = Some (d, s') ->
  (forall j, unit_ptr (DTA_GETUNIT (dtsa s)) <> Some j -> unit j s' = unit j s)
  /\ dt_ltime s' = dt_ltime s /\ dt_actime s' = dt_actime s
  /\ dt_dctime s' = dt_dctime s /\ sim_rtime s' = sim_rtime s
  /\ dev_dis s' = dev_dis s /\ stop_inst s' = stop_inst s.
Proof. intros E. apply dt_sound in E. now apply dt_frame in E. Qed.

(** X9.  Units without a tape stay at rest at line 0: if every unit
    that is not attached has state and position zero, then this is so
    after every sequence of I/O pulses, timer events and waits that runs
    to its end, whatever the pulses and the data, and also for the units
    that lose their tape on the way. *)
Theorem run_detached_clean (os : list op) (s s' : DT) :
  detached_clean s -> run os s = Some s' -> detached_clean s'.
Proof.
  intros H E. apply run_sound in E. exact (run_detached_clean_tot os s s' H E).
Qed.

(** ** The position update *)

Lemma dt_setpos_returns k s : dt_setpos k s <> None -> trapping k s = false.
Proof.
  rewrite dt_setpos_agree. destruct (trapping k s); [contradiction|reflexivity].
Qed.

(** X10.  The tape runs off the reel: when time has gone by, the
    position update of unit [k] returns, and the position computed is
    below 0 or above the end of the forward end zone, [dt_setpos]
    answers TRUE, leaves the unit detached with state and position zero
    and every other unit as it was; if the unit is the selected one,
    SELECT-ERROR and ERF are raised and the go bit of status A is
    cleared, otherwise the status registers are not touched. *)
Theorem dt_setpos_off_reel (k : fin 8) (s : DT) :
  dt_setpos k s <> None ->
  elapsed k s <> 0 ->
  (s32 (next_pos k s) < 0
   \/ s32 (next_pos k s) > DTU_FWDEZ (unit k s) + DT_EZLIN) ->
  exists s',
    dt_setpos k s = Some (true, s')
    /\ u_att (unit k s') = false /\ STATE (unit k s') = 0
    /\ pos (unit k s') = 0
    /\ (forall j, k <> j -> unit j s' = unit j s)
    /\ (if unit_no k =? DTA_GETUNIT (dtsa s)
        then dtsb s' = Z.lor (Z.lor (dtsb s) DTB_ERF) DTB_SEL
             /\ dtsa s' = Z.land (dtsa s) (Z.lnot DTA_STSTP)
        else dtsb s' = dtsb s /\ dtsa s' = dtsa s).
Proof.
  intros Hn He Hp.
  destruct (dt_setpos_off_reel_tot k s He Hp) as (s' & E & R).
  exists s'. split; [|exact R].
  now rewrite dt_setpos_agree, (dt_setpos_returns k s Hn), E.
Qed.

(** X11.  The position update keeps the tape on the reel or takes it
    off: whenever [dt_setpos] answers FALSE after time has gone by, the
    unit's position, read as an int32, lies between 0 and the end of
    the forward end zone, the time of the update is recorded, and
    nothing but the unit's position and update time has changed; with
    no time gone by it changes nothing at all. *)
Theorem dt_setpos_in_range (k : fin 8) (s s' : DT) :
  dt_setpos k s = Some (false, s') ->
  (elapsed k s = 0 -> s' = s)
  /\ (elapsed k s <> 0 ->
      0 <= s32 (pos (unit k s')) <= DTU_FWDEZ (unit k s) + DT_EZLIN
      /\ LASTT (unit k s') = sim_rtime s
      /\ unit k s' = set_pos (pos (unit k s'))
                       (set_LASTT (sim_rtime s) (unit k s)))
  /\ dtsa s' = dtsa s /\ dtsb s' = dtsb s /\ dtdb s' = dtdb s
  /\ (forall j, k <> j -> unit j s' = unit j s).
Proof.
  intros E. apply dt_setpos_sound in E. now apply dt_setpos_in_range_tot.
Qed.

Lemma ramp_no_trap T lt :
  0 < lt -> 1 <= T / lt -> 2 * (T / lt) * (T / lt) < 2 ^ 32 ->
  (u32 (2 * u32 (Z.quot T lt)) =? 0) = false.
Proof.
  intros Hl H1 H2. apply Z.eqb_neq.
  assert (0 <= T).
  { destruct (Z.lt_ge_cases T 0) as [N|N]; [|exact N].
    assert (T / lt < 0) by (apply Z.div_lt_upper_bound; lia). lia. }
  rewrite Z.quot_div_nonneg by lia.
  change (2 ^ 32) with 4294967296 in *. unfold u32.
  change (2 ^ 32) with 4294967296.
  assert (T / lt < 65536) by nia.
  rewrite (Z.mod_small (T / lt)) by lia. rewrite Z.mod_small by lia. lia.
Qed.

(** X15.  The distance of a full acceleration or deceleration: when the
    whole accel time (for a unit that is accelerating) or decel time
    (for one that is decelerating) has gone by since the last update,
    the ramp being at least one line long, and the position reached is
    on the reel, [dt_setpos] returns and has moved the unit by half the
    number of lines it would have made at speed in that time,
    [(time / line time) / 2], in the direction of its motion. *)
Theorem dt_setpos_ramp (k : fin 8) (s : DT) (T : Z) :
  0 < dt_ltime s < 2 ^ 31 ->
  (DTS_GETMOT (STATE (unit k s)) = DTS_DECF
   \/ DTS_GETMOT (STATE (unit k s)) = DTS_DECR) /\ T = dt_dctime s
  \/ (DTS_GETMOT (STATE (unit k s)) = DTS_ACCF
      \/ DTS_GETMOT (STATE (unit k s)) = DTS_ACCR) /\ T = dt_actime s ->
  1 <= T / dt_ltime s ->
  2 * (T / dt_ltime s) * (T / dt_ltime s) < 2 ^ 32 ->
  elapsed k s = T ->
  let d := T / dt_ltime s / 2 in
  let p' := if Z.land (DTS_GETMOT (STATE (unit k s))) DTS_DIR =? 0
            then pos (unit k s) + d else pos (unit k s) - d in
  0 <= p' <= DTU_FWDEZ (unit k s) + DT_EZLIN ->
  exists s',
    dt_setpos k s = Some (false, s')
    /\ pos (unit k s') = p'
    /\ LASTT (unit k s') = sim_rtime s
    /\ STATE (unit k s') = STATE (unit k s).
Proof.
  intros HL Hm H1 H2 He d p' Hp.
  destruct (dt_setpos_ramp_tot k s T HL Hm H1 H2 He Hp) as (s' & E & R).
  exists s'. split; [|exact R].
  rewrite dt_setpos_agree, E.
  replace (trapping k s) with false; [reflexivity|].
  symmetry. unfold trapping. cbv zeta.
  pose proof (ramp_no_trap T (dt_ltime s) ltac:(lia) H1 H2) as Q.
  destruct Hm as [[[M | M] ->] | [[M | M] ->]]; rewrite M, Q;
    cbn [andb orb]; rewrite ?andb_false_r; reflexivity.
Qed.


(** ** Errors, starting and stopping *)

Lemma dt_seterr_sound k e s s' :
  dt_seterr k e s = Some s' -> dt_seterr_tot k e s = s'.
Proof.
  rewrite dt_seterr_agree. destruct (_ && _); [discriminate | congruence].
Qed.

(** X12.  After an error the tape is not running: whatever the unit
    does and whatever the error, when [dt_seterr] returns it has raised
    ERF and the error bit in status B and cleared the go bit of status
    A, it has touched no other unit, and it leaves the unit neither
    accelerating nor at speed (it is at rest, decelerating, or off the
    reel and detached). *)
Theorem dt_seterr_stops (k : fin 8) (e : Z) (s s' : DT) :
  dt_seterr k e s = Some s' ->
  (forall n, Z.testbit (Z.lor DTB_ERF e) n = true ->
             Z.testbit (dtsb s') n = true)
  /\ Z.land (dtsa s') DTA_STSTP = 0
  /\ (forall j, k <> j -> unit j s' = unit j s)
  /\ DTS_GETMOT (STATE (unit k s')) < DTS_ACCF.
Proof.
  intros E. apply dt_seterr_sound in E. subst s'. apply dt_seterr_stops_tot.
Qed.

(** X13.  Starting: a command with the go bit for an attached unit that
    is at rest on the reel puts the unit into acceleration in the
    direction asked for, with the accel timer, and holds the function
    as the state to come at speed; the position, the tape image and the
    status registers are as before. *)
Theorem dt_newsa_start (newf : Z) (s : DT) (k : fin 8) :
  unit_ptr (DTA_GETUNIT newf) = Some k ->
  u_att (unit k s) = true ->
  DTS_GETMOT (STATE (unit k s)) = DTS_STOP ->
  Z.land newf DTA_STSTP <> 0 ->
  0 <= pos (unit k s) <= DTU_FWDEZ (unit k s) + DT_EZLIN ->
  exists s',
    dt_newsa newf s = Some s'
    /\ STATE (unit k s') =
       layered (DTS_STA (Z.lor DTS_ACCF (cmd_dir newf)) 0)
               (DTS_STA (Z.lor DTS_ATSF (cmd_dir newf)) (DTA_GETFNC newf)) 0
    /\ timer (unit k s') = Some (dt_actime s)
    /\ pos (unit k s') = pos (unit k s)
    /\ u_att (unit k s') = true
    /\ filebuf (unit k s') = filebuf (unit k s)
    /\ dtsa s' = dtsa s /\ dtsb s' = dtsb s /\ dtdb s' = dtdb s.
Proof.
  intros Hk Ha Hm Hgo Hp. exists (dt_newsa_tot newf s). split.
  - apply dt_newsa_agree. intros k' Hk'. rewrite Hk in Hk'.
    injection Hk' as <-. apply trapping_no_ramp. left. rewrite Hm.
    reflexivity.
  - exact (dt_newsa_start_tot newf s k Hk Ha Hm Hgo Hp).
Qed.

(** X14.  Stopping: a command without the go bit for an attached unit
    in motion puts the unit into deceleration in its direction and
    drops whatever state was pending.  A unit that is accelerating or
    at speed has its position updated (the update returning, and the
    tape staying on the reel) and gets the decel timer; one that is
    already decelerating keeps its position and its timer. *)
Theorem dt_newsa_stop (newf : Z) (s : DT) (k : fin 8) :
  unit_ptr (DTA_GETUNIT newf) = Some k ->
  u_att (unit k s) = true ->
  DTS_GETMOT (STATE (unit k s)) <> DTS_STOP ->
  Z.land newf DTA_STSTP = 0 ->
  stays_on_reel k s = true ->
  (DTS_ACCF <= DTS_GETMOT (STATE (unit k s)) -> dt_setpos k s <> None) ->
  exists s',
    dt_newsa newf s = Some s'
    /\ unit k s' =
       (if Z.land (DTS_GETMOT (STATE (unit k s))) (Z.lnot DTS_DIR) =? DTS_DECF
        then set_STATE (DTS_STA (DTS_GETMOT (STATE (unit k s))) 0) (unit k s)
        else set_STATE
               (DTS_STA (Z.lor DTS_DECF
                           (Z.land (DTS_GETMOT (STATE (unit k s))) DTS_DIR)) 0)
               (set_timer (Some (dt_dctime s)) (unit k (moved k s))))
    /\ dtsa s' = dtsa s /\ dtsb s' = dtsb s /\ dtdb s' = dtdb s.
Proof.
  intros Hk Ha Hm Hgo Hr Hdef. exists (dt_newsa_tot newf s).
  split; [|exact (dt_newsa_stop_tot newf s k Hk Ha Hm Hgo Hr)].
  destruct (motion_class (STATE (unit k s))) as [[A M]|[[A M]|[[A M]|[A M]]]];
    cbv zeta in M.
  - apply dt_newsa_agree. intros k' Hk'. rewrite Hk in Hk'.
    injection Hk' as <-. apply trapping_no_ramp. left. unfold DTS_DECF. lia.
  - unfold dt_newsa, dt_newsa_tot. rewrite Hk, Ha. cbv zeta. rewrite M, Hgo.
    destruct A as [-> | ->]; reflexivity.
  - apply dt_newsa_agree. intros k' Hk'. rewrite Hk in Hk'.
    injection Hk' as <-. apply dt_setpos_returns, Hdef.
    destruct A as [-> | ->]; unfold DTS_ACCF, DTS_ACCR; lia.
  - apply dt_newsa_agree. intros k' Hk'. rewrite Hk in Hk'.
    injection Hk' as <-. apply trapping_no_ramp. right.
    destruct A as [-> | ->]; unfold DTS_ATSF, DTS_ATSR; lia.
Qed.

(** ** The events of a unit *)

Lemma fire_returns k s :
  (forall d, timer (unit k s) = Some d -> trapping k (advance d s) = false) ->
  fire k s = Some (fire_tot k s).
Proof.
  intros H. rewrite fire_agree. unfold fire_tot.
  destruct (timer (unit k s)) as [d|]; [|reflexivity].
  now rewrite (H d eq_refl).
Qed.

Lemma fire_atspeed k s :
  DTS_ATSF <= DTS_GETMOT (STATE (unit k s)) -> fire k s = Some (fire_tot k s).
Proof.
  intros H. apply fire_returns. intros d _. apply trapping_no_ramp. right.
  rewrite unit_advance. exact H.
Qed.

Lemma cruise_fire k dir fnc n s :
  cruising k dir fnc n s -> fire k s = Some (fire_tot k s).
Proof.
  intros (Hd & _ & _ & _ & _ & Hst & _). apply fire_atspeed. rewrite Hst.
  assert (F : DTS_GETMOT (DTS_STA (Z.lor DTS_ATSF dir) fnc)
              = Z.lor DTS_ATSF dir
              \/ DTS_ATSF <= DTS_GETMOT (DTS_STA (Z.lor DTS_ATSF dir) fnc)).
  { right. destruct (GETMOT_cases (DTS_STA (Z.lor DTS_ATSF dir) fnc))
      as [H|[H|[H|[H|[H|[H|[H|H]]]]]]]; rewrite H; unfold DTS_ATSF;
      try lia; exfalso;
      assert (B : Z.testbit (DTS_GETMOT (DTS_STA (Z.lor DTS_ATSF dir) fnc)) 1
                  && Z.testbit (DTS_GETMOT (DTS_STA (Z.lor DTS_ATSF dir) fnc)) 2
                  = true)
        by (unfold DTS_GETMOT, DTS_STA, DTS_V_MOT, DTS_M_MOT, DTS_V_FNC,
              DTS_ATSF;
            rewrite !Z.land_spec, !Z.shiftr_spec, !Z.lor_spec,
              !Z.shiftl_spec, !Z.lor_spec by lia;
            destruct Hd as [-> | ->]; cbn; rewrite ?orb_true_r; reflexivity);
      rewrite H in B; discriminate B. }
  destruct F as [-> | F]; [|exact F].
  destruct Hd as [-> | ->]; vm_compute; discriminate.
Qed.



(** X17.  A SEARCH event: when the timer of a unit searching at speed
    runs out between the end zones with the data flag down, the number
    of the block the tape stands in is put into the data buffer, DTF is
    raised, and the next event is due one block length later; the tape
    image is not touched. *)
Theorem search_event (k : fin 8) (dir n : Z) (s : DT) :
  cruising k dir FNC_SRCH n s ->
  Z.land (dtsb s) DTB_DTF = 0 ->
  DTU_LPERB (unit k s) * dt_ltime s < 2 ^ 31 ->
  let p' := pos (unit k s) + (if dir =? 0 then n else - n) in
  DT_EZLIN <= p' < DTU_FWDEZ (unit k s) ->
  exists s1,
    fire k s = Some s1
    /\ dtdb s1 = DT_LIN2BL p' (unit k s)
    /\ dtsb s1 = Z.lor (dtsb s) DTB_DTF
    /\ unit k s1 =
       set_timer (Some (DTU_LPERB (unit k s) * dt_ltime s))
         (set_pos p' (set_LASTT (u32 (sim_rtime s + n * dt_ltime s)) (unit k s)))
    /\ cruising k dir FNC_SRCH (DTU_LPERB (unit k s)) s1.
Proof.
  intros. exists (fire_tot k s). split.
  - eapply cruise_fire; eassumption.
  - eapply search_event_tot; eassumption.
Qed.

(** X20.  A WRITE or WRITE ALL event in the data zone of a block: the
    data buffer is stored in the tape image at the word the tape stands
    on, obverse-complemented when the tape runs in reverse; the index
    lies within the image, the high-water mark is raised to cover it,
    DTF is raised (BEF at the block's last word in the direction of
    travel), and the next event is due one word later. *)
Theorem write_event (k : fin 8) (dir fnc n : Z) (s : DT) :
  cruising k dir fnc n s ->
  fnc = FNC_WRIT \/ fnc = FNC_WALL ->
  Z.land (dtsb s) DTB_DTF = 0 ->
  DT_WSIZE * dt_ltime s < 2 ^ 31 ->
  let u := unit k s in
  let p' := pos u + (if dir =? 0 then n else - n) in
  DT_EZLIN <= p' < DTU_FWDEZ u ->
  DT_HTLIN <= DT_LIN2OF p' u < DTU_LPERB u - DT_HTLIN ->
  let ba := DT_LIN2BL p' u * DTU_BSIZE u + DT_LIN2WD p' u in
  exists s1,
    fire k s = Some s1
    /\ 0 <= ba < DTU_CAPAC u
    /\ filebuf (unit k s1) =
       <[Z.to_nat ba := if dir =? 0 then dtdb s else dt_comobv (dtdb s)]>
         (filebuf u)
    /\ hwmark (unit k s1) =
       (if ba >=? hwmark u then ba + 1 else hwmark u)
    /\ dtsb s1 =
       Z.lor (dtsb s)
         (if DT_LIN2WD p' u =? (if dir =? 0 then DTU_BSIZE u - 1 else 0)
          then DTB_BEF else DTB_DTF)
    /\ dtdb s1 = dtdb s
    /\ pos (unit k s1) = p'
    /\ timer (unit k s1) = Some (DT_WSIZE * dt_ltime s).
Proof.
  intros. exists (fire_tot k s). split.
  - eapply cruise_fire; eassumption.
  - eapply write_event_tot; eassumption.
Qed.

(** X21.  A READ or READ ALL event in the data zone of a block: the
    word of the tape image the tape stands on is put into the data
    buffer, obverse-complemented when the tape runs in reverse, and DTF
    is raised; the tape image and the high-water mark are not touched,
    and the next event is due one word later. *)
Theorem read_event (k : fin 8) (dir fnc n : Z) (s : DT) :
  cruising k dir fnc n s ->
  fnc = FNC_READ \/ fnc = FNC_RALL ->
  Z.land (dtsb s) DTB_DTF = 0 ->
  DT_WSIZE * dt_ltime s < 2 ^ 31 ->
  let u := unit k s in
  let p' := pos u + (if dir =? 0 then n else - n) in
  DT_EZLIN <= p' < DTU_FWDEZ u ->
  DT_HTLIN <= DT_LIN2OF p' u < DTU_LPERB u - DT_HTLIN ->
  let ba := DT_LIN2BL p' u * DTU_BSIZE u + DT_LIN2WD p' u in
  exists s1,
    fire k s = Some s1
    /\ dtdb s1 =
      (if dir =? 0 then filebuf u !!! Z.to_nat ba
       else dt_comobv (filebuf u !!! Z.to_nat ba))
    /\ dtsb s1 = Z.lor (dtsb s) DTB_DTF
    /\ filebuf (unit k s1) = filebuf u
    /\ hwmark (unit k s1) = hwmark u
    /\ pos (unit k s1) = p'
    /\ timer (unit k s1) = Some (DT_WSIZE * dt_ltime s).
Proof.
  intros. exists (fire_tot k s). split.
  - eapply cruise_fire; eassumption.
  - eapply read_event_tot; eassumption.
Qed.

(** X24.  The end of a block in a read: when a READ or READ ALL event
    finds the tape on the checksum word that follows the data in the
    direction of travel (the first word of the trailer going forward,
    the last word of the header in reverse), the data buffer gets the
    block's checksum going forward and the obverse complement of the
    all-ones word, 0, in reverse, and BEF is raised instead of DTF; the
    tape image is not touched. *)
Theorem block_end_event (k : fin 8) (dir fnc n : Z) (s : DT) :
  cruising k dir fnc n s ->
  fnc = FNC_READ \/ fnc = FNC_RALL ->
  Z.land (dtsb s) DTB_DTF = 0 ->
  DT_WSIZE * dt_ltime s < 2 ^ 31 ->
  let u := unit k s in
  let p' := pos u + (if dir =? 0 then n else - n) in
  DT_EZLIN <= p' < DTU_FWDEZ u ->
  DT_LIN2OF p' u / DT_WSIZE =
    (if dir =? 0 then DTU_WPERB u - DT_CSMWD - 1 else DT_CSMWD) ->
  exists s1,
    fire k s = Some s1
    /\ dtdb s1 =
      (if dir =? 0 then dt_csum u (DT_LIN2BL p' u) else 0)
    /\ dtsb s1 = Z.lor (dtsb s) DTB_BEF
    /\ filebuf (unit k s1) = filebuf u
    /\ pos (unit k s1) = p'
    /\ timer (unit k s1) = Some (DT_WSIZE * dt_ltime s).
Proof.
  intros. exists (fire_tot k s). split.
  - eapply cruise_fire; eassumption.
  - eapply block_end_event_tot; eassumption.
Qed.

(** X18.  MOVE ends in the end zone: for a unit at speed with the
    function MOVE whose position is up to date, the event that
    [dt_schedez] schedules finds the tape one word into the end zone
    ahead (line [DTU_FWDEZ + 6] forward, line [DT_EZLIN - 6] in
    reverse); the event raises END and ERF, clears the go bit and puts
    the unit into deceleration in its direction with the decel timer. *)
Theorem move_reaches_end_zone (k : fin 8) (dir : Z) (s : DT) :
  dir = 0 \/ dir = 1 ->
  0 < dt_ltime s ->
  (DTU_FWDEZ (unit k s) + DT_EZLIN) * dt_ltime s < 2 ^ 31 ->
  u_att (unit k s) = true ->
  STATE (unit k s) = DTS_STA (Z.lor DTS_ATSF dir) FNC_MOVE ->
  LASTT (unit k s) = sim_rtime s ->
  (if dir =? 0 then 0 <= pos (unit k s) < DTU_FWDEZ (unit k s) + DT_WSIZE
   else DT_EZLIN - DT_WSIZE < pos (unit k s)
        <= DTU_FWDEZ (unit k s) + DT_EZLIN) ->
  exists s',
    fire k (dt_schedez k dir s) = Some s'
    /\ pos (unit k s') =
       (if dir =? 0 then DTU_FWDEZ (unit k s) + DT_WSIZE
        else DT_EZLIN - DT_WSIZE)
    /\ Z.testbit (dtsb s') DTB_V_END = true
    /\ Z.testbit (dtsb s') DTB_V_ERF = true
    /\ Z.land (dtsa s') DTA_STSTP = 0
    /\ STATE (unit k s') = DTS_STA (Z.lor DTS_DECF dir) 0
    /\ timer (unit k s') = Some (dt_dctime s).
Proof.
  intros Hd HL HB Ha Hst Hlt Hp.
  exists (fire_tot k (dt_schedez k dir s)). split.
  - apply fire_atspeed. rewrite unit_dt_schedez. cbn [STATE set_timer].
    rewrite Hst. destruct Hd as [-> | ->]; vm_compute; discriminate.
  - exact (move_reaches_end_zone_tot k dir s Hd HL HB Ha Hst Hlt Hp).
Qed.

(** X19.  A drive that loses the selection while at speed runs its tape
    off the reel: when SELECT names another unit, the unit selected
    before, at speed between the end zones with its position up to
    date, is given the function "off reel"; nothing is flagged, and the
    unit's next event leaves it detached, with state and position zero,
    and the status registers untouched. *)
Theorem deselected_runs_off (IR dev dat : Z) (s : DT) (k : fin 8) (dir fnc : Z) :
  Z.land (Z.shiftr IR 6) 31 = 3 ->
  dev_dis s = false ->
  unit_ptr (DTA_GETUNIT (dtsa s)) = Some k ->
  DTA_GETUNIT dat <> unit_no k ->
  dir = 0 \/ dir = 1 ->
  0 < dt_ltime s ->
  (DTU_FWDEZ (unit k s) + DT_EZLIN + 1000) * dt_ltime s < 2 ^ 31 ->
  u_att (unit k s) = true ->
  STATE (unit k s) = DTS_STA (Z.lor DTS_ATSF dir) fnc ->
  0 <= fnc <= 7 ->
  LASTT (unit k s) = sim_rtime s ->
  DT_EZLIN < pos (unit k s) < DTU_FWDEZ (unit k s) - 1 ->
  exists s1 s2,
    dt IR dev dat s = Some (dat, s1)
    /\ STATE (unit k s1) = DTS_STA (Z.lor DTS_ATSF dir) DTS_OFR
    /\ u_att (unit k s1) = true
    /\ Z.land (dtsb s1)
         (Z.lor (Z.lor (Z.lor DTB_DTF DTB_BEF) DTB_ERF) DTB_ALLERR) = 0
    /\ fire k s1 = Some s2
    /\ u_att (unit k s2) = false
    /\ STATE (unit k s2) = 0
    /\ pos (unit k s2) = 0
    /\ dtsb s2 = dtsb s1 /\ dtsa s2 = dtsa s1.
Proof.
  intros Hp Hdd Hk Hu Hd HL HB Ha Hst Hf Hlt Hpos.
  destruct (deselected_runs_off_tot IR dev dat s k dir fnc
              Hp Hdd Hk Hu Hd HL HB Ha Hst Hf Hlt Hpos)
    as (s1 & E & S1 & A1 & B1 & R).
  exists s1, (fire_tot k s1).
  split; [rewrite dt_agree_other by (rewrite Hp; discriminate); exact E|].
  split; [exact S1|]. split; [exact A1|]. split; [exact B1|].
  split; [|exact R].
  apply fire_atspeed. rewrite S1.
  destruct Hd as [-> | ->]; vm_compute; discriminate.
Qed.

(** X22.  What is written is what is read: a word written by a WRITE or
    WRITE ALL event into the data zone of a block is delivered by a
    READ or READ ALL event that finds the tape on the same line, as it
    was written when the tape runs in the direction of the writing and
    obverse-complemented when it runs the other way. *)
Theorem write_then_read (k : fin 8)
    (dirW fncW nW : Z) (sW sW' : DT) (dirR fncR nR : Z) (sR : DT) :
  cruising k dirW fncW nW sW ->
  fncW = FNC_WRIT \/ fncW = FNC_WALL ->
  Z.land (dtsb sW) DTB_DTF = 0 ->
  DT_WSIZE * dt_ltime sW < 2 ^ 31 ->
  Z.of_nat (length (filebuf (unit k sW))) = DTU_CAPAC (unit k sW) ->
  0 <= dtdb sW <= 262143 ->
  let p := pos (unit k sW) + (if dirW =? 0 then nW else - nW) in
  DT_EZLIN <= p < DTU_FWDEZ (unit k sW) ->
  DT_HTLIN <= DT_LIN2OF p (unit k sW) < DTU_LPERB (unit k sW) - DT_HTLIN ->
  fire k sW = Some sW' ->
  cruising k dirR fncR nR sR ->
  fncR = FNC_READ \/ fncR = FNC_RALL ->
  Z.land (dtsb sR) DTB_DTF = 0 ->
  DT_WSIZE * dt_ltime sR < 2 ^ 31 ->
  u_8fmt (unit k sR) = u_8fmt (unit k sW) ->
  filebuf (unit k sR) = filebuf (unit k sW') ->
  pos (unit k sR) + (if dirR =? 0 then nR else - nR) = p ->
  exists sR',
    fire k sR = Some sR'
    /\ dtdb sR' = if dirR =? dirW then dtdb sW else dt_comobv (dtdb sW).
Proof.
  intros CW FW BW LW Hlen Hdb p Hp Hz EW CR FR BR LR Hfmt Hbuf Hpos.
  apply fire_sound in EW. subst sW'.
  exists (fire_tot k sR). split; [exact (cruise_fire k dirR fncR nR sR CR)|].
  exact (write_then_read_tot k dirW fncW nW sW dirR fncR nR sR
           CW FW BW LW Hlen Hdb Hp Hz CR FR BR LR Hfmt Hbuf Hpos).
Qed.

(** ** The device reset *)

Lemma reset_unit_agree r k s :
  reset_unit r k s =
  if r && (Z.land (DTS_GETMOT (STATE (unit k s))) (Z.lnot DTS_DIR) >? DTS_DECF)
       && trapping k s
  then None else Some (reset_unit_tot r k s).
Proof.
  unfold reset_unit, reset_unit_tot. cbv zeta.
  destruct r; [|reflexivity]. destruct (_ >? _); [|reflexivity].
  cbn [andb]. rewrite dt_setpos_agree.
  destruct (trapping k s); [reflexivity|].
  destruct (dt_setpos_tot k s) as [[] s1]; reflexivity.
Qed.

Lemma reset_units_none r l :
  foldl (fun x k => match x with
                    | Some s => reset_unit r k s
                    | None => None
                    end) None l = None.
Proof. induction l as [|i l IH]; [reflexivity | exact IH]. Qed.

Lemma reset_units_sound r l : forall s s',
  foldl (fun x k => match x with
                    | Some s => reset_unit r k s
                    | None => None
                    end) (Some s) l = Some s' ->
  foldl (fun s k => reset_unit_tot r k s) s l = s'.
Proof.
  induction l as [|i l IH]; intros s s'; cbn [foldl]; [congruence|].
  rewrite reset_unit_agree. destruct (_ && _).
  - rewrite reset_units_none. discriminate.
  - apply IH.
Qed.

Lemma reset_console_returns l : forall s,
  foldl (fun x k => match x with
                    | Some s => reset_unit false k s
                    | None => None
                    end) (Some s) l
  = Some (foldl (fun s k => reset_unit_tot false k s) s l).
Proof.
  induction l as [|i l IH]; intros s; cbn [foldl]; [reflexivity|].
  rewrite reset_unit_agree. cbn [andb]. apply IH.
Qed.

(** X23.  The device reset stops the drives: when [dt_reset] returns,
    both status registers are zero and no unit is accelerating or at
    speed.  A reset from the console always returns, and it leaves
    every unit at rest with its timer cancelled and its position, its
    tape and its attachment as they were; a reset by the running
    program leaves alone the units that were at rest or decelerating. *)
Theorem dt_reset_stops (running : bool) (s s' : DT) :
  dt_reset running s = Some s' ->
  dtsa s' = 0
  /\ dtsb s' = 0
  /\ sim_rtime s' = sim_rtime s
  /\ (forall j, DTS_GETMOT (STATE (unit j s')) < DTS_ACCF)
  /\ (forall j,
        if running
        then DTS_GETMOT (STATE (unit j s)) < DTS_ACCF -> unit j s' = unit j s
        else unit j s' =
             set_LASTT (sim_rtime s) (set_STATE 0 (set_timer None (unit j s))))
  /\ dt_reset false s <> None.
Proof.
  intros E.
  assert (E' : dt_reset_tot running s = s').
  { unfold dt_reset in E. unfold dt_reset_tot. cbv zeta.
    destruct (foldl _ (Some s) all_units) as [s1|] eqn:F; [|discriminate].
    apply reset_units_sound in F. rewrite F. congruence. }
  subst s'.
  destruct (dt_reset_stops_tot running s) as (H1 & H2 & H3 & H4 & H5).
  repeat split; try assumption.
  unfold dt_reset. rewrite reset_console_returns. discriminate.
Qed.

End Controller.

(** * The controller at work

    The properties above hold for every value of the two constants of
    the machine's definitions.  Below they are applied to, and the
    controller is run on, concrete states; the request bit is taken as
    2 and the shift of the stop reason as 18. *)

(** C10 at work: READ DATA on the freshly set up controller. *)
Lemma dt_MRD_frame_witness :
  exists dat' s',
    dt 2 18 MRD 0 0 (fresh_state 12 54000 72000) = Some (dat', s')
    /\ dtdb s' = dtdb (fresh_state 12 54000 72000)
    /\ dtsa s' = dtsa (fresh_state 12 54000 72000)
    /\ dt_unit s' = dt_unit (fresh_state 12 54000 72000).
Proof.
  destruct (dt_MRD_frame 2 18 MRD 0 0 (fresh_state 12 54000 72000))
    as (dat' & s' & H1 & H2 & H3 & H4 & _); [reflexivity|].
  exists dat', s'. repeat split; assumption.
Defined.

(** C6 at work: unit 1 in a READ ALL pass over block 3, the data flag
    still up when its event comes. *)
Lemma dt_svc_timing_error_witness :
  exists s',
    dt_svc 2 1%fin (set_dtsb DTB_DTF (pass_state 0 40788 5000)) = Some s'
    /\ Z.testbit (dtsb s') DTB_V_TIM = true
    /\ filebuf (unit 1%fin s') = marked_tape.
Proof.
  destruct (dt_svc_timing_error 2 1%fin
              (set_dtsb DTB_DTF (pass_state 0 40788 5000)))
    as (s' & E & H1 & _ & _ & _ & _ & H6 & _).
  - left. reflexivity.
  - right. right. left. reflexivity.
  - vm_compute. discriminate.
  - reflexivity.
  - reflexivity.
  - exists s'. split; [exact E|]. split; [exact H1 | exact H6].
Defined.

(** C9 at work: a new function given to unit 1 at the very time of its
    last position update. *)
Lemma dt_newfnc_bump_witness :
  (exists s',
     dt_newfnc 2 1%fin (DTS_STA DTS_ATSF FNC_READ) (pass_state 0 40788 5000)
     = Some s'
     /\ pos (unit 1%fin s') = 40789)
  /\ (exists s',
        dt_newfnc 2 1%fin (DTS_STA DTS_ATSR FNC_READ) (pass_state 1 40788 5000)
        = Some s'
        /\ pos (unit 1%fin s') = 40787).
Proof.
  split.
  - destruct (dt_newfnc_bump 2 1%fin (DTS_STA DTS_ATSF FNC_READ)
                (pass_state 0 40788 5000) (pass_state 0 40788 5000)
                eq_refl eq_refl) as (_ & s' & E & P & _).
    exists s'. split; [exact E | exact P].
  - destruct (dt_newfnc_bump 2 1%fin (DTS_STA DTS_ATSR FNC_READ)
                (pass_state 1 40788 5000) (pass_state 1 40788 5000)
                eq_refl eq_refl) as (_ & s' & E & P & _).
    exists s'. split; [exact E | exact P].
Defined.

(** C8 at work: ten line times after the last update of unit 1. *)
Lemma dt_setpos_atspeed_witness :
  pos (unit 1%fin (moved 1%fin (advance 120 (pass_state 0 40788 5000))))
  = 40798
  /\ pos (unit 1%fin (moved 1%fin (advance 125 (pass_state 1 40788 5000))))
     = 40778.
Proof.
  split.
  - apply (dt_setpos_atspeed 2 1%fin (advance 120 (pass_state 0 40788 5000)));
      first [ left; reflexivity | reflexivity
            | vm_compute; repeat split; first [reflexivity | discriminate] ].
  - apply (dt_setpos_atspeed 2 1%fin (advance 125 (pass_state 1 40788 5000)));
      first [ right; reflexivity | reflexivity
            | vm_compute; repeat split; first [reflexivity | discriminate] ].
Defined.

(** C5 at work: WRITE-MARK asked of unit 1, freshly attached and at
    rest, and a READ asked of it. *)
Lemma dt_MLC_refusal_witness :
  (exists s',
     dt 2 18 MLC 0 39 (set_dtsa 4096 (fresh_state 12 54000 72000))
       = Some (39, s')
     /\ Z.testbit (dtsb s') DTB_V_SEL = true
     /\ Z.testbit (dtsb s') DTB_V_ERF = true
     /\ unit 1%fin s' = fresh_unit)
  /\ dt 2 18 MLC 0 34 (set_dtsa 4096 (fresh_state 12 54000 72000))
     = match dt_newsa 2
               (dtsa (loaded 34 (set_dtsa 4096 (fresh_state 12 54000 72000))))
               (loaded 34 (set_dtsa 4096 (fresh_state 12 54000 72000))) with
       | Some s1 => Some (34, DT_UPDINT 2 s1)
       | None => None
       end.
Proof.
  split.
  - destruct (proj1 (dt_MLC_refusal 2 18 MLC 0 39
                       (set_dtsa 4096 (fresh_state 12 54000 72000)) 1%fin
                       eq_refl eq_refl eq_refl))
      as (s' & H1 & H2 & H3 & _ & H5 & _).
    + reflexivity.
    + intros H. exfalso. vm_compute in H. apply H. reflexivity.
    + exists s'. repeat split; try assumption.
      apply H5. reflexivity.
  - apply (dt_MLC_refusal 2 18 MLC 0 34
             (set_dtsa 4096 (fresh_state 12 54000 72000)) 1%fin);
      reflexivity.
Defined.

(** C7 at work: unit 1 at speed forward in block 3, told to read in
    reverse.  It comes to rest 3000 lines on, and is at speed in reverse
    2250 lines back from there, decel-time + accel-time after the
    command. *)
Lemma dt_MLC_reversal_witness :
  exists s1 s2 s3,
    dt 2 18 MLC 0 50 (pass_state 0 40788 5000) = Some (50, s1)
    /\ DTS_GETMOT (STATE (unit 1%fin s1)) = DTS_DECF
    /\ fire 2 1%fin s1 = Some s2
    /\ DTS_GETMOT (STATE (unit 1%fin s2)) = DTS_ACCR
    /\ fire 2 1%fin s2 = Some s3
    /\ sim_rtime s3 = 5000 + 72000 + 54000
    /\ DTS_GETMOT (STATE (unit 1%fin s3)) = DTS_ATSR.
Proof.
  destruct (dt_MLC_reversal 2 18 MLC 0 50 (pass_state 0 40788 5000) 1%fin)
    as (s1 & H1 & H2 & H3 & H4); try reflexivity.
  - left. reflexivity.
  - vm_compute. discriminate.
  - vm_compute. discriminate.
  - vm_compute. repeat split; first [reflexivity | discriminate].
  - assert (Hs : match dt 2 18 MLC 0 50 (pass_state 0 40788 5000) with
                 | Some (_, s) =>
                     stays_on_reel 1%fin (sim_cancel 1%fin (advance 72000 s))
                 | None => false
                 end = true) by (vm_compute; reflexivity).
    rewrite H1 in Hs.
    destruct (H4 Hs) as (s2 & F1 & _ & G2 & _ & G4 & _ & G6).
    assert (Hs2 : match dt 2 18 MLC 0 50 (pass_state 0 40788 5000) with
                  | Some (_, s) =>
                      match fire 2 1%fin s with
                      | Some s' =>
                          stays_on_reel 1%fin
                            (sim_cancel 1%fin (advance 54000 s'))
                      | None => false
                      end
                  | None => false
                  end = true) by (vm_compute; reflexivity).
    rewrite H1, F1 in Hs2.
    destruct (G6 Hs2) as (s3 & F2 & T3 & A3 & _).
    assert (Hz : match dt 2 18 MLC 0 50 (pass_state 0 40788 5000) with
                 | Some (_, s) =>
                     match fire 2 1%fin s with
                     | Some s' =>
                         match fire 2 1%fin s' with
                         | Some s'' => end_zone_ahead 1 (unit 1%fin s'')
                         | None => true
                         end
                     | None => true
                     end
                 | None => true
                 end = false) by (vm_compute; reflexivity).
    rewrite H1, F1, F2 in Hz.
    destruct (A3 Hz) as (_ & M3); [vm_compute; discriminate|].
    exists s1, s2, s3. repeat split; assumption.
Defined.

(** C2 at work: block 3 of the marked tape, read forward from the end of
    block 2 and backward from the start of block 4. *)
Lemma read_all_backward_witness :
  exists wsF wsR,
    read_pass 2 18 1%fin (Z.to_nat (DTU_WPERB (marked_unit 0 0 0)))
      (pass_state 0 40787 5000) = Some wsF
    /\ read_pass 2 18 1%fin (Z.to_nat (DTU_WPERB (marked_unit 0 0 0)))
         (pass_state 1 42384 5000) = Some wsR
    /\ wsR = rev (dt_comobv <$> wsF).
Proof.
  apply (read_all_backward 2 18 1%fin (marked_unit 0 0 0) 3).
  - vm_compute. split; [discriminate | reflexivity].
  - repeat split; first [reflexivity | vm_compute; discriminate].
  - repeat split; first [reflexivity | vm_compute; discriminate].
Defined.

(** C4.  The line bump of [dt_newfnc] is made after the range check of
    [dt_setpos] and has none of its own.  With an acceleration time of
    one line time, unit 1 is driven in reverse from where it was
    attached down to line 0 in two stops; started once more in reverse,
    it reaches speed with no line passed, the bump takes the position
    below 0, where the unsigned position wraps, and the unit stays
    attached, at speed, at line 4294967295. *)
Theorem dt_newfnc_bump_leaves_reel :
  match
    run 2 18
      [Pulse MSE 4096;
       Pulse MLC 48; Fire 1%fin; Fire 1%fin;
       Pulse MLC 48; Fire 1%fin; Fire 1%fin;
       Pulse MLC 48; Fire 1%fin]
      (fresh_state 12 12 431976)
  with
  | Some s =>
      u_att (unit 1%fin s) = true
      /\ DTS_GETMOT (STATE (unit 1%fin s)) = DTS_ATSR
      /\ pos (unit 1%fin s) = 4294967295
      /\ ~ (0 <= pos (unit 1%fin s) <= DTU_FWDEZ (unit 1%fin s) + DT_EZLIN)
  | None => False
  end.
Proof.
  vm_compute. repeat split. intros [_ H]. apply H. reflexivity.
Qed.

(** C5, the claim as written fails: unit 1 is moving forward at speed
    when WRITE-MARK is asked of it.  The command is refused with
    SELECT-ERROR, and the unit is put into deceleration. *)
Lemma dt_MLC_refusal_stops_unit :
  match
    run 2 18 [Pulse MSE 4096; Pulse MLC 32; Fire 1%fin]
      (fresh_state 12 54000 72000)
  with
  | Some s =>
      match dt 2 18 MLC 0 39 s with
      | Some (_, s') =>
          unit_ptr (DTA_GETUNIT (dtsa s)) = Some 1%fin
          /\ refused (unit 1%fin s) (DTA_GETFNC 39) = true
          /\ Z.testbit (dtsb s') DTB_V_SEL = true
          /\ DTS_GETMOT (STATE (unit 1%fin s)) = DTS_ATSF
          /\ DTS_GETMOT (STATE (unit 1%fin s')) = DTS_DECF
          /\ timer (unit 1%fin s') = Some 72000
          /\ DTS_GETMOT (STATE (unit 1%fin s'))
             <> DTS_GETMOT (STATE (unit 1%fin s))
      | None => False
      end
  | None => False
  end.
Proof.
  vm_compute. repeat split. discriminate.
Qed.

(** C7, the claim as written fails.  Unit 1 is driven back into the
    leader and forward again, and is at speed forward at line 33000
    when it is told to read in reverse.  It decelerates and accelerates
    as laid down, but the event decel-time + accel-time after the
    command finds it at line 33750, in the end zone it is heading for:
    END-OF-TAPE is raised and the unit is left decelerating; it has not
    been at speed in reverse. *)
Lemma dt_MLC_reversal_in_end_zone :
  match
    run 2 18
      [Pulse MSE 4096; Pulse MLC 48; Fire 1%fin; Fire 1%fin;
       Pulse MLC 32; Fire 1%fin]
      (fresh_state 12 54000 72000)
  with
  | Some s =>
      match run 2 18 [Pulse MLC 50; Fire 1%fin; Fire 1%fin] s with
      | Some s3 =>
          unit_ptr (DTA_GETUNIT (dtsa s)) = Some 1%fin
          /\ refused (unit 1%fin s) (DTA_GETFNC 50) = false
          /\ DTS_GETMOT (STATE (unit 1%fin s)) = DTS_ATSF
          /\ pos (unit 1%fin s) = 33000
          /\ cmd_dir 50 = 1
          /\ sim_rtime s3 = sim_rtime s + dt_dctime s + dt_actime s
          /\ u_att (unit 1%fin s3) = true
          /\ pos (unit 1%fin s3) = 33750
          /\ Z.testbit (dtsb s3) DTB_V_END = true
          /\ DTS_GETMOT (STATE (unit 1%fin s3)) = DTS_DECR
          /\ DTS_GETMOT (STATE (unit 1%fin s3)) <> DTS_ATSR
      | None => False
      end
  | None => False
  end.
Proof.
  vm_compute. repeat split. discriminate.
Qed.

(** C8, the claim as written fails: unit 1 is reading forward at speed,
    free of errors, at time 54000 and at time 54006, half a line time
    later, when the same command is given again.  The position has
    moved on by one line. *)
Lemma dt_atspeed_interval_counterexample :
  match
    run 2 18 [Pulse MSE 4096; Pulse MLC 34; Fire 1%fin]
      (fresh_state 12 54000 72000)
  with
  | Some s0 =>
      match run 2 18 [Wait 6; Pulse MLC 34] s0 with
      | Some s1 =>
          DTS_GETMOT (STATE (unit 1%fin s0)) = DTS_ATSF
          /\ DTS_GETMOT (STATE (unit 1%fin s1)) = DTS_ATSF
          /\ Z.land (dtsb s0) DTB_ERF = 0
          /\ Z.land (dtsb s1) DTB_ERF = 0
          /\ sim_rtime s1 - sim_rtime s0 = 6
          /\ dt_ltime s0 = 12
          /\ Z.abs (pos (unit 1%fin s1) - pos (unit 1%fin s0))
             <> (sim_rtime s1 - sim_rtime s0) / dt_ltime s0
      | None => False
      end
  | None => False
  end.
Proof.
  vm_compute. repeat split. discriminate.
Qed.

(** The division by zero itself: with an acceleration time below the
    line time, the first position update of the accelerating unit 1 has
    no result, and neither has the unit's event. *)
Lemma accel_event_divides_by_zero :
  match
    run 2 18 [Pulse MSE 4096; Pulse MLC 32] (fresh_state 12 6 72000)
  with
  | Some s =>
      DTS_GETMOT (STATE (unit 1%fin s)) = DTS_ACCF
      /\ timer (unit 1%fin s) = Some 6
      /\ dt_setpos 2 1%fin (advance 6 s) = None
      /\ fire 2 1%fin s = None
      /\ dt 2 18 MLC 0 39 (advance 3 s) = None
  | None => False
  end.
Proof.
  vm_compute. repeat split.
Qed.

(** * The further properties at work *)

(** X1 at work: bit 17 of the obverse complement of 5. *)
Lemma dt_comobv_bits_witness :
  0 <= 17 /\ Z.testbit (dt_comobv 5) 17 = negb (Z.testbit 5 2).
Proof. split; [lia | apply (dt_comobv_bits 5 17); lia]. Defined.

(** X2 at work: block 3 of the marked tape. *)
Lemma dt_csum_checks_witness :
  ones_sum18 (block_words (marked_unit 0 0 0) 3 ++ [dt_csum (marked_unit 0 0 0) 3])
  = 262143.
Proof.
  apply (dt_csum_checks (marked_unit 0 0 0) 3).
  - vm_compute. reflexivity.
  - vm_compute. split; [discriminate | reflexivity].
  - vm_compute. reflexivity.
Defined.

(** X3 at work: line 100 of block 3 of an 18b tape. *)
Lemma DT_BLK2LN_inverse_witness :
  DT_LIN2BL (DT_BLK2LN 3 fresh_unit + 100) fresh_unit = 3
  /\ DT_LIN2OF (DT_BLK2LN 3 fresh_unit + 100) fresh_unit = 100.
Proof.
  apply (DT_BLK2LN_inverse fresh_unit 3 100);
    vm_compute; split; first [discriminate | reflexivity].
Defined.

(** X4 at work: line 40830, in the data zone of block 3. *)
Lemma data_word_in_buffer_witness :
  0 <= DT_LIN2BL 40830 fresh_unit * DTU_BSIZE fresh_unit
       + DT_LIN2WD 40830 fresh_unit < DTU_CAPAC fresh_unit.
Proof.
  apply (data_word_in_buffer fresh_unit 40830);
    vm_compute; split; first [discriminate | reflexivity].
Defined.

(** X5 at work: the word 123456 written and read back. *)
Lemma dt_MWR_MRD_witness :
  exists s1 s2,
    dt 2 18 MWR 0 123456 (drive_state [] 0 36000 0 None 0) = Some (123456, s1)
    /\ dt 2 18 MRD 0 0 s1 = Some (123456, s2)
    /\ dtsa s2 = dtsa (drive_state [] 0 36000 0 None 0).
Proof.
  destruct (dt_MWR_MRD 2 18 MWR MRD 0 123456 0 (drive_state [] 0 36000 0 None 0))
    as (s1 & s2 & H1 & H2 & _ & _ & H5 & _); try reflexivity.
  exists s1, s2. split; [exact H1|]. split; [exact H2 | exact H5].
Defined.

(** X6 at work: the status of unit 1 moving in reverse at speed. *)
Lemma dt_MRS_status_witness :
  exists s',
    dt 2 18 MRS 0 0 (drive_state [] (DTS_STA DTS_ATSR FNC_MOVE) 40000 0 (Some 1200) 0)
    = Some (dtsb s', s')
    /\ Z.testbit (dtsb s') DTB_V_REV = true
    /\ Z.testbit (dtsb s') DTB_V_GO = true.
Proof.
  destruct (dt_MRS_status 2 18 MRS 0 0
              (drive_state [] (DTS_STA DTS_ATSR FNC_MOVE) 40000 0 (Some 1200) 0))
    as (s' & H1 & _ & _ & _ & _ & H6); try reflexivity.
  exists s'. split; [exact H1 | exact H6].
Defined.

(** X7 at work: the event of unit 1 moving forward at speed. *)
Lemma dt_svc_only_unit_witness :
  match dt_svc 2 1%fin
          (drive_state [] (DTS_STA DTS_ATSF FNC_MOVE) 40000 0 None 0) with
  | Some s' =>
      only_unit 1%fin
        (drive_state [] (DTS_STA DTS_ATSF FNC_MOVE) 40000 0 None 0) s'
  | None => False
  end.
Proof.
  destruct (dt_svc 2 1%fin
              (drive_state [] (DTS_STA DTS_ATSF FNC_MOVE) 40000 0 None 0))
    as [s'|] eqn:E.
  - exact (dt_svc_only_unit 2 1%fin _ s' E).
  - vm_compute in E. discriminate E.
Defined.

(** X8 at work: a READ command for unit 1 leaves unit 2 alone. *)
Lemma dt_only_selected_witness :
  match dt 2 18 MLC 0 34 (drive_state [] 0 36000 0 None 0) with
  | Some (_, s') =>
      unit 2%fin s' = unit 2%fin (drive_state [] 0 36000 0 None 0)
      /\ dt_ltime s' = 12
  | None => False
  end.
Proof.
  destruct (dt 2 18 MLC 0 34 (drive_state [] 0 36000 0 None 0))
    as [[d s']|] eqn:E.
  - destruct (dt_only_selected 2 18 _ _ _ _ d s' E) as (H1 & H2 & _).
    split; [|exact H2]. apply H1. vm_compute. discriminate.
  - vm_compute in E. discriminate E.
Defined.

(** X9 at work: unit 1 started, brought to speed and left running. *)
Lemma run_detached_clean_witness :
  match run 2 18 [Pulse MSE 4096; Pulse MLC 48; Fire 1%fin; Wait 100]
          (drive_state [] 0 36000 0 None 0) with
  | Some s' => detached_clean s'
  | None => False
  end.
Proof.
  destruct (run 2 18 [Pulse MSE 4096; Pulse MLC 48; Fire 1%fin; Wait 100]
              (drive_state [] 0 36000 0 None 0)) as [s'|] eqn:E.
  - refine (run_detached_clean 2 18 _ _ s' _ E).
    intros j. inv_fin j; [vm_compute; intros _; split; reflexivity|].
    intros j. inv_fin j; [vm_compute; intros H; discriminate H|].
    repeat (intros j; inv_fin j; [vm_compute; intros _; split; reflexivity|]).
    intros j. inv_fin j.
  - vm_compute in E. discriminate E.
Defined.

(** X10 at work: unit 1 in reverse at speed, 50000 lines after its last
    update at line 40788. *)
Lemma dt_setpos_off_reel_witness :
  exists s',
    dt_setpos 2 1%fin
      (advance 600000 (drive_state [] (DTS_STA DTS_ATSR FNC_MOVE) 40788 0 None 0))
    = Some (true, s')
    /\ u_att (unit 1%fin s') = false /\ pos (unit 1%fin s') = 0.
Proof.
  destruct (dt_setpos_off_reel 2 1%fin
              (advance 600000
                 (drive_state [] (DTS_STA DTS_ATSR FNC_MOVE) 40788 0 None 0)))
    as (s' & H1 & H2 & _ & H4 & _).
  - vm_compute. discriminate.
  - vm_compute. discriminate.
  - left. vm_compute. reflexivity.
  - exists s'. split; [exact H1|]. split; [exact H2 | exact H4].
Defined.

(** X11 at work: unit 1 forward at speed, ten lines after its last
    update. *)
Lemma dt_setpos_in_range_witness :
  match dt_setpos 2 1%fin
          (advance 120 (drive_state [] (DTS_STA DTS_ATSF FNC_MOVE) 40788 0 None 0))
  with
  | Some (false, s') => 0 <= s32 (pos (unit 1%fin s')) <= D18_FWDEZ + DT_EZLIN
  | _ => False
  end.
Proof.
  destruct (dt_setpos 2 1%fin
              (advance 120
                 (drive_state [] (DTS_STA DTS_ATSF FNC_MOVE) 40788 0 None 0)))
    as [[[] s']|] eqn:E; try (vm_compute in E; discriminate E).
  destruct (dt_setpos_in_range 2 1%fin _ s' E) as (_ & H & _).
  apply H. vm_compute. discriminate.
Defined.

(** X12 at work: a timing error for unit 1 moving forward at speed. *)
Lemma dt_seterr_stops_witness :
  match dt_seterr 2 1%fin DTB_TIM
          (drive_state [] (DTS_STA DTS_ATSF FNC_MOVE) 40000 0 (Some 100) 0) with
  | Some s' =>
      Z.land (dtsa s') DTA_STSTP = 0
      /\ DTS_GETMOT (STATE (unit 1%fin s')) < DTS_ACCF
  | None => False
  end.
Proof.
  destruct (dt_seterr 2 1%fin DTB_TIM
              (drive_state [] (DTS_STA DTS_ATSF FNC_MOVE) 40000 0 (Some 100) 0))
    as [s'|] eqn:E.
  - destruct (dt_seterr_stops 2 1%fin DTB_TIM _ s' E) as (_ & H2 & _ & H4).
    split; [exact H2 | exact H4].
  - vm_compute in E. discriminate E.
Defined.

(** X13 at work: unit 1 at rest, told to read in reverse. *)
Lemma dt_newsa_start_witness :
  exists s',
    dt_newsa 2 4146 (drive_state [] 0 36000 0 None 0) = Some s'
    /\ timer (unit 1%fin s') = Some 54000
    /\ pos (unit 1%fin s') = 36000.
Proof.
  destruct (dt_newsa_start 2 4146 (drive_state [] 0 36000 0 None 0) 1%fin)
    as (s' & E & _ & T & P & _); try reflexivity.
  - vm_compute. discriminate.
  - vm_compute. split; discriminate.
  - exists s'. split; [exact E|]. split; [exact T | exact P].
Defined.

(** X14 at work: unit 1 forward at speed, told to stop. *)
Lemma dt_newsa_stop_witness :
  exists s',
    dt_newsa 2 4096
      (drive_state [] (DTS_STA DTS_ATSF FNC_MOVE) 40788 0 (Some 1000) 0)
    = Some s'
    /\ STATE (unit 1%fin s') = DTS_STA DTS_DECF 0
    /\ timer (unit 1%fin s') = Some 72000.
Proof.
  destruct (dt_newsa_stop 2 4096
              (drive_state [] (DTS_STA DTS_ATSF FNC_MOVE) 40788 0 (Some 1000) 0)
              1%fin)
    as (s' & E & U & _); try reflexivity.
  - vm_compute. discriminate.
  - intros _. vm_compute. discriminate.
  - exists s'. split; [exact E|]. rewrite U. split; reflexivity.
Defined.

(** X15 at work: unit 1 decelerating forward from line 50000, the whole
    decel time later. *)
Lemma dt_setpos_ramp_witness :
  exists s',
    dt_setpos 2 1%fin
      (advance 72000 (drive_state [] (DTS_STA DTS_DECF 0) 50000 0 None 0))
    = Some (false, s')
    /\ pos (unit 1%fin s') = 53000.
Proof.
  destruct (dt_setpos_ramp 2 1%fin
              (advance 72000 (drive_state [] (DTS_STA DTS_DECF 0) 50000 0 None 0))
              72000)
    as (s' & E & P & _).
  - vm_compute. split; reflexivity.
  - left. split; [left|]; reflexivity.
  - vm_compute. discriminate.
  - vm_compute. reflexivity.
  - reflexivity.
  - vm_compute. split; discriminate.
  - exists s'. split; [exact E | exact P].
Defined.


(** X17 at work: unit 1 searching forward, its event due at line 40794,
    in block 3. *)
Lemma search_event_witness :
  exists s1,
    fire 2 1%fin
      (drive_state [] (DTS_STA DTS_ATSF FNC_SRCH) 40000 0 (Some (794 * 12)) 0)
    = Some s1
    /\ dtdb s1 = 3 /\ dtsb s1 = DTB_DTF.
Proof.
  destruct (search_event 2 1%fin 0 794
              (drive_state [] (DTS_STA DTS_ATSF FNC_SRCH) 40000 0
                 (Some (794 * 12)) 0))
    as (s1 & E & D & B & _).
  - repeat split; first [reflexivity | left; reflexivity
                         | vm_compute; first [reflexivity | discriminate]].
  - reflexivity.
  - vm_compute. reflexivity.
  - vm_compute. split; [discriminate | reflexivity].
  - exists s1. split; [exact E|]. split; [exact D | exact B].
Defined.

(** X18 at work: unit 1 moving forward from line 40000. *)
Lemma move_reaches_end_zone_witness :
  exists s',
    fire 2 1%fin
      (dt_schedez 1%fin 0
         (drive_state [] (DTS_STA DTS_ATSF FNC_MOVE) 40000 0 None 0))
    = Some s'
    /\ pos (unit 1%fin s') = D18_FWDEZ + DT_WSIZE
    /\ Z.testbit (dtsb s') DTB_V_END = true.
Proof.
  destruct (move_reaches_end_zone 2 1%fin 0
              (drive_state [] (DTS_STA DTS_ATSF FNC_MOVE) 40000 0 None 0))
    as (s' & E & P & B & _); try reflexivity.
  - left. reflexivity.
  - vm_compute. split; [discriminate | reflexivity].
  - exists s'. split; [exact E|]. split; [exact P | exact B].
Defined.

(** X19 at work: unit 2 is selected while unit 1 is moving forward at
    speed. *)
Lemma deselected_runs_off_witness :
  exists s1 s2,
    dt 2 18 MSE 0 8192
      (drive_state [] (DTS_STA DTS_ATSF FNC_MOVE) 40000 0 (Some 1000) 0)
    = Some (8192, s1)
    /\ fire 2 1%fin s1 = Some s2
    /\ u_att (unit 1%fin s2) = false.
Proof.
  destruct (deselected_runs_off 2 18 MSE 0 8192
              (drive_state [] (DTS_STA DTS_ATSF FNC_MOVE) 40000 0 (Some 1000) 0)
              1%fin 0 FNC_MOVE)
    as (s1 & s2 & E & _ & _ & _ & F & A & _); try reflexivity.
  - vm_compute. discriminate.
  - left. reflexivity.
  - vm_compute. split; discriminate.
  - vm_compute. split; reflexivity.
  - exists s1, s2. split; [exact E|]. split; [exact F | exact A].
Defined.

(** X20 at work: unit 1 writing forward, its event due on the first
    data word of block 3. *)
Lemma write_event_witness :
  exists s1,
    fire 2 1%fin
      (drive_state (replicate (Z.to_nat D18_CAPAC) 0)
         (DTS_STA DTS_ATSF FNC_WRIT) 40817 0 (Some (6 * 12)) 4660)
    = Some s1
    /\ dtsb s1 = DTB_DTF /\ pos (unit 1%fin s1) = 40823.
Proof.
  destruct (write_event 2 1%fin 0 FNC_WRIT 6
              (drive_state (replicate (Z.to_nat D18_CAPAC) 0)
                 (DTS_STA DTS_ATSF FNC_WRIT) 40817 0 (Some (6 * 12)) 4660))
    as (s1 & E & _ & _ & _ & B & _ & P & _).
  - repeat split; first [reflexivity | left; reflexivity
                         | vm_compute; first [reflexivity | discriminate]].
  - left. reflexivity.
  - reflexivity.
  - vm_compute. reflexivity.
  - vm_compute. split; [discriminate | reflexivity].
  - vm_compute. split; [discriminate | reflexivity].
  - exists s1. split; [exact E|]. split; [exact B | exact P].
Defined.

(** X21 at work: unit 1 reading forward over the marked tape, its event
    due on the first data word of block 3. *)
Lemma read_event_witness :
  exists s1,
    fire 2 1%fin
      (drive_state marked_tape (DTS_STA DTS_ATSF FNC_READ) 40817 0
         (Some (6 * 12)) 0)
    = Some s1
    /\ dtdb s1 = 1 /\ dtsb s1 = DTB_DTF.
Proof.
  destruct (read_event 2 1%fin 0 FNC_READ 6
              (drive_state marked_tape (DTS_STA DTS_ATSF FNC_READ) 40817 0
                 (Some (6 * 12)) 0))
    as (s1 & E & D & B & _).
  - repeat split; first [reflexivity | left; reflexivity
                         | vm_compute; first [reflexivity | discriminate]].
  - left. reflexivity.
  - reflexivity.
  - vm_compute. reflexivity.
  - vm_compute. split; [discriminate | reflexivity].
  - vm_compute. split; [discriminate | reflexivity].
  - exists s1. split; [exact E|]. split; [|exact B].
    rewrite D. vm_compute. reflexivity.
Defined.

(** X22 at work: the word 4660 written forward into the first data word
    of block 3 of a blank tape, and read in reverse. *)
Lemma write_then_read_witness :
  match fire 2 1%fin
          (drive_state (replicate (Z.to_nat D18_CAPAC) 0)
             (DTS_STA DTS_ATSF FNC_WRIT) 40817 0 (Some (6 * 12)) 4660) with
  | Some sW' =>
      exists sR',
        fire 2 1%fin
          (drive_state (filebuf (unit 1%fin sW'))
             (DTS_STA DTS_ATSR FNC_READ) 40829 0 (Some (6 * 12)) 0)
        = Some sR'
        /\ dtdb sR' = dt_comobv 4660
  | None => False
  end.
Proof.
  destruct (fire 2 1%fin
              (drive_state (replicate (Z.to_nat D18_CAPAC) 0)
                 (DTS_STA DTS_ATSF FNC_WRIT) 40817 0 (Some (6 * 12)) 4660))
    as [sW'|] eqn:E.
  - apply (write_then_read 2 1%fin 0 FNC_WRIT 6
             (drive_state (replicate (Z.to_nat D18_CAPAC) 0)
                (DTS_STA DTS_ATSF FNC_WRIT) 40817 0 (Some (6 * 12)) 4660)
             sW' 1 FNC_READ 6
             (drive_state (filebuf (unit 1%fin sW'))
                (DTS_STA DTS_ATSR FNC_READ) 40829 0 (Some (6 * 12)) 0)).
    + repeat split; first [reflexivity | left; reflexivity
                           | vm_compute; first [reflexivity | discriminate]].
    + left. reflexivity.
    + reflexivity.
    + vm_compute. reflexivity.
    + vm_compute. reflexivity.
    + vm_compute. split; discriminate.
    + vm_compute. split; [discriminate | reflexivity].
    + vm_compute. split; [discriminate | reflexivity].
    + exact E.
    + repeat split; first [reflexivity | right; reflexivity
                           | vm_compute; first [reflexivity | discriminate]].
    + left. reflexivity.
    + reflexivity.
    + vm_compute. reflexivity.
    + reflexivity.
    + reflexivity.
    + reflexivity.
  - assert (N : match fire 2 1%fin
                        (drive_state (replicate (Z.to_nat D18_CAPAC) 0)
                           (DTS_STA DTS_ATSF FNC_WRIT) 40817 0
                           (Some (6 * 12)) 4660) with
                | Some _ => true
                | None => false
                end = true) by (vm_compute; reflexivity).
    rewrite E in N. discriminate N.
Defined.

(** X23 at work: the program resets the device while unit 1 is moving
    forward at speed. *)
Lemma dt_reset_stops_witness :
  match dt_reset 2 true
          (drive_state [] (DTS_STA DTS_ATSF FNC_MOVE) 40000 0 (Some 1000) 0) with
  | Some s' => dtsa s' = 0 /\ DTS_GETMOT (STATE (unit 1%fin s')) < DTS_ACCF
  | None => False
  end.
Proof.
  destruct (dt_reset 2 true
              (drive_state [] (DTS_STA DTS_ATSF FNC_MOVE) 40000 0 (Some 1000) 0))
    as [s'|] eqn:E.
  - destruct (dt_reset_stops 2 true _ s' E) as (H1 & _ & _ & H4 & _).
    split; [exact H1 | exact (H4 1%fin)].
  - vm_compute in E. discriminate E.
Defined.

(** X24 at work: unit 1 reading forward over the marked tape, its event
    due on the checksum word after the data of block 3. *)
Lemma block_end_event_witness :
  exists s1,
    fire 2 1%fin
      (drive_state marked_tape (DTS_STA DTS_ATSF FNC_READ) 42353 0
         (Some (6 * 12)) 0)
    = Some s1
    /\ dtsb s1 = DTB_BEF /\ pos (unit 1%fin s1) = 42359.
Proof.
  destruct (block_end_event 2 1%fin 0 FNC_READ 6
              (drive_state marked_tape (DTS_STA DTS_ATSF FNC_READ) 42353 0
                 (Some (6 * 12)) 0))
    as (s1 & E & _ & B & _ & P & _).
  - repeat split; first [reflexivity | left; reflexivity
                         | vm_compute; first [reflexivity | discriminate]].
  - left. reflexivity.
  - reflexivity.
  - vm_compute. reflexivity.
  - vm_compute. split; [discriminate | reflexivity].
  - vm_compute. reflexivity.
  - exists s1. split; [exact E|]. split; [exact B | exact P].
Defined.
